(* ===== verification/_CoqProject ===== *)
-Q . S2P
Prelude.v
GoStrings.v
GoUtf8.v
GoTime.v
GoNet.v
GoLayout.v
GoProg.v
GoConc.v
GoMutex.v
KernelVersion.v
KernelWindows.v
OperatingSystem.v
OsVersion.v
HttpStat.v
TcpInfo.v
Json.v
InitLinux.v
TcpInfoLinux.v
TcpInfoLinuxProps.v
TcpInfoLinuxReport.v
TcpInfoDarwin.v
TcpInfoWindows.v
TcpInfoJson.v
Wrap.v
WrapProps.v
WrapTheorems.v
ConnJson.v
ConnConcurrency.v
ConnShared.v
HttpVisit.v
Clients.v
