(* ===== verification/Prelude.v ===== *)
(** * conniver: verification development

    conniver is a Go library that wraps a network connection (net.Conn), counts
    what goes through it and reports, when it is opened and closed, the TCP
    information the operating system keeps about its socket. Two commands and
    an example use it. This library models the program and proves the
    properties that make it correct.

    ** The program and the files that model it

    - wrap.go: the wrapped connection. The user calls Read, Write, Close,
      SetReconnects, Warnings and ToMap, possibly from several goroutines; a
      mutex protects the statistics; gatherAndReport asks pkg/tcpinfo for the
      socket information and calls the user's callback. Wrap.v has the struct
      as a record and every method as a program whose effects are single reads
      and writes of fields, lock operations, calls of outside code and marks.
      GoProg.v is that language with its execution by one goroutine and its
      weakest preconditions; GoConc.v its execution by several goroutines, a
      step relation with schedules, and a rely-guarantee predicate that is
      sound for all of them; GoMutex.v invariants of the mutex, which relate
      the fields to the order of the events under it. WrapProps.v and
      WrapTheorems.v prove the properties for one goroutine, ConnConcurrency.v
      and ConnShared.v those for several. ConnJson.v is the connection as JSON:
      its struct tags and its map.
    - pkg/tcpinfo: the socket information. TcpInfo.v is the common part
      (tcpinfo.go) and the interface [Platform] between the connection and the
      operating system's file, with its laws [PlatformOk]; the connection is
      verified against the interface only. TcpInfoLinux.v (tcpinfo_linux.go and
      its two architecture files), TcpInfoDarwin.v and TcpInfoWindows.v (the
      latter with tcpinfo_other.go as its module Other) implement it and prove
      the laws. TcpInfoLinuxProps.v and TcpInfoLinuxReport.v hold the Linux
      theorems. GoLayout.v is Go's memory layout: the kernel fills these
      structs byte by byte. TcpInfoJson.v has the MarshalJSON methods and the
      struct tags of Info, over the interface [PlatformJson] of what a platform
      promises of its maps, which all four platforms implement.
    - pkg/tcpinfo/init_linux.go: which fields the running kernel knows and how
      many bytes to ask for. InitLinux.v has the package variables as a record,
      the scan of the version table, and init from the answer of uname.
    - pkg/kernel: kernel versions. KernelVersion.v (kernel.go, kernel_unix.go,
      uname_unix.go)
      and KernelWindows.v (kernel_windows.go, uname_unsupported.go).
    - pkg/os: operating system name, version and container test.
      OperatingSystem.v, one module per platform.
    - pkg/osversion: Windows versions and container compatibility. OsVersion.v.
    - cmd/httpstat: HttpStat.v has the helpers (headers, requests, URLs, output
      file), HttpVisit.v the function visit with its hooks, output, client
      certificate and redirects, and main. The wrapped connection it prints is
      the record of Wrap.v.
    - cmd/get, the dial function of cmd/httpstat and the tcpdial example:
      Clients.v, callbacks in the language of GoProg.v that are run by the
      methods of Wrap.v, and the main functions.
    - The standard library as far as the program uses it: GoStrings.v (strings,
      strconv, fmt), GoUtf8.v (the division of a string into runes), GoTime.v
      (the text of a time.Duration), GoNet.v (net.SplitHostPort), Json.v
      (encoding/json for the values the program writes, and a reader of JSON
      texts as their specification);
      this file the machine integers, errors, slices, record updates, tactics
      and the hint database [go].

    ** What the theorems show

    - Connection, one goroutine. Through any sequence of calls, for every
      behaviour of the inner connection, the clock, the operating system and a
      callback that keeps its contract: every field, the informations and the
      reconnects included, is what the calls determine, nothing deadlocks and
      the mutex ends free; Read and Write are transparent. With a callback that
      only looks, Opened is reported once and first, Closed at each Close
      until information is stored, before the inner close, and stored
      information never changes. Warnings and ToMap show exactly the statistics,
      and ToMap changes none.
    - Connection, several goroutines. In every interleaving the byte counters
      are exact, the clock is read once per successful transfer, only the holder
      of the mutex writes, every execution is finite and ends, and whenever the mutex is free the times are those of the clock
      readings in their order and nothing is stored that no call returned; but
      two Close calls can both report, because the guard is read
      without the mutex.
    - Socket information. The struct has the layout the source notes; the size
      asked of the kernel is enough for what is reported, except for the values
      of the WindowScale options and outside two version ranges for which the
      opposite is proved; the values are in the range of their types and the
      times exact; every outcome of GetTCPInfo
      on every path; the maps and warnings lose nothing. The same for Darwin
      and Windows.
    - JSON. The options are read back from their texts; what GetTCPInfo reports
      can always be written, and on Linux the text determines everything
      visible, up to invalid UTF-8 in the name of the congestion control
      algorithm; the JSON of a connection shows every field but the texts of
      its errors, that of its map exactly every field.
    - Versions. A printed kernel version with a flavor that is one word and does
      not start with a digit is parsed back; the comparison is a total order; a
      feature flag is set exactly for kernels from its version on, through uname
      and the parser; the Windows version word and text lose nothing; container compatibility is characterised in closed form.
    - Operating system. The os-release parser inverts the rendering of entries;
      the file fallback and the container test on every outcome.
    - Commands. httpstat ends for every server that answers or fails each
      request, after at most eleven requests that form a redirect chain; the order in which it prints headers is the
      only one its comparison admits; requests carry exactly the flags; its
      timing table adds up; it prints the connection closed last; certificates
      are checked against the host without its port; of a client certificate
      file the last key and certificate are used. cmd/get keeps the books
      right, prints its statistics as JSON that reads back, and panics when the
      socket information is missing. tcpdial closes what it dialed and drops
      the error of GetTCPInfo.

    ** Integers, bounds and fuel

    Machine integers are [Z] with wrap-around written out ([wrap_u], [wrap_s]);
    [int] has 64 bits in the connection and the commands and [intBits] bits in
    pkg/kernel. Strings are byte strings. Two definitions take fuel: the digits
    of a number, bounded by its binary logarithm ([digit_fuel], proved enough),
    and the loop over PEM blocks, bounded by the length of the file (proved
    enough when decoding shortens its input). Of the readers that serve as
    specifications, that of JSON takes the length of its text and that of
    durations three parts, both proved enough for what is written. The recursion
    of visit gets one unit per redirect allowed and is proved never to run out.
    All other recursion is structural.

    ** What is not modelled

    Code that is not in the repository is an argument of the definitions that
    use it: the inner connection, the clock, system calls, golang.org/x/sys,
    the registry, net/http's transport, net/url, mime, encoding/pem, crypto/tls
    and the colour library; in the JSON of a connection the value json makes of
    an error of a type that is not known. A request of net/http is taken to end,
    with an answer or an error. strconv.Quote is modelled for ASCII, and
    sort.Sort as an insertion sort, whose result is proved the only possible
    one. The text of httpstat's usage and the unused Context of a connection
    are left out.

    ** Further work

    The Location of a response and mime.ParseMediaType in place of arguments;
    the interleaving of httpstat's hooks with the callback that runs in the
    transport's goroutine. *)

From stdpp Require Export base gmap strings list fin_maps.
From Stdlib Require Export ZArith Lia.

#[global] Open Scope Z_scope.

(** ** Machine integers *)

(** [wrap_u w x] and [wrap_s w x] are the values of [x] converted to Go's
    unsigned and signed [w]-bit integer types. *)
Definition wrap_u (w x : Z) : Z := x mod 2 ^ w.

Definition wrap_s (w x : Z) : Z := (x + 2 ^ (w - 1)) mod 2 ^ w - 2 ^ (w - 1).

(** time.Duration(x) * m: both operations on int64. *)
Definition Duration (x m : Z) : Z := wrap_s 64 (wrap_s 64 x * m).

(** Membership of the [w]-bit types. *)
Definition uint (w x : Z) : Prop := 0 <= x < 2 ^ w.

Definition sint (w x : Z) : Prop := - 2 ^ (w - 1) <= x < 2 ^ (w - 1).

#[global] Instance uint_dec w x : Decision (uint w x).
Proof. unfold uint. apply _. Defined.

#[global] Instance sint_dec w x : Decision (sint w x).
Proof. unfold sint. apply _. Defined.

(** ** Functional record update *)

(** [RecordEta R] holds the eta expansion of the record type [R], written as
    an application of its constructor to its projections; the update of one
    field is found in it by abstracting the projection. *)
Class RecordEta (R : Type) := record_eta : R -> R.

Class FieldSet {R E : Type} (proj : R -> E) := field_set : (E -> E) -> R -> R.
Arguments field_set {R E} proj {_} _ _.

Definition fconst {R A : Type} (a : A) : R -> A := fun _ => a.

Definition fapply {R A B : Type} (f : R -> A -> B) (g : R -> A) : R -> B :=
  fun r => f r (g r).

Declare Scope record_scope.
Notation "f <*> g" := (fapply f g) (at level 40, left associativity) : record_scope.

Ltac build_field_set :=
  match goal with
  | |- @FieldSet ?R ?E ?proj =>
      let inst := constr:(@record_eta R _) in
      let inst := eval cbv beta delta [record_eta] in inst in
      let eta := eval red in inst in
      match eval pattern proj in eta with
      | ?f _ =>
          let body := eval cbv beta delta [fconst fapply]
            in (fun (u : E -> E) (r : R) => f (fun r' => u (proj r')) r) in
          exact body
      end
  end.

#[global] Hint Extern 1 (FieldSet _) => build_field_set : typeclass_instances.

Notation "r <| proj := v |>" := (field_set proj (fun _ => v) r)
  (at level 1, left associativity, proj at level 0) : record_scope.
#[global] Open Scope record_scope.


(** ** Errors *)

(** Go's [error] interface values the program handles: a [syscall.Errno], an
    error made by [errors.New] or [fmt.Errorf], or a value of any other type.
    [OtherError msg net] has the text [msg]; [net = Some t] when its dynamic
    type implements [net.Error] and its [Timeout()] method returns [t]. A nil
    error is [None] of [option error]. *)
Inductive error : Type :=
| Errno (e : Z)
| NewError (msg : string)
| OtherError (msg : string) (net : option bool).

#[global] Instance error_eq_dec : EqDecision error.
Proof. solve_decision. Defined.

(** syscall.Errno on the platform: its Timeout and Error methods. *)
Class ErrnoOps := {
  errno_Timeout : Z -> bool;
  errno_Error : Z -> string
}.

(** err.(net.Error): Timeout() when the assertion holds. *)
Definition as_net_Error `{ErrnoOps} (e : error) : option bool :=
  match e with
  | Errno n => Some (errno_Timeout n)
  | NewError _ => None
  | OtherError _ net => net
  end.

Definition error_Error `{ErrnoOps} (e : error) : string :=
  match e with
  | Errno n => errno_Error n
  | NewError msg | OtherError msg _ => msg
  end.

(** A Go function that returns either a value and a nil error, or the zero
    value and an error. *)
Inductive result (A : Type) : Type :=
| Ok (a : A)
| Err (e : error).
Arguments Ok {A} a.
Arguments Err {A} e.

Definition is_none {A : Type} (o : option A) : bool :=
  match o with None => true | Some _ => false end.

(** ** Slices *)

(** A Go slice read as a value: nil is [None]. *)
Definition slice (A : Type) : Type := option (list A).

Definition elems {A : Type} (s : slice A) : list A := default [] s.

(** append(s, x) and append(s, xs...): appending nothing leaves nil nil. *)
Definition append {A : Type} (s : slice A) (x : A) : slice A := Some (elems s ++ [x]).

Definition append_all {A : Type} (s : slice A) (xs : list A) : slice A :=
  match s, xs with
  | None, [] => None
  | _, _ => Some (elems s ++ xs)
  end.

(** ** Tactics *)

(** Case analysis on the boolean tests of a definition, each turned into the
    proposition it decides. *)
Ltac case_bool :=
  match goal with
  | |- context [ (?x =? ?y)%Z ] => destruct (Z.eqb_spec x y)
  | |- context [ (?x <? ?y)%Z ] => destruct (Z.ltb_spec x y)
  | |- context [ (?x <=? ?y)%Z ] => destruct (Z.leb_spec x y)
  | H : context [ (?x =? ?y)%Z ] |- _ => destruct (Z.eqb_spec x y)
  | H : context [ (?x <? ?y)%Z ] |- _ => destruct (Z.ltb_spec x y)
  | H : context [ (?x <=? ?y)%Z ] |- _ => destruct (Z.leb_spec x y)
  end.

Ltac case_bools := repeat (case_bool; simpl in *; try lia).

Create HintDb go.
Create Rewrite HintDb go.

(** ** Lemmas on machine integers *)

Lemma wrap_u_range w x : 0 <= w -> uint w (wrap_u w x).
Proof. intros. apply Z.mod_pos_bound. lia. Qed.

Lemma wrap_u_id w x : uint w x -> wrap_u w x = x.
Proof. apply Z.mod_small. Qed.

Lemma wrap_s_range w x : 0 < w -> sint w (wrap_s w x).
Proof.
  intros Hw. unfold sint, wrap_s.
  assert (2 ^ w = 2 * 2 ^ (w - 1)) as E.
  { rewrite <- Z.pow_succ_r by lia. f_equal. lia. }
  pose proof (Z.mod_pos_bound (x + 2 ^ (w - 1)) (2 ^ w)). lia.
Qed.

Lemma wrap_s_id w x : 0 < w -> sint w x -> wrap_s w x = x.
Proof.
  intros Hw Hx. unfold sint, wrap_s in *.
  assert (2 ^ w = 2 * 2 ^ (w - 1)) as E.
  { rewrite <- Z.pow_succ_r by lia. f_equal. lia. }
  rewrite Z.mod_small; lia.
Qed.

(** Wrapping is a congruence for addition, so a counter that wraps at every
    increment holds the wrapped sum of the increments. *)
Lemma wrap_s_add_l w x y : 0 < w -> wrap_s w (wrap_s w x + y) = wrap_s w (x + y).
Proof.
  intros Hw. unfold wrap_s. f_equal.
  set (h := 2 ^ (w - 1)). set (m := 2 ^ w).
  replace ((x + h) mod m - h + y + h) with ((x + h) mod m + y) by lia.
  rewrite Zplus_mod_idemp_l. f_equal. lia.
Qed.

(** No overflow: the conversion to nanoseconds is exact when it fits. *)
Lemma Duration_exact x m :
  0 <= x < 2 ^ 63 -> 0 <= x * m < 2 ^ 63 -> Duration x m = x * m.
Proof.
  intros Hx Hm. unfold Duration. rewrite (wrap_s_id 64 x) by (unfold sint; lia).
  apply wrap_s_id; unfold sint; lia.
Qed.

Lemma uint_mono w1 w2 x : 0 <= w1 <= w2 -> uint w1 x -> uint w2 x.
Proof.
  unfold uint. intros Hw Hx. pose proof (Z.pow_le_mono_r 2 w1 w2). lia.
Qed.

Lemma land_uint w x m : 0 <= w -> uint w x -> uint w (Z.land x m).
Proof.
  unfold uint. intros Hw Hx.
  rewrite <- (Z.mod_small x (2 ^ w)) by done.
  rewrite <- Z.land_ones, <- Z.land_assoc, (Z.land_comm (Z.ones w)), Z.land_assoc by done.
  rewrite Z.land_ones by done. apply Z.mod_pos_bound. lia.
Qed.

Lemma shiftr_uint w x k : uint w x -> 0 <= k -> uint w (Z.shiftr x k).
Proof.
  unfold uint. intros Hx Hk. rewrite Z.shiftr_div_pow2 by done.
  assert (0 < 2 ^ k) by lia.
  split; [apply Z.div_pos; lia|].
  apply Z.le_lt_trans with x; [|lia].
  apply Z.div_le_upper_bound; nia.
Qed.

Lemma elems_append {A} (s : slice A) x : elems (append s x) = elems s ++ [x].
Proof. done. Qed.

Lemma elems_append_all {A} (s : slice A) xs : elems (append_all s xs) = elems s ++ xs.
Proof. destruct s, xs; try done. Qed.

#[export] Hint Rewrite @elems_append @elems_append_all : go.
#[export] Hint Resolve wrap_u_range land_uint shiftr_uint uint_mono : go.
