(* ===== verification/GoStrings.v ===== *)
(** * The parts of Go's strings, strconv and fmt packages the program uses

    Strings are byte strings. Formatting is exact. Scanning ([fmt.Sscanf])
    decodes runes in Go and bytes here: the two agree on ASCII input and on
    valid UTF-8 without the non-ASCII white space runes. *)

From S2P Require Import Prelude.
From Stdlib Require Export Ascii.

#[global] Open Scope string_scope.
#[global] Arguments String.append : simpl nomatch.
#[global] Open Scope list_scope.
#[global] Open Scope Z_scope.

(** ** strings *)

(** strings.HasPrefix; strings.CutPrefix returns what follows the prefix. *)
Fixpoint CutPrefix (s pre : string) {struct pre} : option string :=
  match pre, s with
  | EmptyString, _ => Some s
  | String p pre', String c s' => if Ascii.eqb p c then CutPrefix s' pre' else None
  | String _ _, EmptyString => None
  end.

Definition HasPrefix (s pre : string) : bool := negb (is_none (CutPrefix s pre)).

Fixpoint HasSuffix (s suf : string) : bool :=
  String.eqb s suf ||
  match s with
  | EmptyString => false
  | String _ s' => HasSuffix s' suf
  end.

(** strings.Contains. *)
Fixpoint Contains (s sub : string) : bool :=
  HasPrefix s sub ||
  match s with
  | EmptyString => false
  | String _ s' => Contains s' sub
  end.

Fixpoint in_cutset (c : ascii) (cutset : string) : bool :=
  match cutset with
  | EmptyString => false
  | String d cs => Ascii.eqb c d || in_cutset c cs
  end.

Fixpoint TrimLeft (s cutset : string) : string :=
  match s with
  | EmptyString => EmptyString
  | String c s' => if in_cutset c cutset then TrimLeft s' cutset else s
  end.

Fixpoint TrimRight (s cutset : string) : string :=
  match s with
  | EmptyString => EmptyString
  | String c s' =>
      match TrimRight s' cutset with
      | EmptyString => if in_cutset c cutset then EmptyString else String c EmptyString
      | r => String c r
      end
  end.

Definition Trim (s cutset : string) : string := TrimRight (TrimLeft s cutset) cutset.

Fixpoint Join (elems : list string) (sep : string) : string :=
  match elems with
  | [] => EmptyString
  | [e] => e
  | e :: es => e +:+ sep +:+ Join es sep
  end.

(** strings.Split and bytes.SplitSeq on a one-byte separator: always at least
    one piece. *)
Fixpoint Split (s : string) (sep : ascii) : list string :=
  match s with
  | EmptyString => [EmptyString]
  | String c s' =>
      if Ascii.eqb c sep then EmptyString :: Split s' sep
      else match Split s' sep with
           | [] => [String c EmptyString]
           | p :: ps => String c p :: ps
           end
  end.

(** ** strconv *)

Definition digit_char (d : Z) : ascii :=
  if d <? 10 then ascii_of_nat (Z.to_nat (48 + d))
  else ascii_of_nat (Z.to_nat (97 + (d - 10))).

(** The digits of [n], least significant last, put in front of [acc]. *)
Fixpoint format_bits (fuel : nat) (base n : Z) (acc : string) : string :=
  match fuel with
  | O => acc
  | S f =>
      let acc' := String (digit_char (n mod base)) acc in
      if n / base =? 0 then acc' else format_bits f base (n / base) acc'
  end.

(** A number has at most one digit more than its binary logarithm in any base. *)
Definition digit_fuel (n : Z) : nat := S (Z.to_nat (Z.log2 n)).

Definition FormatUint (n base : Z) : string := format_bits (digit_fuel n) base n EmptyString.

Definition FormatInt (n base : Z) : string :=
  if n <? 0 then "-" +:+ FormatUint (- n) base else FormatUint n base.

Definition Itoa (n : Z) : string := FormatInt n 10.

(** fmt's [%.2x] on an unsigned integer: at least two hexadecimal digits. *)
Definition hex2 (n : Z) : string :=
  let s := FormatUint n 16 in
  if (String.length s <? 2)%nat then "0" +:+ s else s.

(** strconv.Quote on ASCII text. *)
Definition quote_char (c : ascii) : string :=
  let n := Z.of_nat (nat_of_ascii c) in
  if n =? 34 then "\" +:+ String c EmptyString
  else if n =? 92 then "\\"
  else if n =? 7 then "\a"
  else if n =? 8 then "\b"
  else if n =? 12 then "\f"
  else if n =? 10 then "\n"
  else if n =? 13 then "\r"
  else if n =? 9 then "\t"
  else if n =? 11 then "\v"
  else if (n <? 32) || (n =? 127) then "\x" +:+ hex2 n
  else String c EmptyString.

Fixpoint quote_body (s : string) : string :=
  match s with
  | EmptyString => EmptyString
  | String c s' => quote_char c +:+ quote_body s'
  end.

Definition dquote : string := String (ascii_of_nat 34) EmptyString.

Definition Quote (s : string) : string := dquote +:+ quote_body s +:+ dquote.

(** ** fmt.Sscanf *)

Definition is_digit (c : ascii) : bool :=
  (48 <=? nat_of_ascii c)%nat && (nat_of_ascii c <=? 57)%nat.

Definition digit_val (c : ascii) : Z := Z.of_nat (nat_of_ascii c) - 48.

Definition is_newline (c : ascii) : bool := (nat_of_ascii c =? 10)%nat.

Definition is_space (c : ascii) : bool :=
  ((9 <=? nat_of_ascii c)%nat && (nat_of_ascii c <=? 13)%nat) || (nat_of_ascii c =? 32)%nat.

(** ss.SkipSpace in a Scanf call: white space is skipped, a newline is the
    error [None]. *)
Fixpoint SkipSpace (s : string) : option string :=
  match s with
  | EmptyString => Some EmptyString
  | String c s' =>
      if is_newline c then None
      else if is_space c then SkipSpace s'
      else Some s
  end.

(** The digits accepted by ss.scanNumber, read onto the value [acc]; the
    result is the value and the remaining input. *)
Fixpoint scan_digits (acc : Z) (s : string) : Z * string :=
  match s with
  | EmptyString => (acc, EmptyString)
  | String c s' =>
      if is_digit c then scan_digits (acc * 10 + digit_val c) s' else (acc, s)
  end.

(** The value of a digit character in a base up to sixteen, and of a string of
    them read onto [acc]. *)
Definition hex_val (c : ascii) : Z :=
  let n := Z.of_nat (nat_of_ascii c) in
  if n <? 97 then n - 48 else n - 87.

Fixpoint read_digits (base acc : Z) (s : string) : Z :=
  match s with
  | EmptyString => acc
  | String c s' => read_digits base (acc * base + hex_val c) s'
  end.

Definition starts_with_digit (s : string) : bool :=
  match s with
  | EmptyString => false
  | String c _ => is_digit c
  end.

(** ss.accept of the sign characters. *)
Definition scan_sign (s : string) : bool * string :=
  match s with
  | String c s' =>
      if Ascii.eqb c "-"%char then (true, s')
      else if Ascii.eqb c "+"%char then (false, s')
      else (false, s)
  | EmptyString => (false, s)
  end.

(** ss.scanInt for [%d]: optional sign and at least one decimal digit;
    strconv.ParseInt refuses a value outside int64 and the scanner one outside
    the [intBits]-bit int. *)
Definition scanInt (intBits : Z) (s : string) : option (Z * string) :=
  match SkipSpace s with
  | None => None
  | Some s1 =>
      let '(neg, s2) := scan_sign s1 in
      if starts_with_digit s2 then
        let '(v, rest) := scan_digits 0 s2 in
        let i := if (neg : bool) then - v else v in
        if bool_decide (sint 64 i) && bool_decide (sint intBits i) then Some (i, rest) else None
      else None
  end.

(** ss.token with notSpace. *)
Fixpoint token (s : string) : string * string :=
  match s with
  | EmptyString => (EmptyString, EmptyString)
  | String c s' =>
      if is_space c then (EmptyString, s)
      else let '(t, rest) := token s' in (String c t, rest)
  end.

(** ss.convertString for [%s]: the next word, an error at the end of input. *)
Definition scanString (s : string) : option (string * string) :=
  match SkipSpace s with
  | None => None
  | Some EmptyString => None
  | Some s1 => Some (token s1)
  end.

Inductive directive : Type :=
| Lit (c : ascii)
| VerbD
| VerbS.

Inductive scanned : Type :=
| ScanInt (z : Z)
| ScanStr (s : string).

(** ss.doScanf: the values stored, in order, before the first error; the
    count Sscanf returns is their number. *)
Fixpoint doScanf (intBits : Z) (fmt : list directive) (s : string) : list scanned :=
  match fmt with
  | [] => []
  | Lit c :: fmt' =>
      match s with
      | String c' s' => if Ascii.eqb c c' then doScanf intBits fmt' s' else []
      | EmptyString => []
      end
  | VerbD :: fmt' =>
      match SkipSpace s with
      | None => []
      | Some s1 =>
          match scanInt intBits s1 with
          | Some (z, rest) => ScanInt z :: doScanf intBits fmt' rest
          | None => []
          end
      end
  | VerbS :: fmt' =>
      match SkipSpace s with
      | None => []
      | Some s1 =>
          match scanString s1 with
          | Some (t, rest) => ScanStr t :: doScanf intBits fmt' rest
          | None => []
          end
      end
  end.

(** Every byte of a string satisfies a test. *)
Fixpoint all_chars (P : ascii -> bool) (s : string) : bool :=
  match s with
  | EmptyString => true
  | String c s' => P c && all_chars P s'
  end.

Definition no_space (s : string) : bool := all_chars (fun c => negb (is_space c)) s.

(** ** Lemmas: strings *)

Lemma string_app_nil_r (s : string) : s +:+ EmptyString = s.
Proof. induction s; simpl; congruence. Qed.

Lemma string_app_assoc (s t u : string) : (s +:+ t) +:+ u = s +:+ (t +:+ u).
Proof. induction s; simpl; congruence. Qed.

Lemma string_app_cons c (s t : string) : String c s +:+ t = String c (s +:+ t).
Proof. reflexivity. Qed.

Lemma CutPrefix_app pre s : CutPrefix (pre +:+ s) pre = Some s.
Proof. induction pre as [|p pre IH]; simpl; [done|]. by rewrite Ascii.eqb_refl. Qed.

Lemma CutPrefix_Some s pre r : CutPrefix s pre = Some r <-> s = pre +:+ r.
Proof.
  split; [|intros ->; apply CutPrefix_app].
  revert s. induction pre as [|p pre IH]; intros [|c s]; simpl; try congruence.
  destruct (Ascii.eqb_spec p c); [|congruence]. intros H%IH. congruence.
Qed.

Lemma HasPrefix_spec s pre : HasPrefix s pre = true <-> exists r, s = pre +:+ r.
Proof.
  unfold HasPrefix. destruct (CutPrefix s pre) as [r|] eqn:E; simpl.
  - apply CutPrefix_Some in E. split; eauto.
  - split; [done|]. intros [r ->]. by rewrite CutPrefix_app in E.
Qed.

Lemma HasSuffix_spec s suf : HasSuffix s suf = true <-> exists p, s = p +:+ suf.
Proof.
  induction s as [|c s IH]; cbn [HasSuffix]; rewrite orb_true_iff, String.eqb_eq.
  - split; [intros [<- | ?]; [by exists EmptyString|done]|].
    intros [[|] H]; [by left|done].
  - rewrite IH. split.
    + intros [<- | [p ->]]; [by exists EmptyString|by exists (String c p)].
    + intros [[|d p] H]; [by left|]. right. exists p. by inversion H.
Qed.

Lemma Contains_spec s sub : Contains s sub = true <-> exists p r, s = p +:+ sub +:+ r.
Proof.
  induction s as [|c s IH]; cbn [Contains]; rewrite orb_true_iff, HasPrefix_spec.
  - split; [intros [[r ->] | ?]; [by exists EmptyString, r|done]|].
    intros (p & r & H). left. destruct p; [by exists r|done].
  - rewrite IH. split.
    + intros [[r H] | (p & r & ->)]; [exists EmptyString, r; done|by exists (String c p), r].
    + intros (p & r & H). destruct p as [|d p]; [left; by exists r|].
      right. exists p, r. by inversion H.
Qed.

Lemma all_chars_app P s t : all_chars P (s +:+ t) = all_chars P s && all_chars P t.
Proof. induction s as [|c s IH]; simpl; [done|]. by rewrite IH, andb_assoc. Qed.

Lemma all_chars_impl (P Q : ascii -> bool) s :
  (forall c, P c = true -> Q c = true) -> all_chars P s = true -> all_chars Q s = true.
Proof.
  intros HPQ. induction s as [|c s IH]; simpl; [done|].
  rewrite !andb_true_iff. intros [H1 H2]. auto.
Qed.

(** ** Lemmas: decimal formatting and scanning *)

Lemma digit_char_spec d :
  0 <= d < 10 -> is_digit (digit_char d) = true /\ digit_val (digit_char d) = d.
Proof.
  intros Hd.
  assert (d = 0 \/ d = 1 \/ d = 2 \/ d = 3 \/ d = 4 \/ d = 5 \/ d = 6 \/ d = 7 \/ d = 8 \/ d = 9)
    as Hc by lia.
  destruct_or! Hc; subst d; vm_compute; done.
Qed.

Lemma is_digit_not_space c : is_digit c = true -> is_space c = false.
Proof.
  unfold is_digit, is_space. rewrite andb_true_iff, !Nat.leb_le. intros [? ?].
  rewrite orb_false_iff, andb_false_iff, !Nat.leb_gt, Nat.eqb_neq. lia.
Qed.

Lemma is_digit_ne c d : is_digit c = true -> is_digit d = false -> Ascii.eqb c d = false.
Proof. intros Hc Hd. apply Ascii.eqb_neq. congruence. Qed.

Lemma format_bits_app fuel base n acc :
  format_bits fuel base n acc = format_bits fuel base n EmptyString +:+ acc.
Proof.
  revert n acc. induction fuel as [|f IH]; intros n acc; simpl; [done|].
  case_bool; [done|].
  rewrite IH, (IH _ (String _ EmptyString)), string_app_assoc. done.
Qed.

Lemma format_bits_digits fuel n :
  0 <= n -> all_chars is_digit (format_bits fuel 10 n EmptyString) = true.
Proof.
  revert n. induction fuel as [|f IH]; intros n Hn; simpl; [done|].
  destruct (digit_char_spec (n mod 10)) as [Hd _]; [apply Z.mod_pos_bound; lia|].
  case_bool; simpl; [by rewrite Hd|].
  rewrite format_bits_app, all_chars_app, IH by (apply Z.div_pos; lia).
  simpl. by rewrite Hd.
Qed.

Lemma FormatUint_digits n : 0 <= n -> all_chars is_digit (FormatUint n 10) = true.
Proof. apply format_bits_digits. Qed.

Lemma FormatUint_nonempty n base : FormatUint n base <> EmptyString.
Proof.
  unfold FormatUint, digit_fuel. simpl. case_bool; [done|].
  rewrite format_bits_app. by destruct (format_bits _ _ _ EmptyString).
Qed.

Lemma digit_fuel_enough n : 0 <= n -> n < 10 ^ Z.of_nat (digit_fuel n).
Proof.
  intros Hn. unfold digit_fuel. rewrite Nat2Z.inj_succ, Z2Nat.id by apply Z.log2_nonneg.
  destruct (decide (n = 0)) as [->|Hne]; [done|].
  apply Z.lt_le_trans with (2 ^ Z.succ (Z.log2 n)); [apply Z.log2_spec; lia|].
  apply Z.pow_le_mono_l. pose proof (Z.log2_nonneg n). lia.
Qed.

Lemma scan_digits_format_bits fuel n acc :
  0 <= n < 10 ^ Z.of_nat fuel ->
  exists k, 0 <= k /\
    forall v, scan_digits v (format_bits fuel 10 n acc) = scan_digits (v * 10 ^ k + n) acc.
Proof.
  revert n acc. induction fuel as [|f IH]; intros n acc Hn.
  - exists 0. split; [done|]. intros v. simpl in *. f_equal. lia.
  - rewrite Nat2Z.inj_succ, Z.pow_succ_r in Hn by lia.
    destruct (digit_char_spec (n mod 10)) as [Hd Hv]; [apply Z.mod_pos_bound; lia|].
    pose proof (Z.div_mod n 10 ltac:(lia)) as Hdm. simpl. case_bool.
    + exists 1. split; [lia|]. intros v. simpl. rewrite Hd, Hv. f_equal. lia.
    + destruct (IH (n / 10) (String (digit_char (n mod 10)) acc)) as (k & Hk & Hs).
      { split; [apply Z.div_pos; lia|]. apply Z.div_lt_upper_bound; lia. }
      exists (Z.succ k). split; [lia|]. intros v. rewrite Hs. simpl. rewrite Hd, Hv.
      f_equal. rewrite Z.pow_succ_r by lia. lia.
Qed.

Lemma scan_digits_stop v s : starts_with_digit s = false -> scan_digits v s = (v, s).
Proof. destruct s as [|c s]; simpl; [done|]. by intros ->. Qed.

Lemma scan_digits_FormatUint n rest :
  0 <= n -> starts_with_digit rest = false ->
  scan_digits 0 (FormatUint n 10 +:+ rest) = (n, rest).
Proof.
  intros Hn Hr. unfold FormatUint. rewrite <- format_bits_app.
  destruct (scan_digits_format_bits (digit_fuel n) n rest) as (k & _ & Hs).
  { split; [done|]. by apply digit_fuel_enough. }
  rewrite Hs. simpl. by rewrite scan_digits_stop.
Qed.

(** The scanner stops in front of a non-digit and keeps the rest of the input. *)
Lemma scan_digits_rest v s w rest :
  scan_digits v s = (w, rest) ->
  starts_with_digit rest = false /\ exists pre, s = pre +:+ rest /\ all_chars is_digit pre = true.
Proof.
  revert v. induction s as [|c s IH]; intros v; simpl.
  - intros [= <- <-]. split; [done|]. by exists EmptyString.
  - destruct (is_digit c) eqn:Hc.
    + intros (Hr & pre & -> & Hp)%IH. split; [done|].
      exists (String c pre). simpl. by rewrite Hc.
    + intros [= <- <-]. simpl. split; [done|]. by exists EmptyString.
Qed.

Lemma no_space_app s t : no_space (s +:+ t) = no_space s && no_space t.
Proof. apply all_chars_app. Qed.

Lemma SkipSpace_no_space s : no_space s = true -> SkipSpace s = Some s.
Proof.
  destruct s as [|c s]; simpl; [done|]. unfold no_space. simpl.
  rewrite andb_true_iff, negb_true_iff. intros [Hc _].
  assert (is_newline c = false) as ->; [|by rewrite Hc].
  unfold is_space, is_newline in *. rewrite orb_false_iff, andb_false_iff in Hc.
  apply Nat.eqb_neq. intros E. rewrite E in Hc. by destruct Hc as [[|] _].
Qed.

Lemma token_no_space s : no_space s = true -> token s = (s, EmptyString).
Proof.
  unfold no_space. induction s as [|c s IH]; simpl; [done|].
  rewrite andb_true_iff, negb_true_iff. intros [-> Hs]. by rewrite IH.
Qed.

Lemma digits_no_space s : all_chars is_digit s = true -> no_space s = true.
Proof.
  apply all_chars_impl. intros c Hc. by rewrite is_digit_not_space.
Qed.

Lemma Itoa_no_space z : no_space (Itoa z) = true.
Proof.
  unfold Itoa, FormatInt. case_bool.
  - unfold no_space. simpl. by apply digits_no_space, FormatUint_digits; lia.
  - apply digits_no_space, FormatUint_digits. lia.
Qed.

Lemma starts_with_digit_FormatUint n rest :
  0 <= n -> starts_with_digit (FormatUint n 10 +:+ rest) = true.
Proof.
  intros Hn. pose proof (FormatUint_digits n Hn) as Hd.
  pose proof (FormatUint_nonempty n 10) as Hne.
  destruct (FormatUint n 10) as [|c s]; [done|]. simpl in *.
  by apply andb_true_iff in Hd as [? _].
Qed.

Lemma scan_sign_digit s : starts_with_digit s = true -> scan_sign s = (false, s).
Proof.
  destruct s as [|c s]; simpl; [done|]. intros Hc.
  by rewrite !(is_digit_ne c).
Qed.

Lemma hex_val_digit_char d : 0 <= d < 16 -> hex_val (digit_char d) = d.
Proof.
  intros Hd. unfold hex_val, digit_char.
  assert (d < 10 \/ 10 <= d) as [H|H] by lia.
  - destruct (Z.ltb_spec d 10); [|lia]. rewrite nat_ascii_embedding by lia.
    case_bool; lia.
  - destruct (Z.ltb_spec d 10); [lia|]. rewrite nat_ascii_embedding by lia.
    case_bool; lia.
Qed.

Lemma read_digits_format_bits base fuel n acc :
  2 <= base <= 16 -> 0 <= n < base ^ Z.of_nat fuel ->
  exists k, 0 <= k /\
    forall v, read_digits base v (format_bits fuel base n acc) =
              read_digits base (v * base ^ k + n) acc.
Proof.
  intros Hb. revert n acc. induction fuel as [|f IH]; intros n acc Hn.
  - exists 0. split; [done|]. intros v. simpl in *. f_equal. lia.
  - rewrite Nat2Z.inj_succ, Z.pow_succ_r in Hn by lia.
    pose proof (Z.mod_pos_bound n base ltac:(lia)).
    pose proof (hex_val_digit_char (n mod base) ltac:(lia)) as Hv.
    pose proof (Z.div_mod n base ltac:(lia)) as Hdm. simpl. case_bool.
    + exists 1. split; [lia|]. intros v. simpl. rewrite Hv. f_equal. lia.
    + destruct (IH (n / base) (String (digit_char (n mod base)) acc)) as (k & Hk & Hs).
      { split; [apply Z.div_pos; lia|]. apply Z.div_lt_upper_bound; lia. }
      exists (Z.succ k). split; [lia|]. intros v. rewrite Hs. simpl. rewrite Hv.
      f_equal. rewrite Z.pow_succ_r by lia. lia.
Qed.

(** Reading the digits of a printed number gives the number. *)
Lemma read_digits_FormatUint base n :
  2 <= base <= 16 -> 0 <= n -> read_digits base 0 (FormatUint n base) = n.
Proof.
  intros Hb Hn. destruct (read_digits_format_bits base (digit_fuel n) n EmptyString)
    as (k & _ & Hs); [done| |by unfold FormatUint; rewrite Hs].
  split; [done|]. unfold digit_fuel.
  rewrite Nat2Z.inj_succ, Z2Nat.id by apply Z.log2_nonneg.
  pose proof (Z.log2_nonneg n).
  destruct (decide (n = 0)) as [->|Hne]; [apply Z.pow_pos_nonneg; lia|].
  apply Z.lt_le_trans with (2 ^ Z.succ (Z.log2 n)); [apply Z.log2_spec; lia|].
  apply Z.pow_le_mono_l. lia.
Qed.

Lemma read_digits_hex2 n : 0 <= n -> read_digits 16 0 (hex2 n) = n.
Proof.
  intros Hn. unfold hex2. destruct (_ <? _)%nat; simpl; by apply read_digits_FormatUint.
Qed.

(** Scanning what [%d] printed gives the number back, and stops where the
    number ends. *)
Lemma scanInt_Itoa bits z rest :
  sint 64 z -> sint bits z -> starts_with_digit rest = false -> no_space rest = true ->
  scanInt bits (Itoa z +:+ rest) = Some (z, rest).
Proof.
  intros H64 Hb Hr Hsp. unfold scanInt.
  rewrite SkipSpace_no_space by (by rewrite no_space_app, Itoa_no_space).
  unfold Itoa, FormatInt. case_bool.
  - simpl. rewrite starts_with_digit_FormatUint, scan_digits_FormatUint by (done || lia).
    rewrite Z.opp_involutive, !bool_decide_eq_true_2 by done. done.
  - rewrite scan_sign_digit by (apply starts_with_digit_FormatUint; lia).
    rewrite starts_with_digit_FormatUint, scan_digits_FormatUint by (done || lia).
    rewrite !bool_decide_eq_true_2 by done. done.
Qed.
