(* ===== verification/GoUtf8.v ===== *)
(** * unicode/utf8: how encoding/json sees the bytes of a string

    A Go string holds any bytes. encoding/json goes through it rune by rune, as
    utf8.DecodeRuneInString does: a valid encoding of one to four bytes is one
    rune, and a byte that begins none is an error of one byte, which stands for
    the replacement character U+FFFD. [tokens] is that division, [utf8] the text
    with every such byte replaced. *)

From S2P Require Import Prelude GoStrings.

(** The value of a byte. *)
Definition byte_of (c : ascii) : Z := Z.of_nat (nat_of_ascii c).

Definition within (lo hi : Z) (c : ascii) : bool := (lo <=? byte_of c) && (byte_of c <=? hi).

(** The table of first bytes with the range of the second byte; a further byte
    is a continuation. *)
Definition continuation : ascii -> bool := within 0x80 0xBF.

Definition one (a : ascii) : bool := byte_of a <? 0x80.

Definition two (a b : ascii) : bool := within 0xC2 0xDF a && continuation b.

Definition three (a b c : ascii) : bool :=
  (within 0xE0 0xE0 a && within 0xA0 0xBF b || within 0xE1 0xEC a && continuation b ||
   within 0xED 0xED a && within 0x80 0x9F b || within 0xEE 0xEF a && continuation b) && continuation c.

Definition four (a b c d : ascii) : bool :=
  (within 0xF0 0xF0 a && within 0x90 0xBF b || within 0xF1 0xF3 a && continuation b ||
   within 0xF4 0xF4 a && within 0x80 0x8F b) && continuation c && continuation d.

Inductive token : Type :=
| Rune1 (a : ascii)
| Rune2 (a b : ascii)
| Rune3 (a b c : ascii)
| Rune4 (a b c d : ascii)
| Invalid (a : ascii).

Fixpoint tokens (s : string) : list token :=
  match s with
  | EmptyString => []
  | String a s1 =>
      if one a then Rune1 a :: tokens s1
      else match s1 with
      | EmptyString => [Invalid a]
      | String b s2 =>
          if two a b then Rune2 a b :: tokens s2
          else match s2 with
          | EmptyString => Invalid a :: tokens s1
          | String c s3 =>
              if three a b c then Rune3 a b c :: tokens s3
              else match s3 with
              | EmptyString => Invalid a :: tokens s1
              | String d s4 => if four a b c d then Rune4 a b c d :: tokens s4 else Invalid a :: tokens s1
              end
          end
      end
  end.

(** The bytes 0xEF 0xBF 0xBD of U+FFFD. *)
Definition RuneError : string :=
  String (ascii_of_nat 239) (String (ascii_of_nat 191) (String (ascii_of_nat 189) EmptyString)).

Definition token_text (t : token) : string :=
  match t with
  | Rune1 a => String a EmptyString
  | Rune2 a b => String a (String b EmptyString)
  | Rune3 a b c => String a (String b (String c EmptyString))
  | Rune4 a b c d => String a (String b (String c (String d EmptyString)))
  | Invalid _ => RuneError
  end.

Definition concat_text {A : Type} (f : A -> string) (l : list A) : string :=
  foldr (fun x acc => f x +:+ acc) EmptyString l.

(** strings.ToValidUTF8 with one U+FFFD for each invalid byte. *)
Definition utf8 (s : string) : string := concat_text token_text (tokens s).

Definition is_ascii (s : string) : bool := all_chars one s.

(** A string of valid encodings only. *)
Definition valid_utf8 (s : string) : bool :=
  forallb (fun t => match t with Invalid _ => false | _ => true end) (tokens s).

(** ** Lemmas *)

(** Induction along the division into runes. *)
Lemma tokens_ind (Q : string -> list token -> Prop) :
  Q EmptyString [] ->
  (forall a s, one a = true -> Q s (tokens s) -> Q (String a s) (Rune1 a :: tokens s)) ->
  (forall a b s, one a = false -> two a b = true -> Q s (tokens s) ->
     Q (String a (String b s)) (Rune2 a b :: tokens s)) ->
  (forall a b c s, one a = false -> three a b c = true -> Q s (tokens s) ->
     Q (String a (String b (String c s))) (Rune3 a b c :: tokens s)) ->
  (forall a b c d s, one a = false -> four a b c d = true -> Q s (tokens s) ->
     Q (String a (String b (String c (String d s)))) (Rune4 a b c d :: tokens s)) ->
  (forall a s, one a = false -> Q s (tokens s) -> Q (String a s) (Invalid a :: tokens s)) ->
  forall s, Q s (tokens s).
Proof.
  intros H0 H1 H2 H3 H4 Hi s. remember (String.length s) as n eqn:Hn. revert s Hn.
  induction n as [n IH] using lt_wf_ind. intros s ->.
  assert (forall t, (String.length t < String.length s)%nat -> Q t (tokens t)) as Hrec
    by (intros t Ht; by apply (IH _ Ht)). clear IH.
  destruct s as [|a s1]; [done|]. cbn [String.length] in Hrec. cbn [tokens].
  destruct (one a) eqn:E1; [apply H1; auto with lia|].
  destruct s1 as [|b s2]; [apply (Hi a EmptyString E1), Hrec; cbn; lia|]. cbn [String.length] in Hrec.
  destruct (two a b) eqn:E2; [apply H2; auto with lia|].
  destruct s2 as [|c s3]; [apply (Hi a (String b EmptyString) E1), Hrec; cbn; lia|].
  cbn [String.length] in Hrec. destruct (three a b c) eqn:E3; [apply H3; auto with lia|].
  destruct s3 as [|d s4]; [apply (Hi a (String b (String c EmptyString)) E1), Hrec; cbn; lia|].
  cbn [String.length] in Hrec. destruct (four a b c d) eqn:E4; [apply H4; auto with lia|].
  apply (Hi a (String b (String c (String d s4))) E1), Hrec. cbn. lia.
Qed.

(** ASCII is kept, and so is every valid text. *)
Lemma tokens_ascii s : is_ascii s = true -> tokens s = Rune1 <$> String.list_ascii_of_string s.
Proof.
  unfold is_ascii. induction s as [|c s IH]; [done|]. cbn [all_chars tokens]. rewrite andb_true_iff.
  intros [-> Hs]. simpl. f_equal. by apply IH.
Qed.

Lemma utf8_valid s : valid_utf8 s = true -> utf8 s = s.
Proof.
  unfold valid_utf8, utf8. pattern s, (tokens s). apply tokens_ind; cbn [forallb concat_text foldr]; try done.
  all: intros; simpl; f_equal; repeat f_equal; auto.
Qed.

Lemma is_ascii_valid s : is_ascii s = true -> valid_utf8 s = true.
Proof.
  intros Hs. unfold valid_utf8. rewrite tokens_ascii by done. by induction (String.list_ascii_of_string s).
Qed.

Lemma utf8_ascii s : is_ascii s = true -> utf8 s = s.
Proof. intros Hs. by apply utf8_valid, is_ascii_valid. Qed.

(** What is known of the bytes of a token. *)
Definition token_ok (t : token) : Prop :=
  match t with
  | Rune1 a => one a = true
  | Rune2 a b => one a = false /\ one b = false
  | Rune3 a b c => one a = false /\ one b = false /\ one c = false
  | Rune4 a b c d => one a = false /\ one b = false /\ one c = false /\ one d = false
  | Invalid a => one a = false
  end.

Lemma within_not_one lo hi c : 0x80 <= lo -> within lo hi c = true -> one c = false.
Proof. unfold within, one. lia. Qed.

Lemma tokens_ok s : Forall token_ok (tokens s).
Proof.
  pattern s, (tokens s). apply tokens_ind; [constructor|..]; intros; constructor; try done; simpl.
  - unfold two, continuation in *. rewrite andb_true_iff in *. destruct_and!.
    split; [done|]. by eapply within_not_one; [|eassumption].
  - unfold three, continuation in *. rewrite !andb_true_iff, !orb_true_iff, !andb_true_iff in *.
    destruct_and!. split_and!; [done| |by eapply within_not_one; [|eassumption]].
    destruct_or!; destruct_and!; by (eapply within_not_one; [|eassumption]).
  - unfold four, continuation in *. rewrite !andb_true_iff, !orb_true_iff, !andb_true_iff in *.
    destruct_and!. split_and!; [done| |by (eapply within_not_one; [|eassumption])..].
    destruct_or!; destruct_and!; by (eapply within_not_one; [|eassumption]).
Qed.
