(* ===== verification/GoTime.v ===== *)
(** * time.Duration's String

    The text of a duration, as the package time of the standard library writes
    it: the unit of the largest whole part, a fraction without trailing zeros,
    hours, minutes and seconds from one second on. *)

From S2P Require Import Prelude GoStrings.

(** The last [n] decimal digits of [v] before [buf], without trailing zeros, and
    the rest of [v]; [print] says whether a digit was written. *)
Fixpoint frac_digits (n : nat) (print : bool) (v : Z) (buf : string) : bool * string * Z :=
  match n with
  | O => (print, buf, v)
  | S n' =>
      let digit := v mod 10 in
      let print := print || negb (digit =? 0) in
      frac_digits n' print (v / 10) (if print then String (digit_char digit) buf else buf)
  end.

Definition fmtFrac (prec : nat) (v : Z) (buf : string) : string * Z :=
  let '(print, buf, v) := frac_digits prec false v buf in
  (if print then "." +:+ buf else buf, v).

Definition fmtInt (v : Z) (buf : string) : string := FormatUint v 10 +:+ buf.

(** The micro sign in UTF-8. *)
Definition micro : string := String (ascii_of_nat 194) (String (ascii_of_nat 181) EmptyString).

(** The text of an absolute value, a uint64. *)
Definition duration_abs (u : Z) : string :=
  if u <? 1000000000 then
    if u =? 0 then "0s"
    else
      let '(prec, unit_) :=
        if u <? 1000 then (0%nat, "ns")
        else if u <? 1000000 then (3%nat, micro +:+ "s")
        else (6%nat, "ms") in
      let '(buf, u) := fmtFrac prec u unit_ in fmtInt u buf
  else
    let '(buf, u) := fmtFrac 9 u "s" in
    let buf := fmtInt (u mod 60) buf in
    let u := u / 60 in
    if 0 <? u then
      let buf := fmtInt (u mod 60) ("m" +:+ buf) in
      let u := u / 60 in
      if 0 <? u then fmtInt u ("h" +:+ buf) else buf
    else buf.

Definition Duration_String (d : Z) : string :=
  let u := wrap_u 64 d in
  let neg := d <? 0 in
  let u := if neg then wrap_u 64 (- u) else u in
  (if neg then "-" else EmptyString) +:+ duration_abs u.

Example Duration_String_texts :
  map Duration_String [0; 999; 1000; 1500; 2000000; 12345678; 1000000000; 61500000000; 3600000000000;
    -1500000; -(2 ^ 63)] =
  ["0s"; "999ns"; "1" +:+ micro +:+ "s"; "1.5" +:+ micro +:+ "s"; "2ms"; "12.345678ms"; "1s"; "1m1.5s";
   "1h0m0s"; "-1.5ms"; "-2562047h47m16.854775808s"].
Proof. vm_compute. reflexivity. Qed.

(** ** Reading a duration back *)

(** The digits after a decimal point: their value and the power of ten it is
    to be divided by. *)
Fixpoint scan_frac (acc scale : Z) (s : string) : Z * Z * string :=
  match s with
  | String c s' =>
      if is_digit c then scan_frac (acc * 10 + digit_val c) (scale * 10) s' else (acc, scale, s)
  | EmptyString => (acc, scale, s)
  end.

Definition read_frac (s : string) : Z * Z * string :=
  match s with String "."%char s' => scan_frac 0 1 s' | _ => (0, 1, s) end.

Definition read_unit (s : string) : option (Z * string) :=
  match CutPrefix s "ns", CutPrefix s (micro +:+ "s"), CutPrefix s "ms", CutPrefix s "s",
        CutPrefix s "m", CutPrefix s "h" with
  | Some r, _, _, _, _, _ => Some (1, r)
  | _, Some r, _, _, _, _ => Some (1000, r)
  | _, _, Some r, _, _, _ => Some (1000000, r)
  | _, _, _, Some r, _, _ => Some (1000000000, r)
  | _, _, _, _, Some r, _ => Some (60000000000, r)
  | _, _, _, _, _, Some r => Some (3600000000000, r)
  | _, _, _, _, _, _ => None
  end.

(** A sequence of numbers with units. *)
Fixpoint read_parts (fuel : nat) (s : string) : option Z :=
  match s with
  | EmptyString => Some 0
  | _ =>
      match fuel with
      | O => None
      | S fuel' =>
          if negb (starts_with_digit s) then None else
          let '(v, r) := scan_digits 0 s in
          let '(f, scale, r) := read_frac r in
          '(u, r) ← read_unit r; rest ← read_parts fuel' r; Some (v * u + f * (u / scale) + rest)
      end
  end.

Definition read_duration (s : string) : option Z :=
  match s with
  | String "-"%char s' => Z.opp <$> read_parts 3 s'
  | _ => read_parts 3 s
  end.

(** ** Lemmas *)

Lemma frac_digits_printing n v buf acc scale :
  0 <= v ->
  let '(p, txt, w) := frac_digits n true v buf in
  p = true /\ w = v / 10 ^ Z.of_nat n /\
  scan_frac acc scale txt = scan_frac (acc * 10 ^ Z.of_nat n + v mod 10 ^ Z.of_nat n) (scale * 10 ^ Z.of_nat n) buf.
Proof.
  revert v buf acc scale. induction n as [|n IH]; intros v buf acc scale Hv.
  { simpl. rewrite Z.div_1_r, Z.mod_1_r. split_and!; [done..|]. f_equal; lia. }
  cbn [frac_digits orb].
  destruct (digit_char_spec (v mod 10)) as [Hd Hdv]; [apply Z.mod_pos_bound; lia|].
  specialize (IH (v / 10) (String (digit_char (v mod 10)) buf) acc scale ltac:(apply Z.div_pos; lia)).
  destruct (frac_digits n true (v / 10) _) as [[p txt] w]. destruct IH as (-> & -> & ->).
  rewrite Nat2Z.inj_succ, Z.pow_succ_r by lia.
  rewrite Z.div_div by lia. split_and!; [done..|]. cbn [scan_frac]. rewrite Hd, Hdv.
  rewrite (Z.rem_mul_r v 10) by lia. f_equal; lia.
Qed.

(** The fraction that was written, as [k] digits of value [f]. *)
Lemma frac_digits_spec n v buf :
  0 <= v ->
  let '(p, txt, w) := frac_digits n false v buf in
  w = v / 10 ^ Z.of_nat n /\
  exists k f, 0 <= k <= Z.of_nat n /\ f * 10 ^ (Z.of_nat n - k) = v mod 10 ^ Z.of_nat n /\
    if p then scan_frac 0 1 txt = scan_frac f (10 ^ k) buf else txt = buf /\ f = 0.
Proof.
  revert v buf. induction n as [|n IH]; intros v buf Hv.
  { simpl. rewrite Z.div_1_r, Z.mod_1_r. split; [done|]. exists 0, 0. by split_and!. }
  cbn [frac_digits orb]. rewrite Nat2Z.inj_succ, Z.pow_succ_r by lia.
  assert (0 <= v / 10) as Hv' by (apply Z.div_pos; lia).
  destruct (Z.eqb_spec (v mod 10) 0) as [Hz|Hnz]; cbn [negb].
  - specialize (IH (v / 10) buf Hv'). destruct (frac_digits n false (v / 10) buf) as [[p txt] w].
    destruct IH as (-> & k & f & Hk & Hf & Hp). rewrite Z.div_div by lia. split; [done|].
    exists k, f. split; [lia|]. split; [|done]. rewrite (Z.rem_mul_r v 10), Hz, <- Hf by lia.
    replace (Z.succ (Z.of_nat n) - k) with (Z.succ (Z.of_nat n - k)) by lia. rewrite Z.pow_succ_r; lia.
  - destruct (digit_char_spec (v mod 10)) as [Hd Hdv]; [apply Z.mod_pos_bound; lia|].
    pose proof (frac_digits_printing n (v / 10) (String (digit_char (v mod 10)) buf) 0 1 Hv') as H.
    destruct (frac_digits n true (v / 10) _) as [[p txt] w]. destruct H as (-> & -> & ->).
    rewrite Z.div_div by lia. split; [done|]. exists (Z.succ (Z.of_nat n)), (v mod (10 * 10 ^ Z.of_nat n)).
    split; [lia|]. split; [rewrite Z.sub_diag; lia|]. cbn [scan_frac]. rewrite Hd, Hdv.
    rewrite (Z.rem_mul_r v 10), Z.pow_succ_r by lia. f_equal; lia.
Qed.

Lemma scan_frac_stop acc scale s : starts_with_digit s = false -> scan_frac acc scale s = (acc, scale, s).
Proof. destruct s as [|c s]; [done|]. simpl. by intros ->. Qed.

Lemma fmtFrac_spec n v buf :
  0 <= v -> starts_with_digit buf = false -> read_frac buf = (0, 1, buf) ->
  let '(txt, w) := fmtFrac n v buf in
  w = v / 10 ^ Z.of_nat n /\ starts_with_digit txt = false /\
  exists f scale, read_frac txt = (f, scale, buf) /\ f * (10 ^ Z.of_nat n / scale) = v mod 10 ^ Z.of_nat n.
Proof.
  intros Hv Hb Hdot. unfold fmtFrac. pose proof (frac_digits_spec n v buf Hv) as H.
  destruct (frac_digits n false v buf) as [[p txt] w]. destruct H as (-> & k & f & Hk & Hf & Hp).
  split; [done|]. destruct p.
  - split; [done|]. exists f, (10 ^ k). split.
    { change (read_frac ("." +:+ txt)) with (scan_frac 0 1 txt). by rewrite Hp, scan_frac_stop. }
    rewrite <- Z.pow_sub_r by lia. done.
  - destruct Hp as [-> ->]. split; [done|]. exists 0, 1. split; [done|]. lia.
Qed.

Lemma read_parts_digit fuel s :
  starts_with_digit s = true ->
  read_parts (S fuel) s =
    let '(v, r) := scan_digits 0 s in
    let '(f, scale, r) := read_frac r in
    '(u, r) ← read_unit r; rest ← read_parts fuel r; Some (v * u + f * (u / scale) + rest).
Proof. destruct s as [|c s]; [done|]. intros H. cbn [read_parts]. by rewrite H. Qed.

(** One number with its unit. *)
Lemma read_part fuel v txt f scale ur u r :
  0 <= v -> starts_with_digit txt = false -> read_frac txt = (f, scale, ur) -> read_unit ur = Some (u, r) ->
  read_parts (S fuel) (fmtInt v txt) =
    rest ← read_parts fuel r; Some (v * u + f * (u / scale) + rest).
Proof.
  intros Hv Ht Hf Hu. unfold fmtInt. rewrite read_parts_digit by by apply starts_with_digit_FormatUint.
  rewrite scan_digits_FormatUint, Hf, Hu by done. done.
Qed.

(** Minutes are not mistaken for milliseconds. *)
Lemma read_unit_minutes r : starts_with_digit r = true -> read_unit ("m" +:+ r) = Some (60000000000, r).
Proof.
  destruct r as [|c r]; [done|]. intros Hc. simpl in Hc.
  by destruct c as [[] [] [] [] [] [] [] []].
Qed.

Lemma read_parts_nil fuel : read_parts fuel EmptyString = Some 0.
Proof. by destruct fuel. Qed.

(** A number below a second with its fraction. *)
Lemma read_scaled fuel n v unit_ :
  0 <= v -> starts_with_digit unit_ = false -> read_frac unit_ = (0, 1, unit_) ->
  read_unit unit_ = Some (10 ^ Z.of_nat n, EmptyString) ->
  read_parts (S fuel) (let '(buf, u) := fmtFrac n v unit_ in fmtInt u buf) = Some v.
Proof.
  intros Hv Hd Hdot Hu. pose proof (fmtFrac_spec n v unit_ Hv Hd Hdot) as H.
  destruct (fmtFrac n v unit_) as [buf u]. destruct H as (-> & Hb & f & scale & Hf & Hs).
  rewrite (read_part fuel _ buf f scale unit_ (10 ^ Z.of_nat n) EmptyString); [|by apply Z.div_pos; lia|done..].
  rewrite read_parts_nil. cbn [mbind option_bind]. f_equal. rewrite Hs, Z.add_0_r, Z.mul_comm.
  symmetry. apply Z.div_mod. lia.
Qed.

Lemma read_duration_abs u : 0 <= u -> read_parts 3 (duration_abs u) = Some u.
Proof.
  intros Hu. unfold duration_abs. destruct (Z.ltb_spec u 1000000000).
  - destruct (Z.eqb_spec u 0); [by subst|]. destruct (Z.ltb_spec u 1000); [|destruct (Z.ltb_spec u 1000000)].
    + apply (read_scaled 2 0 u "ns"); done.
    + apply (read_scaled 2 3 u (micro +:+ "s")); done.
    + apply (read_scaled 2 6 u "ms"); done.
  - pose proof (fmtFrac_spec 9 u "s" Hu eq_refl eq_refl) as Hfrac.
    destruct (fmtFrac 9 u "s") as [buf w]. destruct Hfrac as (-> & Hb & f & scale & Hf & Hs).
    change (10 ^ Z.of_nat 9) with 1000000000 in *. set (w := u / 1000000000) in *.
    assert (0 <= w) as Hw by (apply Z.div_pos; lia).
    assert (forall fuel, read_parts (S fuel) (fmtInt (w mod 60) buf) = Some (w mod 60 * 1000000000 + u mod 1000000000)) as Hsec.
    { intros fuel. rewrite (read_part fuel _ buf f scale "s" 1000000000 EmptyString), read_parts_nil;
        [|apply Z.mod_pos_bound; lia|done..]. cbn [mbind option_bind]. rewrite Hs. f_equal. lia. }
    pose proof (Z.div_mod u 1000000000 ltac:(lia)) as Eu. fold w in Eu.
    pose proof (Z.div_mod w 60 ltac:(lia)) as Ew.
    assert (0 <= w / 60) as Hm by (apply Z.div_pos; lia).
    assert (0 <= w / 60 / 60) as Hh by (apply Z.div_pos; lia).
    destruct (Z.ltb_spec 0 (w / 60)); [|rewrite Hsec; f_equal; lia].
    assert (forall fuel, read_parts (S (S fuel)) (fmtInt (w / 60 mod 60) ("m" +:+ fmtInt (w mod 60) buf)) =
      Some (w / 60 mod 60 * 60000000000 + (w mod 60 * 1000000000 + u mod 1000000000))) as Hmin.
    { intros fuel. erewrite (read_part (S fuel) _ _ 0 1 _ 60000000000);
        [|apply Z.mod_pos_bound; lia|reflexivity..|apply read_unit_minutes, starts_with_digit_FormatUint,
          Z.mod_pos_bound; lia]. rewrite Hsec. cbn [mbind option_bind]. f_equal. lia. }
    pose proof (Z.div_mod (w / 60) 60 ltac:(lia)) as Em.
    destruct (Z.ltb_spec 0 (w / 60 / 60)); [|rewrite Hmin; f_equal; lia].
    erewrite (read_part 2 _ _ 0 1 _ 3600000000000); [|by apply Z.div_pos; lia|reflexivity..].
    rewrite Hmin. cbn [mbind option_bind]. f_equal. lia.
Qed.

Lemma duration_abs_digit u : 0 <= u -> starts_with_digit (duration_abs u) = true.
Proof.
  intros Hu. pose proof (read_duration_abs u Hu) as H. destruct (starts_with_digit (duration_abs u)) eqn:E; [done|].
  destruct (duration_abs u) as [|c s] eqn:Ed; [|cbn [read_parts] in H; by rewrite E in H].
  injection H as <-. done.
Qed.

(** The text of a duration is read back, over the whole range of int64. *)
Lemma read_duration_String d : sint 64 d -> read_duration (Duration_String d) = Some d.
Proof.
  unfold sint. intros Hd. unfold Duration_String, wrap_u. destruct (Z.ltb_spec d 0).
  - change (read_duration ("-" +:+ ?s)) with (Z.opp <$> read_parts 3 s).
    rewrite read_duration_abs by (apply Z.mod_pos_bound; lia). simpl. f_equal.
    rewrite <- (Z_mod_plus_full d 1), (Z.mod_small (d + 1 * 2 ^ 64)) by lia.
    rewrite <- (Z_mod_plus_full (- _) 1), Z.mod_small; lia.
  - rewrite Z.mod_small by lia. change (EmptyString +:+ ?s) with s.
    pose proof (duration_abs_digit d ltac:(lia)) as Hs.
    rewrite <- (read_duration_abs d) by lia. destruct (duration_abs d) as [|c s]; [done|].
    unfold read_duration. destruct (ascii_dec c "-") as [->|Hc]; [done|].
    by destruct c as [[] [] [] [] [] [] [] []].
Qed.

Lemma Duration_String_inj d d' :
  sint 64 d -> sint 64 d' -> Duration_String d = Duration_String d' -> d = d'.
Proof. intros H H' E. apply (inj Some). by rewrite <- !read_duration_String, E. Qed.
