(* ===== verification/GoNet.v ===== *)
(** * net.SplitHostPort

    The split of an address into host and port, as the package net of the
    standard library does it: brackets around a host with colons, and an error
    that names the address. *)

From S2P Require Import Prelude GoStrings.

(** The text before the first, and before the last occurrence of a character,
    and the text after it: bytealg.IndexByteString and LastIndexByteString. *)
Fixpoint cut_first (c : ascii) (s : string) : option (string * string) :=
  match s with
  | EmptyString => None
  | String d s' =>
      if Ascii.eqb d c then Some (EmptyString, s')
      else '(a, b) ← cut_first c s'; Some (String d a, b)
  end.

Fixpoint cut_last (c : ascii) (s : string) : option (string * string) :=
  match s with
  | EmptyString => None
  | String d s' =>
      match cut_last c s' with
      | Some (a, b) => Some (String d a, b)
      | None => if Ascii.eqb d c then Some (EmptyString, s') else None
      end
  end.

Definition free_of (c : ascii) (s : string) : bool := all_chars (fun d => negb (Ascii.eqb d c)) s.

(** *net.AddrError is a net.Error and no timeout. *)
Definition addrErr (addr why : string) : result (string * string) :=
  Err (OtherError (if String.eqb addr EmptyString then why else "address " +:+ addr +:+ ": " +:+ why) (Some false)).

(** The two tests at the end: brackets where there should be none. *)
Definition no_brackets (hostport open_in close_in host port : string) : result (string * string) :=
  if negb (free_of "["%char open_in) then addrErr hostport "unexpected '[' in address"
  else if negb (free_of "]"%char close_in) then addrErr hostport "unexpected ']' in address"
  else Ok (host, port).

Definition SplitHostPort (hostport : string) : result (string * string) :=
  match cut_last ":"%char hostport with
  | None => addrErr hostport "missing port in address"
  | Some (upto, port) =>
      match CutPrefix hostport "[" with
      | Some rest =>
          match cut_first "]"%char rest with
          | None => addrErr hostport "missing ']' in address"
          | Some (host, EmptyString) => addrErr hostport "missing port in address"
          | Some (host, after) =>
              if String.eqb upto ("[" +:+ host +:+ "]") then no_brackets hostport rest after host port
              else if HasPrefix after ":" then addrErr hostport "too many colons in address"
              else addrErr hostport "missing port in address"
          end
      | None =>
          if negb (free_of ":"%char upto) then addrErr hostport "too many colons in address"
          else no_brackets hostport hostport hostport upto port
      end
  end.

Example SplitHostPort_texts :
  SplitHostPort "example.com:443" = Ok ("example.com", "443") /\
  SplitHostPort "[2001:db8::1]:8443" = Ok ("2001:db8::1", "8443") /\
  SplitHostPort ":80" = Ok (EmptyString, "80") /\
  SplitHostPort "example.com" = Err (OtherError "address example.com: missing port in address" (Some false)) /\
  SplitHostPort "[::1]" = Err (OtherError "address [::1]: missing port in address" (Some false)) /\
  SplitHostPort "::1" = Err (OtherError "address ::1: too many colons in address" (Some false)) /\
  SplitHostPort "[::1]x:1" = Err (OtherError "address [::1]x:1: missing port in address" (Some false)).
Proof. vm_compute. split_and!; reflexivity. Qed.

(** ** Specification *)

Definition plain_part (s : string) : bool := free_of "["%char s && free_of "]"%char s.

(** The addresses of a host and a port. *)
Definition address (host port s : string) : Prop :=
  plain_part host = true /\ plain_part port = true /\ free_of ":"%char port = true /\
  (s = "[" +:+ host +:+ "]:" +:+ port \/ free_of ":"%char host = true /\ s = host +:+ ":" +:+ port).

(** ** Lemmas *)

Lemma cut_first_Some c s a b :
  cut_first c s = Some (a, b) <-> s = a +:+ String c b /\ free_of c a = true.
Proof.
  revert a b. induction s as [|d s IH]; intros a b; cbn [cut_first].
  { split; [done|]. intros [E _]. by destruct a. }
  destruct (Ascii.eqb_spec d c) as [->|Hd].
  - split; [by intros [= <- <-]|]. destruct a as [|d a]; simpl; [by intros [[= <-] _]|].
    intros [[= -> _] Hl]. unfold free_of in Hl. simpl in Hl. by rewrite Ascii.eqb_refl in Hl.
  - destruct (cut_first c s) as [[a' b']|] eqn:E; simpl.
    + destruct (IH a' b') as [H _]. destruct (H eq_refl) as [-> Hl]. split.
      * intros [= <- <-]. split; [done|]. unfold free_of in *. simpl. rewrite Hl.
        by destruct (Ascii.eqb_spec d c).
      * intros [E' Hl']. destruct a as [|d' a]; simpl in E'; [congruence|]. injection E' as <- E'.
        assert (Some (a', b') = Some (a, b)) as [= -> ->]; [|done]. apply IH. split; [done|].
        unfold free_of in *. simpl in Hl'. by apply andb_true_iff in Hl' as [_ ?].
    + split; [done|]. intros [E' Hl']. destruct a as [|d' a]; simpl in E'; [congruence|]. injection E' as <- E'.
      assert (None = Some (a, b)); [|done]. apply IH. split; [done|].
      unfold free_of in *. simpl in Hl'. by apply andb_true_iff in Hl' as [_ ?].
Qed.

Lemma cut_last_None c s : cut_last c s = None <-> free_of c s = true.
Proof.
  unfold free_of. induction s as [|d s IH]; [done|]. cbn [cut_last all_chars].
  destruct (cut_last c s) as [[a b]|].
  - split; [done|]. intros [_ H]%andb_true_iff. by apply IH in H.
  - rewrite (proj1 IH eq_refl), andb_true_r. by destruct (Ascii.eqb d c).
Qed.

Lemma cut_last_Some c s a b :
  cut_last c s = Some (a, b) <-> s = a +:+ String c b /\ free_of c b = true.
Proof.
  revert a b. induction s as [|d s IH]; intros a b; cbn [cut_last].
  { split; [done|]. intros [E _]. by destruct a. }
  destruct (cut_last c s) as [[a' b']|] eqn:E.
  - destruct (IH a' b') as [H _]. destruct (H eq_refl) as [-> Hl]. split; [by intros [= <- <-]|].
    intros [E' Hl']. destruct a as [|d' a]; simpl in E'.
    + injection E' as -> <-. apply cut_last_None in Hl'. congruence.
    + injection E' as <- E'. assert (Some (a', b') = Some (a, b)) as [= -> ->]; [|done]. by apply IH.
  - destruct (Ascii.eqb_spec d c) as [->|Hd].
    + apply cut_last_None in E. split; [by intros [= <- <-]|].
      intros [E' Hl']. destruct a as [|d' a]; simpl in E'; [by injection E' as <-|].
      injection E' as <- E'. assert (None = Some (a, b)); [|done]. by apply IH.
    + split; [done|]. intros [E' Hl']. destruct a as [|d' a]; simpl in E'; [congruence|].
      injection E' as <- E'. assert (None = Some (a, b)); [|done]. by apply IH.
Qed.

Lemma free_app c s t : free_of c (s +:+ t) = free_of c s && free_of c t.
Proof. apply all_chars_app. Qed.

Lemma free_String c d s : free_of c (String d s) = negb (Ascii.eqb d c) && free_of c s.
Proof. done. Qed.

Lemma no_brackets_Ok hostport o cl h p r :
  no_brackets hostport o cl h p = Ok r <-> free_of "["%char o = true /\ free_of "]"%char cl = true /\ r = (h, p).
Proof.
  unfold no_brackets, addrErr. destruct (free_of "[" o), (free_of "]" cl); simpl; split; try done.
  - by intros [= <-].
  - by intros (_ & _ & ->).
  - by intros (_ & ? & _).
  - by intros (? & _).
  - by intros (? & _).
Qed.

(** Both directions of the result, for a bracketed host and for a plain one. *)
Lemma SplitHostPort_address s host port : SplitHostPort s = Ok (host, port) -> address host port s.
Proof.
  unfold SplitHostPort, address, plain_part. destruct (cut_last ":" s) as [[upto p]|] eqn:E; [|done].
  apply cut_last_Some in E as [Es Hp]. destruct (CutPrefix s "[") as [rest|] eqn:Ec.
  - apply CutPrefix_Some in Ec. destruct (cut_first "]" rest) as [[h after]|] eqn:Ef; [|done].
    apply cut_first_Some in Ef as [-> Hh]. destruct after as [|c after]; [done|].
    destruct (String.eqb_spec upto ("[" +:+ h +:+ "]")) as [->|_]; [|by destruct (HasPrefix _ _)].
    intros (Ho & Hc & [= -> ->])%no_brackets_Ok. rewrite Ec in Es.
    change ("[" +:+ ?x) with (String "[" x) in Es. injection Es as Es.
    rewrite string_app_assoc in Es. apply (inj (String.append h)) in Es. change ("]" +:+ ?x) with (String "]" x) in Es.
    injection Es as -> ->. rewrite free_app, !free_String in Ho. rewrite free_String in Hc.
    apply andb_true_iff in Ho as [Ho1 Ho]. simpl in Ho, Hc. rewrite Ho1, Hh, Ho, Hc.
    split_and!; [done..|]. left. rewrite Ec. done.
  - destruct (free_of ":" upto) eqn:Hu; simpl; [|done]. intros (Ho & Hc & [= -> ->])%no_brackets_Ok.
    rewrite Es, free_app, free_String in Ho, Hc. apply andb_true_iff in Ho as [Ho1 Ho2], Hc as [Hc1 Hc2].
    simpl in Ho2, Hc2. rewrite Ho1, Ho2, Hc1, Hc2. split_and!; [done..|]. right. by rewrite Es.
Qed.

Lemma address_SplitHostPort s host port : address host port s -> SplitHostPort s = Ok (host, port).
Proof.
  unfold address, plain_part. rewrite !andb_true_iff. intros ([Ho Hc] & [Po Pc] & Hp & [->|[Hh ->]]).
  - unfold SplitHostPort.
    rewrite (proj2 (cut_last_Some ":" ("[" +:+ host +:+ "]:" +:+ port) ("[" +:+ host +:+ "]") port));
      [|split; [by rewrite !string_app_assoc|done]].
    rewrite CutPrefix_app, (proj2 (cut_first_Some "]" (host +:+ "]:" +:+ port) host (String ":" port))) by done.
    rewrite String.eqb_refl. apply no_brackets_Ok. rewrite free_app, Ho.
    change ("]:" +:+ port) with (String "]" (String ":" port)). rewrite !free_String, Po, Pc. done.
  - unfold SplitHostPort. rewrite (proj2 (cut_last_Some ":" (host +:+ ":" +:+ port) host port)) by done.
    destruct (CutPrefix (host +:+ ":" +:+ port) "[") as [rest|] eqn:Ec.
    + apply CutPrefix_Some in Ec. assert (free_of "[" (host +:+ ":" +:+ port) = true) as Hl.
      { rewrite !free_app, Ho, Po. done. }
      rewrite Ec in Hl. done.
    + rewrite Hh. cbn [negb]. apply no_brackets_Ok. rewrite !free_app, Ho, Po, Hc, Pc. done.
Qed.
