(* ===== verification/GoLayout.v ===== *)
(** * Memory layout of Go structs

    The program hands the kernel pointers to Go structs and lets it fill them
    with a C structure ([unsafe.Pointer(&value)]). This file holds Go's layout
    rules for the field types used there, the reading of a field from the
    struct's bytes in either byte order, and the copy a getsockopt(2) call
    performs. *)

From S2P Require Import Prelude.

#[local] Open Scope nat_scope.

Inductive gotype : Type := TBool | TU8 | TU16 | TU32 | TU64.

Definition size_of (t : gotype) : nat :=
  match t with TBool => 1 | TU8 => 1 | TU16 => 2 | TU32 => 4 | TU64 => 8 end.

(** [align64] is the alignment of uint64: 8 on 64-bit platforms, 4 on 386. *)
Definition align_of (align64 : nat) (t : gotype) : nat :=
  match t with TU64 => align64 | _ => size_of t end.

Definition align_up (x a : nat) : nat := (x + a - 1) / a * a.

(** The offset of each field and the end of the last one. *)
Fixpoint field_offsets (align64 pos : nat) (ts : list gotype) : list nat * nat :=
  match ts with
  | [] => ([], pos)
  | t :: ts' =>
      let off := align_up pos (align_of align64 t) in
      let '(offs, fin) := field_offsets align64 (off + size_of t) ts' in
      (off :: offs, fin)
  end.

Definition struct_align (align64 : nat) (ts : list gotype) : nat :=
  foldr Nat.max 1 (align_of align64 <$> ts).

(** unsafe.Sizeof. *)
Definition struct_size (align64 : nat) (ts : list gotype) : nat :=
  align_up (snd (field_offsets align64 0 ts)) (struct_align align64 ts).

(** The bytes of an unsigned integer, in big endian order when [be]. *)
Definition read_uint (be : bool) (mem : list Z) (off size : nat) : Z :=
  let bs := take size (drop off mem) in
  little_endian_to_Z 8 (if be then reverse bs else bs).

(** getsockopt with a buffer of [len] bytes: the kernel copies the first
    [len] bytes of its data, or all of it when it has less, over [dst]. *)
Definition copyout (dst kdata : list Z) (len : nat) : list Z :=
  let w := take (len `min` length dst) kdata in
  w ++ drop (length w) dst.

(** Every field holds a value of its type. *)
Definition field_ok (f : gotype * Z) : Prop := uint (8 * Z.of_nat (size_of (fst f))) (snd f).

Definition is_byte (b : Z) : Prop := uint 8 b.

(** ** Lemmas *)

Lemma length_copyout dst kdata len : length (copyout dst kdata len) = length dst.
Proof.
  unfold copyout. rewrite length_app, length_drop, length_take. lia.
Qed.

Lemma take_copyout dst kdata len len' m :
  m <= len -> m <= len' -> m <= length dst ->
  take m (copyout dst kdata len) = take m (copyout dst kdata len').
Proof.
  intros H1 H2 H3. unfold copyout.
  destruct (decide (length kdata <= m)) as [Hk|Hk].
  - rewrite !(take_ge kdata) by lia. done.
  - rewrite !take_app_le by (rewrite length_take; lia).
    rewrite !take_take. f_equal. lia.
Qed.

(** A field that ends within both requested lengths does not depend on which
    of them was requested. *)
Lemma read_uint_copyout be dst kdata len len' off size :
  off + size <= len -> off + size <= len' -> off + size <= length dst ->
  read_uint be (copyout dst kdata len) off size = read_uint be (copyout dst kdata len') off size.
Proof.
  intros H1 H2 H3. unfold read_uint. rewrite !take_drop_commute.
  by rewrite (take_copyout dst kdata len len').
Qed.

(** A field that starts beyond the requested length keeps the bytes of the
    destination. *)
Lemma read_uint_copyout_beyond be dst kdata len off size :
  len <= off -> len <= length dst ->
  read_uint be (copyout dst kdata len) off size = read_uint be dst off size.
Proof.
  intros H1 H2. unfold read_uint, copyout.
  set (w := take _ kdata).
  assert (length w <= off) by (subst w; rewrite length_take; lia).
  rewrite drop_app_ge, drop_drop by done.
  by replace (length w + (off - length w)) with off by lia.
Qed.

Lemma read_uint_zeros be n off size : read_uint be (replicate n 0%Z) off size = 0%Z.
Proof.
  unfold read_uint. rewrite drop_replicate, take_replicate.
  assert (forall k, little_endian_to_Z 8 (replicate k 0%Z) = 0%Z) as E.
  { induction k as [|k IH]; [done|]. simpl. by rewrite IH. }
  destruct be; [rewrite reverse_replicate|]; apply E.
Qed.

Lemma read_uint_range be mem off size :
  Forall is_byte mem -> uint (8 * Z.of_nat size) (read_uint be mem off size).
Proof.
  intros Hm. unfold read_uint.
  set (bs := if be then _ else _).
  assert (Forall is_byte bs) as Hbs.
  { subst bs. destruct be; [apply Forall_reverse|]; by apply Forall_take, Forall_drop. }
  assert (length bs <= size) as Hl.
  { subst bs. destruct be; [rewrite length_reverse|]; rewrite length_take; lia. }
  pose proof (little_endian_to_Z_bound 8 bs ltac:(lia) Hbs) as Hb.
  unfold uint. split; [lia|]. eapply Z.lt_le_trans; [apply Hb|].
  apply Z.pow_le_mono_r; lia.
Qed.

Lemma copyout_bytes dst kdata len :
  Forall is_byte dst -> Forall is_byte kdata -> Forall is_byte (copyout dst kdata len).
Proof.
  intros Hd Hk. unfold copyout. apply Forall_app. split.
  - by apply Forall_take.
  - by apply Forall_drop.
Qed.

Lemma zeros_bytes n : Forall is_byte (replicate n 0%Z).
Proof. apply Forall_replicate. unfold is_byte, uint. lia. Qed.

#[export] Hint Resolve copyout_bytes zeros_bytes : go.
