(* ===== verification/GoProg.v ===== *)
(** * Go functions with effects

    The methods of a Go object that is protected by a mutex, as programs over
    the object's fields: lock and unlock, reads and writes of fields, calls of
    code outside the package ([Ask]: the reply is not ours to choose) and ghost
    marks ([Emit]). A program is executed alone by [run], or together with
    other goroutines by the step relation of ConnConcurrency.v. *)

From S2P Require Import Prelude.

(** What programs work on: the object's fields, the calls of outside code with
    the type of each reply, and the ghost marks. *)
Record Sig : Type := mkSig {
  St : Type;
  Qu : Type;
  Re : Qu -> Type;
  Ev : Type
}.

Inductive prog {G : Sig} (A : Type) : Type :=
| Ret (a : A)
| Lock (k : prog A)
| Unlock (k : prog A)
| Load (k : St G -> prog A)
| Store (f : St G -> St G) (k : prog A)
| Ask (q : Qu G) (k : Re G q -> prog A)
| Emit (e : Ev G) (k : prog A).
Arguments prog : clear implicits.
Arguments Ret {G A} _.
Arguments Lock {G A} _.
Arguments Unlock {G A} _.
Arguments Load {G A} _.
Arguments Store {G A} _ _.
Arguments Ask {G A} _ _.
Arguments Emit {G A} _ _.

(** A call that returned, or that panics. *)
Inductive go (A : Type) : Type :=
| Val (a : A)
| Panics.
Arguments Val {A} _.
Arguments Panics {A}.

Fixpoint pbind {G : Sig} {A B : Type} (p : prog G A) (f : A -> prog G B) : prog G B :=
  match p with
  | Ret a => f a
  | Lock k => Lock (pbind k f)
  | Unlock k => Unlock (pbind k f)
  | Load k => Load (fun s => pbind (k s) f)
  | Store u k => Store u (pbind k f)
  | Ask q k => Ask q (fun r => pbind (k r) f)
  | Emit e k => Emit e (pbind k f)
  end.

(** Sequencing: a panic skips what follows. *)
Definition gbind {G : Sig} {A B : Type} (p : prog G (go A)) (f : A -> prog G (go B))
    : prog G (go B) :=
  pbind p (fun r => match r with Val a => f a | Panics => Ret Panics end).

Declare Scope go_scope.
Notation "x <- p ;; k" := (gbind p (fun x => k))
  (at level 100, p at next level, right associativity) : go_scope.
Notation "p ;;; k" := (gbind p (fun _ => k)) (at level 100, right associativity) : go_scope.
#[global] Open Scope go_scope.

Definition ret {G : Sig} {A : Type} (a : A) : prog G (go A) := Ret (Val a).

Definition load {G : Sig} {A : Type} (f : St G -> A) : prog G (go A) := Load (fun s => ret (f s)).

Definition store {G : Sig} (f : St G -> St G) : prog G (go unit) := Store f (ret tt).

(** A call of outside code that cannot panic. *)
Definition ask {G : Sig} (q : Qu G) : prog G (go (Re G q)) := Ask q ret.

Definition emit {G : Sig} (e : Ev G) : prog G (go unit) := Emit e (ret tt).

(** defer: [cleanup] runs when [body] returned and when it panics, and the
    panic goes on after it. *)
Definition deferring {G : Sig} {A : Type} (cleanup : prog G (go unit)) (body : prog G (go A))
    : prog G (go A) :=
  pbind body (fun r =>
  pbind cleanup (fun r' => Ret (match r' with Val _ => r | Panics => Panics end))).

(** w.Lock(); defer w.Unlock() *)
Definition with_lock {G : Sig} {A : Type} (body : prog G (go A)) : prog G (go A) :=
  Lock (deferring (Unlock (ret tt)) body).

(** ** Execution of one goroutine *)

Inductive event {G : Sig} : Type :=
| Asked (q : Qu G) (r : Re G q)
| Marked (e : Ev G).
Arguments event : clear implicits.
Arguments Asked {G} _ _.
Arguments Marked {G} _.

(** The fields, the mutex and what happened so far, oldest first. *)
Record world {G : Sig} : Type := mkWorld {
  st : St G;
  locked : bool;
  events : list (event G)
}.
Arguments world : clear implicits.
Arguments mkWorld {G} _ _ _.

#[global] Instance world_eta {G : Sig} : RecordEta (world G) :=
  fconst mkWorld <*> st <*> locked <*> events.

Definition log {G : Sig} (e : event G) (w : world G) : world G :=
  w <| events := events w ++ [e] |>.

(** A program returns, waits for ever for a mutex it holds itself, or is
    stopped by the runtime for unlocking a free mutex. *)
Inductive outcome (A : Type) : Type :=
| Returned (a : A)
| Deadlocked
| Fatal.
Arguments Returned {A} _.
Arguments Deadlocked {A}.
Arguments Fatal {A}.

(** The environment: the reply to a call may depend on all that happened. *)
Definition oracle (G : Sig) : Type := list (event G) -> forall q, Re G q.

Fixpoint run {G : Sig} {A : Type} (o : oracle G) (p : prog G A) (w : world G)
    : outcome A * world G :=
  match p with
  | Ret a => (Returned a, w)
  | Lock k => if locked w then (Deadlocked, w) else run o k (w <| locked := true |>)
  | Unlock k => if locked w then run o k (w <| locked := false |>) else (Fatal, w)
  | Load k => run o (k (st w)) w
  | Store f k => run o k (w <| st := f (st w) |>)
  | Ask q k => let r := o (events w) q in run o (k r) (log (Asked q r) w)
  | Emit e k => run o k (log (Marked e) w)
  end.

(** ** Weakest preconditions *)

(** [wp p Q w]: whatever the replies, [p] returns from [w] with a value and a
    world in [Q]: it neither deadlocks nor is stopped. *)
Fixpoint wp {G : Sig} {A : Type} (p : prog G A) (Q : A -> world G -> Prop) (w : world G) : Prop :=
  match p with
  | Ret a => Q a w
  | Lock k => locked w = false /\ wp k Q (w <| locked := true |>)
  | Unlock k => locked w = true /\ wp k Q (w <| locked := false |>)
  | Load k => wp (k (st w)) Q w
  | Store f k => wp k Q (w <| st := f (st w) |>)
  | Ask q k => forall r, wp (k r) Q (log (Asked q r) w)
  | Emit e k => wp k Q (log (Marked e) w)
  end.

Section laws.
Context {G : Sig}.

Lemma wp_bind {A B : Type} (p : prog G A) (f : A -> prog G B) Q w :
  wp (pbind p f) Q w <-> wp p (fun a => wp (f a) Q) w.
Proof.
  revert w. induction p as [a|k IH|k IH|k IH|u k IH|q k IH|e k IH]; intros w; simpl; try done.
  - by rewrite IH.
  - by rewrite IH.
  - by split; intros H r; apply IH.
Qed.

Lemma wp_mono {A : Type} (p : prog G A) (Q Q' : A -> world G -> Prop) w :
  (forall a w', Q a w' -> Q' a w') -> wp p Q w -> wp p Q' w.
Proof.
  intros HQ. revert w. induction p as [a|k IH|k IH|k IH|u k IH|q k IH|e k IH]; intros w; simpl.
  - apply HQ.
  - intros [? ?]. auto.
  - intros [? ?]. auto.
  - auto.
  - auto.
  - intros H r. auto.
  - auto.
Qed.

(** What is proved of every reply holds of every execution. *)
Lemma wp_run {A : Type} (p : prog G A) Q w o :
  wp p Q w -> exists a w', run o p w = (Returned a, w') /\ Q a w'.
Proof.
  revert w. induction p as [a|k IH|k IH|k IH|u k IH|q k IH|e k IH]; intros w; simpl.
  - eauto.
  - intros [-> H]. auto.
  - intros [-> H]. auto.
  - auto.
  - auto.
  - intros H. auto.
  - auto.
Qed.

(** Sequencing with panics. *)
Definition on_val {A : Type} (f : A -> world G -> Prop) (Q : world G -> Prop) (r : go A)
    : world G -> Prop :=
  match r with Val a => f a | Panics => Q end.

Lemma wp_gbind {A B : Type} (p : prog G (go A)) (f : A -> prog G (go B)) Q w :
  wp (gbind p f) Q w <-> wp p (on_val (fun a => wp (f a) Q) (Q Panics)) w.
Proof.
  unfold gbind. rewrite wp_bind. split; apply wp_mono; intros [a|] w'; done.
Qed.

Lemma wp_deferring {A : Type} cleanup (body : prog G (go A)) Q w :
  wp (deferring cleanup body) Q w <->
  wp body (fun r => wp cleanup (on_val (fun _ => Q r) (Q Panics))) w.
Proof.
  unfold deferring. rewrite wp_bind. split; apply wp_mono; intros r w'.
  - rewrite wp_bind. apply wp_mono. by intros [u|] w''.
  - rewrite wp_bind. apply wp_mono. by intros [u|] w''.
Qed.

Lemma wp_with_lock {A : Type} (body : prog G (go A)) Q w :
  wp (with_lock body) Q w <->
  locked w = false /\
  wp body (fun r w' => locked w' = true /\ Q r (w' <| locked := false |>)) (w <| locked := true |>).
Proof.
  unfold with_lock. simpl. rewrite wp_deferring. done.
Qed.

Lemma wp_load {A : Type} (f : St G -> A) Q w : wp (load f) Q w <-> Q (Val (f (st w))) w.
Proof. done. Qed.

Lemma wp_call {A : Type} q (f : Re G q -> A) Q w :
  wp (Ask q (fun r => Ret (f r))) Q w <-> forall r, Q (f r) (log (Asked q r) w).
Proof. done. Qed.

End laws.
