(* ===== verification/GoConc.v ===== *)
(** * Goroutines that share one object

    The programs of GoProg.v run by several goroutines, one effect at a time in
    any order. A rely-guarantee predicate on one program ([rg]) is proved sound
    for all interleavings: the fields are written only by the goroutine that
    holds the mutex, no goroutine is ever stuck, and a counter that every
    program keeps in balance with what it did outside is exact at the end. *)

From S2P Require Import Prelude GoProg.

(** The fields, the goroutine that holds the mutex, what happened so far, and
    the rest of each goroutine's program. *)
Record config {G : Sig} : Type := mkConfig {
  c_st : St G;
  c_owner : option nat;
  c_events : list (event G);
  c_threads : list (prog G unit)
}.
Arguments config : clear implicits.
Arguments mkConfig {G} _ _ _ _.

(** One effect of goroutine [i]. A locked mutex can be unlocked by any
    goroutine; unlocking a free one is not a step but the end of the process. *)
Inductive tstep {G : Sig} (i : nat) :
    prog G unit * St G * option nat * list (event G) ->
    prog G unit * St G * option nat * list (event G) -> Prop :=
| t_lock k s t : tstep i (Lock k, s, None, t) (k, s, Some i, t)
| t_unlock k s j t : tstep i (Unlock k, s, Some j, t) (k, s, None, t)
| t_load k s ow t : tstep i (Load k, s, ow, t) (k s, s, ow, t)
| t_store f k s ow t : tstep i (Store f k, s, ow, t) (k, f s, ow, t)
| t_ask q k r s ow t : tstep i (Ask q k, s, ow, t) (k r, s, ow, t ++ [Asked q r])
| t_emit e k s ow t : tstep i (Emit e k, s, ow, t) (k, s, ow, t ++ [Marked e]).

Inductive cstep {G : Sig} : config G -> config G -> Prop :=
| c_step i p p' s s' ow ow' t t' ps :
    ps !! i = Some p -> tstep i (p, s, ow, t) (p', s', ow', t') ->
    cstep (mkConfig s ow t ps) (mkConfig s' ow' t' (<[i := p']> ps)).

(** The same, read off the program. *)
Definition step_of {G : Sig} (i : nat) (x y : prog G unit * St G * option nat * list (event G))
    : Prop :=
  let '(p, s, ow, t) := x in
  match p with
  | Ret _ => False
  | Lock k => ow = None /\ y = (k, s, Some i, t)
  | Unlock k => is_Some ow /\ y = (k, s, None, t)
  | Load k => y = (k s, s, ow, t)
  | Store f k => y = (k, f s, ow, t)
  | Ask q k => exists r, y = (k r, s, ow, t ++ [Asked q r])
  | Emit e k => y = (k, s, ow, t ++ [Marked e])
  end.

Lemma tstep_step_of {G : Sig} i (x y : prog G unit * St G * option nat * list (event G)) :
  tstep i x y -> step_of i x y.
Proof. destruct 1; simpl; eauto. Qed.

Definition returned {G : Sig} (p : prog G unit) : Prop :=
  match p with Ret _ => True | _ => False end.

#[global] Instance returned_dec {G : Sig} (p : prog G unit) : Decision (returned p).
Proof. destruct p; simpl; apply _. Defined.

(** ** Executable schedules *)

(** One step of goroutine [i], with the replies of [o]; [None] when it has
    returned, waits, or is stopped. *)
Definition sched_step {G : Sig} (o : oracle G) (i : nat) (c : config G) : option (config G) :=
  let 'mkConfig s ow t ps := c in
  match ps !! i with
  | None => None
  | Some p =>
      match p with
      | Ret _ => None
      | Lock k =>
          match ow with None => Some (mkConfig s (Some i) t (<[i := k]> ps)) | Some _ => None end
      | Unlock k =>
          match ow with Some _ => Some (mkConfig s None t (<[i := k]> ps)) | None => None end
      | Load k => Some (mkConfig s ow t (<[i := k s]> ps))
      | Store f k => Some (mkConfig (f s) ow t (<[i := k]> ps))
      | Ask q k =>
          let r := o t q in Some (mkConfig s ow (t ++ [Asked q r]) (<[i := k r]> ps))
      | Emit e k => Some (mkConfig s ow (t ++ [Marked e]) (<[i := k]> ps))
      end
  end.

Fixpoint sched {G : Sig} (o : oracle G) (js : list nat) (c : config G) : option (config G) :=
  match js with
  | [] => Some c
  | i :: js' => c' ← sched_step o i c; sched o js' c'
  end.

Lemma sched_step_sound {G : Sig} (o : oracle G) i c c' : sched_step o i c = Some c' -> cstep c c'.
Proof.
  destruct c as [s ow t ps]. simpl. destruct (ps !! i) as [p|] eqn:Hp; [|done].
  destruct p; intros E; try (destruct ow; [|]); simplify_eq; econstructor; eauto; constructor.
Qed.

Lemma sched_sound {G : Sig} (o : oracle G) js c c' : sched o js c = Some c' -> rtc cstep c c'.
Proof.
  revert c. induction js as [|i js IH]; intros c; simpl; [by intros [= ->]|].
  destruct (sched_step o i c) as [c1|] eqn:E; simpl; [|done]. intros H.
  eapply rtc_l; [by eapply sched_step_sound|by apply IH].
Qed.

(** ** Rely and guarantee *)

Section rely_guarantee.
Context {G : Sig}.

(** [Good] is kept by every write; [bal] is a counter among the fields,
    [amount] what an event should add to it, both modulo [m]. *)
Variable Good : St G -> Prop.
Variable bal : St G -> Z.
Variable amount : event G -> Z.
Variable m : Z.
Hypothesis m_pos : 0 < m.

(** Outside code has something to reply. *)
Hypothesis replies : forall q, inhabited (Re G q).

(** [rg p Q h d]: the program [p] of one goroutine, which holds the mutex with
    the fields [s] when [h = Some s], and which owes the counter [d]. It takes
    the mutex only when it does not hold it, releases it only when it holds it
    and writes only then; what it reads is [s] while it holds the mutex, and
    anything good otherwise. It ends in [Q]. *)
Fixpoint rg {A : Type} (p : prog G A) (Q : A -> option (St G) -> Z -> Prop)
    (h : option (St G)) (d : Z) : Prop :=
  match p with
  | Ret a => Q a h d
  | Lock k => h = None /\ forall s, Good s -> rg k Q (Some s) d
  | Unlock k => is_Some h /\ rg k Q None d
  | Load k =>
      match h with
      | Some s => rg (k s) Q h d
      | None => forall s, Good s -> rg (k s) Q None d
      end
  | Store f k =>
      match h with
      | Some s => Good (f s) /\ rg k Q (Some (f s)) (d - (bal (f s) - bal s))
      | None => False
      end
  | Ask q k => forall r, rg (k r) Q h (d + amount (Asked q r))
  | Emit e k => rg k Q h (d + amount (Marked e))
  end.

(** The end of a goroutine: the mutex released and nothing owed. *)
Definition settled {A : Type} (_ : A) (h : option (St G)) (d : Z) : Prop :=
  h = None /\ d mod m = 0.

Lemma rg_bind {A B : Type} (p : prog G A) (f : A -> prog G B) Q h d :
  rg (pbind p f) Q h d <-> rg p (fun a => rg (f a) Q) h d.
Proof.
  revert h d. induction p as [a|k IH|k IH|k IH|u k IH|q k IH|e k IH]; intros h d; simpl.
  - done.
  - split; (intros [? H]; split; [done|]; intros s Hs; apply IH; auto).
  - by rewrite IH.
  - destruct h; [done|]. split; intros H s Hs; apply IH; auto.
  - destruct h; [|done]. by rewrite IH.
  - split; intros H r; apply IH; auto.
  - apply IH.
Qed.

Lemma rg_mono {A : Type} (p : prog G A) (Q Q' : A -> option (St G) -> Z -> Prop) h d :
  (forall a h' d', Q a h' d' -> Q' a h' d') -> rg p Q h d -> rg p Q' h d.
Proof.
  intros HQ. revert h d. induction p as [a|k IH|k IH|k IH|u k IH|q k IH|e k IH]; intros h d; simpl.
  - apply HQ.
  - intros [? H]. split; [done|]. intros s Hs. apply IH. auto.
  - intros [? H]. auto.
  - destruct h; auto.
  - destruct h; [|done]. intros [? H]. auto.
  - intros H r. apply IH. auto.
  - apply IH.
Qed.

(** ** Soundness *)

(** What the goroutine [i] holds. *)
Definition held (c : config G) (i : nat) : option (St G) :=
  match c_owner c with
  | Some j => if decide (i = j) then Some (c_st c) else None
  | None => None
  end.

Definition sum_of (l : list Z) : Z := foldr Z.add 0 l.

Definition total (t : list (event G)) : Z := sum_of (amount <$> t).

(** Every goroutine keeps its promises with its debt, and the counter and the
    debts together make up what happened. *)
Record Balanced (c : config G) (ds : list Z) (start : Z) : Prop := {
  bal_good : Good (c_st c);
  bal_threads : forall i p, c_threads c !! i = Some p ->
    exists d, ds !! i = Some d /\ rg p settled (held c i) d;
  bal_length : length ds = length (c_threads c);
  bal_owner : forall i, c_owner c = Some i -> (i < length (c_threads c))%nat;
  bal_sum : (bal (c_st c) + sum_of ds - start - total (c_events c)) mod m = 0
}.

Lemma sum_of_insert l i (d d' : Z) :
  l !! i = Some d -> sum_of (<[i := d']> l) = sum_of l - d + d'.
Proof.
  revert i. induction l as [|x l IH]; intros i; [done|]. destruct i as [|i]; simpl.
  - intros [= ->]. lia.
  - intros H. rewrite (IH i H). lia.
Qed.

Lemma total_snoc t e : total (t ++ [e]) = total t + amount e.
Proof.
  unfold total. rewrite fmap_app. induction (amount <$> t) as [|x l IH]; simpl in *; lia.
Qed.

(** A step of goroutine [i] in which the other goroutines keep what they hold. *)
Lemma Balanced_step s s' ow ow' t t' ps ds start i p p' d d' :
  Balanced (mkConfig s ow t ps) ds start ->
  ps !! i = Some p -> ds !! i = Some d -> Good s' ->
  (forall j, j <> i -> held (mkConfig s' ow' t' ps) j = held (mkConfig s ow t ps) j) ->
  rg p' settled (held (mkConfig s' ow' t' ps) i) d' ->
  (forall j, ow' = Some j -> (j < length ps)%nat) ->
  bal s' + d' - total t' = bal s + d - total t ->
  Balanced (mkConfig s' ow' t' (<[i := p']> ps)) (<[i := d']> ds) start.
Proof.
  intros [Hg Hth Hlen Hown Hsum] Hp Hd Hg' Hothers Hp' Hown' Heq. simpl in *.
  assert (i < length ps)%nat as Hi by by eapply lookup_lt_Some.
  split; simpl; [done| | | |].
  - intros j q Hq. destruct (decide (j = i)) as [->|Hj].
    + rewrite list_lookup_insert_eq in Hq by done. simplify_eq. exists d'.
      rewrite list_lookup_insert_eq by lia. done.
    + rewrite list_lookup_insert_ne in Hq by congruence.
      destruct (Hth j q Hq) as (dj & ? & Hrg). exists dj.
      rewrite list_lookup_insert_ne by congruence. split; [done|].
      rewrite <- (Hothers j Hj) in Hrg. exact Hrg.
  - by rewrite !length_insert.
  - intros j Hj. rewrite length_insert. auto.
  - rewrite (sum_of_insert _ _ _ _ Hd). rewrite <- Hsum. f_equal. lia.
Qed.

Lemma Balanced_preserved c c' ds start :
  cstep c c' -> Balanced c ds start -> exists ds', Balanced c' ds' start.
Proof.
  intros Hstep HB. destruct Hstep as [i p p' s s' ow ow' t t' ps Hp Ht].
  pose proof HB as [Hg Hth Hlen Hown Hsum]. simpl in *.
  destruct (Hth i p Hp) as (d & Hd & Hrg).
  assert (i < length ps)%nat as Hi by by eapply lookup_lt_Some.
  assert (forall d', Good s' ->
    (forall j, j <> i -> held (mkConfig s' ow' t' ps) j = held (mkConfig s ow t ps) j) ->
    rg p' settled (held (mkConfig s' ow' t' ps) i) d' ->
    (forall j, ow' = Some j -> (j < length ps)%nat) ->
    bal s' + d' - total t' = bal s + d - total t ->
    exists ds', Balanced (mkConfig s' ow' t' (<[i:=p']> ps)) ds' start) as Hgo.
  { intros d' ? ? ? ? ?. exists (<[i := d']> ds). by eapply Balanced_step. }
  apply tstep_step_of in Ht. destruct p as [a|k|k|k|f k|q k|e k]; simpl in Ht, Hrg.
  - done.
  - destruct Hrg as [_ Hrg], Ht as [-> ?]; simplify_eq. apply (Hgo d); [done| |..].
    + intros j Hj. unfold held. simpl. by rewrite decide_False.
    + unfold held. simpl. rewrite decide_True by done. auto.
    + by intros j [= <-].
    + lia.
  - destruct Hrg as [[s0 Hs] Hrg], Ht as [[j ->] ?]; simplify_eq.
    unfold held in Hs. simpl in Hs. case_decide; [|done]. subst.
    apply (Hgo d); try done. intros j' Hj. unfold held. simpl. by rewrite decide_False.
  - simplify_eq. apply (Hgo d); try done. destruct (held _ i) as [s0|] eqn:Hh; [|by apply Hrg].
    unfold held in Hh. simpl in Hh. destruct ow; [|done]. case_decide; [|done]. by simplify_eq.
  - simplify_eq. destruct (held (mkConfig s ow t ps) i) as [s0|] eqn:Hh; [|done].
    destruct Hrg as [Hgood Hrg]. unfold held in Hh. simpl in Hh.
    destruct ow as [j|]; [|done]. case_decide; [|done]. simplify_eq.
    eapply Hgo; [done| | | |].
    + intros j' Hj. unfold held. simpl. by rewrite !decide_False.
    + unfold held. simpl. rewrite decide_True by done. exact Hrg.
    + auto.
    + lia.
  - destruct Ht as [r ?]; simplify_eq. eapply Hgo; [done|done|apply Hrg|done|].
    rewrite total_snoc. lia.
  - simplify_eq. eapply Hgo; [done|done|apply Hrg|done|]. rewrite total_snoc. lia.
Qed.

Lemma Balanced_reachable c c' ds start :
  rtc cstep c c' -> Balanced c ds start -> exists ds', Balanced c' ds' start.
Proof.
  intros Hr. revert ds. induction Hr as [c|c c1 c2 H1 H2 IH]; intros ds HB; [by exists ds|].
  destruct (Balanced_preserved _ _ _ _ H1 HB) as [ds1 HB1]. by apply (IH ds1).
Qed.

(** A goroutine that keeps its promises and did not return can step, unless it
    waits for the mutex while another one holds it. *)
Lemma rg_can_step c i p d :
  c_threads c !! i = Some p -> rg p settled (held c i) d -> ~ returned p ->
  c_owner c = None \/ c_owner c = Some i -> exists c', cstep c c'.
Proof.
  destruct c as [s ow t ps]. simpl. intros Hp Hrg Hret How.
  assert (forall x, tstep i (p, s, ow, t) x -> exists c', cstep (mkConfig s ow t ps) c') as Hgo.
  { intros [[[p' s'] ow'] t'] H. eexists. by econstructor. }
  destruct p as [[]|k|k|k|f k|q k|e k]; simpl in Hrg.
  - by destruct Hret.
  - destruct Hrg as [Hh _]. destruct How as [-> | ->]; [eapply Hgo; constructor|].
    unfold held in Hh. simpl in Hh. by rewrite decide_True in Hh.
  - destruct Hrg as [[s0 Hh] _]. destruct How as [-> | ->]; [done|]. eapply Hgo. constructor.
  - eapply Hgo. constructor.
  - eapply Hgo. constructor.
  - destruct (replies q) as [r]. eapply Hgo. apply (t_ask i q k r).
  - eapply Hgo. constructor.
Qed.

(** No deadlock: while some goroutine has not returned, some goroutine can
    step. *)
Lemma Balanced_progress c ds start :
  Balanced c ds start -> ~ Forall returned (c_threads c) -> exists c', cstep c c'.
Proof.
  intros [Hg Hth Hlen Hown _] Hnot.
  destruct (c_owner c) as [i|] eqn:Ho.
  - destruct (lookup_lt_is_Some_2 (c_threads c) i (Hown i eq_refl)) as [p Hp].
    destruct (Hth i p Hp) as (d & _ & Hrg). apply (rg_can_step c i p d Hp Hrg); [|by right].
    intros Hr. destruct p; simpl in Hr; try done. destruct Hrg as [Hh _]. unfold held in Hh. rewrite Ho, decide_True in Hh; done.
  - apply not_Forall_Exists in Hnot; [|apply _]. apply Exists_exists in Hnot as (p & Hin & Hret).
    apply list_elem_of_lookup in Hin as [i Hp]. destruct (Hth i p Hp) as (d & _ & Hrg).
    apply (rg_can_step c i p d Hp Hrg Hret). by left.
Qed.

(** No goroutine is about to unlock a free mutex. *)
Lemma Balanced_no_fatal c ds start i k :
  Balanced c ds start -> c_threads c !! i = Some (Unlock k) -> c_owner c = Some i.
Proof.
  intros [Hg Hth _ _ _] Hp. destruct (Hth i _ Hp) as (d & _ & [s Hs] & _).
  unfold held in Hs. destruct (c_owner c); [|done]. case_decide; [|done]. by subst.
Qed.

(** Only the goroutine that holds the mutex is about to write. *)
Lemma Balanced_writer c ds start i f k :
  Balanced c ds start -> c_threads c !! i = Some (Store f k) -> c_owner c = Some i.
Proof.
  intros [Hg Hth _ _ _] Hp. destruct (Hth i _ Hp) as (d & _ & Hrg). simpl in Hrg.
  destruct (held c i) eqn:Hs; [|done].
  unfold held in Hs. destruct (c_owner c); [|done]. case_decide; [|done]. by subst.
Qed.

(** When all have returned, the counter is exact. *)
Lemma Balanced_final c ds start :
  Balanced c ds start -> Forall returned (c_threads c) ->
  (bal (c_st c) - start - total (c_events c)) mod m = 0.
Proof.
  intros [Hg Hth Hlen _ Hsum] Hret.
  assert (sum_of ds mod m = 0) as Hds.
  { assert (Forall (fun d => d mod m = 0) ds) as Hall.
    { apply Forall_lookup. intros i d Hd.
      destruct (lookup_lt_is_Some_2 (c_threads c) i) as [p Hp].
      { rewrite <- Hlen. by eapply lookup_lt_Some. }
      destruct (Hth i p Hp) as (d' & ? & Hrg). simplify_eq.
      rewrite Forall_lookup in Hret. specialize (Hret i p Hp). destruct p; try done. by destruct Hrg. }
    clear -Hall m_pos. induction Hall as [|d ds Hd _ IH]; [apply Z.mod_0_l; lia|]. simpl.
    rewrite Z.add_mod, Hd, IH by lia. apply Z.mod_0_l. lia. }
  replace (bal (c_st c) - start - total (c_events c)) with
    ((bal (c_st c) + sum_of ds - start - total (c_events c)) - sum_of ds) by lia.
  rewrite Zminus_mod, Hsum, Hds. apply Z.mod_0_l. lia.
Qed.

(** When all have returned, the mutex is free. *)
Lemma Balanced_released c ds start :
  Balanced c ds start -> Forall returned (c_threads c) -> c_owner c = None.
Proof.
  intros [Hg Hth _ Hown _] Hret. destruct (c_owner c) as [i|] eqn:Ho; [|done].
  destruct (lookup_lt_is_Some_2 (c_threads c) i (Hown i eq_refl)) as [p Hp].
  destruct (Hth i p Hp) as (d & _ & Hrg). rewrite Forall_lookup in Hret. specialize (Hret i p Hp).
  destruct p; try done. destruct Hrg as [Hh _]. unfold held in Hh.
  by rewrite Ho, decide_True in Hh.
Qed.

End rely_guarantee.

(** ** Termination *)

(** What may remain of a program after one effect. *)
Inductive rest {G : Sig} : prog G unit -> prog G unit -> Prop :=
| r_lock k : rest (Lock k) k
| r_unlock k : rest (Unlock k) k
| r_load k s : rest (Load k) (k s)
| r_store f k : rest (Store f k) k
| r_ask q k r : rest (Ask q k) (k r)
| r_emit e k : rest (Emit e k) k.

(** The same, read off the program. *)
Definition rest_of {G : Sig} (p p' : prog G unit) : Prop :=
  match p with
  | Ret _ => False
  | Lock k | Unlock k | Store _ k | Emit _ k => p' = k
  | Load k => exists s, p' = k s
  | Ask q k => exists r, p' = k r
  end.

Lemma rest_rest_of {G : Sig} (p p' : prog G unit) : rest p p' -> rest_of p p'.
Proof. destruct 1; simpl; eauto. Qed.

Lemma rest_sn {G : Sig} (p : prog G unit) : sn rest p.
Proof.
  induction p as [a|k IH|k IH|k IH|f k IH|q k IH|e k IH]; constructor; intros p' Hp';
    apply rest_rest_of in Hp'; simpl in Hp'.
  - done.
  - by subst.
  - by subst.
  - destruct Hp' as [s ->]. apply IH.
  - by subst.
  - destruct Hp' as [r ->]. apply IH.
  - by subst.
Qed.

(** One of the goroutines goes on. *)
Inductive one_rest {G : Sig} : list (prog G unit) -> list (prog G unit) -> Prop :=
| or_here p p' ps : rest p p' -> one_rest (p :: ps) (p' :: ps)
| or_there p ps ps' : one_rest ps ps' -> one_rest (p :: ps) (p :: ps').

Lemma one_rest_sn {G : Sig} (ps : list (prog G unit)) : sn one_rest ps.
Proof.
  induction ps as [|p ps IH]; [constructor; intros ps' H; inversion H|].
  pose proof (rest_sn p) as Hp. revert ps IH.
  induction Hp as [p _ IHp]. intros ps Hps. induction Hps as [ps Hps IHps].
  constructor. intros qs Hq. inversion Hq; subst.
  - apply IHp; [done|]. by constructor.
  - by apply IHps.
Qed.

Lemma one_rest_insert {G : Sig} (ps : list (prog G unit)) i p p' :
  ps !! i = Some p -> rest p p' -> one_rest ps (<[i := p']> ps).
Proof.
  revert i. induction ps as [|q ps IH]; intros i; [done|].
  destruct i as [|i]; simpl; [intros [= ->]; by constructor|]. constructor. by apply IH.
Qed.

(** Every execution is finite. *)
Lemma cstep_sn {G : Sig} (c : config G) : sn cstep c.
Proof.
  destruct c as [s ow t ps]. revert s ow t. induction (one_rest_sn ps) as [ps _ IH].
  intros s ow t. constructor. intros c' Hc'. inversion Hc' as [i p p' ? ? ? ? ? ? ? Hp Ht]. subst.
  apply IH. apply (one_rest_insert _ _ p); [done|].
  apply tstep_step_of in Ht. destruct p; simpl in Ht; try done.
  - destruct Ht as [_ ?]. simplify_eq. constructor.
  - destruct Ht as [_ ?]. simplify_eq. constructor.
  - simplify_eq. constructor.
  - simplify_eq. constructor.
  - destruct Ht as [r ?]. simplify_eq. constructor.
  - simplify_eq. constructor.
Qed.
