(* ===== verification/GoMutex.v ===== *)
(** * The invariant of a mutex

    What a mutex protects, for the goroutines of GoConc.v. An invariant relates
    the fields to what happened: to the order of the events that are only
    emitted while the mutex is held ([guarded]), and to the events that are
    known to have happened. It may be broken by the goroutine that holds the
    mutex and holds again when the mutex is released. *)

From S2P Require Import Prelude GoProg GoConc.

Section mutex.
Context {G : Sig}.

Variable guarded : event G -> bool.

(** [Inv s g K]: of the fields, the guarded events in their order, and all
    events that are known. *)
Variable Inv : St G -> list (event G) -> list (event G) -> Prop.
Hypothesis Inv_mono : forall s g K K', K ⊆ K' -> Inv s g K -> Inv s g K'.

(** The guarded events of a trace. *)
Definition guards : list (event G) -> list (event G) := List.filter guarded.

(** What a goroutine that holds the mutex has after an event of its own. *)
Definition push (e : event G) (h : option (St G * list (event G))) : option (St G * list (event G)) :=
  match h with Some (s, g) => Some (s, g ++ guards [e]) | None => None end.

(** A guarded event needs the mutex. *)
Definition allowed (e : event G) (h : option (St G * list (event G))) : Prop :=
  guarded e = true -> is_Some h.

(** [crit p Q h K]: the program [p] of one goroutine, which holds the mutex with
    the fields and the guarded events [h], and which knows that [K] happened.
    It takes the mutex only when it does not hold it and then finds the
    invariant; it writes only while holding it, and releases it only with the
    invariant. *)
Fixpoint crit {A : Type} (p : prog G A) (Q : A -> option (St G * list (event G)) -> list (event G) -> Prop)
    (h : option (St G * list (event G))) (K : list (event G)) : Prop :=
  match p with
  | Ret a => Q a h K
  | Lock k => h = None /\ forall s g K', K ⊆ K' -> Inv s g K' -> crit k Q (Some (s, g)) K'
  | Unlock k => match h with Some (s, g) => Inv s g K /\ crit k Q None K | None => False end
  | Load k => match h with Some (s, g) => crit (k s) Q h K | None => forall s, crit (k s) Q None K end
  | Store f k => match h with Some (s, g) => crit k Q (Some (f s, g)) K | None => False end
  | Ask q k => forall r, allowed (Asked q r) h /\ crit (k r) Q (push (Asked q r) h) (K ++ [Asked q r])
  | Emit e k => allowed (Marked e) h /\ crit k Q (push (Marked e) h) (K ++ [Marked e])
  end.

Lemma crit_bind {A B : Type} (p : prog G A) (f : A -> prog G B) Q h K :
  crit (pbind p f) Q h K <-> crit p (fun a => crit (f a) Q) h K.
Proof.
  revert h K. induction p as [a|k IH|k IH|k IH|u k IH|q k IH|e k IH]; intros h K; simpl.
  - done.
  - split; (intros [? H]; split; [done|]; intros s g K' HK Hs; apply IH; auto).
  - destruct h as [[s g]|]; [|done]. by rewrite IH.
  - destruct h as [[s g]|]; [apply IH|]. split; intros H s; apply IH; auto.
  - destruct h as [[s g]|]; [apply IH|done].
  - split; intros H r; (split; [apply H|]); apply IH; apply H.
  - by rewrite IH.
Qed.

Lemma crit_mono {A : Type} (p : prog G A) (Q Q' : A -> option (St G * list (event G)) -> list (event G) -> Prop) h K :
  (forall a h' K', Q a h' K' -> Q' a h' K') -> crit p Q h K -> crit p Q' h K.
Proof.
  intros HQ. revert h K. induction p as [a|k IH|k IH|k IH|u k IH|q k IH|e k IH]; intros h K; simpl.
  - apply HQ.
  - intros [? H]. split; [done|]. intros s g K' HK Hs. apply IH. auto.
  - destruct h as [[s g]|]; [|done]. intros [? H]. auto.
  - destruct h as [[s g]|]; auto.
  - destruct h as [[s g]|]; [|done]. auto.
  - intros H r. split; [apply H|]. apply IH, H.
  - intros [? H]. auto.
Qed.

(** ** Soundness *)

(** What the goroutine [i] holds. *)
Definition holds (c : config G) (i : nat) : option (St G * list (event G)) :=
  match c_owner c with
  | Some j => if decide (i = j) then Some (c_st c, guards (c_events c)) else None
  | None => None
  end.

Definition released {A : Type} (_ : A) (h : option (St G * list (event G))) (_ : list (event G)) : Prop :=
  h = None.

Record Protected (c : config G) : Prop := {
  prot_threads : forall i p, c_threads c !! i = Some p ->
    exists K, K ⊆ c_events c /\ crit p released (holds c i) K;
  prot_inv : c_owner c = None -> Inv (c_st c) (guards (c_events c)) (c_events c)
}.

Lemma guards_snoc t e : guards (t ++ [e]) = guards t ++ guards [e].
Proof. apply List.filter_app. Qed.

(** A step of goroutine [i] after which the others hold what they held. *)
Lemma Protected_step s s' ow ow' t t' ps i p' K :
  Protected (mkConfig s ow t ps) -> (i < length ps)%nat -> t ⊆ t' ->
  (forall j, j <> i -> holds (mkConfig s' ow' t' ps) j = holds (mkConfig s ow t ps) j) ->
  K ⊆ t' -> crit p' released (holds (mkConfig s' ow' t' ps) i) K ->
  (ow' = None -> Inv s' (guards t') t') ->
  Protected (mkConfig s' ow' t' (<[i := p']> ps)).
Proof.
  intros [Hth Hinv] Hi Ht Hothers HK Hp' Hinv'. simpl in *. split; simpl; [|done].
  intros j q Hq. destruct (decide (j = i)) as [->|Hj].
  - rewrite list_lookup_insert_eq in Hq by done. simplify_eq. by exists K.
  - rewrite list_lookup_insert_ne in Hq by congruence. destruct (Hth j q Hq) as (Kj & HKj & Hc).
    exists Kj. split; [set_solver|]. rewrite <- (Hothers j Hj) in Hc. exact Hc.
Qed.

(** An event of goroutine [i]. *)
Lemma Protected_event s ow t ps i e p' K :
  Protected (mkConfig s ow t ps) -> (i < length ps)%nat -> K ⊆ t ->
  allowed e (holds (mkConfig s ow t ps) i) ->
  crit p' released (push e (holds (mkConfig s ow t ps) i)) (K ++ [e]) ->
  Protected (mkConfig s ow (t ++ [e]) (<[i := p']> ps)).
Proof.
  intros HP Hi HK Ha Hp'. unfold allowed in Ha.
  assert (guards (t ++ [e]) = guards t \/ ow = Some i) as Hg.
  { rewrite guards_snoc. cbn [guards List.filter]. destruct (guarded e) eqn:E; [right|left; apply app_nil_r].
    destruct (Ha eq_refl) as [x Hx]. unfold holds in Hx. simpl in Hx. destruct ow; [|done].
    case_decide; [|done]. by subst. }
  assert (forall j, holds (mkConfig s ow (t ++ [e]) ps) j =
    if decide (j = i) then push e (holds (mkConfig s ow t ps) i) else holds (mkConfig s ow t ps) j) as Hh.
  { intros j. unfold holds. simpl. destruct (decide (j = i)) as [->|Hj].
    - destruct ow as [j|]; [|done]. case_decide; [|done]. simpl. by rewrite guards_snoc.
    - destruct ow as [j'|]; [|done]. case_decide; [|done]. subst j'. destruct Hg as [-> | [= ->]]; done. }
  eapply (Protected_step s s ow ow t _ ps i p' (K ++ [e])); [done|done|set_solver| |set_solver| |].
  - intros j Hj. by rewrite Hh, decide_False.
  - by rewrite Hh, decide_True.
  - intros ->. destruct Hg as [-> |]; [|done]. apply (Inv_mono _ _ t); [set_solver|]. by apply (prot_inv _ HP).
Qed.

Lemma Protected_preserved c c' : cstep c c' -> Protected c -> Protected c'.
Proof.
  intros Hstep HP. destruct Hstep as [i p p' s s' ow ow' t t' ps Hp Ht].
  destruct (prot_threads _ HP i p Hp) as (K & HK & Hc). simpl in HK.
  assert (i < length ps)%nat as Hi by by eapply lookup_lt_Some.
  apply tstep_step_of in Ht. destruct p as [a|k|k|k|f k|q k|e k]; simpl in Ht, Hc.
  - done.
  - destruct Hc as [_ Hc], Ht as [-> ?]; simplify_eq.
    eapply (Protected_step s s None (Some i) t t ps i k t); [done|done|done| |done| |done].
    + intros j Hj. unfold holds. simpl. by rewrite decide_False.
    + unfold holds. simpl. rewrite decide_True by done. apply Hc; [done|]. by apply (prot_inv _ HP).
  - destruct Ht as [[j ->] ?]; simplify_eq. unfold holds in Hc. simpl in Hc. case_decide; [|done]. subst j.
    destruct Hc as [HI Hc].
    eapply (Protected_step s s (Some i) None t t ps i k K); [done|done|done| |done|done|].
    + intros j Hj. unfold holds. simpl. by rewrite decide_False.
    + intros _. by apply (Inv_mono _ _ K).
  - simplify_eq. eapply (Protected_step s s ow ow t t ps i _ K); [done|done|done|done|done| |apply (prot_inv _ HP)].
    destruct (holds (mkConfig s ow t ps) i) as [[s0 g]|] eqn:Hh; [|apply Hc].
    unfold holds in Hh. simpl in Hh. destruct ow; [|done]. case_decide; [|done]. by simplify_eq.
  - simplify_eq. unfold holds in Hc. simpl in Hc. destruct ow as [j|]; [|done]. case_decide; [|done]. subst j.
    eapply (Protected_step s (f s) (Some i) (Some i) t t ps i k K); [done|done|done| |done| |done].
    + intros j Hj. unfold holds. simpl. by rewrite !decide_False.
    + unfold holds. simpl. by rewrite decide_True.
  - destruct Ht as [r ?]; simplify_eq. destruct (Hc r) as [Ha Hr]. by eapply Protected_event.
  - simplify_eq. destruct Hc as [Ha Hr]. by eapply Protected_event.
Qed.

Lemma Protected_reachable c c' : rtc cstep c c' -> Protected c -> Protected c'.
Proof. induction 1 as [|c c1 c2 H1 H2 IH]; [done|]. intros HP. apply IH. by eapply Protected_preserved. Qed.

(** Goroutines that keep to the discipline, on fields that satisfy the
    invariant: it holds whenever the mutex is free. *)
Lemma mutex_invariant s ps c' :
  Inv s [] [] -> (forall p, p ∈ ps -> crit p released None []) ->
  rtc cstep (mkConfig s None [] ps) c' -> c_owner c' = None ->
  Inv (c_st c') (guards (c_events c')) (c_events c').
Proof.
  intros Hs Hps Hr Ho. apply (prot_inv c'); [|done]. eapply Protected_reachable; [done|].
  split; simpl; [|done]. intros i p Hp. exists []. split; [done|].
  apply Hps. by apply list_elem_of_lookup_2 in Hp.
Qed.

End mutex.
