(* ===== verification/KernelVersion.v ===== *)
(** * pkg/kernel on Unix: kernel version parsing and comparison

    [VersionInfo], its printer, [CompareKernelVersion] and [ParseRelease]
    (kernel.go), [GetKernelVersion] and [CheckKernelVersion] (kernel_unix.go).
    [intBits] is the width of Go's [int], 32 or 64. uname(2) and
    unix.ByteSliceToString of golang.org/x/sys are arguments. *)

From S2P Require Import Prelude GoStrings.

Record VersionInfo : Type := mkVersionInfo {
  Kernel : Z;
  Major : Z;
  Minor : Z;
  Flavor : string
}.

#[global] Instance VersionInfo_eq_dec : EqDecision VersionInfo.
Proof. solve_decision. Defined.

(** fmt.Sprintf("%d.%d.%d%s", ...). *)
Definition VersionInfo_String (k : VersionInfo) : string :=
  Itoa (Kernel k) +:+ "." +:+ Itoa (Major k) +:+ "." +:+ Itoa (Minor k) +:+ Flavor k.

Definition CompareKernelVersion (a b : VersionInfo) : Z :=
  if Kernel a <? Kernel b then -1
  else if Kernel b <? Kernel a then 1
  else if Major a <? Major b then -1
  else if Major b <? Major a then 1
  else if Minor a <? Minor b then -1
  else if Minor b <? Minor a then 1
  else 0.

(** The formats "%d.%d%s" and ".%d%s". *)
Definition release_format : list directive := [VerbD; Lit "."%char; VerbD; VerbS].

Definition partial_format : list directive := [Lit "."%char; VerbD; VerbS].

(** The second scan: the minor number and the flavor of what follows the
    first two numbers. *)
Definition parse_partial (intBits : Z) (partial : string) : Z * string :=
  match doScanf intBits partial_format partial with
  | ScanInt minor :: ScanStr flavor :: _ => (minor, flavor)
  | ScanInt minor :: _ => (minor, EmptyString)
  | _ => (0, partial)
  end.

Definition ParseRelease (intBits : Z) (release : string) : result VersionInfo :=
  let build kernel major partial :=
    let '(minor, flavor) := parse_partial intBits partial in
    Ok (mkVersionInfo kernel major minor flavor) in
  match doScanf intBits release_format release with
  | ScanInt kernel :: ScanInt major :: ScanStr partial :: _ => build kernel major partial
  | ScanInt kernel :: ScanInt major :: _ => build kernel major EmptyString
  | _ => Err (NewError ("Can't parse kernel version " +:+ release))
  end.

(** uname_unix.go: the release array unix.Uname filled in, or its error. *)
Definition uname (Uname : list Z * option error) : result (list Z) :=
  let '(uts, err) := Uname in
  match err with Some err => Err err | None => Ok uts end.

(** [uname] is the answer of uname(2): the release array or an error. *)
Definition GetKernelVersion (intBits : Z) (ByteSliceToString : list Z -> string)
    (uname : result (list Z)) : result VersionInfo :=
  match uname with
  | Err e => Err e
  | Ok release => ParseRelease intBits (ByteSliceToString release)
  end.

Definition CheckKernelVersion (intBits : Z) (ByteSliceToString : list Z -> string)
    (uname : result (list Z)) (k major minor : Z) : bool * option error :=
  match GetKernelVersion intBits ByteSliceToString uname with
  | Err e => (false, Some e)
  | Ok v =>
      if CompareKernelVersion v (mkVersionInfo k major minor EmptyString) <? 0
      then (false, None) else (true, None)
  end.

(** ** Specification *)

(** The order of kernel versions: lexicographic on the three numbers. *)
Definition version_lt (a b : VersionInfo) : Prop :=
  Kernel a < Kernel b \/
  Kernel a = Kernel b /\ (Major a < Major b \/ Major a = Major b /\ Minor a < Minor b).

Definition version_eqv (a b : VersionInfo) : Prop :=
  Kernel a = Kernel b /\ Major a = Major b /\ Minor a = Minor b.

Definition version_le (a b : VersionInfo) : Prop := version_lt a b \/ version_eqv a b.

(** The numbers of [v] are Go ints. *)
Definition version_ints (intBits : Z) (v : VersionInfo) : Prop :=
  (sint 64 (Kernel v) /\ sint intBits (Kernel v)) /\
  (sint 64 (Major v) /\ sint intBits (Major v)) /\
  (sint 64 (Minor v) /\ sint intBits (Minor v)).

(** A flavor that can follow a number: one word that does not continue it. *)
Definition flavor_ok (s : string) : bool := no_space s && negb (starts_with_digit s).

(** A suffix of the first two numbers from which no minor number can be read. *)
Definition no_minor (s : string) : bool :=
  match s with
  | EmptyString => true
  | String c s' => negb (Ascii.eqb "."%char c) || negb (starts_with_digit (snd (scan_sign s')))
  end.

(** ** Lemmas *)

Lemma CompareKernelVersion_cases a b :
  CompareKernelVersion a b = -1 /\ version_lt a b \/
  CompareKernelVersion a b = 0 /\ version_eqv a b \/
  CompareKernelVersion a b = 1 /\ version_lt b a.
Proof. unfold CompareKernelVersion, version_lt, version_eqv. case_bools. Qed.

Lemma version_lt_irrefl a b : version_lt a b -> version_lt b a -> False.
Proof. unfold version_lt. lia. Qed.

Lemma CompareKernelVersion_ge a b : 0 <= CompareKernelVersion a b <-> version_le b a.
Proof.
  unfold version_le, version_lt, version_eqv.
  destruct (CompareKernelVersion_cases a b) as [[-> H]|[[-> H]|[-> H]]];
    unfold version_lt, version_eqv in H; lia.
Qed.

Lemma version_le_trans a b c : version_le a b -> version_le b c -> version_le a c.
Proof. unfold version_le, version_lt, version_eqv. lia. Qed.

Lemma doScanf_VerbD bits fmt z rest :
  sint 64 z -> sint bits z -> starts_with_digit rest = false -> no_space rest = true ->
  doScanf bits (VerbD :: fmt) (Itoa z +:+ rest) = ScanInt z :: doScanf bits fmt rest.
Proof.
  intros. cbn [doScanf].
  rewrite SkipSpace_no_space by (by rewrite no_space_app, Itoa_no_space).
  by rewrite scanInt_Itoa.
Qed.

Lemma doScanf_VerbS_last bits s :
  no_space s = true -> s <> EmptyString -> doScanf bits [VerbS] s = [ScanStr s].
Proof.
  intros Hs Hne. cbn [doScanf]. rewrite SkipSpace_no_space by done.
  unfold scanString. rewrite SkipSpace_no_space, token_no_space by done.
  by destruct s.
Qed.

Lemma flavor_ok_spec s :
  flavor_ok s = true <-> no_space s = true /\ starts_with_digit s = false.
Proof. unfold flavor_ok. by rewrite andb_true_iff, negb_true_iff. Qed.

Lemma parse_partial_minor bits minor flavor :
  sint 64 minor -> sint bits minor -> flavor_ok flavor = true ->
  parse_partial bits ("." +:+ Itoa minor +:+ flavor) = (minor, flavor).
Proof.
  intros H64 Hb [Hs Hd]%flavor_ok_spec. unfold parse_partial, partial_format.
  change (doScanf bits [Lit "."%char; VerbD; VerbS] ("." +:+ Itoa minor +:+ flavor))
    with (doScanf bits [VerbD; VerbS] (Itoa minor +:+ flavor)).
  rewrite doScanf_VerbD by done.
  destruct flavor as [|c f]; [done|]. by rewrite doScanf_VerbS_last.
Qed.

Lemma scanInt_no_digit bits s :
  no_space s = true -> starts_with_digit (snd (scan_sign s)) = false -> scanInt bits s = None.
Proof.
  intros Hs Hd. unfold scanInt. rewrite SkipSpace_no_space by done.
  destruct (scan_sign s) as [neg s2]. simpl in Hd. by rewrite Hd.
Qed.

Lemma parse_partial_no_minor bits partial :
  no_space partial = true -> no_minor partial = true ->
  parse_partial bits partial = (0, partial).
Proof.
  intros Hs Hm. unfold parse_partial, partial_format.
  destruct partial as [|c s]; [done|]. cbn [no_minor no_space all_chars] in Hs, Hm.
  apply andb_true_iff in Hs as [_ Hs]. cbn [doScanf].
  destruct (Ascii.eqb "."%char c); [|done].
  apply negb_true_iff in Hm.
  rewrite SkipSpace_no_space by done. by rewrite scanInt_no_digit.
Qed.

Lemma ParseRelease_numbers bits k m suffix :
  sint 64 k -> sint bits k -> sint 64 m -> sint bits m -> flavor_ok suffix = true ->
  ParseRelease bits (Itoa k +:+ "." +:+ Itoa m +:+ suffix) =
    Ok (let '(minor, flavor) := parse_partial bits suffix in mkVersionInfo k m minor flavor).
Proof.
  intros Hk Hk' Hm Hm' [Hs Hd]%flavor_ok_spec. unfold ParseRelease, release_format.
  rewrite doScanf_VerbD; try done.
  2: { rewrite !no_space_app, Itoa_no_space. by simpl. }
  change (doScanf bits [Lit "."%char; VerbD; VerbS] ("." +:+ Itoa m +:+ suffix))
    with (doScanf bits [VerbD; VerbS] (Itoa m +:+ suffix)).
  rewrite doScanf_VerbD by done.
  destruct suffix as [|c s].
  - by destruct (parse_partial bits EmptyString).
  - rewrite doScanf_VerbS_last by done. by destruct (parse_partial _ _).
Qed.

(** *** What a successful parse of one word establishes *)

Lemma scan_sign_no_space s : no_space s = true -> no_space (snd (scan_sign s)) = true.
Proof.
  destruct s as [|c s]; [done|]. unfold scan_sign. intros Hs.
  destruct (Ascii.eqb c _); [|destruct (Ascii.eqb c _)]; try done;
    cbn [snd no_space all_chars] in *; by apply andb_true_iff in Hs as [_ ?].
Qed.

Lemma scanInt_inv bits s z rest :
  no_space s = true -> scanInt bits s = Some (z, rest) ->
  (sint 64 z /\ sint bits z) /\ flavor_ok rest = true.
Proof.
  intros Hs. unfold scanInt. rewrite SkipSpace_no_space by done.
  pose proof (scan_sign_no_space s Hs) as Hs2.
  destruct (scan_sign s) as [neg s2]. cbn [snd] in Hs2.
  destruct (starts_with_digit s2); [|done].
  destruct (scan_digits 0 s2) as [v r] eqn:E.
  apply scan_digits_rest in E as (Hr & pre & -> & _).
  rewrite no_space_app in Hs2. apply andb_true_iff in Hs2 as [_ Hs2].
  destruct (bool_decide_reflect (sint 64 (if neg then - v else v)));
    [|done].
  destruct (bool_decide_reflect (sint bits (if neg then - v else v))); [|done].
  intros [= <- <-]. split; [done|]. by apply flavor_ok_spec.
Qed.

Lemma doScanf_VerbD_cases bits fmt s :
  no_space s = true ->
  doScanf bits (VerbD :: fmt) s = [] \/
  exists z rest, doScanf bits (VerbD :: fmt) s = ScanInt z :: doScanf bits fmt rest /\
    (sint 64 z /\ sint bits z) /\ flavor_ok rest = true.
Proof.
  intros Hs. cbn [doScanf]. rewrite SkipSpace_no_space by done.
  destruct (scanInt bits s) as [[z rest]|] eqn:E; [|by left].
  right. exists z, rest. split; [done|]. by eapply scanInt_inv.
Qed.

Lemma doScanf_Lit_cases bits fmt c s :
  no_space s = true ->
  doScanf bits (Lit c :: fmt) s = [] \/
  exists s', no_space s' = true /\ doScanf bits (Lit c :: fmt) s = doScanf bits fmt s'.
Proof.
  intros Hs. cbn [doScanf]. destruct s as [|d s']; [by left|].
  destruct (Ascii.eqb c d); [|by left]. right. exists s'. split; [|done].
  cbn [no_space all_chars] in Hs. by apply andb_true_iff in Hs as [_ ?].
Qed.

Lemma parse_partial_wf bits partial m f :
  0 < bits -> flavor_ok partial = true -> parse_partial bits partial = (m, f) ->
  (sint 64 m /\ sint bits m) /\ flavor_ok f = true.
Proof.
  intros Hb Hp. unfold parse_partial, partial_format.
  assert (sint bits 0) as H0.
  { unfold sint. assert (0 < 2 ^ (bits - 1)) by lia. lia. }
  pose proof (proj1 (flavor_ok_spec _) Hp) as [Hs _].
  destruct (doScanf_Lit_cases bits [VerbD; VerbS] "."%char partial Hs) as [->|(s' & Hs' & ->)].
  { by intros [= <- <-]. }
  destruct (doScanf_VerbD_cases bits [VerbS] s' Hs') as [->|(z & rest & -> & Hz & Hr)].
  { by intros [= <- <-]. }
  destruct rest as [|c r]; [by intros [= <- <-]|].
  rewrite doScanf_VerbS_last; [by intros [= <- <-]| |done].
  by apply flavor_ok_spec in Hr as [? _].
Qed.

Lemma ParseRelease_wf bits release v :
  0 < bits -> no_space release = true -> ParseRelease bits release = Ok v ->
  version_ints bits v /\ flavor_ok (Flavor v) = true.
Proof.
  intros Hb Hs. unfold ParseRelease, release_format.
  destruct (doScanf_VerbD_cases bits [Lit "."%char; VerbD; VerbS] release Hs)
    as [->|(k & r1 & -> & Hk & [Hs1 _]%flavor_ok_spec)]; [done|].
  destruct (doScanf_Lit_cases bits [VerbD; VerbS] "."%char r1 Hs1) as [->|(s' & Hs' & ->)];
    [done|].
  destruct (doScanf_VerbD_cases bits [VerbS] s' Hs') as [->|(m & r2 & -> & Hm & Hr2)]; [done|].
  assert (forall minor flavor, parse_partial bits r2 = (minor, flavor) ->
    version_ints bits (mkVersionInfo k m minor flavor) /\ flavor_ok flavor = true) as Hwf.
  { intros minor flavor [Hmin Hf]%parse_partial_wf; done. }
  destruct r2 as [|c r].
  - cbn [doScanf SkipSpace scanString].
    destruct (parse_partial bits EmptyString) as [mi fl]. intros [= <-]. by apply Hwf.
  - rewrite doScanf_VerbS_last; [|by apply flavor_ok_spec in Hr2 as [? _]|done].
    destruct (parse_partial bits _) as [mi fl]. intros [= <-]. by apply Hwf.
Qed.

Lemma ParseRelease_print bits v :
  version_ints bits v -> flavor_ok (Flavor v) = true ->
  ParseRelease bits (VersionInfo_String v) = Ok v.
Proof.
  intros ((Hk & Hk') & (Hm & Hm') & (Hn & Hn')) Hf. unfold VersionInfo_String.
  rewrite ParseRelease_numbers; try done.
  - rewrite parse_partial_minor by done. by destruct v.
  - apply flavor_ok_spec. apply flavor_ok_spec in Hf as [Hf _].
    split; [|done]. rewrite !no_space_app, Itoa_no_space, Hf. done.
Qed.

(** ** Properties *)

(** C8: parsing is a left inverse of printing. For every version whose numbers
    are Go ints and whose flavor is one word that does not start with a digit,
    ParseRelease reads back exactly what VersionInfo.String printed. *)
Theorem ParseRelease_String bits v :
  version_ints bits v -> flavor_ok (Flavor v) = true ->
  ParseRelease bits (VersionInfo_String v) = Ok v.
Proof. apply ParseRelease_print. Qed.

Lemma ParseRelease_String_witness :
  ParseRelease 64 (VersionInfo_String (mkVersionInfo 5 10 0 "-862.el7")) =
    Ok (mkVersionInfo 5 10 0 "-862.el7").
Proof. apply (ParseRelease_String 64); vm_compute; intuition congruence. Defined.

(** parsing a release without white space is stable: the version it gives
    prints to a release that parses to the same version, so no later
    normalisation changes the numbers the feature flags are derived from. *)
Theorem ParseRelease_stable bits release v :
  bits = 32 \/ bits = 64 -> no_space release = true -> ParseRelease bits release = Ok v ->
  ParseRelease bits (VersionInfo_String v) = Ok v.
Proof.
  intros Hb Hs Hp. destruct (ParseRelease_wf bits release v) as [Hi Hf]; try done; [lia|].
  by apply ParseRelease_print.
Qed.

Lemma ParseRelease_stable_witness :
  ParseRelease 64 (VersionInfo_String (mkVersionInfo 3 12 0 "-1-amd64")) =
    Ok (mkVersionInfo 3 12 0 "-1-amd64").
Proof. apply (ParseRelease_stable 64 "3.12-1-amd64"); [by right|reflexivity|reflexivity]. Defined.

(** the two shapes of a release. After two numbers and a dot a third
    number is the minor version and the rest the flavor; otherwise the minor
    version is 0 and everything after the second number is the flavor. *)
Theorem ParseRelease_shapes bits k m :
  (bits = 32 \/ bits = 64) -> sint bits k -> sint bits m ->
  (forall n f, sint bits n -> flavor_ok f = true ->
     ParseRelease bits (Itoa k +:+ "." +:+ Itoa m +:+ "." +:+ Itoa n +:+ f) =
       Ok (mkVersionInfo k m n f)) /\
  (forall f, flavor_ok f = true -> no_minor f = true ->
     ParseRelease bits (Itoa k +:+ "." +:+ Itoa m +:+ f) = Ok (mkVersionInfo k m 0 f)).
Proof.
  intros Hb Hk Hm.
  assert (forall x, sint bits x -> sint 64 x) as H64.
  { intros x. unfold sint. destruct Hb as [-> | ->]; simpl; lia. }
  split.
  - intros n f Hn Hf. apply (ParseRelease_print bits (mkVersionInfo k m n f)); [|done].
    by repeat split; try apply H64; apply Hk || apply Hm || apply Hn.
  - intros f Hf Hno. rewrite ParseRelease_numbers by auto.
    by rewrite parse_partial_no_minor by (done || by apply flavor_ok_spec in Hf as [? _]).
Qed.

Lemma ParseRelease_shapes_witness :
  ParseRelease 32 "3.4.54.longterm-1" = Ok (mkVersionInfo 3 4 54 ".longterm-1") /\
  ParseRelease 32 "3.12-1-amd64" = Ok (mkVersionInfo 3 12 0 "-1-amd64").
Proof.
  split.
  - apply (proj1 (ParseRelease_shapes 32 3 4 ltac:(by left) ltac:(by vm_compute)
      ltac:(by vm_compute)) 54 ".longterm-1"); vm_compute; intuition congruence.
  - apply (proj2 (ParseRelease_shapes 32 3 12 ltac:(by left) ltac:(by vm_compute)
      ltac:(by vm_compute)) "-1-amd64"); reflexivity.
Defined.

(** CompareKernelVersion implements the lexicographic order on (Kernel,
    Major, Minor): its sign tells less, equal or greater, swapping the
    arguments negates it, and "at least" is transitive. *)
Theorem CompareKernelVersion_order a b c :
  (CompareKernelVersion a b = -1 <-> version_lt a b) /\
  (CompareKernelVersion a b = 0 <-> version_eqv a b) /\
  (CompareKernelVersion a b = 1 <-> version_lt b a) /\
  CompareKernelVersion b a = - CompareKernelVersion a b /\
  (0 <= CompareKernelVersion a b -> 0 <= CompareKernelVersion b c ->
     0 <= CompareKernelVersion a c).
Proof.
  rewrite !CompareKernelVersion_ge.
  split_and!; [| | | |by eauto using version_le_trans];
    pose proof (CompareKernelVersion_cases a b); pose proof (CompareKernelVersion_cases b a);
    unfold version_lt, version_eqv in *; lia.
Qed.

(** CheckKernelVersion answers true exactly when the running kernel's
    version is at least the one asked for; it passes the uname error on, and a
    release it cannot parse is an error that carries the release text. *)
Theorem CheckKernelVersion_spec bits bytes_to_string uname k major minor :
  match uname with
  | Err e => CheckKernelVersion bits bytes_to_string uname k major minor = (false, Some e)
  | Ok raw =>
      match ParseRelease bits (bytes_to_string raw) with
      | Err e =>
          e = NewError ("Can't parse kernel version " +:+ bytes_to_string raw) /\
          CheckKernelVersion bits bytes_to_string uname k major minor = (false, Some e)
      | Ok v =>
          (CheckKernelVersion bits bytes_to_string uname k major minor).2 = None /\
          ((CheckKernelVersion bits bytes_to_string uname k major minor).1 = true <->
           version_le (mkVersionInfo k major minor "") v)
      end
  end.
Proof.
  destruct uname as [raw|e]; [|done]. unfold CheckKernelVersion, GetKernelVersion.
  destruct (ParseRelease bits (bytes_to_string raw)) as [v|e] eqn:E.
  - rewrite <- CompareKernelVersion_ge. case_bool; simpl; split; done || lia.
  - split; [|done]. revert E. unfold ParseRelease.
    repeat case_match; congruence.
Qed.
