(* ===== verification/KernelWindows.v ===== *)
(** * pkg/kernel on Windows and on platforms without uname

    [VersionInfo] and [GetKernelVersion] of kernel_windows.go and the failing
    [uname] of uname_unsupported.go. The registry and GetVersion of
    golang.org/x/sys/windows are arguments: the answers of OpenKey, of the
    query for BuildLabEx and of GetVersion, in the order they are asked. *)

From S2P Require Import Prelude GoStrings.

Record VersionInfo : Type := mkVersionInfo {
  kvi : string;
  major : Z;
  minor : Z;
  build : Z
}.

#[global] Instance VersionInfo_eta : RecordEta VersionInfo :=
  fconst mkVersionInfo <*> kvi <*> major <*> minor <*> build.

(** fmt.Sprintf("%d.%d %d (%s)", ...). *)
Definition VersionInfo_String (k : VersionInfo) : string :=
  Itoa (major k) +:+ "." +:+ Itoa (minor k) +:+ " " +:+ Itoa (build k) +:+
  " (" +:+ kvi k +:+ ")".

(** The three fields of the packed 32-bit version. *)
Definition dw_major (dwVersion : Z) : Z := Z.land dwVersion 0xFF.

Definition dw_minor (dwVersion : Z) : Z := Z.shiftr (Z.land dwVersion 0xFF00) 8.

Definition dw_build (dwVersion : Z) : Z := Z.shiftr (Z.land dwVersion 0xFFFF0000) 16.

(** The version so far is returned with every error. *)
Definition GetKernelVersion (OpenKey : option error) (BuildLabEx : result string)
    (GetVersion : result Z) : VersionInfo * option error :=
  let KVI := mkVersionInfo "Unknown" 0 0 0 in
  match OpenKey with
  | Some err => (KVI, Some err)
  | None =>
      match BuildLabEx with
      | Err err => (KVI, Some err)
      | Ok blex =>
          let KVI := KVI <| kvi := blex |> in
          match GetVersion with
          | Err err => (KVI, Some err)
          | Ok dwVersion =>
              (KVI <| major := dw_major dwVersion |>
                   <| minor := dw_minor dwVersion |>
                   <| build := dw_build dwVersion |>, None)
          end
      end
  end.

(** uname_unsupported.go. *)
Definition uname_unsupported : result (list Z) :=
  Err (NewError "kernel version detection is not available on this platform").

(** ** Lemmas *)

Lemma dw_fields dw :
  uint 32 dw ->
  dw_major dw = dw mod 2 ^ 8 /\
  dw_minor dw = (dw / 2 ^ 8) mod 2 ^ 8 /\
  dw_build dw = dw / 2 ^ 16.
Proof.
  intros Hdw. unfold dw_major, dw_minor, dw_build.
  change 0xFF with (Z.ones 8). change 0xFF00 with (Z.shiftl (Z.ones 8) 8).
  change 0xFFFF0000 with (Z.shiftl (Z.ones 16) 16).
  rewrite !Z.shiftr_land, !Z.shiftr_shiftl_l by lia.
  change (Z.shiftl (Z.ones 8) (8 - 8)) with (Z.ones 8).
  change (Z.shiftl (Z.ones 16) (16 - 16)) with (Z.ones 16).
  rewrite !Z.land_ones, !Z.shiftr_div_pow2 by lia.
  split_and!; [done|done|]. apply Z.mod_small. unfold uint in Hdw. simpl in *.
  Z.div_mod_to_equations. lia.
Qed.

(** ** Properties *)

(** decoding the packed Windows version loses nothing. The three fields
    are within their byte, byte and 16-bit ranges and put together give the
    32-bit word GetVersion returned. *)
Theorem GetKernelVersion_decodes blex dw :
  uint 32 dw ->
  let v := (GetKernelVersion None (Ok blex) (Ok dw)).1 in
  kvi v = blex /\ uint 8 (major v) /\ uint 8 (minor v) /\ uint 16 (build v) /\
  dw = major v + minor v * 2 ^ 8 + build v * 2 ^ 16.
Proof.
  intros Hdw v. change (kvi v) with blex. change (major v) with (dw_major dw).
  change (minor v) with (dw_minor dw). change (build v) with (dw_build dw).
  pose proof (dw_fields dw Hdw) as (-> & -> & ->). unfold uint in *. simpl in *.
  split_and!; [done|Z.div_mod_to_equations; lia..].
Qed.

Lemma GetKernelVersion_decodes_witness :
  dw_build 0x4A64000A = 0x4A64 /\ uint 16 (dw_build 0x4A64000A).
Proof.
  split; [reflexivity|].
  apply (GetKernelVersion_decodes "19044.1.amd64fre" 0x4A64000A). vm_compute. intuition congruence.
Defined.
