(* ===== verification/OperatingSystem.v ===== *)
(** * pkg/os: the name and version of the operating system

    [Linux] is operatingsystem_linux.go: the os-release parser and the
    container test. [Unix] is operatingsystem_unix.go (FreeBSD and Darwin).
    [Windows] is windows_os_string.go and operatingsystem_windows.go, but for
    GetOperatingSystemVersion, which is in OsVersion.v with the package it
    calls. Opening a file, uname, the Windows version query and the registry
    are arguments of the operations that use them. *)

From S2P Require Import Prelude GoStrings.

Definition newline : ascii := ascii_of_nat 10.

Definition carriage_return : ascii := ascii_of_nat 13.

(** ** bufio.Scanner with ScanLines *)

Definition MaxScanTokenSize : Z := 65536.

Fixpoint dropCR (s : string) : string :=
  match s with
  | EmptyString => EmptyString
  | String c EmptyString => if Ascii.eqb c carriage_return then EmptyString else s
  | String c s' => String c (dropCR s')
  end.

(** What follows the last newline is a line only when it is not empty. *)
Fixpoint raw_lines (pieces : list string) : list string :=
  match pieces with
  | [] => []
  | [EmptyString] => []
  | p :: ps => p :: raw_lines ps
  end.

(** The lines for which Scan returns true: a line that does not fit the
    buffer with its newline ends the scan with ErrTooLong. *)
Fixpoint tokens (raw : list string) : list string :=
  match raw with
  | [] => []
  | l :: ls => if MaxScanTokenSize <=? Z.of_nat (String.length l) then [] else dropCR l :: tokens ls
  end.

Definition scan_lines (content : string) : list string := tokens (raw_lines (Split content newline)).

(** The cutset of strings.Trim: both quotes and the space. *)
Definition quotes_and_space : string := dquote +:+ "' ".

Module Linux.

Definition proc1Cgroup : string := "/proc/1/cgroup".

Definition etcOsRelease : string := "/etc/os-release".

Definition altOsRelease : string := "/usr/lib/os-release".

Section linux.
(** os.Open and reading the file to its end, os.ReadFile, and os.IsNotExist. *)
Context (Open ReadFile : string -> result string) (IsNotExist : error -> bool).

(** The body of the scanner loop. *)
Definition scan_line (key : string) (value line : string) : string :=
  match CutPrefix line (key +:+ "=") with
  | Some after => Trim after quotes_and_space
  | None => value
  end.

Definition scan_file (key content : string) : string :=
  fold_left (scan_line key) (scan_lines content) EmptyString.

Definition getValueFromOsRelease (key : string) : result string :=
  match Open etcOsRelease with
  | Ok content => Ok (scan_file key content)
  | Err err =>
      if negb (IsNotExist err) then Err err
      else match Open altOsRelease with
           | Ok content => Ok (scan_file key content)
           | Err err => Err err
           end
  end.

Definition GetOperatingSystem : result string :=
  match getValueFromOsRelease "PRETTY_NAME" with
  | Err err => Err err
  | Ok prettyName => if negb (String.eqb prettyName EmptyString) then Ok prettyName else Ok "Linux"
  end.

Definition GetOperatingSystemVersion : result string := getValueFromOsRelease "VERSION_ID".

(** The test on a line of /proc/1/cgroup. *)
Definition foreign_line (line : string) : bool :=
  (0 <? Z.of_nat (String.length line)) && negb (HasSuffix line ":/") &&
  negb (HasSuffix line ":/init.scope").

Definition IsContainerized : bool * option error :=
  match ReadFile proc1Cgroup with
  | Err err => (false, Some err)
  | Ok b => (existsb foreign_line (Split b newline), None)
  end.

End linux.
End Linux.

Module Unix.

Section unix.
(** uname(2): the machine array or an error. *)
Context (ByteSliceToString : list Z -> string) (uname : result (list Z)).

Definition GetOperatingSystem : result string :=
  match uname with
  | Err err => Err err
  | Ok machine => Ok (ByteSliceToString machine)
  end.

Definition GetOperatingSystemVersion : result string := Err (NewError "Unsupported on generic unix").

Definition IsContainerized : bool * option error :=
  (false, Some (NewError "Cannot detect if we are in container")).

End unix.
End Unix.

Module Windows.

(** The fields of RtlGetVersion's answer the package reads. *)
Record OsVersionInfoEx : Type := mkOsVersionInfoEx {
  MajorVersion : Z;
  MinorVersion : Z;
  BuildNumber : Z;
  ProductType : Z
}.

Record windowsOSRelease : Type := mkwindowsOSRelease {
  IsServer : bool;
  DisplayVersion : string;
  Build : Z;
  UBR : Z
}.

#[global] Instance windowsOSRelease_eta : RecordEta windowsOSRelease :=
  fconst mkwindowsOSRelease <*> IsServer <*> DisplayVersion <*> Build <*> UBR.

Definition windowsOSRelease_String (r : windowsOSRelease) : string :=
  let b := "Microsoft Windows" in
  let b := if IsServer r then b +:+ " Server" else b in
  let b := if negb (String.eqb (DisplayVersion r) EmptyString)
           then (b +:+ " Version ") +:+ DisplayVersion r else b in
  let b := b +:+ " (OS Build " +:+ Itoa (Build r) in
  let b := if 0 <? UBR r then b +:+ "." +:+ Itoa (UBR r) else b in
  b +:+ ")".

Definition verNTWorkstation : Z := 1.

Section windows.
(** registry.ErrNotExist and errors.Is with it as the target. *)
Context (ErrNotExist : error) (Is_ErrNotExist : error -> bool).

(** [GetStringValue] is that of the open key. *)
Fixpoint getFirstStringValue (GetStringValue : string -> result string) (names : list string)
    : result string :=
  match names with
  | [] => Err ErrNotExist
  | n :: names' =>
      match GetStringValue n with
      | Err err => if negb (Is_ErrNotExist err) then Err err
                   else getFirstStringValue GetStringValue names'
      | Ok val => Ok val
      end
  end.

(** [key] is the CurrentVersion key, when it opens: its GetStringValue and its
    GetIntegerValue. *)
Definition GetOperatingSystem (osversion : OsVersionInfoEx)
    (key : result ((string -> result string) * (string -> result Z))) : result string :=
  let rel := mkwindowsOSRelease (negb (ProductType osversion =? verNTWorkstation)) EmptyString
               (BuildNumber osversion) 0 in
  let rel :=
    match key with
    | Err _ => rel
    | Ok (GetStringValue, GetIntegerValue) =>
        let rel :=
          match getFirstStringValue GetStringValue ["DisplayVersion"; "ReleaseId"] with
          | Ok ver => rel <| DisplayVersion := ver |>
          | Err _ => rel
          end in
        match GetIntegerValue "UBR" with
        | Ok ubr => rel <| UBR := ubr |>
        | Err _ => rel
        end
    end in
  Ok (windowsOSRelease_String rel).

Definition IsContainerized : bool * option error := (false, None).

Definition IsWindowsClient (osversion : OsVersionInfoEx) : bool :=
  ProductType osversion =? verNTWorkstation.

End windows.
End Windows.

(** ** Specification *)

(** A line of an os-release file, as the format prescribes it. *)
Definition render_line (kv : string * string) : string :=
  kv.1 +:+ "=" +:+ dquote +:+ kv.2 +:+ dquote.

Definition unlines (ls : list string) : string :=
  foldr (fun l rest => l +:+ String newline rest) EmptyString ls.

Definition lacks (c : ascii) (s : string) : bool := all_chars (fun d => negb (Ascii.eqb d c)) s.

(** A key and value the format can express: no equals sign in the key, no
    newline, no quote or space at either end of the value, a line that fits
    the scanner's buffer. *)
Definition entry_ok (kv : string * string) : bool :=
  lacks "="%char kv.1 && lacks newline kv.1 && lacks newline kv.2 &&
  String.eqb (TrimLeft kv.2 quotes_and_space) kv.2 &&
  String.eqb (TrimRight kv.2 quotes_and_space) kv.2 &&
  (Z.of_nat (String.length (render_line kv)) <? MaxScanTokenSize).

(** The value of the last entry for a key, the empty string without one. *)
Definition last_entry (key : string) (kvs : list (string * string)) : string :=
  default EmptyString (snd <$> last (filter (fun kv => kv.1 = key) kvs)).

(** The last assignment to a key among the lines of a file. *)
Definition last_assignment (key : string) (ls : list string) : string :=
  default EmptyString
    ((fun after => Trim after quotes_and_space) <$>
       last (omap (fun l => CutPrefix l (key +:+ "=")) ls)).

(** ** Lemmas *)

Lemma lacks_cons c d s : lacks c (String d s) = negb (Ascii.eqb d c) && lacks c s.
Proof. reflexivity. Qed.

Lemma lacks_app c s t : lacks c (s +:+ t) = lacks c s && lacks c t.
Proof. apply all_chars_app. Qed.

Lemma Split_line l rest sep :
  lacks sep l = true -> Split (l +:+ String sep rest) sep = l :: Split rest sep.
Proof.
  induction l as [|c l IH]; simpl; [by rewrite Ascii.eqb_refl|].
  rewrite lacks_cons, andb_true_iff, negb_true_iff. intros [-> Hl]. by rewrite IH.
Qed.

Lemma Split_nonempty s sep : Split s sep <> [].
Proof.
  destruct s as [|c s]; simpl; [done|]. case_match; [done|]. by case_match.
Qed.

Lemma raw_lines_cons p ps : ps <> [] -> raw_lines (p :: ps) = p :: raw_lines ps.
Proof. destruct ps; [done|]. intros _. by destruct p. Qed.

Lemma scan_lines_cons l rest :
  lacks newline l = true ->
  scan_lines (l +:+ String newline rest) =
    if MaxScanTokenSize <=? Z.of_nat (String.length l) then [] else dropCR l :: scan_lines rest.
Proof.
  intros Hl. unfold scan_lines. rewrite Split_line by done.
  by rewrite raw_lines_cons by apply Split_nonempty.
Qed.

Lemma scan_lines_unlines ls rest :
  Forall (fun l => lacks newline l = true /\ Z.of_nat (String.length l) < MaxScanTokenSize) ls ->
  scan_lines (unlines ls +:+ rest) = map dropCR ls ++ scan_lines rest.
Proof.
  induction 1 as [|l ls [Hl Hn] _ IH]; [done|]. simpl.
  rewrite string_app_assoc, string_app_cons, scan_lines_cons by done.
  destruct (Z.leb_spec MaxScanTokenSize (Z.of_nat (String.length l))); [lia|]. by rewrite IH.
Qed.

Lemma dropCR_quoted s : dropCR (s +:+ dquote) = s +:+ dquote.
Proof.
  induction s as [|c s IH]; [done|]. rewrite string_app_cons. cbn [dropCR]. rewrite IH.
  by destruct s.
Qed.

Lemma TrimRight_app_cut s c cutset :
  in_cutset c cutset = true ->
  TrimRight (s +:+ String c EmptyString) cutset = TrimRight s cutset.
Proof. intros Hc. induction s as [|d s IH]; simpl; [by rewrite Hc|]. by rewrite IH. Qed.

Lemma Trim_quoted v :
  TrimLeft v quotes_and_space = v -> TrimRight v quotes_and_space = v ->
  Trim (dquote +:+ v +:+ dquote) quotes_and_space = v.
Proof.
  intros Hl Hr. unfold Trim.
  change (TrimLeft (dquote +:+ v +:+ dquote) quotes_and_space)
    with (TrimLeft (v +:+ dquote) quotes_and_space).
  destruct v as [|c v]; [done|]. rewrite string_app_cons. cbn [TrimLeft] in *.
  destruct (in_cutset c quotes_and_space) eqn:E.
  - exfalso. assert (forall s, (String.length (TrimLeft s quotes_and_space) <= String.length s)%nat)
      as Hlen by (clear; induction s as [|d s IH]; simpl; [done|]; case_match; simpl; lia).
    specialize (Hlen v). rewrite Hl in Hlen. simpl in Hlen. lia.
  - rewrite <- string_app_cons. unfold dquote. by rewrite TrimRight_app_cut.
Qed.

(** With no equals sign in either key the prefix matches only its own key. *)
Lemma CutPrefix_key key k after :
  lacks "="%char key = true -> lacks "="%char k = true ->
  CutPrefix (k +:+ "=" +:+ after) (key +:+ "=") =
    if decide (k = key) then Some after else None.
Proof.
  revert k. induction key as [|c key IH]; intros [|d k] Hkey Hk; cbn -[Ascii.eqb lacks]; try done.
  - rewrite lacks_cons, andb_true_iff, negb_true_iff in Hk. destruct Hk as [Hd _].
    by rewrite Ascii.eqb_sym, Hd.
  - rewrite lacks_cons, andb_true_iff, negb_true_iff in Hkey. by destruct Hkey as [-> _].
  - rewrite lacks_cons, andb_true_iff in Hkey, Hk. destruct Hkey as [_ Hkey], Hk as [_ Hk].
    destruct (Ascii.eqb_spec c d) as [->|Hne].
    + rewrite IH by done. do 2 case_decide; congruence.
    + case_decide; congruence.
Qed.

Lemma fold_scan_line key ls v :
  fold_left (Linux.scan_line key) ls v =
    match last (omap (fun l => CutPrefix l (key +:+ "=")) ls) with
    | Some after => Trim after quotes_and_space
    | None => v
    end.
Proof.
  revert v. induction ls as [|l ls IH]; intros v; [done|]. simpl. rewrite IH.
  unfold Linux.scan_line. destruct (CutPrefix l (key +:+ "=")) as [a|]; [|done].
  rewrite last_cons. by destruct (last _).
Qed.

Lemma scan_file_last key content :
  Linux.scan_file key content = last_assignment key (scan_lines content).
Proof.
  unfold Linux.scan_file, last_assignment. rewrite fold_scan_line. by destruct (last _).
Qed.

Lemma entry_ok_spec kv :
  entry_ok kv = true ->
  lacks "="%char kv.1 = true /\
  (lacks newline (render_line kv) = true /\
   Z.of_nat (String.length (render_line kv)) < MaxScanTokenSize) /\
  TrimLeft kv.2 quotes_and_space = kv.2 /\ TrimRight kv.2 quotes_and_space = kv.2.
Proof.
  unfold entry_ok. rewrite !andb_true_iff, !String.eqb_eq, Z.ltb_lt.
  intros [[[[[He Hk] Hv] Hl] Hr] Hn]. split_and!; try done.
  unfold render_line. rewrite !lacks_app, Hk, Hv. done.
Qed.

(** An entry's own line gives back its value to its own key only. *)
Lemma render_line_cut key kv :
  lacks "="%char key = true -> lacks "="%char kv.1 = true ->
  CutPrefix (dropCR (render_line kv)) (key +:+ "=") =
    if decide (kv.1 = key) then Some (dquote +:+ kv.2 +:+ dquote) else None.
Proof.
  intros Hkey Hk. unfold render_line.
  rewrite <- !string_app_assoc, dropCR_quoted, !string_app_assoc. by apply CutPrefix_key.
Qed.

Lemma rendered_assignments key kvs :
  lacks "="%char key = true -> forallb entry_ok kvs = true ->
  omap (fun l => CutPrefix l (key +:+ "=")) (map dropCR (render_line <$> kvs)) =
    (fun kv => dquote +:+ kv.2 +:+ dquote) <$> filter (fun kv => kv.1 = key) kvs.
Proof.
  intros Hkey. induction kvs as [|kv kvs IH]; [done|]. simpl.
  rewrite andb_true_iff. intros [(Hk & _)%entry_ok_spec Hkvs].
  rewrite render_line_cut by done. case_decide; [rewrite filter_cons_True by done; simpl; f_equal|
    rewrite filter_cons_False by done]; auto.
Qed.

(** What the scanner sees of a file that has a line too long for its buffer. *)
Lemma scan_lines_too_long ls long rest :
  Forall (fun l => lacks newline l = true /\ Z.of_nat (String.length l) < MaxScanTokenSize) ls ->
  lacks newline long = true -> MaxScanTokenSize <= Z.of_nat (String.length long) ->
  scan_lines (unlines ls +:+ (long +:+ String newline rest)) = map dropCR ls.
Proof.
  intros Hls Hl Hn. rewrite scan_lines_unlines, scan_lines_cons by done.
  destruct (Z.leb_spec MaxScanTokenSize (Z.of_nat (String.length long))); [|lia]. by rewrite app_nil_r.
Qed.

(** Equal strings split alike at their last opening parenthesis. *)
Lemma last_paren_inj a b x y :
  lacks "("%char x = true -> lacks "("%char y = true ->
  a +:+ String "("%char x = b +:+ String "("%char y -> a = b /\ x = y.
Proof.
  intros Hx Hy. revert b.
  assert (forall s t u, lacks "("%char s = true -> s = t +:+ String "("%char u -> False) as Hno.
  { intros s t u Hs ->. rewrite lacks_app, lacks_cons, andb_true_iff in Hs. by destruct Hs. }
  induction a as [|c a IH]; intros [|d b] H; [by inversion H| | |].
  - inversion H as [[Hc Ht]]. exfalso. eapply Hno; [apply Hx|apply Ht].
  - inversion H as [[Hc Ht]]. exfalso. symmetry in Ht. eapply Hno; [apply Hy|apply Ht].
  - rewrite !string_app_cons in H. injection H as Hcd [-> ->]%IH. by subst.
Qed.

Lemma digits_lack c s : is_digit c = false -> all_chars is_digit s = true -> lacks c s = true.
Proof.
  intros Hc. apply all_chars_impl. intros d Hd. by rewrite (is_digit_ne d c).
Qed.

Lemma Itoa_nonneg n : 0 <= n -> Itoa n = FormatUint n 10.
Proof. intros Hn. unfold Itoa, FormatInt. by case_bool; [lia|]. Qed.

(** What comes after the build number in the text. *)
Definition ubr_text (ubr : Z) : string :=
  if 0 <? ubr then "." +:+ Itoa ubr +:+ ")" else ")".

Definition build_text (build ubr : Z) : string := "OS Build " +:+ Itoa build +:+ ubr_text ubr.

Definition name_text (server : bool) (version : string) : string :=
  "Microsoft Windows" +:+ (if server then " Server" else EmptyString) +:+
  (if String.eqb version EmptyString then EmptyString else " Version " +:+ version) +:+ " ".

Lemma windowsOSRelease_String_parts r :
  Windows.windowsOSRelease_String r =
    name_text (Windows.IsServer r) (Windows.DisplayVersion r) +:+
    String "("%char (build_text (Windows.Build r) (Windows.UBR r)).
Proof.
  unfold Windows.windowsOSRelease_String, name_text, build_text, ubr_text.
  destruct (Windows.IsServer r), (String.eqb (Windows.DisplayVersion r) EmptyString),
    (0 <? Windows.UBR r); cbn [negb]; by rewrite ?string_app_assoc.
Qed.

Lemma build_text_lacks build ubr :
  0 <= build -> 0 <= ubr -> lacks "("%char (build_text build ubr) = true.
Proof.
  intros Hb Hu. unfold build_text, ubr_text. rewrite !lacks_app, Itoa_nonneg by done.
  rewrite (digits_lack _ (FormatUint build 10)) by (try done; by apply FormatUint_digits).
  case_bool; [|done]. rewrite !lacks_app, Itoa_nonneg by done.
  by rewrite (digits_lack _ (FormatUint ubr 10)) by (try done; by apply FormatUint_digits).
Qed.

Lemma ubr_text_not_digit ubr : starts_with_digit (ubr_text ubr) = false.
Proof. unfold ubr_text. by case_bool. Qed.

Lemma ubr_text_inj u v : 0 <= u -> 0 <= v -> ubr_text u = ubr_text v -> u = v.
Proof.
  intros Hu Hv. unfold ubr_text. do 2 case_bool; try done; [|lia].
  intros E. simpl in E. injection E as E. rewrite !Itoa_nonneg in E by done.
  apply (f_equal (scan_digits 0)) in E. rewrite !scan_digits_FormatUint in E by done. congruence.
Qed.

Lemma build_text_inj b u b' u' :
  0 <= b -> 0 <= u -> 0 <= b' -> 0 <= u' ->
  build_text b u = build_text b' u' -> b = b' /\ u = u'.
Proof.
  intros Hb Hu Hb' Hu' E. unfold build_text in E. simpl in E. injection E as E.
  rewrite !Itoa_nonneg in E by done. apply (f_equal (scan_digits 0)) in E.
  rewrite !scan_digits_FormatUint in E by (done || apply ubr_text_not_digit).
  injection E as -> E. split; [done|]. by apply ubr_text_inj.
Qed.

Lemma string_app_inv_tail (s t u : string) : s +:+ u = t +:+ u -> s = t.
Proof.
  assert (forall a b : string, String.length (a +:+ b) = (String.length a + String.length b)%nat)
    as Hlen by (clear; induction a; intros; simpl; [done|]; f_equal; auto).
  revert t. induction s as [|c s IH]; intros [|d t] E; [done| | |].
  - apply (f_equal String.length) in E. rewrite !Hlen in E. simpl in E. lia.
  - apply (f_equal String.length) in E. rewrite !Hlen in E. simpl in E. lia.
  - rewrite !string_app_cons in E. injection E as -> E. f_equal. auto.
Qed.

Lemma name_text_inj s v s' v' : name_text s v = name_text s' v' -> s = s' /\ v = v'.
Proof.
  unfold name_text. rewrite <- !string_app_assoc. intros E%string_app_inv_tail.
  rewrite !string_app_assoc in E. simpl in E.
  repeat (injection E as E).
  destruct s, s', (String.eqb_spec v EmptyString), (String.eqb_spec v' EmptyString);
    simpl in E; inversion E; split; congruence.
Qed.

(** ** Properties *)

(** C22: os-release round trip. From a file that renders a list of entries, the
    parser returns for every key the value of its last entry, quotes removed,
    and the empty string for a key without one. *)
Theorem os_release_roundtrip Open IsNotExist key kvs :
  lacks "="%char key = true -> forallb entry_ok kvs = true ->
  Open Linux.etcOsRelease = Ok (unlines (render_line <$> kvs)) ->
  Linux.getValueFromOsRelease Open IsNotExist key = Ok (last_entry key kvs).
Proof.
  intros Hkey Hkvs Ho. unfold Linux.getValueFromOsRelease. rewrite Ho, scan_file_last.
  rewrite <- (string_app_nil_r (unlines _)), scan_lines_unlines.
  - unfold last_assignment, last_entry. change (scan_lines EmptyString) with (@nil string).
    rewrite app_nil_r, rendered_assignments, fmap_last by done.
    destruct (last _) as [kv|] eqn:E; [|done]. simpl. do 2 f_equal.
    apply last_Some_elem_of, list_elem_of_filter in E as [_ E].
    rewrite forallb_forall in Hkvs. apply list_elem_of_In, Hkvs, entry_ok_spec in E.
    destruct E as (_ & _ & Hl & Hr). by apply Trim_quoted.
  - apply Forall_fmap, Forall_forall. intros kv Hkv. rewrite forallb_forall in Hkvs.
    by apply list_elem_of_In, Hkvs, entry_ok_spec in Hkv as (_ & ? & _).
Qed.

(** A file system with one file. *)
Definition only_file (name content : string) (path : string) : result string :=
  if String.eqb path name then Ok content else Err (Errno 2).

Definition is_ENOENT (e : error) : bool := bool_decide (e = Errno 2).

Definition sample_entries : list (string * string) :=
  [("NAME", "Ubuntu"); ("VERSION_ID", "14.04"); ("PRETTY_NAME", "Ubuntu 14.04 LTS");
   ("VERSION_ID", "18.04"); ("HOME_URL", "http://www.ubuntu.com/?a=b")].

Lemma os_release_roundtrip_witness :
  Linux.getValueFromOsRelease
    (only_file Linux.etcOsRelease (unlines (render_line <$> sample_entries))) is_ENOENT
    "VERSION_ID" = Ok "18.04".
Proof.
  apply (os_release_roundtrip
    (only_file Linux.etcOsRelease (unlines (render_line <$> sample_entries))) is_ENOENT
    "VERSION_ID" sample_entries); vm_compute; reflexivity.
Defined.

(** C39: the Linux operating system name on every outcome of the two opens. The
    second file is opened only when the first does not exist; an error of the
    file that decides is returned; otherwise the name is the last PRETTY_NAME
    of the lines the scanner delivers, or Linux, and never empty. *)
Theorem GetOperatingSystem_linux (Open : string -> result string) (IsNotExist : error -> bool) :
  let opened : result string :=
    match Open Linux.etcOsRelease with
    | Ok content => Ok content
    | Err err => if IsNotExist err then Open Linux.altOsRelease else Err err
    end in
  match opened with
  | Err err => Linux.GetOperatingSystem Open IsNotExist = Err err
  | Ok content =>
      exists name, Linux.GetOperatingSystem Open IsNotExist = Ok name /\ name <> EmptyString /\
        let assigned := last_assignment "PRETTY_NAME" (scan_lines content) in
        (assigned = EmptyString /\ name = "Linux" \/ assigned = name)
  end.
Proof.
  unfold Linux.GetOperatingSystem, Linux.getValueFromOsRelease.
  destruct (Open Linux.etcOsRelease) as [c|e]; [|destruct (IsNotExist e)]; cbn [negb];
    [|destruct (Open Linux.altOsRelease) as [c|]|]; try done;
    rewrite scan_file_last; destruct (String.eqb_spec (last_assignment "PRETTY_NAME" (scan_lines c))
      EmptyString) as [E|E]; cbn [negb]; eauto 10.
Qed.

(** C40: an os-release line that does not fit the scanner's 64 KiB buffer hides
    everything after it. The assignments before it still count, no error is
    returned, and the value does not depend on the rest of the file. *)
Theorem os_release_long_line_hides Open IsNotExist key ls long rest :
  Forall (fun l => lacks newline l = true /\ Z.of_nat (String.length l) < MaxScanTokenSize) ls ->
  lacks newline long = true -> MaxScanTokenSize <= Z.of_nat (String.length long) ->
  Open Linux.etcOsRelease = Ok (unlines ls +:+ (long +:+ String newline rest)) ->
  Linux.getValueFromOsRelease Open IsNotExist key = Ok (last_assignment key (map dropCR ls)).
Proof.
  intros Hls Hl Hn Ho. unfold Linux.getValueFromOsRelease.
  by rewrite Ho, scan_file_last, scan_lines_too_long.
Qed.

Fixpoint repeat_char (n : nat) (c : ascii) : string :=
  match n with O => EmptyString | S n' => String c (repeat_char n' c) end.

Definition long_comment : string := repeat_char (Z.to_nat MaxScanTokenSize) "#"%char.

Lemma os_release_long_line_hides_witness :
  let content := unlines ["VERSION_ID=1"] +:+ (long_comment +:+ String newline "VERSION_ID=2") in
  Linux.getValueFromOsRelease (only_file Linux.etcOsRelease content) is_ENOENT "VERSION_ID" = Ok "1".
Proof.
  intros content.
  refine (os_release_long_line_hides (only_file Linux.etcOsRelease content) is_ENOENT
            "VERSION_ID" ["VERSION_ID=1"] long_comment "VERSION_ID=2" _ _ _ _).
  - repeat constructor.
  - vm_compute. reflexivity.
  - apply Z.leb_le. vm_compute. reflexivity.
  - reflexivity.
Defined.

(** the container test. The answer is true exactly when /proc/1/cgroup can
    be read and has a non-empty line that ends neither in ":/" nor in
    ":/init.scope"; a failed read gives false with its error. *)
Theorem IsContainerized_linux ReadFile :
  ((Linux.IsContainerized ReadFile).1 = true <->
     exists b line, ReadFile Linux.proc1Cgroup = Ok b /\ line ∈ Split b newline /\
       line <> EmptyString /\ (forall p, line <> p +:+ ":/") /\
       (forall p, line <> p +:+ ":/init.scope")) /\
  ((Linux.IsContainerized ReadFile).2 =
     match ReadFile Linux.proc1Cgroup with Ok _ => None | Err err => Some err end).
Proof.
  unfold Linux.IsContainerized.
  destruct (ReadFile Linux.proc1Cgroup) as [b|e]; [|split; [split|]; try done; by intros (? & ? & ? & _)].
  split; [|done]. cbn [fst]. rewrite existsb_exists. split.
  - intros (line & Hin%list_elem_of_In & Hf). exists b, line. unfold Linux.foreign_line in Hf.
    rewrite !andb_true_iff, !negb_true_iff, Z.ltb_lt in Hf. destruct Hf as [[Hn H1] H2].
    split_and!; [done|done|by intros ->|..]; intros p ->;
      [contradict H1|contradict H2]; apply not_false_iff_true, HasSuffix_spec; eauto.
  - intros (b' & line & [= <-] & Hin & Hn & H1 & H2). exists line.
    split; [by apply list_elem_of_In|]. unfold Linux.foreign_line.
    rewrite !andb_true_iff, !negb_true_iff, Z.ltb_lt, <- !not_true_iff_false, !HasSuffix_spec.
    split_and!; [|naive_solver..]. destruct line; [done|]. simpl. lia.
Qed.

(** the Windows release text loses nothing. Two releases with unsigned
    build and revision numbers and the same text are the same, whatever the
    display version contains. *)
Theorem windowsOSRelease_String_injective r r' :
  0 <= Windows.Build r -> 0 <= Windows.UBR r -> 0 <= Windows.Build r' -> 0 <= Windows.UBR r' ->
  Windows.windowsOSRelease_String r = Windows.windowsOSRelease_String r' -> r = r'.
Proof.
  intros Hb Hu Hb' Hu'. rewrite !windowsOSRelease_String_parts.
  intros [[Hs Hv]%name_text_inj Hbu]%last_paren_inj; [|by apply build_text_lacks..].
  apply build_text_inj in Hbu as [Hb2 Hu2]; [|done..].
  destruct r, r'. simpl in *. congruence.
Qed.

Lemma windowsOSRelease_String_injective_witness :
  Windows.windowsOSRelease_String (Windows.mkwindowsOSRelease true "21H2 (OS Build 1)" 20348 0) <>
  Windows.windowsOSRelease_String (Windows.mkwindowsOSRelease true "21H2" 1 20348).
Proof.
  intros E. apply windowsOSRelease_String_injective in E; [discriminate E|..]; cbv; discriminate.
Defined.
