(* ===== verification/OsVersion.v ===== *)
(** * pkg/osversion: the Windows version and container compatibility

    osversion_windows.go with its sync.Once, windowsbuilds.go and
    platform_compat_windows.go, and the one client pkg/os has of them,
    GetOperatingSystemVersion of operatingsystem_windows.go. The answers of
    RtlGetVersion and of the registry are arguments. *)

From S2P Require Import Prelude GoStrings KernelWindows OperatingSystem.
From Stdlib Require Import Sorted.

(** ** windowsbuilds.go *)

Definition RS1 : Z := 14393.
Definition V1607 : Z := RS1.
Definition LTSC2016 : Z := RS1.
Definition RS2 : Z := 15063.
Definition V1703 : Z := RS2.
Definition RS3 : Z := 16299.
Definition V1709 : Z := RS3.
Definition RS4 : Z := 17134.
Definition V1803 : Z := RS4.
Definition RS5 : Z := 17763.
Definition V1809 : Z := RS5.
Definition LTSC2019 : Z := RS5.
Definition V19H1 : Z := 18362.
Definition V1903 : Z := V19H1.
Definition V19H2 : Z := 18363.
Definition V1909 : Z := V19H2.
Definition V20H1 : Z := 19041.
Definition V2004 : Z := V20H1.
Definition V20H2 : Z := 19042.
Definition V21H1 : Z := 19043.
Definition V21H2Win10 : Z := 19044.
Definition V21H2Server : Z := 20348.
Definition LTSC2022 : Z := V21H2Server.
Definition V21H2Win11 : Z := 22000.
Definition V22H2Win10 : Z := 19045.
Definition V22H2Win11 : Z := 22621.
Definition V23H2 : Z := 25398.
Definition V25H1Server : Z := 26100.
Definition LTSC2025 : Z := V25H1Server.

(** ** osversion_windows.go *)

Record OSVersion : Type := mkOSVersion {
  Version : Z;
  MajorVersion : Z;
  MinorVersion : Z;
  Build : Z
}.

#[global] Instance OSVersion_eta : RecordEta OSVersion :=
  fconst mkOSVersion <*> Version <*> MajorVersion <*> MinorVersion <*> Build.

(** The package variables [osv] and [once]. *)
Record osv_globals : Type := mkosv_globals {
  osv : OSVersion;
  once_done : bool
}.

Definition osv_init : osv_globals := mkosv_globals (mkOSVersion 0 0 0 0) false.

(** The function once.Do runs; [v] is the answer of RtlGetVersion. *)
Definition read_version (v : Windows.OsVersionInfoEx) : OSVersion :=
  let o := mkOSVersion 0 0 0 0 in
  let o := o <| MajorVersion := wrap_u 8 (Windows.MajorVersion v) |> in
  let o := o <| MinorVersion := wrap_u 8 (Windows.MinorVersion v) |> in
  let o := o <| Build := wrap_u 16 (Windows.BuildNumber v) |> in
  let o := o <| Version := wrap_u 32 (Z.shiftl (Windows.BuildNumber v) 16) |> in
  let o := o <| Version := Z.lor (Version o) (wrap_u 32 (Z.shiftl (Windows.MinorVersion v) 8)) |> in
  o <| Version := Z.lor (Version o) (Windows.MajorVersion v) |>.

Definition Get (v : Windows.OsVersionInfoEx) (g : osv_globals) : OSVersion * osv_globals :=
  let g := if once_done g then g else mkosv_globals (read_version v) true in
  (osv g, g).

Definition Build_of_host (v : Windows.OsVersionInfoEx) (g : osv_globals) : Z * osv_globals :=
  let '(o, g) := Get v g in (Build o, g).

Definition OSVersion_String (o : OSVersion) : string :=
  Itoa (MajorVersion o) +:+ "." +:+ Itoa (MinorVersion o) +:+ "." +:+ Itoa (Build o).

Definition ToString (o : OSVersion) : string := OSVersion_String o.

(** fmt.Errorf with %w. *)
Definition wrap_error `{ErrnoOps} (prefix : string) (err : error) : error :=
  OtherError (prefix +:+ ": " +:+ error_Error err) None.

Definition BuildRevision `{ErrnoOps} (OpenKey : result (string -> result Z)) : Z * option error :=
  match OpenKey with
  | Err err => (0, Some (wrap_error "open `CurrentVersion` registry key" err))
  | Ok GetIntegerValue =>
      match GetIntegerValue "UBR" with
      | Err err => (0, Some (wrap_error "read `UBR` from registry" err))
      | Ok s => (wrap_u 32 s, None)
      end
  end.

(** operatingsystem_windows.go. *)
Definition GetOperatingSystemVersion (v : Windows.OsVersionInfoEx) (g : osv_globals)
    : result string * osv_globals :=
  let '(o, g) := Get v g in (Ok (ToString o), g).

(** ** platform_compat_windows.go *)

Definition compatLTSCReleases : list Z := [LTSC2022; LTSC2025].

(** The loop over the releases, from the last to the first, with its break. *)
Fixpoint supported_loop (build : Z) (releases : list Z) (supportedLTSCRelease : Z) : Z :=
  match releases with
  | [] => supportedLTSCRelease
  | r :: rs => if r <? build then r else supported_loop build rs supportedLTSCRelease
  end.

Definition CheckHostAndContainerCompat (host ctr : OSVersion) : bool :=
  if negb (MajorVersion host =? MajorVersion ctr) || negb (MinorVersion host =? MinorVersion ctr)
  then false
  else if Build host <? LTSC2022 then Build host =? Build ctr
  else
    let supportedLTSCRelease := supported_loop (Build host) (rev compatLTSCReleases) LTSC2022 in
    (supportedLTSCRelease <=? Build ctr) && (Build ctr <=? Build host).

(** ** Lemmas *)

(** On releases in descending order the loop finds the greatest one below the
    build. *)
Lemma supported_loop_bound build releases d b :
  StronglySorted (fun r s => s < r) releases ->
  (forall r, r ∈ releases -> d <= r) ->
  d <= build -> d <= b ->
  (supported_loop build releases d <= b <->
   forall r, r ∈ releases -> r < build -> r <= b).
Proof.
  induction 1 as [|r rs Hs IH Hr]; intros Hd Hdb Hb; cbn [supported_loop].
  - split; [intros _ r Hr; by apply not_elem_of_nil in Hr|done].
  - destruct (Z.ltb_spec r build) as [Hlt|Hge].
    + split; [|intros H; apply H; [apply list_elem_of_here|done]].
      intros Hrb s [->|Hsin]%elem_of_cons _; [done|].
      rewrite Forall_forall in Hr. specialize (Hr s Hsin). lia.
    + rewrite IH; [|intros s Hs'; apply Hd; by apply elem_of_cons; right|done|done].
      split; intros H s; [intros [->|?]%elem_of_cons ?; [lia|by apply H]|].
      intros Hin ?. apply H; [by apply elem_of_cons; right|done].
Qed.

Lemma supported_loop_lower build releases d :
  (forall r, r ∈ releases -> d <= r) -> d <= supported_loop build releases d.
Proof.
  induction releases as [|r rs IH]; cbn [supported_loop]; intros H; [lia|]. case_bool.
  - apply H, list_elem_of_here.
  - apply IH. intros s Hs. apply H. by apply elem_of_cons; right.
Qed.

Lemma compat_sorted : StronglySorted (fun r s => s < r) (rev compatLTSCReleases).
Proof. repeat constructor. Qed.

Lemma compat_lower r : r ∈ rev compatLTSCReleases -> LTSC2022 <= r.
Proof. intros [->|[->|[]%not_elem_of_nil]%elem_of_cons]%elem_of_cons; cbv; congruence. Qed.

(** Fields put side by side with shifts and lor add up. *)
Lemma lor_shiftl_add hi lo n :
  0 <= n -> 0 <= lo < 2 ^ n -> Z.lor (Z.shiftl hi n) lo = hi * 2 ^ n + lo.
Proof.
  intros Hn Hlo.
  assert (Z.land (Z.shiftl hi n) lo = 0) as Hdisj.
  { apply Z.bits_inj'. intros i Hi. rewrite Z.land_spec, Z.bits_0.
    destruct (Z.ltb_spec i n); [by rewrite Z.shiftl_spec_low|].
    rewrite <- (Z.mod_small lo (2 ^ n)), Z.mod_pow2_bits_high by lia. apply andb_false_r. }
  rewrite <- Z.shiftl_mul_pow2 by done. rewrite Z.add_nocarry_lxor by done.
  symmetry. by apply Z.lxor_lor.
Qed.

(** The packed word, when the two version numbers fit a byte. *)
Lemma read_version_packed v :
  uint 32 (Windows.BuildNumber v) -> uint 8 (Windows.MajorVersion v) ->
  uint 8 (Windows.MinorVersion v) ->
  Version (read_version v) =
    (Windows.BuildNumber v mod 2 ^ 16) * 2 ^ 16 + Windows.MinorVersion v * 2 ^ 8 +
    Windows.MajorVersion v.
Proof.
  intros Hb Hm Hn.
  change (Version (read_version v)) with
    (Z.lor (Z.lor (wrap_u 32 (Z.shiftl (Windows.BuildNumber v) 16))
                  (wrap_u 32 (Z.shiftl (Windows.MinorVersion v) 8))) (Windows.MajorVersion v)).
  unfold wrap_u, uint in *. rewrite !Z.shiftl_mul_pow2 by lia.
  change (2 ^ 32) with (2 ^ 16 * 2 ^ 16) at 1. rewrite Zmult_mod_distr_r.
  rewrite (Z.mod_small (Windows.MinorVersion v * 2 ^ 8)) by lia.
  rewrite <- Z.lor_assoc, <- !Z.shiftl_mul_pow2 by lia.
  rewrite (lor_shiftl_add (Windows.MinorVersion v)) by lia.
  rewrite lor_shiftl_add, !Z.shiftl_mul_pow2 by lia. apply Z.add_assoc.
Qed.

(** ** Properties *)

(** The versions a series of calls returns, one RtlGetVersion answer for each. *)
Fixpoint Get_calls (vs : list Windows.OsVersionInfoEx) (g : osv_globals) : list OSVersion :=
  match vs with
  | [] => []
  | v :: vs' => let '(o, g') := Get v g in o :: Get_calls vs' g'
  end.

Lemma Get_calls_done vs g :
  once_done g = true -> Get_calls vs g = repeat (osv g) (length vs).
Proof.
  intros Hd. induction vs as [|v vs IH]; [done|]. cbn [Get_calls Get]. unfold Get. rewrite Hd.
  cbn [length repeat]. by f_equal.
Qed.

(** C38: sync.Once. In a series of calls of Get from the start of the program
    only the first answer of RtlGetVersion is used: every call returns the
    version read by the first one. The packed Version word of that version,
    decoded as GetVersion's is, gives back its three fields when the version
    numbers fit a byte, also for a build number that does not fit 16 bits. *)
Theorem Get_once_packed v vs :
  Get_calls (v :: vs) osv_init = repeat (read_version v) (S (length vs)) /\
  (uint 32 (Windows.BuildNumber v) -> uint 8 (Windows.MajorVersion v) ->
   uint 8 (Windows.MinorVersion v) ->
   let o := read_version v in
   dw_major (Version o) = MajorVersion o /\ dw_minor (Version o) = MinorVersion o /\
   dw_build (Version o) = Build o /\
   MajorVersion o = Windows.MajorVersion v /\ MinorVersion o = Windows.MinorVersion v).
Proof.
  split; [cbn [Get_calls Get once_done osv_init repeat]; f_equal; by rewrite Get_calls_done|].
  intros Hb Hm Hn o. pose proof (read_version_packed v Hb Hm Hn) as Hp. fold o in Hp.
  assert (uint 32 (Version o)) as Hu
    by (rewrite Hp; unfold uint in *; Z.div_mod_to_equations; lia).
  destruct (dw_fields _ Hu) as (-> & -> & ->). rewrite Hp.
  change (MajorVersion o) with (wrap_u 8 (Windows.MajorVersion v)).
  change (MinorVersion o) with (wrap_u 8 (Windows.MinorVersion v)).
  change (Build o) with (wrap_u 16 (Windows.BuildNumber v)).
  clear o Hp Hu. unfold uint, wrap_u in *. split_and!; Z.div_mod_to_equations; lia.
Qed.

Lemma Get_once_packed_witness :
  Get_calls [Windows.mkOsVersionInfoEx 10 0 20348 3; Windows.mkOsVersionInfoEx 6 1 7601 1] osv_init =
    repeat (mkOSVersion 0x4F7C000A 10 0 20348) 2 /\
  dw_build 0x4F7C000A = 20348.
Proof.
  split.
  - apply (Get_once_packed (Windows.mkOsVersionInfoEx 10 0 20348 3)).
  - apply (Get_once_packed (Windows.mkOsVersionInfoEx 10 0 20348 3) []);
      vm_compute; intuition congruence.
Defined.

(** C37: container compatibility. A host runs a container exactly when the
    major and minor versions agree and, before Windows Server 2022, the builds
    are equal, and from it on, the container is not newer than the host and
    not older than any stable-ABI release older than the host, nor than Server
    2022 itself. *)
Theorem CheckHostAndContainerCompat_spec host ctr :
  CheckHostAndContainerCompat host ctr = true <->
  MajorVersion host = MajorVersion ctr /\ MinorVersion host = MinorVersion ctr /\
  (Build host < LTSC2022 /\ Build ctr = Build host \/
   LTSC2022 <= Build host /\ LTSC2022 <= Build ctr <= Build host /\
   forall r, r ∈ compatLTSCReleases -> r < Build host -> r <= Build ctr).
Proof.
  unfold CheckHostAndContainerCompat.
  destruct (Z.eqb_spec (MajorVersion host) (MajorVersion ctr)); cbn [negb orb]; [|naive_solver].
  destruct (Z.eqb_spec (MinorVersion host) (MinorVersion ctr)); cbn [negb]; [|naive_solver].
  destruct (Z.ltb_spec (Build host) LTSC2022) as [Hlt|Hge].
  - rewrite Z.eqb_eq. split; [naive_solver|]. intros (_ & _ & [[_ ->]|[? _]]); [done|lia].
  - rewrite andb_true_iff, !Z.leb_le. setoid_rewrite list_elem_of_In. setoid_rewrite in_rev.
    setoid_rewrite <- list_elem_of_In.
    pose proof (supported_loop_lower (Build host) _ LTSC2022 compat_lower) as Hlow. split.
    + intros [Hs Hc]. assert (LTSC2022 <= Build ctr) as Hl by lia. split_and!; [done..|right].
      split_and!; try done.
      by apply (proj1 (supported_loop_bound _ _ _ _ compat_sorted compat_lower Hge Hl)).
    + intros (_ & _ & [?|(_ & [? ?] & Hr)]); [lia|]. split; [|done].
      apply supported_loop_bound; auto using compat_sorted, compat_lower.
Qed.
