(* ===== verification/HttpStat.v ===== *)
(** * cmd/httpstat: the command's helpers

    The functions of cmd/httpstat/main.go that visit and main are made of:
    header flags, the order in which response headers are printed, URL and
    header parsing, request construction and the choice of the output file.
    Byte strings stand for Go strings; strings.EqualFold and the header
    canonicalisation are those of ASCII text.

    net/url, mime and the constructor http.NewRequest are arguments; a program
    exit (log.Fatal, os.Exit) is an outcome of type [cli]. *)

From stdpp Require Import sorting.
From S2P Require Import Prelude GoStrings.

(** ** Exits *)

(** log.Fatalf prints a message and exits with status 1; os.Exit exits. *)
Inductive cli (A : Type) : Type :=
| Done (a : A)
| Fatal (msg : string)
| Exit (code : Z).
Arguments Done {A} a.
Arguments Fatal {A} msg.
Arguments Exit {A} code.

Definition cli_bind {A B : Type} (m : cli A) (f : A -> cli B) : cli B :=
  match m with
  | Done a => f a
  | Fatal msg => Fatal msg
  | Exit code => Exit code
  end.

Declare Scope cli_scope.
Delimit Scope cli_scope with cli.
Notation "'do' x <- m ; k" := (cli_bind m (fun x => k))
  (at level 100, x pattern, m at level 99, k at level 100, right associativity) : cli_scope.

(** ** The flag type for -H and the order of header names *)

Definition headers : Type := slice string.

Definition headers_String (h : headers) : string :=
  Join (elems (fold_left (fun o v => append o ("-H " +:+ v)) (elems h) None)) " ".

Definition headers_Set (h : headers) (v : string) : headers * option error := (append h v, None).

Definition headers_Len (h : list string) : Z := Z.of_nat (length h).

(** An index out of range panics, here [None]. *)
Definition headers_Swap (h : list string) (i j : nat) : option (list string) :=
  match h !! i, h !! j with
  | Some a, Some b => Some (<[j := a]> (<[i := b]> h))
  | _, _ => None
  end.

Definition hop_by_hop : list string :=
  ["Connection"; "Keep-Alive"; "Proxy-Authenticate"; "Proxy-Authorization"; "TE"; "Trailers";
   "Transfer-Encoding"; "Upgrade"].

Definition endtoend (n : string) : bool := negb (existsb (String.eqb n) hop_by_hop).

(** The body of Less, on the two elements. *)
Definition less (a b : string) : bool :=
  if String.eqb a "Server" then true
  else if String.eqb b "Server" then false
  else
    let x := endtoend a in
    let y := endtoend b in
    if Bool.eqb x y then String.ltb a b else x.

Definition headers_Less (h : list string) (i j : nat) : option bool :=
  match h !! i, h !! j with
  | Some a, Some b => Some (less a b)
  | _, _ => None
  end.

(** sort.Sort as it runs on up to twelve elements: each element is swapped to
    the left while it is less than its neighbour. The sorted part is kept in
    reverse. *)
Fixpoint insert_left (x : string) (sorted : list string) : list string :=
  match sorted with
  | [] => [x]
  | y :: ys => if less x y then y :: insert_left x ys else x :: y :: ys
  end.

Definition sort_Sort (h : list string) : list string :=
  rev (fold_left (fun sorted x => insert_left x sorted) h []).

(** sort.IsSorted: no element is less than the one in front of it. *)
Fixpoint IsSorted (h : list string) : bool :=
  match h with
  | a :: ((b :: _) as t) => negb (less b a) && IsSorted t
  | _ => true
  end.

(** ** Header lines *)

(** strings.Index of a one-byte string: what precedes it and the rest from it
    on. *)
Fixpoint cut_before (h : string) (c : ascii) : option (string * string) :=
  match h with
  | EmptyString => None
  | String d h' =>
      if Ascii.eqb d c then Some (EmptyString, h)
      else match cut_before h' c with
           | Some (before, from) => Some (String d before, from)
           | None => None
           end
  end.

Definition headerKeyValue (h : string) : cli (string * string) :=
  match cut_before h ":"%char with
  | None => Fatal ("Header '" +:+ h +:+ "' has invalid format, missing ':'")
  | Some (before, from) => Done (TrimRight before " ", TrimLeft from " :")
  end.

Definition to_lower (c : ascii) : ascii :=
  let n := nat_of_ascii c in
  if (65 <=? n)%nat && (n <=? 90)%nat then ascii_of_nat (n + 32) else c.

Definition to_upper (c : ascii) : ascii :=
  let n := nat_of_ascii c in
  if (97 <=? n)%nat && (n <=? 122)%nat then ascii_of_nat (n - 32) else c.

Fixpoint string_map (f : ascii -> ascii) (s : string) : string :=
  match s with
  | EmptyString => EmptyString
  | String c s' => String (f c) (string_map f s')
  end.

(** strings.EqualFold on ASCII text. *)
Definition EqualFold (s t : string) : bool :=
  String.eqb (string_map to_lower s) (string_map to_lower t).

(** The bytes of a header field name. *)
Definition is_token_char (c : ascii) : bool :=
  let n := nat_of_ascii c in
  ((48 <=? n)%nat && (n <=? 57)%nat) || ((65 <=? n)%nat && (n <=? 90)%nat) ||
  ((97 <=? n)%nat && (n <=? 122)%nat) || in_cutset c "!#$%&'*+-.^_`|~".

(** textproto.CanonicalMIMEHeaderKey: upper case at the start and after each
    hyphen, lower case elsewhere; a name that is not a token is kept. *)
Fixpoint canonical_bytes (upper : bool) (s : string) : string :=
  match s with
  | EmptyString => EmptyString
  | String c s' =>
      String (if upper then to_upper c else to_lower c) (canonical_bytes (Ascii.eqb c "-"%char) s')
  end.

Definition CanonicalMIMEHeaderKey (s : string) : string :=
  if all_chars is_token_char s then canonical_bytes true s else s.

(** http.Header *)
Notation Header := (gmap string (list string)) (only parsing).

Definition Header_Add (h : Header) (key value : string) : Header :=
  let key := CanonicalMIMEHeaderKey key in
  <[key := default [] (h !! key) ++ [value]]> h.

Definition Header_Get (h : Header) (key : string) : string :=
  match h !! CanonicalMIMEHeaderKey key with
  | Some (v :: _) => v
  | _ => EmptyString
  end.

(** ** URLs, requests and responses *)

(** A url.URL: the two fields the program reads and writes, and the others. *)
Record URL {Rest : Type} : Type := mkURL {
  Scheme : string;
  Host : string;
  rest : Rest
}.
Arguments URL : clear implicits.
Arguments mkURL {Rest}.

#[global] Instance URL_eta {R : Type} : RecordEta (URL R) :=
  fconst mkURL <*> Scheme <*> Host <*> rest.

(** The io.Reader createBody returns. *)
Inductive reader : Type :=
| NewReader (s : string)
| OpenedFile (name : string).

Record Request {Rest : Type} : Type := mkRequest {
  Method : string;
  req_URL : URL Rest;
  req_Host : string;
  req_Header : Header;
  Body : reader
}.
Arguments Request : clear implicits.
Arguments mkRequest {Rest}.

#[global] Instance Request_eta {R : Type} : RecordEta (Request R) :=
  fconst mkRequest <*> Method <*> req_URL <*> req_Host <*> req_Header <*> Body.

Definition isRedirect (StatusCode : Z) : bool := (299 <? StatusCode) && (StatusCode <? 400).

(** path.Base: trailing slashes are removed, then everything up to the last
    slash. *)
Fixpoint after_last_slash (s : string) : string :=
  match s with
  | EmptyString => EmptyString
  | String c s' =>
      if Contains s "/" then after_last_slash s' else s
  end.

Definition path_Base (p : string) : string :=
  if String.eqb p EmptyString then "."
  else
    let b := after_last_slash (TrimRight p "/") in
    if String.eqb b EmptyString then "/" else b.

Section helpers.
Context {Rest : Type} `{EO : ErrnoOps}.
(** net/url: Parse and String. net/http: NewRequest. mime: ParseMediaType.
    os: Open and Create, of which only the error is used. *)
Context (Parse : string -> result (URL Rest)) (URL_String : URL Rest -> string)
  (NewRequest : string -> string -> reader -> result (Request Rest))
  (ParseMediaType : string -> result (string * gmap string string))
  (os_Open : string -> option error).

Definition parseURL (uri : string) : cli (URL Rest) :=
  let uri := if negb (Contains uri "://") && negb (HasPrefix uri "//") then "//" +:+ uri else uri in
  match Parse uri with
  | Err err => Fatal ("could not parse url " +:+ Quote uri +:+ ": " +:+ error_Error err)
  | Ok url =>
      Done (
        if String.eqb (Scheme url) EmptyString then
          let url := url <| Scheme := "http" |> in
          if negb (HasSuffix (Host url) ":80") then url <| Scheme := Scheme url +:+ "s" |> else url
        else url)
  end.

Definition createBody (body : string) : cli reader :=
  match body with
  | String "@"%char filename =>
      match os_Open filename with
      | Some err => Fatal ("failed to open data file " +:+ filename +:+ ": " +:+ error_Error err)
      | None => Done (OpenedFile filename)
      end
  | _ => Done (NewReader body)
  end.

(** The loop over the -H flags. *)
Fixpoint add_headers (hs : list string) (req : Request Rest) : cli (Request Rest) :=
  match hs with
  | [] => Done req
  | h :: hs' =>
      (do kv <- headerKeyValue h;
       let '(k, v) := kv in
       if EqualFold k "host" then add_headers hs' (req <| req_Host := v |>)
       else add_headers hs' (req <| req_Header := Header_Add (req_Header req) k v |>))%cli
  end.

Definition newRequest (httpHeaders : headers) (method : string) (url : URL Rest) (body : string)
    : cli (Request Rest) :=
  (do b <- createBody body;
   match NewRequest method (URL_String url) b with
   | Err err => Fatal ("unable to create request: " +:+ error_Error err)
   | Ok req => add_headers (elems httpHeaders) req
   end)%cli.

Definition getFilenameFromHeaders (h : Header) : string :=
  let hdr := Header_Get h "Content-Disposition" in
  if negb (String.eqb hdr EmptyString) then
    match ParseMediaType hdr with
    | Ok (mt, params) =>
        if String.eqb mt "attachment" then default EmptyString (params !! "filename") else EmptyString
    | Err _ => EmptyString
    end
  else EmptyString.

(** The name of the file readResponseBody creates, [None] when the body is
    discarded; [saveOutput] and [outputFile] are the flags -O and -o. *)
Definition output_filename (saveOutput : bool) (outputFile : string) (h : Header)
    (RequestURI : string) : cli (option string) :=
  if saveOutput || negb (String.eqb outputFile EmptyString) then
    let filename := outputFile in
    if saveOutput then
      let filename := getFilenameFromHeaders h in
      let filename := if String.eqb filename EmptyString then path_Base RequestURI else filename in
      if String.eqb filename "/" then
        Fatal "No remote filename; specify output filename with -o to save response body"
      else Done (Some filename)
    else Done (Some filename)
  else Done None.

(** The message about the body; [Create] is os.Create's error for the file and
    [Copy] that of io.Copy. *)
Definition readResponseBody (saveOutput : bool) (outputFile : string) (method : string)
    (StatusCode : Z) (h : Header) (RequestURI : string) (Create : string -> option error)
    (Copy : option error) : cli string :=
  if isRedirect StatusCode || String.eqb method "HEAD" then Done EmptyString
  else
    (do file <- output_filename saveOutput outputFile h RequestURI;
     match file with
     | None => Done "Body discarded"
     | Some filename =>
         match Create filename with
         | Some err => Fatal ("unable to create file " +:+ filename +:+ ": " +:+ error_Error err)
         | None =>
             match Copy with
             | Some err => Fatal ("failed to read response body: " +:+ error_Error err)
             | None => Done "Body read"
             end
         end
     end)%cli.

End helpers.

(** ** Specification: the printed order *)

(** Server, then the end-to-end headers, then the hop-by-hop ones. *)
Definition rank (n : string) : Z :=
  if String.eqb n "Server" then 0 else if endtoend n then 1 else 2.

Definition name_le (a b : string) : Prop :=
  rank a < rank b \/ (rank a = rank b /\ String.le a b).

#[global] Instance name_le_dec : RelDecision name_le.
Proof. intros a b. unfold name_le. apply _. Defined.

Definition of_rank (k : Z) (names : list string) : list string :=
  merge_sort String.le (filter (fun n => rank n = k) names).

(** The three groups, each in byte order. *)
Definition header_order (names : list string) : list string :=
  of_rank 0 names ++ of_rank 1 names ++ of_rank 2 names.

(** ** Lemmas: the printed order *)

Lemma ltb_leb a b : String.ltb a b = negb (String.leb b a).
Proof. unfold String.ltb, String.leb. rewrite String.compare_antisym. by destruct (String.compare b a). Qed.

#[global] Instance name_le_order : PartialOrder name_le.
Proof.
  split; [split|].
  - intros a. right. split; [done|reflexivity].
  - intros a b c [?|[? ?]] [?|[? ?]]; [left; lia..|right; split; [congruence|by etrans]].
  - intros a b [?|[? ?]] [?|[? ?]]; try lia. by apply (anti_symm String.le).
Qed.

Lemma rank_range n : 0 <= rank n <= 2.
Proof. unfold rank. repeat case_match; lia. Qed.

Lemma rank_Server n : rank n = 0 <-> n = "Server".
Proof.
  unfold rank. destruct (String.eqb_spec n "Server"); [done|]. split; [|done]. by case_match.
Qed.

(** On distinct names Less decides the order. *)
Lemma less_name_le a b : a <> b -> less a b = true <-> name_le a b.
Proof.
  intros Hne. unfold less, name_le, rank.
  destruct (String.eqb_spec a "Server") as [->|Ha], (String.eqb_spec b "Server") as [->|Hb];
    [done|split; [|done]; left; case_match; lia|split; [done|]; case_match; lia|].
  destruct (endtoend a), (endtoend b); cbn [Bool.eqb].
  2: { split; [left; lia|done]. }
  2: { split; [done|lia]. }
  all: rewrite ltb_leb, negb_true_iff; unfold String.le;
    destruct (String.leb b a) eqn:E; split; try done;
    [intros [?|[_ H]]; [lia|]; exfalso; apply Hne; apply String.leb_antisym; [|done]; by apply Is_true_true|
     intros _; right; split; [done|]; apply Is_true_true;
       by destruct (String.leb_total a b) as [|E']; [|rewrite E in E']].
Qed.

Lemma less_false_name_le a b : a <> b -> less a b = false -> name_le b a.
Proof.
  intros Hne H. apply less_name_le; [done|]. revert H. unfold less.
  destruct (String.eqb a "Server"); [done|]. destruct (String.eqb b "Server"); [done|].
  destruct (endtoend a), (endtoend b); cbn [Bool.eqb]; try done.
  all: rewrite !ltb_leb, negb_false_iff; intros H; apply negb_true_iff, not_true_iff_false;
    intros H'; by apply Hne, String.leb_antisym.
Qed.

Lemma IsSorted_Sorted h : NoDup h -> IsSorted h = true -> Sorted name_le h.
Proof.
  induction h as [|a h IH]; [by constructor|]. intros [Ha Hn]%NoDup_cons Hs.
  destruct h as [|b h]; [by repeat constructor|]. cbn [IsSorted] in Hs.
  apply andb_true_iff in Hs as [Hab%negb_true_iff Hs].
  constructor; [by apply IH|]. constructor. apply less_false_name_le; [|done].
  intros ->. apply Ha, list_elem_of_here.
Qed.

Lemma Sorted_IsSorted h : NoDup h -> Sorted name_le h -> IsSorted h = true.
Proof.
  induction h as [|a h IH]; [done|]. intros [Ha Hn]%NoDup_cons [Hs Hr]%Sorted_inv.
  destruct h as [|b h]; [done|]. cbn [IsSorted]. apply andb_true_iff. split; [|by apply IH].
  apply HdRel_inv in Hr. apply negb_true_iff, not_true_iff_false. intros Hl.
  assert (a <> b) as Hab by (intros ->; apply Ha, list_elem_of_here).
  apply less_name_le in Hl; [|done]. by apply Hab, (anti_symm name_le).
Qed.

Lemma insert_left_perm x l : insert_left x l ≡ₚ x :: l.
Proof.
  induction l as [|y l IH]; simpl; [done|]. case_match; [|done]. rewrite IH. apply Permutation_swap.
Qed.

Lemma insert_left_sorted x l :
  x ∉ l -> StronglySorted (flip name_le) l -> StronglySorted (flip name_le) (insert_left x l).
Proof.
  intros Hx. induction 1 as [|y l Hs IH Hy]; [by repeat constructor|]. cbn [insert_left].
  apply not_elem_of_cons in Hx as [Hxy Hx]. destruct (less x y) eqn:E.
  - constructor; [by apply IH|]. rewrite insert_left_perm. constructor; [|done].
    by apply less_name_le in E.
  - apply less_false_name_le in E; [|done]. constructor; [by constructor|].
    constructor; [done|]. eapply Forall_impl; [apply Hy|]. intros z Hz. simpl in *. by etrans.
Qed.

Lemma fold_insert_left l acc :
  NoDup (l ++ acc) -> StronglySorted (flip name_le) acc ->
  let r := fold_left (fun sorted x => insert_left x sorted) l acc in
  r ≡ₚ l ++ acc /\ StronglySorted (flip name_le) r.
Proof.
  revert acc. induction l as [|x l IH]; intros acc Hn Hs; [done|].
  cbn [fold_left]. rewrite <- app_comm_cons in Hn. apply NoDup_cons in Hn as [Hx Hn].
  rewrite elem_of_app in Hx.
  destruct (IH (insert_left x acc)) as [Hp Hr].
  - rewrite insert_left_perm, <- Permutation_middle. apply NoDup_cons. by rewrite elem_of_app.
  - apply insert_left_sorted; [|done]. tauto.
  - split; [|done]. rewrite Hp, insert_left_perm. by rewrite <- Permutation_middle.
Qed.

Lemma sort_Sort_spec h : NoDup h -> sort_Sort h ≡ₚ h /\ Sorted name_le (sort_Sort h).
Proof.
  intros Hn. destruct (fold_insert_left h []) as [Hp Hs]; [by rewrite app_nil_r|constructor|].
  assert (sort_Sort h = reverse (fold_left (fun sorted x => insert_left x sorted) h [])) as ->
    by apply rev_alt.
  rewrite app_nil_r in Hp.
  split; [by rewrite reverse_Permutation|]. apply StronglySorted_Sorted in Hs.
  by apply Sorted_reverse in Hs.
Qed.

Lemma of_rank_perm k names : of_rank k names ≡ₚ filter (fun n => rank n = k) names.
Proof. apply merge_sort_Permutation. Qed.

Lemma of_rank_elem k names n : n ∈ of_rank k names -> rank n = k.
Proof. rewrite of_rank_perm. by intros [? _]%list_elem_of_filter. Qed.

Lemma of_rank_sorted k names : StronglySorted name_le (of_rank k names).
Proof.
  assert (StronglySorted String.le (of_rank k names)) as H
    by (apply StronglySorted_merge_sort; apply _).
  assert (forall n, n ∈ of_rank k names -> rank n = k) as Hk by apply of_rank_elem.
  induction H as [|n l Hs IH Hn]; [constructor|]. constructor.
  - apply IH. intros m Hm. apply Hk. by apply elem_of_cons; right.
  - rewrite Forall_forall in Hn |- *. intros m Hm. right. split; [|by apply Hn].
    rewrite (Hk n), (Hk m); [done|by apply elem_of_cons; right|apply list_elem_of_here].
Qed.

Lemma header_order_perm names : header_order names ≡ₚ names.
Proof.
  unfold header_order. rewrite !of_rank_perm. induction names as [|n names IH]; [done|].
  pose proof (rank_range n) as Hr.
  assert (rank n = 0 \/ rank n = 1 \/ rank n = 2) as [H|[H|H]] by lia;
    rewrite !filter_cons, H; simpl; rewrite <- ?Permutation_middle, ?IH; try done.
Qed.

Lemma header_order_sorted names : StronglySorted name_le (header_order names).
Proof.
  unfold header_order. apply StronglySorted_app_2; [|apply of_rank_sorted|
    apply StronglySorted_app_2; [|apply of_rank_sorted..]].
  - intros a b Ha%of_rank_elem [Hb%of_rank_elem|Hb%of_rank_elem]%elem_of_app; left; lia.
  - intros a b Ha%of_rank_elem Hb%of_rank_elem. left. lia.
Qed.

(** ** Specification: headers and files *)

Definition header_line (kv : string * string) : string := kv.1 +:+ ": " +:+ kv.2.

(** A header a -H flag can express: no colon in the name nor space at its end,
    no space or colon at the start of the value. *)
Definition header_ok (kv : string * string) : bool :=
  all_chars (fun c => negb (Ascii.eqb c ":"%char)) kv.1 &&
  String.eqb (TrimRight kv.1 " ") kv.1 && String.eqb (TrimLeft kv.2 " :") kv.2.

Definition is_host (kv : string * string) : bool := EqualFold kv.1 "host".

(** The values the flags give a header, by its canonical name, in order. *)
Definition flag_values (key : string) (kvs : list (string * string)) : list string :=
  snd <$> filter (fun kv => is_host kv = false /\ CanonicalMIMEHeaderKey kv.1 = key) kvs.

(** The last -H 'Host: ...'. *)
Definition flag_host (kvs : list (string * string)) : option string :=
  snd <$> last (filter (fun kv => is_host kv = true) kvs).

(** ** Lemmas: headers and files *)

Lemma cut_before_none h c :
  cut_before h c = None <-> all_chars (fun d => negb (Ascii.eqb d c)) h = true.
Proof.
  induction h as [|d h IH]; simpl; [done|]. destruct (Ascii.eqb d c); simpl; [done|].
  rewrite <- IH. destruct (cut_before h c) as [[? ?]|]; done.
Qed.

Lemma cut_before_app k c rest :
  all_chars (fun d => negb (Ascii.eqb d c)) k = true ->
  cut_before (k +:+ String c rest) c = Some (k, String c rest).
Proof.
  induction k as [|d k IH]; simpl; [by rewrite Ascii.eqb_refl|].
  rewrite andb_true_iff, negb_true_iff. intros [-> Hk]. by rewrite IH.
Qed.

Lemma headerKeyValue_line kv : header_ok kv = true -> headerKeyValue (header_line kv) = Done kv.
Proof.
  unfold header_ok, headerKeyValue, header_line. rewrite !andb_true_iff, !String.eqb_eq.
  intros [[Hk Hr] Hl]. change (kv.1 +:+ ": " +:+ kv.2) with (kv.1 +:+ String ":"%char (" " +:+ kv.2)).
  rewrite cut_before_app by done. rewrite Hr.
  change (TrimLeft (String ":"%char (" " +:+ kv.2)) " :") with (TrimLeft kv.2 " :").
  rewrite Hl. by destruct kv.
Qed.

Lemma flag_host_cons kv kvs :
  flag_host (kv :: kvs) =
    match flag_host kvs with
    | Some h => Some h
    | None => if is_host kv then Some kv.2 else None
    end.
Proof.
  unfold flag_host. rewrite filter_cons.
  case_decide as E; [rewrite last_cons, E|apply not_true_iff_false in E; rewrite E];
    by destruct (last _).
Qed.

Lemma flag_values_cons key kv kvs :
  flag_values key (kv :: kvs) =
    (if is_host kv then []
     else if decide (CanonicalMIMEHeaderKey kv.1 = key) then [kv.2] else []) ++ flag_values key kvs.
Proof.
  unfold flag_values. rewrite filter_cons.
  case_decide as E; [destruct E as [-> ->]; by rewrite decide_True|].
  destruct (is_host kv); [done|]. rewrite decide_False; [done|naive_solver].
Qed.

Lemma Header_Add_values h k v key :
  default [] (Header_Add h k v !! key) =
    default [] (h !! key) ++ (if decide (CanonicalMIMEHeaderKey k = key) then [v] else []).
Proof.
  unfold Header_Add. cbv zeta. case_decide as E; [subst key; by rewrite lookup_insert_eq|].
  rewrite lookup_insert_ne by done. by rewrite app_nil_r.
Qed.

Lemma add_headers_spec {R} kvs (req : Request R) :
  forallb header_ok kvs = true ->
  exists req', add_headers (header_line <$> kvs) req = Done req' /\
    req_Host req' = default (req_Host req) (flag_host kvs) /\
    (forall key, default [] (req_Header req' !! key) =
                 default [] (req_Header req !! key) ++ flag_values key kvs) /\
    Method req' = Method req /\ req_URL req' = req_URL req /\ Body req' = Body req.
Proof.
  revert req. induction kvs as [|kv kvs IH]; intros req; cbn [forallb].
  { intros _. exists req. split_and!; try done. intros key. by rewrite app_nil_r. }
  rewrite andb_true_iff. intros [Hkv Hkvs]. cbn [fmap list_fmap add_headers].
  rewrite headerKeyValue_line by done. cbn [cli_bind]. rewrite flag_host_cons.
  destruct (is_host kv) eqn:E; unfold is_host in E; destruct kv as [k v]; cbn [fst snd] in *; rewrite E.
  - destruct (IH (req <| req_Host := v |>) Hkvs) as (req' & Hr & Hh & Hv & ?).
    exists req'. split_and!; [done|rewrite Hh; by destruct (flag_host kvs)| |naive_solver..].
    intros key. rewrite flag_values_cons, Hv. unfold is_host. cbn [fst]. by rewrite E.
  - destruct (IH (req <| req_Header := Header_Add (req_Header req) k v |>) Hkvs)
      as (req' & Hr & Hh & Hv & ?).
    exists req'. split_and!; [done|rewrite Hh; by destruct (flag_host kvs)| |naive_solver..].
    intros key. rewrite flag_values_cons, Hv. unfold is_host. cbn [fst snd]. rewrite E, app_assoc.
    f_equal. apply Header_Add_values.
Qed.

Lemma TrimRight_head s cutset c s' : TrimRight s cutset = String c s' -> exists t, s = String c t.
Proof.
  destruct s as [|d s]; simpl; [done|]. destruct (TrimRight s cutset); [case_match; [done|]|];
    intros [= -> _]; eauto.
Qed.

Lemma Contains_slash s : Contains s "/" = negb (all_chars (fun d => negb (Ascii.eqb d "/"%char)) s).
Proof.
  induction s as [|c s IH]; [done|]. cbn [Contains all_chars]. rewrite IH, negb_andb, negb_involutive.
  f_equal. unfold HasPrefix. cbn [CutPrefix]. rewrite Ascii.eqb_sym. by destruct (Ascii.eqb c "/").
Qed.

Lemma after_last_slash_lacks s :
  all_chars (fun d => negb (Ascii.eqb d "/"%char)) (after_last_slash s) = true.
Proof.
  induction s as [|c s IH]; [done|]. cbn [after_last_slash]. rewrite Contains_slash.
  destruct (all_chars _ (String c s)) eqn:E; cbn [negb]; [done|apply IH].
Qed.

Lemma path_Base_component p :
  path_Base p = "/" \/
  (path_Base p <> EmptyString /\ all_chars (fun d => negb (Ascii.eqb d "/"%char)) (path_Base p) = true).
Proof.
  unfold path_Base. destruct (String.eqb p EmptyString); [by right|].
  destruct (String.eqb_spec (after_last_slash (TrimRight p "/")) EmptyString); [by left|right].
  split; [done|apply after_last_slash_lacks].
Qed.

(** ** Properties *)

(** C23: the order of the printed headers. For the names of a header map, in
    whatever order the map is iterated, the only list sort.Sort may return is
    Server first, then the end-to-end headers, then the hop-by-hop ones, each
    group in byte order; the sort the code runs returns it. *)
Theorem headers_printed_order names sorted :
  NoDup names -> sorted ≡ₚ names ->
  (IsSorted sorted = true <-> sorted = header_order names) /\ sort_Sort names = header_order names.
Proof.
  intros Hn Hp. pose proof (header_order_perm names) as Hop. pose proof (header_order_sorted names) as Hos.
  apply StronglySorted_Sorted in Hos. split.
  - split; [intros Hs%IsSorted_Sorted|intros ->; apply Sorted_IsSorted; by rewrite ?Hop].
    + apply (Sorted_unique name_le); try done. by rewrite Hop.
    + by rewrite Hp.
  - destruct (sort_Sort_spec names Hn) as [Hsp Hss].
    apply (Sorted_unique name_le); try done. by rewrite Hop.
Qed.

Lemma headers_printed_order_witness :
  sort_Sort ["Upgrade"; "Date"; "Connection"; "Server"; "Accept-Ranges"] =
    ["Server"; "Accept-Ranges"; "Date"; "Connection"; "Upgrade"].
Proof.
  refine (eq_trans (proj2 (headers_printed_order
    ["Upgrade"; "Date"; "Connection"; "Server"; "Accept-Ranges"]
    ["Upgrade"; "Date"; "Connection"; "Server"; "Accept-Ranges"] _ _)) _).
  - apply (bool_decide_unpack _). vm_compute. exact I.
  - reflexivity.
  - vm_compute. reflexivity.
Defined.

(** C36: requests. With well-formed -H flags and a request that can be made, the
    request carries every flag: a Host flag, in any letter case, replaces the
    host and the last one wins; the others are appended in the order given to
    the values of their canonical name; nothing else changes. *)
Theorem newRequest_flags {Rest} `{ErrnoOps} (URL_String : URL Rest -> string)
    NewRequest os_Open kvs method url body b req :
  forallb header_ok kvs = true ->
  createBody os_Open body = Done b ->
  NewRequest method (URL_String url) b = Ok req ->
  exists req',
    newRequest URL_String NewRequest os_Open (Some (header_line <$> kvs)) method url body = Done req' /\
    req_Host req' = default (req_Host req) (flag_host kvs) /\
    (forall key, default [] (req_Header req' !! key) =
                 default [] (req_Header req !! key) ++ flag_values key kvs) /\
    Method req' = Method req /\ req_URL req' = req_URL req /\ Body req' = Body req.
Proof.
  intros Hk Hb Hr. unfold newRequest. rewrite Hb. cbn [cli_bind]. rewrite Hr.
  by apply add_headers_spec.
Qed.

(** Instances for the checks on concrete inputs: errno texts, a URL that is
    its own text, requests made of the URL. *)
Definition sample_errno : ErrnoOps := {|
  errno_Timeout := fun _ => false;
  errno_Error := fun n => "errno " +:+ Itoa n
|}.

Definition sample_URL (s : string) : URL string := mkURL "https" s s.

Definition sample_NewRequest (method url : string) (b : reader) : result (Request string) :=
  Ok (mkRequest method (sample_URL url) url ∅ b).

Definition sample_headers : list (string * string) :=
  [("Accept", "text/html"); ("hOST", "a.example"); ("accept", "*/*"); ("Host", "b.example")].

Lemma newRequest_flags_witness :
  exists req', newRequest (EO := sample_errno) rest sample_NewRequest (fun _ => None)
      (Some ["Accept: text/html"; "hOST: a.example"; "accept: */*"; "Host: b.example"])
      "POST" (sample_URL "x.example") "@body.json" = Done req' /\
    req_Host req' = "b.example" /\
    default [] (req_Header req' !! "Accept") = ["text/html"; "*/*"] /\
    Body req' = OpenedFile "body.json".
Proof.
  destruct (newRequest_flags (H := sample_errno) rest sample_NewRequest (fun _ => None) sample_headers
    "POST" (sample_URL "x.example") "@body.json" (OpenedFile "body.json")
    (mkRequest "POST" (sample_URL "x.example") "x.example" ∅ (OpenedFile "body.json")))
    as (req' & Hr & Hh & Hv & _ & _ & Hb); [vm_compute; reflexivity..|].
  exists req'. split; [exact Hr|]. split; [exact Hh|]. split; [|exact Hb].
  rewrite Hv. vm_compute. reflexivity.
Defined.

(** header flags. A flag written "name: value" is read back as that name
    and value; a flag is refused exactly when it has no colon. *)
Theorem headerKeyValue_roundtrip :
  (forall kv, header_ok kv = true -> headerKeyValue (header_line kv) = Done kv) /\
  (forall h, (exists k v, headerKeyValue h = Done (k, v)) <-> Contains h ":" = true).
Proof.
  split; [apply headerKeyValue_line|]. intros h. unfold headerKeyValue.
  assert (Contains h ":" = negb (all_chars (fun d => negb (Ascii.eqb d ":"%char)) h)) as ->.
  { induction h as [|c s IH]; [done|]. cbn [Contains all_chars]. rewrite IH, negb_andb, negb_involutive.
    f_equal. unfold HasPrefix. cbn [CutPrefix]. rewrite Ascii.eqb_sym. by destruct (Ascii.eqb c ":"). }
  rewrite negb_true_iff, <- not_true_iff_false, <- cut_before_none.
  destruct (cut_before h ":") as [[before from]|]; [|naive_solver].
  split; [done|]. intros _. eauto.
Qed.

(** the output file. The body goes to a file only with -o or -O. With -O
    the attachment name of the response is taken as it is; without one, the
    last component of the request path, which is a single name without a
    slash, and a path with no component is fatal. With -o alone the given name
    is used. *)
Theorem output_filename_choice ParseMediaType saveOutput outputFile h uri :
  let attached := getFilenameFromHeaders ParseMediaType h in
  match output_filename ParseMediaType saveOutput outputFile h uri with
  | Done None => saveOutput = false /\ outputFile = EmptyString
  | Done (Some f) =>
      if saveOutput then
        f = attached /\ attached <> EmptyString \/
        attached = EmptyString /\ f = path_Base uri /\ f <> EmptyString /\
          all_chars (fun d => negb (Ascii.eqb d "/"%char)) f = true
      else f = outputFile /\ f <> EmptyString
  | Fatal _ => saveOutput = true /\
      (attached = "/" \/ attached = EmptyString /\ path_Base uri = "/")
  | Exit _ => False
  end.
Proof.
  intros attached. unfold output_filename. fold attached.
  destruct saveOutput; cbn [orb].
  - destruct (String.eqb_spec attached EmptyString) as [Ha|Ha].
    + destruct (path_Base_component uri) as [Hb|[Hb Hs]]; [rewrite Hb; simpl; naive_solver|].
      destruct (String.eqb_spec (path_Base uri) "/") as [E|E]; [naive_solver|]. right. naive_solver.
    + destruct (String.eqb_spec attached "/"); naive_solver.
  - destruct (String.eqb_spec outputFile EmptyString); simpl; naive_solver.
Qed.

(** with -O a response that is not a redirect names the file itself. When
    its Content-Disposition parses as an attachment with a file name, that
    name, directories included, is the file created; nothing confines it to
    the working directory. *)
Theorem attachment_names_file `{ErrnoOps} ParseMediaType outputFile method code h uri Create Copy
    params f :
  isRedirect code = false -> method <> "HEAD" -> Header_Get h "Content-Disposition" <> EmptyString ->
  ParseMediaType (Header_Get h "Content-Disposition") = Ok ("attachment", params) ->
  params !! "filename" = Some f -> f <> EmptyString -> f <> "/" ->
  output_filename ParseMediaType true outputFile h uri = Done (Some f) /\
  (readResponseBody ParseMediaType true outputFile method code h uri Create Copy = Done "Body read"
   <-> Create f = None /\ Copy = None).
Proof.
  intros Hc Hm Hh Hp Hf Hne Hs.
  assert (output_filename ParseMediaType true outputFile h uri = Done (Some f)) as E.
  { unfold output_filename, getFilenameFromHeaders.
    rewrite (proj2 (String.eqb_neq _ _) Hh). cbn [negb orb]. rewrite Hp. cbn [String.eqb].
    rewrite Hf. cbn. by rewrite (proj2 (String.eqb_neq _ _) Hne), (proj2 (String.eqb_neq _ _) Hs). }
  split; [done|]. unfold readResponseBody. rewrite Hc, (proj2 (String.eqb_neq _ _) Hm), E. cbn.
  destruct (Create f), Copy; naive_solver.
Qed.

Lemma attachment_names_file_witness :
  let h : gmap string (list string) :=
    {["Content-Disposition" := ["attachment; filename=../../etc/cron.d/job"]]} in
  let params : gmap string string := {["filename" := "../../etc/cron.d/job"]} in
  output_filename (fun _ => Ok ("attachment", params)) true EmptyString h "/index.html" =
    Done (Some "../../etc/cron.d/job").
Proof.
  intros h params.
  refine (proj1 (attachment_names_file (H := sample_errno) (fun _ => Ok ("attachment", params))
    EmptyString "GET" 200 h "/index.html" (fun _ => None) None params "../../etc/cron.d/job"
    _ _ _ _ _ _ _)); vm_compute; congruence.
Defined.

(** the URL given on the command line. Text without a scheme is parsed as
    a network path; a scheme that is present is kept, and a missing one becomes
    http for port 80 and https otherwise; a text that does not parse is fatal. *)
Theorem parseURL_scheme {Rest} `{ErrnoOps} (Parse : string -> result (URL Rest)) uri :
  let text := if Contains uri "://" || HasPrefix uri "//" then uri else "//" +:+ uri in
  match Parse text with
  | Err _ => exists msg, parseURL Parse uri = Fatal msg
  | Ok u => exists u', parseURL Parse uri = Done u' /\ Host u' = Host u /\ rest u' = rest u /\
      Scheme u' <> EmptyString /\
      (Scheme u <> EmptyString -> Scheme u' = Scheme u) /\
      (Scheme u = EmptyString -> (Scheme u' = "http" <-> exists p, Host u = p +:+ ":80") /\
                                 (Scheme u' = "http" \/ Scheme u' = "https"))
  end.
Proof.
  intros text. unfold parseURL.
  assert ((if negb (Contains uri "://") && negb (HasPrefix uri "//") then "//" +:+ uri else uri) = text)
    as -> by (unfold text; by destruct (Contains uri "://"), (HasPrefix uri "//")).
  destruct (Parse text) as [u|e]; [|eauto].
  destruct (String.eqb_spec (Scheme u) EmptyString) as [Hs|Hs]; [|by exists u].
  setoid_rewrite <- HasSuffix_spec. cbn. destruct (HasSuffix (Host u) ":80"); cbn; eexists; naive_solver.
Qed.
