(* ===== verification/TcpInfo.v ===== *)
(** * pkg/tcpinfo, the platform-independent part

    [Option] with its printer and JSON form, [Info] and its [ToMap]
    (tcpinfo.go), the values of [map[string]any], and the interface every
    platform file of the package implements. *)

From S2P Require Import Prelude GoStrings.

Record Option : Type := mkOption {
  Kind : string;
  Value : Z
}.

#[global] Instance Option_eq_dec : EqDecision Option.
Proof. solve_decision. Defined.

(** fmt.Sprintf("%s:%.2x", o.Kind, o.Value), or the kind alone for value 0. *)
Definition Option_String (o : Option) : string :=
  if Value o =? 0 then Kind o
  else Kind o +:+ ":" +:+ hex2 (Value o).

Definition Option_MarshalJSON (o : Option) : string := Quote (Option_String o).

(** The dynamic values the program stores in a [map[string]any]. *)
Inductive any : Type :=
| AString (s : string)
| ABool (b : bool)
| AUint8 (n : Z)
| AUint16 (n : Z)
| AUint32 (n : Z)
| AUint64 (n : Z)
| AInt (n : Z)
| AInt64 (n : Z)
| ADuration (n : Z)
| AOptions (l : slice Option)
| AStrings (l : slice string)
| AMap (m : gmap string any).

(** The normalised information, over the platform's [SysInfo]. Durations are
    int64 nanoseconds. [Sys] is a pointer: [None] is nil. *)
Record Info {SysInfo : Type} : Type := mkInfo {
  State : string;
  TxOptions : slice Option;
  RxOptions : slice Option;
  TxMSS : Z;
  RxMSS : Z;
  RTT : Z;
  RTTVar : Z;
  RTO : Z;
  ATO : Z;
  LastTxAt : Z;
  LastRxAt : Z;
  LastTxAckAt : Z;
  LastRxAckAt : Z;
  RxWindow : Z;
  TxSSThreshold : Z;
  RxSSThreshold : Z;
  TxWindowBytes : Z;
  TxWindowSegs : Z;
  Retransmits : Z;
  Sys : option SysInfo
}.
Arguments Info : clear implicits.

#[global] Instance Info_eta {S : Type} : RecordEta (Info S) :=
  fconst (mkInfo S) <*> State <*> TxOptions <*> RxOptions <*> TxMSS <*> RxMSS <*> RTT
    <*> RTTVar <*> RTO <*> ATO <*> LastTxAt <*> LastRxAt <*> LastTxAckAt <*> LastRxAckAt
    <*> RxWindow <*> TxSSThreshold <*> RxSSThreshold <*> TxWindowBytes <*> TxWindowSegs
    <*> Retransmits <*> Sys.

(** [Info.ToMap], given the platform's [SysInfo.ToMap]. *)
Definition Info_ToMap {SysInfo : Type} (SysInfo_ToMap : SysInfo -> gmap string any)
    (i : Info SysInfo) : gmap string any :=
  let m : gmap string any := list_to_map [
    ("state", AString (State i));
    ("txOptions", AOptions (TxOptions i));
    ("rxOptions", AOptions (RxOptions i));
    ("txMSS", AUint64 (TxMSS i));
    ("rxMSS", AUint64 (RxMSS i));
    ("rtt", ADuration (RTT i));
    ("rttVar", ADuration (RTTVar i));
    ("rto", ADuration (RTO i));
    ("ato", ADuration (ATO i));
    ("lastTxAt", ADuration (LastTxAt i));
    ("lastRxAt", ADuration (LastRxAt i));
    ("lastTxAckAt", ADuration (LastTxAckAt i));
    ("lastRxAckAt", ADuration (LastRxAckAt i));
    ("rxWindow", AUint64 (RxWindow i));
    ("txSSThreshold", AUint64 (TxSSThreshold i));
    ("rxSSThreshold", AUint64 (RxSSThreshold i));
    ("txCWindowBytes", AUint64 (TxWindowBytes i));
    ("txCWindowSegs", AUint64 (TxWindowSegs i));
    ("retransmits", AUint64 (Retransmits i))
  ] in
  match Sys i with
  | Some sys => <["sysInfo" := AMap (SysInfo_ToMap sys)]> m
  | None => m
  end.

(** ** Pieces the platform files share *)

(** A map lookup that yields the empty string for a missing key. *)
Definition lookup_name (m : gmap Z string) (k : Z) : string := default EmptyString (m !! k).

(** if cond { warns = append(warns, name + strconv.FormatUint(v, 10)) } *)
Definition warn_if (cond : bool) (name : string) (v : Z) (warns : slice string) : slice string :=
  if cond then append warns (name +:+ FormatUint v 10) else warns.

(** ** The interface of a platform *)

(** What wrap.go uses of the package: the operations of the platform file the
    build selects. [Answers] stands for what the operating system returns to
    the calls one [GetTCPInfo] makes; its result has a nullable pointer and a
    nullable error, as in Go. [nil_Warnings] is what Warnings returns on a nil
    pointer, [None] when it panics. *)
Class Platform := {
  SysInfo : Type;
  Answers : Type;
  Supported : bool;
  GetTCPInfo : Answers -> option SysInfo * option error;
  ToInfo : SysInfo -> Info SysInfo;
  SysInfo_Warnings : SysInfo -> slice string;
  nil_Warnings : option (slice string);
  SysInfo_ToMap : SysInfo -> gmap string any
}.

(** The promises wrap.go relies on: without an error there is a SysInfo, and
    on a supported platform the normalised information points back to it. *)
Class PlatformOk (P : Platform) : Prop := {
  GetTCPInfo_Some : forall a s, GetTCPInfo a = (s, None) -> is_Some s;
  ToInfo_Sys : Supported = true -> forall s, Sys (ToInfo s) = Some s
}.

(** From an equation between two maps, the equations between their values at
    the given keys. *)
Ltac map_keys H ks :=
  match ks with
  | ?k :: ?ks' =>
      let E := fresh "E" in
      pose proof (f_equal (lookup k) H) as E; vm_compute in E; injection E as E;
      map_keys H ks'
  | _ => clear H
  end.

(** ** Specification of the printed option *)

(** The text before the first colon and the text after it. *)
Fixpoint cut_colon (s : string) : string * option string :=
  match s with
  | EmptyString => (EmptyString, None)
  | String c s' =>
      if Ascii.eqb c ":"%char then (EmptyString, Some s')
      else let '(k, r) := cut_colon s' in (String c k, r)
  end.

Definition parse_option (s : string) : Option :=
  let '(k, r) := cut_colon s in
  mkOption k (match r with None => 0 | Some h => read_digits 16 0 h end).

Definition no_colon (s : string) : bool := all_chars (fun c => negb (Ascii.eqb c ":"%char)) s.

(** Printable ASCII that needs no escape in a quoted string. *)
Definition plain_char (c : ascii) : bool :=
  let n := Z.of_nat (nat_of_ascii c) in
  (32 <=? n) && (n <? 127) && negb (n =? 34) && negb (n =? 92).

(** ** Lists of warnings *)

(** The line of a counter with its value, when it is there and positive. *)
Definition warning_line (c : string * option Z) : option string :=
  match c with
  | (name, Some v) => if 0 <? v then Some (name +:+ FormatUint v 10) else None
  | (_, None) => None
  end.

Lemma warn_if_line b name v warns :
  elems (warn_if b name v warns) =
  elems warns ++ option_list (if b then Some (name +:+ FormatUint v 10) else None).
Proof. unfold warn_if. destruct b; autorewrite with go; simpl; by rewrite ?app_nil_r. Qed.

(** append never leaves an empty non-nil slice. *)
Lemma warn_if_empty b name v warns :
  (elems warns = [] -> warns = None) -> elems (warn_if b name v warns) = [] ->
  warn_if b name v warns = None.
Proof. unfold warn_if. destruct b; [|done]. intros _ E. by apply app_nil in E as [_ E]. Qed.

Lemma option_list_omap {A B : Type} (f : A -> option B) x l :
  option_list (f x) ++ omap f l = omap f (x :: l).
Proof. simpl. by destruct (f x). Qed.

(** ** Maps with optional entries *)

(** if the value is there, r[key] = value *)
Definition put_entry (r : gmap string any) (e : string * option any) : gmap string any :=
  match snd e with Some v => <[fst e := v]> r | None => r end.

Lemma foldl_put_entry_notin k es r :
  k ∉ es.*1 -> foldl put_entry r es !! k = r !! k.
Proof.
  revert r. induction es as [|[k' o] es IH]; intros r Hk; [done|]. simpl.
  apply not_elem_of_cons in Hk as [Hne Hk]. rewrite IH by done. unfold put_entry. simpl.
  destruct o; [|done]. by rewrite lookup_insert_ne.
Qed.

Lemma foldl_put_entry_in k o es r :
  NoDup es.*1 -> (k, o) ∈ es -> r !! k = None -> foldl put_entry r es !! k = o.
Proof.
  revert r. induction es as [|[k' o'] es IH]; intros r Hnd Hin Hr; [by apply not_elem_of_nil in Hin|].
  simpl in Hnd. apply NoDup_cons in Hnd as [Hk Hnd]. simpl.
  apply elem_of_cons in Hin as [E|Hin].
  - simplify_eq. rewrite foldl_put_entry_notin by done. unfold put_entry. simpl.
    destruct o'; [by rewrite lookup_insert_eq|done].
  - apply IH; [done..|]. unfold put_entry. simpl. destruct o'; [|done].
    rewrite lookup_insert_ne; [done|]. intros ->. apply Hk, list_elem_of_fmap. by exists (k, o).
Qed.

(** A map made of fixed entries and then of optional ones, all keys distinct. *)
Lemma table_fixed (fixed : list (string * any)) opts k v :
  NoDup (fixed.*1 ++ opts.*1) -> (k, v) ∈ fixed ->
  foldl put_entry (list_to_map fixed) opts !! k = Some v.
Proof.
  intros Hnd Hin. apply NoDup_app in Hnd as (Hf & Hd & _). rewrite foldl_put_entry_notin.
  - by apply elem_of_list_to_map_1.
  - apply Hd, list_elem_of_fmap. by exists (k, v).
Qed.

Lemma table_optional (fixed : list (string * any)) opts k o :
  NoDup (fixed.*1 ++ opts.*1) -> (k, o) ∈ opts ->
  foldl put_entry (list_to_map fixed) opts !! k = o.
Proof.
  intros Hnd Hin. apply NoDup_app in Hnd as (_ & Hd & Hn). apply foldl_put_entry_in; [done..|].
  apply not_elem_of_list_to_map_1. intros Hk. apply (Hd k Hk), list_elem_of_fmap. by exists (k, o).
Qed.

Lemma table_key (fixed : list (string * any)) opts k v :
  foldl put_entry (list_to_map fixed) opts !! k = Some v -> k ∈ fixed.*1 ++ opts.*1.
Proof.
  intros Hv. destruct (decide (k ∈ opts.*1)) as [?|Hk]; [by apply elem_of_app; right|].
  rewrite foldl_put_entry_notin in Hv by done. apply elem_of_app. left.
  apply elem_of_list_to_map_2 in Hv. apply list_elem_of_fmap. by exists (k, v).
Qed.

(** ** Lemmas *)

Lemma cut_colon_none s : no_colon s = true -> cut_colon s = (s, None).
Proof.
  unfold no_colon. induction s as [|c s IH]; [done|]. cbn [all_chars cut_colon].
  rewrite andb_true_iff, negb_true_iff. intros [-> Hs]. by rewrite IH.
Qed.

Lemma cut_colon_app s t : no_colon s = true -> cut_colon (s +:+ ":" +:+ t) = (s, Some t).
Proof.
  unfold no_colon. induction s as [|c s IH]; [done|]. rewrite string_app_cons.
  cbn [all_chars cut_colon].
  rewrite andb_true_iff, negb_true_iff. intros [-> Hs]. by rewrite IH.
Qed.

Lemma parse_option_String o :
  no_colon (Kind o) = true -> 0 <= Value o -> parse_option (Option_String o) = o.
Proof.
  intros Hk Hv. unfold parse_option, Option_String. case_bool.
  - rewrite cut_colon_none by done. destruct o; simpl in *; congruence.
  - rewrite cut_colon_app, read_digits_hex2 by done. by destruct o.
Qed.

Lemma quote_char_plain c : plain_char c = true -> quote_char c = String c EmptyString.
Proof.
  unfold plain_char, quote_char. rewrite !andb_true_iff, !negb_true_iff.
  intros [[[? ?] ?] ?]. case_bools; done.
Qed.

Lemma quote_body_plain s : all_chars plain_char s = true -> quote_body s = s.
Proof.
  induction s as [|c s IH]; [done|]. cbn [all_chars quote_body].
  rewrite andb_true_iff. intros [Hc Hs]. by rewrite quote_char_plain, IH.
Qed.

Lemma digit_char_plain d : 0 <= d < 16 -> plain_char (digit_char d) = true.
Proof.
  intros Hd. assert (exists n, d = Z.of_nat n /\ (n < 16)%nat) as (n & -> & Hn).
  { exists (Z.to_nat d). lia. }
  do 16 (destruct n as [|n]; [reflexivity|]). lia.
Qed.

Lemma format_bits_plain fuel n :
  0 <= n -> all_chars plain_char (format_bits fuel 16 n EmptyString) = true.
Proof.
  revert n. induction fuel as [|f IH]; intros n Hn; [done|]. cbn [format_bits].
  pose proof (digit_char_plain (n mod 16) ltac:(apply Z.mod_pos_bound; lia)) as Hd.
  case_bool; cbn [all_chars]; [by rewrite Hd|].
  rewrite format_bits_app, all_chars_app, IH by (apply Z.div_pos; lia).
  cbn [all_chars]. by rewrite Hd.
Qed.

Lemma hex2_plain n : 0 <= n -> all_chars plain_char (hex2 n) = true.
Proof.
  intros Hn. unfold hex2.
  assert (all_chars plain_char (FormatUint n 16) = true) as E by by apply format_bits_plain.
  destruct (_ <? _)%nat; [|done]. by rewrite all_chars_app, E.
Qed.

(** ** Properties *)

(** printing an option loses nothing. From the text of an option whose
    kind has no colon (every kind of the option tables) the kind and the value
    are recovered, so two options with the same text are equal. *)
Theorem Option_String_roundtrip o :
  no_colon (Kind o) = true -> uint 64 (Value o) -> parse_option (Option_String o) = o.
Proof. intros Hk Hv. apply parse_option_String; [done|]. unfold uint in Hv. lia. Qed.

Lemma Option_String_roundtrip_witness :
  Option_String (mkOption "WindowScale" 8) = "WindowScale:08" /\
  parse_option "WindowScale:08" = mkOption "WindowScale" 8.
Proof.
  split; [reflexivity|].
  apply (Option_String_roundtrip (mkOption "WindowScale" 8)); vm_compute; intuition congruence.
Defined.

(** the JSON form of an option whose kind is printable ASCII without
    quotes and backslashes is its text between double quotes, with no escape:
    a valid JSON string literal. *)
Theorem Option_MarshalJSON_plain o :
  all_chars plain_char (Kind o) = true -> uint 64 (Value o) ->
  Option_MarshalJSON o = dquote +:+ Option_String o +:+ dquote /\
  all_chars plain_char (Option_String o) = true.
Proof.
  intros Hk [Hv _].
  assert (all_chars plain_char (Option_String o) = true) as Hp.
  { unfold Option_String. case_bool; [done|]. by rewrite !all_chars_app, Hk, hex2_plain. }
  split; [|done]. unfold Option_MarshalJSON, Quote. by rewrite quote_body_plain.
Qed.

Lemma Option_MarshalJSON_plain_witness :
  all_chars plain_char (Option_String (mkOption "SACK" 0)) = true.
Proof. apply (Option_MarshalJSON_plain (mkOption "SACK" 0)); vm_compute; intuition congruence. Defined.

(** Info.ToMap keeps every field under its own key: it holds the 19 fixed
    keys, plus "sysInfo" exactly when Sys is non-nil, and two infos with the
    same map agree on every field but the SysInfo behind the pointer. *)
Theorem Info_ToMap_faithful {S : Type} (to_map : S -> gmap string any) (i j : Info S) :
  size (Info_ToMap to_map i) = (match Sys i with Some _ => 20 | None => 19 end)%nat /\
  Info_ToMap to_map i !! "sysInfo" = (AMap ∘ to_map) <$> Sys i /\
  (Info_ToMap to_map i = Info_ToMap to_map j ->
   i <| Sys := None |> = j <| Sys := None |> /\ to_map <$> Sys i = to_map <$> Sys j).
Proof.
  split_and!.
  - by destruct i as [? ? ? ? ? ? ? ? ? ? ? ? ? ? ? ? ? ? ? []].
  - by destruct i as [? ? ? ? ? ? ? ? ? ? ? ? ? ? ? ? ? ? ? []].
  - intros H.
    assert (Info_ToMap to_map i !! "sysInfo" = Info_ToMap to_map j !! "sysInfo") as Hsys
      by by rewrite H.
    destruct i as [? ? ? ? ? ? ? ? ? ? ? ? ? ? ? ? ? ? ? si],
      j as [? ? ? ? ? ? ? ? ? ? ? ? ? ? ? ? ? ? ? sj].
    destruct si, sj; try (vm_compute in Hsys; discriminate).
    all: map_keys H ["state"; "txOptions"; "rxOptions"; "txMSS"; "rxMSS"; "rtt"; "rttVar"; "rto";
      "ato"; "lastTxAt"; "lastRxAt"; "lastTxAckAt"; "lastRxAckAt"; "rxWindow"; "txSSThreshold";
      "rxSSThreshold"; "txCWindowBytes"; "txCWindowSegs"; "retransmits"].
    all: vm_compute in Hsys; simplify_eq; split; [done|]; simpl; congruence.
Qed.
