(* ===== verification/Json.v ===== *)
(** * encoding/json as the program uses it

    The values of [map[string]any] as JSON texts: json.Marshal, with its HTML
    escapes, sorted map keys and the MarshalJSON method of Option, and
    json.MarshalIndent. A reader of JSON texts serves as the specification: what
    is written is read back, with every byte of a string that is not valid
    UTF-8 replaced by U+FFFD. *)

From stdpp Require Import sorting.
From S2P Require Import Prelude GoStrings GoUtf8 TcpInfo.

Inductive json : Type :=
| JNull
| JBool (b : bool)
| JNum (z : Z)
| JStr (s : string)
| JArr (l : list json)
| JObj (l : list (string * json)).

(** Induction that reaches into arrays and objects. *)
Fixpoint json_nested_ind (Q : json -> Prop) (Hnull : Q JNull) (Hbool : forall b, Q (JBool b))
    (Hnum : forall z, Q (JNum z)) (Hstr : forall s, Q (JStr s))
    (Harr : forall l, Forall Q l -> Q (JArr l))
    (Hobj : forall l, Forall (fun kv => Q kv.2) l -> Q (JObj l)) (j : json) : Q j :=
  let rec := json_nested_ind Q Hnull Hbool Hnum Hstr Harr Hobj in
  match j with
  | JNull => Hnull
  | JBool b => Hbool b
  | JNum z => Hnum z
  | JStr s => Hstr s
  | JArr l => Harr l ((fix go l : Forall Q l :=
      match l with [] => Forall_nil_2 _ | x :: l => Forall_cons_2 _ _ _ (rec x) (go l) end) l)
  | JObj l => Hobj l ((fix go l : Forall (fun kv => Q kv.2) l :=
      match l with [] => Forall_nil_2 _ | x :: l => Forall_cons_2 _ _ _ (rec x.2) (go l) end) l)
  end.

(** ** Writing *)

(** appendString with escapeHTML: a byte of ASCII. *)
Definition encode_char (c : ascii) : string :=
  let n := Z.of_nat (nat_of_ascii c) in
  if n =? 34 then "\" +:+ String c EmptyString
  else if n =? 92 then "\\"
  else if n =? 8 then "\b"
  else if n =? 12 then "\f"
  else if n =? 10 then "\n"
  else if n =? 13 then "\r"
  else if n =? 9 then "\t"
  else if (n <? 32) || (n =? 60) || (n =? 62) || (n =? 38) then "\u00" +:+ hex2 n
  else String c EmptyString.

(** The line separators U+2028 and U+2029, 0xE2 0x80 0xA8 and 0xE2 0x80 0xA9,
    are escaped, an invalid byte is written as U+FFFD, other runes are copied. *)
Definition encode_token (t : token) : string :=
  match t with
  | Rune1 a => encode_char a
  | Rune3 a b c =>
      if (byte_of a =? 0xE2) && (byte_of b =? 0x80) && (byte_of c =? 0xA8) then "\u2028"
      else if (byte_of a =? 0xE2) && (byte_of b =? 0x80) && (byte_of c =? 0xA9) then "\u2029"
      else token_text t
  | Invalid _ => "\ufffd"
  | _ => token_text t
  end.

Definition encode_chars (s : string) : string := concat_text encode_token (tokens s).

Definition encode_string (s : string) : string := dquote +:+ encode_chars s +:+ dquote.

Fixpoint print (j : json) : string :=
  match j with
  | JNull => "null"
  | JBool b => if b then "true" else "false"
  | JNum z => Itoa z
  | JStr s => encode_string s
  | JArr l => "[" +:+ Join (map print l) "," +:+ "]"
  | JObj l => "{" +:+ Join (map (fun kv => encode_string kv.1 +:+ ":" +:+ print kv.2) l) "," +:+ "}"
  end.

Definition newline_str : string := String (ascii_of_nat 10) EmptyString.

(** A line break and [d] levels of two spaces. *)
Fixpoint indentation (d : nat) : string :=
  match d with O => EmptyString | S d' => "  " +:+ indentation d' end.

Definition break (d : nat) : string := newline_str +:+ indentation d.

(** json.Indent with prefix "" and indent "  ": the elements of an array or
    object that is not empty on lines of their own, a space after the colon. *)
Fixpoint print_indent (d : nat) (j : json) : string :=
  match j with
  | JArr ((_ :: _) as l) =>
      "[" +:+ break (S d) +:+ Join (map (print_indent (S d)) l) ("," +:+ break (S d)) +:+ break d +:+ "]"
  | JObj ((_ :: _) as l) =>
      "{" +:+ break (S d) +:+
      Join (map (fun kv => encode_string kv.1 +:+ ": " +:+ print_indent (S d) kv.2) l)
        ("," +:+ break (S d)) +:+ break d +:+ "}"
  | _ => print j
  end.

(** ** The program's values *)

(** compact, which json applies to what a MarshalJSON method returns, refuses
    a text that is not JSON: strconv.Quote writes \a, \v and \x escapes that
    JSON does not have. Otherwise it escapes the HTML characters. (The kinds of
    the options are ASCII, for which Quote is modelled.) *)
Definition quoted_is_json (c : ascii) : bool :=
  let n := Z.of_nat (nat_of_ascii c) in
  (n =? 8) || (n =? 9) || (n =? 10) || (n =? 12) || (n =? 13) || ((32 <=? n) && negb (n =? 127)).

Fixpoint escape_html (s : string) : string :=
  match s with
  | EmptyString => EmptyString
  | String c s' =>
      let n := Z.of_nat (nat_of_ascii c) in
      (if (n =? 60) || (n =? 62) || (n =? 38) then "\u00" +:+ hex2 n else String c EmptyString)
        +:+ escape_html s'
  end.

(** An Option in a slice: its MarshalJSON and compact. [None] is an error. *)
Definition Option_compact (o : Option) : option string :=
  if all_chars quoted_is_json (Option_String o) then Some (escape_html (Option_MarshalJSON o)) else None.

(** The JSON value of an Option. *)
Definition Option_json (o : Option) : option json :=
  if all_chars quoted_is_json (Option_String o) then Some (JStr (Option_String o)) else None.

(** All the results, or an error. *)
Fixpoint all_some {A : Type} (l : list (option A)) : option (list A) :=
  match l with
  | [] => Some []
  | o :: l' => x ← o; xs ← all_some l'; Some (x :: xs)
  end.

Definition key_le {A : Type} (x y : string * A) : Prop := String.le x.1 y.1.

#[global] Instance key_le_dec {A : Type} : RelDecision (key_le (A := A)).
Proof. intros x y. unfold key_le. apply _. Defined.

Definition pair_some {A : Type} (kv : string * option A) : option (string * A) :=
  v ← kv.2; Some (kv.1, v).

(** The JSON value json.Marshal writes for a value: integers of all widths and
    durations are numbers, a nil slice is null, the keys of a map are sorted. *)
Fixpoint to_json (v : any) : option json :=
  match v with
  | AString s => Some (JStr s)
  | ABool b => Some (JBool b)
  | AUint8 n | AUint16 n | AUint32 n | AUint64 n | AInt n | AInt64 n | ADuration n => Some (JNum n)
  | AOptions None | AStrings None => Some JNull
  | AOptions (Some l) => l ← all_some (map Option_json l); Some (JArr l)
  | AStrings (Some l) => Some (JArr (map JStr l))
  | AMap m =>
      l ← all_some (map pair_some (map_fold (fun k v acc => (k, to_json v) :: acc) [] m));
      Some (JObj (merge_sort key_le l))
  end.

(** json.Marshal and json.MarshalIndent(v, "", "  "). *)
Definition Marshal (v : any) : option string := print <$> to_json v.

Definition MarshalIndent (v : any) : option string := print_indent 0 <$> to_json v.

(** ** Reading *)

Definition is_ws (c : ascii) : bool :=
  let n := nat_of_ascii c in (n =? 32)%nat || (n =? 10)%nat || (n =? 13)%nat || (n =? 9)%nat.

Fixpoint skip_ws (s : string) : string :=
  match s with
  | EmptyString => EmptyString
  | String c s' => if is_ws c then skip_ws s' else s
  end.

Definition hex_digit (c : ascii) : option Z :=
  let n := Z.of_nat (nat_of_ascii c) in
  if (48 <=? n) && (n <=? 57) then Some (n - 48)
  else if (97 <=? n) && (n <=? 102) then Some (n - 87)
  else if (65 <=? n) && (n <=? 70) then Some (n - 55)
  else None.

Definition byte_char (n : Z) : ascii := ascii_of_nat (Z.to_nat n).

(** utf8.AppendRune: the bytes of a code point of at most 16 bits that is no
    surrogate. *)
Definition append_rune (n : Z) (s : string) : option string :=
  if n <? 0x80 then Some (String (byte_char n) s)
  else if n <? 0x800 then
    Some (String (byte_char (0xC0 + n / 64)) (String (byte_char (0x80 + n mod 64)) s))
  else if (0xD800 <=? n) && (n <=? 0xDFFF) then None
  else Some (String (byte_char (0xE0 + n / 4096))
    (String (byte_char (0x80 + n / 64 mod 64)) (String (byte_char (0x80 + n mod 64)) s))).

(** A character after a backslash. *)
Definition simple_escape (c : ascii) : option ascii :=
  let n := nat_of_ascii c in
  match n with
  | 34 | 92 | 47 => Some c
  | 98 => Some (ascii_of_nat 8)
  | 102 => Some (ascii_of_nat 12)
  | 110 => Some (ascii_of_nat 10)
  | 114 => Some (ascii_of_nat 13)
  | 116 => Some (ascii_of_nat 9)
  | _ => None
  end%nat.

(** The rest of a string literal after its opening quote. *)
Fixpoint read_chars (s : string) : option (string * string) :=
  match s with
  | EmptyString => None
  | String c s' =>
      if Ascii.eqb c (ascii_of_nat 34) then Some (EmptyString, s')
      else if Ascii.eqb c (ascii_of_nat 92) then
        match s' with
        | String "u"%char (String h1 (String h2 (String h3 (String h4 s4)))) =>
            a ← hex_digit h1; b ← hex_digit h2; c ← hex_digit h3; d ← hex_digit h4;
            '(t, r) ← read_chars s4;
            t ← append_rune (4096 * a + 256 * b + 16 * c + d) t; Some (t, r)
        | String e s2 => d ← simple_escape e; '(t, r) ← read_chars s2; Some (String d t, r)
        | EmptyString => None
        end
      else '(t, r) ← read_chars s'; Some (String c t, r)
  end.

(** An integer. *)
Definition read_num (s : string) : option (Z * string) :=
  match s with
  | String "-"%char s' =>
      if starts_with_digit s' then let '(v, r) := scan_digits 0 s' in Some (- v, r) else None
  | _ => if starts_with_digit s then Some (scan_digits 0 s) else None
  end.

Fixpoint read (fuel : nat) (s : string) : option (json * string) :=
  match fuel with
  | O => None
  | S f =>
      match skip_ws s with
      | String "["%char s' =>
          match skip_ws s' with
          | String "]"%char r => Some (JArr [], r)
          | _ => '(l, r) ← read_elems f s'; Some (JArr l, r)
          end
      | String "{"%char s' =>
          match skip_ws s' with
          | String "}"%char r => Some (JObj [], r)
          | _ => '(l, r) ← read_members f s'; Some (JObj l, r)
          end
      | String c s' =>
          if Ascii.eqb c (ascii_of_nat 34) then '(t, r) ← read_chars s'; Some (JStr t, r)
          else match CutPrefix (String c s') "null", CutPrefix (String c s') "true",
                     CutPrefix (String c s') "false" with
               | Some r, _, _ => Some (JNull, r)
               | _, Some r, _ => Some (JBool true, r)
               | _, _, Some r => Some (JBool false, r)
               | _, _, _ => '(z, r) ← read_num (String c s'); Some (JNum z, r)
               end
      | EmptyString => None
      end
  end
with read_elems (fuel : nat) (s : string) : option (list json * string) :=
  match fuel with
  | O => None
  | S f =>
      '(v, r) ← read f s;
      match skip_ws r with
      | String ","%char r' => '(vs, r'') ← read_elems f r'; Some (v :: vs, r'')
      | String "]"%char r' => Some ([v], r')
      | _ => None
      end
  end
with read_members (fuel : nat) (s : string) : option (list (string * json) * string) :=
  match fuel with
  | O => None
  | S f =>
      match skip_ws s with
      | String c s' =>
          if Ascii.eqb c (ascii_of_nat 34) then
            '(k, r) ← read_chars s';
            match skip_ws r with
            | String ":"%char r1 =>
                '(v, r2) ← read f r1;
                match skip_ws r2 with
                | String ","%char r' => '(kvs, r'') ← read_members f r'; Some ((k, v) :: kvs, r'')
                | String "}"%char r' => Some ([(k, v)], r')
                | _ => None
                end
            | _ => None
            end
          else None
      | EmptyString => None
      end
  end.

(** A whole text. *)
Definition parse (s : string) : option json :=
  '(j, r) ← read (S (String.length s)) s;
  match skip_ws r with EmptyString => Some j | _ => None end.

(** ** Specification: the grammar of JSON texts *)

Definition ws (w : string) : Prop := all_chars is_ws w = true.

(** The texts of a value, with white space where JSON allows it inside; the
    text of the elements of an array goes up to its closing bracket, and that of
    the members of an object up to its closing brace. *)
Inductive Text : json -> string -> Prop :=
| T_null : Text JNull "null"
| T_true : Text (JBool true) "true"
| T_false : Text (JBool false) "false"
| T_num z : Text (JNum z) (Itoa z)
| T_str s : Text (JStr (utf8 s)) (encode_string s)
| T_arr_nil w : ws w -> Text (JArr []) ("[" +:+ w +:+ "]")
| T_arr l s : Elems l s -> Text (JArr l) ("[" +:+ s)
| T_obj_nil w : ws w -> Text (JObj []) ("{" +:+ w +:+ "}")
| T_obj l s : Members l s -> Text (JObj l) ("{" +:+ s)
with Elems : list json -> string -> Prop :=
| E_last v w1 t w2 : ws w1 -> ws w2 -> Text v t -> Elems [v] (w1 +:+ t +:+ w2 +:+ "]")
| E_next v vs w1 t w2 s : ws w1 -> ws w2 -> Text v t -> Elems vs s ->
    Elems (v :: vs) (w1 +:+ t +:+ w2 +:+ "," +:+ s)
with Members : list (string * json) -> string -> Prop :=
| M_last k v w1 w2 w3 t w4 : ws w1 -> ws w2 -> ws w3 -> ws w4 -> Text v t ->
    Members [(utf8 k, v)] (w1 +:+ encode_string k +:+ w2 +:+ ":" +:+ w3 +:+ t +:+ w4 +:+ "}")
| M_next k v kvs w1 w2 w3 t w4 s : ws w1 -> ws w2 -> ws w3 -> ws w4 -> Text v t -> Members kvs s ->
    Members ((utf8 k, v) :: kvs)
      (w1 +:+ encode_string k +:+ w2 +:+ ":" +:+ w3 +:+ t +:+ w4 +:+ "," +:+ s).

Scheme Text_mut := Induction for Text Sort Prop
with Elems_mut := Induction for Elems Sort Prop
with Members_mut := Induction for Members Sort Prop.
Combined Scheme Text_Elems_Members_ind from Text_mut, Elems_mut, Members_mut.

(** ** Lemmas: reading *)

Lemma string_length_app (s t : string) :
  String.length (s +:+ t) = (String.length s + String.length t)%nat.
Proof. induction s as [|c s IH]; simpl; [done|]. by rewrite IH. Qed.

Lemma skip_ws_app w s : ws w -> skip_ws (w +:+ s) = skip_ws s.
Proof.
  unfold ws. induction w as [|c w IH]; simpl; [done|]. rewrite andb_true_iff. intros [-> Hw]. auto.
Qed.

Lemma read_chars_char c tl :
  read_chars (encode_char c +:+ tl) = '(t, r) ← read_chars tl; Some (String c t, r).
Proof. destruct c as [[] [] [] [] [] [] [] []]; reflexivity. Qed.

Lemma read_chars_copy c tl :
  one c = false -> read_chars (String c tl) = '(t, r) ← read_chars tl; Some (String c t, r).
Proof. by destruct c as [[] [] [] [] [] [] [] []]. Qed.

Lemma byte_of_inj c n : (n < 256)%nat -> byte_of c = Z.of_nat n -> c = ascii_of_nat n.
Proof. unfold byte_of. intros Hn H. apply Nat2Z.inj in H. by rewrite <- H, ascii_nat_embedding. Qed.

Lemma read_chars_token t tl :
  token_ok t ->
  read_chars (encode_token t +:+ tl) = '(x, r) ← read_chars tl; Some (token_text t +:+ x, r).
Proof.
  destruct t as [a|a b|a b c|a b c d|a]; intros Ht; unfold encode_token.
  - apply read_chars_char.
  - destruct Ht as [Ha Hb]. cbn [token_text String.append]. rewrite !read_chars_copy by done.
    by destruct (read_chars tl) as [[x r]|].
  - destruct Ht as (Ha & Hb & Hc).
    destruct ((byte_of a =? 0xE2) && (byte_of b =? 0x80) && (byte_of c =? 0xA8)) eqn:E8;
      [|destruct ((byte_of a =? 0xE2) && (byte_of b =? 0x80) && (byte_of c =? 0xA9)) eqn:E9].
    + rewrite !andb_true_iff, !Z.eqb_eq in E8. destruct E8 as [[E1 E2] E3].
      rewrite (byte_of_inj a 226), (byte_of_inj b 128), (byte_of_inj c 168) by lia.
      destruct (read_chars tl) as [[x r]|] eqn:E; simpl; rewrite E; reflexivity.
    + rewrite !andb_true_iff, !Z.eqb_eq in E9. destruct E9 as [[E1 E2] E3].
      rewrite (byte_of_inj a 226), (byte_of_inj b 128), (byte_of_inj c 169) by lia.
      destruct (read_chars tl) as [[x r]|] eqn:E; simpl; rewrite E; reflexivity.
    + cbn [token_text String.append]. rewrite !read_chars_copy by done.
      by destruct (read_chars tl) as [[x r]|].
  - destruct Ht as (Ha & Hb & Hc & Hd). cbn [token_text String.append]. rewrite !read_chars_copy by done.
    by destruct (read_chars tl) as [[x r]|].
  - destruct (read_chars tl) as [[x r]|] eqn:E; simpl; rewrite E; reflexivity.
Qed.

(** A string literal is read back, as UTF-8. *)
Lemma read_chars_encode s rest : read_chars (encode_chars s +:+ dquote +:+ rest) = Some (utf8 s, rest).
Proof.
  unfold encode_chars, utf8. induction (tokens_ok s) as [|t l Ht _ IH]; [done|].
  change (concat_text ?f (t :: l)) with (f t +:+ concat_text f l). by rewrite string_app_assoc, read_chars_token, IH.
Qed.

(** What may start a text, and what it is not mistaken for. *)
Definition starts_text (s : string) : Prop :=
  exists c s', s = String c s' /\ is_ws c = false /\ c <> "]"%char /\ c <> "}"%char /\ c <> ","%char.

Lemma is_digit_cases c : is_digit c = true -> is_ws c = false /\ c <> "]"%char /\ c <> "}"%char /\ c <> ","%char.
Proof. intros H. split_and!; [|by intros ->..]. by destruct c as [[] [] [] [] [] [] [] []]. Qed.

Lemma Itoa_starts_text z : starts_text (Itoa z).
Proof.
  unfold Itoa, FormatInt. case_bool; [by exists "-"%char; eexists|].
  pose proof (starts_with_digit_FormatUint z EmptyString ltac:(lia)) as Hd.
  rewrite string_app_nil_r in Hd. destruct (FormatUint z 10) as [|c s]; [done|].
  exists c, s. split; [done|]. by apply is_digit_cases.
Qed.

Lemma Text_starts j s : Text j s -> starts_text s.
Proof.
  destruct 1; try (eexists _, _; split; [reflexivity|by split_and!]). apply Itoa_starts_text.
Qed.

Lemma starts_text_app s t : starts_text s -> starts_text (s +:+ t).
Proof. intros (c & s' & -> & ?). by exists c, (s' +:+ t). Qed.

Lemma skip_ws_starts s : starts_text s -> skip_ws s = s.
Proof. intros (c & s' & -> & Hc & _). simpl. by rewrite Hc. Qed.

Lemma read_num_Itoa z rest :
  starts_with_digit rest = false -> read_num (Itoa z +:+ rest) = Some (z, rest).
Proof.
  intros Hr. unfold Itoa, FormatInt. case_bool.
  - cbn [String.append read_num]. rewrite starts_with_digit_FormatUint, scan_digits_FormatUint by (done || lia).
    do 2 f_equal. lia.
  - pose proof (starts_with_digit_FormatUint z rest ltac:(lia)) as Hd.
    pose proof (scan_digits_FormatUint z rest ltac:(lia) Hr) as Hs.
    destruct (FormatUint z 10 +:+ rest) as [|c s]; [done|]. unfold read_num.
    destruct c as [[] [] [] [] [] [] [] []]; try discriminate Hd; by rewrite Hd, Hs.
Qed.

(** Reading a number, a literal, whatever follows. *)
Lemma read_Itoa f z rest :
  starts_with_digit rest = false -> read (S f) (Itoa z +:+ rest) = Some (JNum z, rest).
Proof.
  intros Hr. pose proof (read_num_Itoa z rest Hr) as Hn. cbn [read].
  rewrite skip_ws_starts by apply starts_text_app, Itoa_starts_text.
  destruct (Itoa z +:+ rest) as [|c s]; [done|].
  assert (is_digit c = true \/ c = "-"%char) as Hc.
  { unfold read_num in Hn. destruct c as [[] [] [] [] [] [] [] []]; try discriminate Hn; auto. }
  destruct c as [[] [] [] [] [] [] [] []]; destruct Hc as [Hc|Hc]; try discriminate Hc;
    cbn [CutPrefix Ascii.eqb Bool.eqb ascii_of_nat]; cbn -[read_num]; rewrite Hn; done.
Qed.

Lemma read_ws f w s : ws w -> read (S f) (w +:+ s) = read (S f) s.
Proof. intros Hw. cbn [read]. by rewrite skip_ws_app. Qed.

Lemma ws_no_digit w s : ws w -> starts_with_digit s = false -> starts_with_digit (w +:+ s) = false.
Proof.
  destruct w as [|c w]; [done|]. unfold ws. simpl. rewrite andb_true_iff. intros [Hc _] _.
  by destruct c as [[] [] [] [] [] [] [] []].
Qed.

(** An array or an object that is not empty is handed to the loop over its
    elements. *)
Lemma read_array f w1 t s :
  ws w1 -> starts_text t ->
  read (S f) ("[" +:+ w1 +:+ t +:+ s) =
    '(l, r) ← read_elems f (w1 +:+ t +:+ s); Some (JArr l, r).
Proof.
  intros Hw (c & t' & -> & Hc & H1 & _). cbn -[read_elems skip_ws].
  change (skip_ws (String "["%char ?x)) with (String "["%char x). cbv iota.
  rewrite skip_ws_app by done. cbn -[read_elems]. rewrite Hc.
  by destruct c as [[] [] [] [] [] [] [] []].
Qed.

Lemma read_object f w1 k s :
  ws w1 ->
  read (S f) ("{" +:+ w1 +:+ encode_string k +:+ s) =
    '(l, r) ← read_members f (w1 +:+ encode_string k +:+ s); Some (JObj l, r).
Proof.
  intros Hw. cbn -[read_members skip_ws encode_string].
  change (skip_ws (String "{"%char ?x)) with (String "{"%char x). cbv iota.
  by rewrite skip_ws_app.
Qed.

(** Texts of elements and members begin in one way. *)
Lemma Elems_starts l s : Elems l s -> exists w t s', ws w /\ starts_text t /\ s = w +:+ t +:+ s'.
Proof.
  destruct 1 as [v w1 t w2 H1 H2 Ht|v vs w1 t w2 s H1 H2 Ht He]; eexists w1, t, _;
    (split_and!; [done|by eapply Text_starts|done]).
Qed.

Lemma Members_starts l s : Members l s -> exists w k s', ws w /\ s = w +:+ encode_string k +:+ s'.
Proof. destruct 1 as [k v w1|k v kvs w1]; exists w1, k; eexists; split; done. Qed.

(** The part of a member up to its value. *)
Lemma read_members_head f w1 k w2 s :
  ws w1 -> ws w2 ->
  read_members (S f) (w1 +:+ encode_string k +:+ w2 +:+ ":" +:+ s) =
    '(v, r2) ← read f s;
    match skip_ws r2 with
    | String ","%char r' => '(kvs, r'') ← read_members f r'; Some ((utf8 k, v) :: kvs, r'')
    | String "}"%char r' => Some ([(utf8 k, v)], r')
    | _ => None
    end.
Proof.
  intros H1 H2. cbn [read_members]. rewrite skip_ws_app by done. unfold encode_string.
  rewrite !string_app_assoc. change (skip_ws (dquote +:+ ?x)) with (String (ascii_of_nat 34) x).
  cbv iota. rewrite Ascii.eqb_refl, read_chars_encode. cbn [mbind option_bind].
  by rewrite skip_ws_app.
Qed.

(** A value is read from any of its texts, whatever follows that does not
    continue a number, with fuel for the length of the text. *)
Lemma read_complete :
  (forall j s, Text j s -> forall fuel w rest, ws w -> starts_with_digit rest = false ->
     (String.length s < fuel)%nat -> read fuel (w +:+ s +:+ rest) = Some (j, rest)) /\
  (forall l s, Elems l s -> forall fuel rest,
     (String.length s < fuel)%nat -> read_elems fuel (s +:+ rest) = Some (l, rest)) /\
  (forall l s, Members l s -> forall fuel rest,
     (String.length s < fuel)%nat -> read_members fuel (s +:+ rest) = Some (l, rest)).
Proof.
  apply Text_Elems_Members_ind; intros;
    match goal with H : (_ < ?fuel)%nat |- _ => destruct fuel as [|f]; [lia|] end;
    rewrite ?read_ws by done.
  - done.
  - done.
  - done.
  - by apply read_Itoa.
  - unfold encode_string. rewrite !string_app_assoc. cbn [read].
    change (skip_ws (dquote +:+ ?x)) with (String (ascii_of_nat 34) x). cbv iota.
    rewrite Ascii.eqb_refl, read_chars_encode. done.
  - cbn -[skip_ws]. change (skip_ws (String "["%char ?x)) with (String "["%char x). cbv iota.
    by rewrite string_app_assoc, skip_ws_app.
  - pose proof e as (w0 & t & s' & Hw & Ht & ->)%Elems_starts.
    rewrite !string_app_assoc, read_array by done.
    replace (w0 +:+ t +:+ s' +:+ rest) with ((w0 +:+ t +:+ s') +:+ rest) by by rewrite !string_app_assoc.
    rewrite H by (cbn in *; lia). done.
  - cbn -[skip_ws]. change (skip_ws (String "{"%char ?x)) with (String "{"%char x). cbv iota.
    by rewrite string_app_assoc, skip_ws_app.
  - pose proof m as (w0 & k & s' & Hw & ->)%Members_starts.
    rewrite !string_app_assoc, read_object by done.
    replace (w0 +:+ encode_string k +:+ s' +:+ rest) with ((w0 +:+ encode_string k +:+ s') +:+ rest)
      by by rewrite !string_app_assoc.
    rewrite H by (cbn in *; lia). done.
  - rewrite !string_length_app in *. cbn [read_elems]. rewrite !string_app_assoc.
    rewrite H by (first [done|by apply ws_no_digit|cbn in *; lia]). cbn. by rewrite skip_ws_app.
  - rewrite !string_length_app in *. cbn [read_elems]. rewrite !string_app_assoc.
    rewrite H by (first [done|by apply ws_no_digit|cbn in *; lia]). cbn [mbind option_bind]. rewrite skip_ws_app by done.
    change (skip_ws ("," +:+ ?x)) with (String ","%char x). cbv iota. rewrite H0 by (cbn in *; lia). done.
  - rewrite !string_length_app in *. rewrite !string_app_assoc, read_members_head by done.
    rewrite H by (first [done|by apply ws_no_digit|cbn in *; lia]). cbn. by rewrite skip_ws_app.
  - rewrite !string_length_app in *. rewrite !string_app_assoc, read_members_head by done.
    rewrite H by (first [done|by apply ws_no_digit|cbn in *; lia]). cbn [mbind option_bind]. rewrite skip_ws_app by done.
    change (skip_ws ("," +:+ ?x)) with (String ","%char x). cbv iota. rewrite H0 by (cbn in *; lia). done.
Qed.

Lemma Text_parse j s w1 w2 : Text j s -> ws w1 -> ws w2 -> parse (w1 +:+ s +:+ w2) = Some j.
Proof.
  intros Ht H1 H2. unfold parse. rewrite (proj1 read_complete j s Ht); [|done| |].
  - cbn [mbind option_bind]. rewrite <- (string_app_nil_r w2), skip_ws_app by done. done.
  - rewrite <- (string_app_nil_r w2). by apply ws_no_digit.
  - rewrite !string_length_app. lia.
Qed.

(** ** Lemmas: writing *)

Lemma Join_cons e es sep : es <> [] -> Join (e :: es) sep = e +:+ sep +:+ Join es sep.
Proof. by destruct es. Qed.

(** The value that is read back. *)
Fixpoint utf8_json (j : json) : json :=
  match j with
  | JStr s => JStr (utf8 s)
  | JArr l => JArr (map utf8_json l)
  | JObj l => JObj (map (fun kv => (utf8 kv.1, utf8_json kv.2)) l)
  | _ => j
  end.

(** Elements separated by commas and the same white space. *)
Lemma Elems_Join f l w1 w2 :
  l <> [] -> ws w1 -> ws w2 -> Forall (fun v => Text (utf8_json v) (f v)) l ->
  Elems (map utf8_json l) (w1 +:+ Join (map f l) ("," +:+ w1) +:+ w2 +:+ "]").
Proof.
  intros Hne H1 H2 Hl. induction Hl as [|v vs Hv Hvs IH]; [done|].
  destruct vs as [|v' vs]; [by apply E_last|].
  change (map f (v :: v' :: vs)) with (f v :: map f (v' :: vs)). rewrite Join_cons by done.
  specialize (IH ltac:(done)). rewrite !string_app_assoc.
  apply (E_next (utf8_json v) (map utf8_json (v' :: vs)) w1 (f v) EmptyString); done.
Qed.

Lemma Members_Join f l w1 w3 w2 :
  l <> [] -> ws w1 -> ws w3 -> ws w2 -> Forall (fun kv => Text (utf8_json kv.2) (f kv.2)) l ->
  Members (map (fun kv => (utf8 kv.1, utf8_json kv.2)) l) (w1 +:+ Join (map (fun kv => encode_string kv.1 +:+ ":" +:+ w3 +:+ f kv.2) l) ("," +:+ w1)
             +:+ w2 +:+ "}").
Proof.
  intros Hne H1 H3 H2 Hl. induction Hl as [|[k v] kvs Hv Hvs IH]; [done|].
  destruct kvs as [|kv' kvs].
  { cbn [map Join fst snd]. rewrite !string_app_assoc. by apply (M_last k (utf8_json v) w1 EmptyString). }
  match goal with |- context [Join (map ?g (_ :: kv' :: kvs))] =>
    change (map g ((k, v) :: kv' :: kvs)) with (g (k, v) :: map g (kv' :: kvs)) end.
  rewrite Join_cons by done. specialize (IH ltac:(done)). cbn [fst snd]. rewrite !string_app_assoc.
  apply (M_next k (utf8_json v) _ w1 EmptyString w3 (f v) EmptyString); done.
Qed.

Lemma print_Text j : Text (utf8_json j) (print j).
Proof.
  induction j as [|b|z|s|l Hl|l Hl] using json_nested_ind; cbn [print].
  - constructor.
  - destruct b; constructor.
  - constructor.
  - constructor.
  - destruct l as [|v l]; [by apply (T_arr_nil EmptyString)|].
    apply T_arr. by apply (Elems_Join print (v :: l) EmptyString EmptyString).
  - destruct l as [|kv l]; [by apply (T_obj_nil EmptyString)|].
    apply T_obj. by apply (Members_Join print (kv :: l) EmptyString EmptyString EmptyString).
Qed.

Lemma ws_break d : ws (break d).
Proof. unfold ws, break. cbn. by induction d as [|d IH]. Qed.

Lemma print_indent_Text j d : Text (utf8_json j) (print_indent d j).
Proof.
  revert d. induction j as [|b|z|s|l Hl|l Hl] using json_nested_ind; intros d;
    try apply print_Text.
  - destruct l as [|v l]; [apply print_Text|]. cbn [print_indent]. apply T_arr.
    apply (Elems_Join (print_indent (S d)) (v :: l)); [done|apply ws_break..|].
    eapply Forall_impl; [apply Hl|]. auto.
  - destruct l as [|kv l]; [apply print_Text|]. cbn [print_indent]. apply T_obj.
    apply (Members_Join (print_indent (S d)) (kv :: l) (break (S d)) " "); [done|apply ws_break|done|
      apply ws_break|].
    eapply Forall_impl; [apply Hl|]. auto.
Qed.

(** What the MarshalJSON method of an Option returns is, once compacted, the
    JSON string of its text. *)
Lemma escape_quote_char c :
  quoted_is_json c = true -> escape_html (quote_char c) = encode_char c.
Proof. by destruct c as [[] [] [] [] [] [] [] []]. Qed.

Lemma escape_html_app s t : escape_html (s +:+ t) = escape_html s +:+ escape_html t.
Proof. induction s as [|c s IH]; simpl; [done|]. by rewrite IH, string_app_assoc. Qed.

Lemma encode_chars_ascii c s :
  one c = true -> encode_chars (String c s) = encode_char c +:+ encode_chars s.
Proof. intros Hc. unfold encode_chars. cbn [tokens]. by rewrite Hc. Qed.

Lemma escape_html_Quote s :
  is_ascii s = true -> all_chars quoted_is_json s = true -> escape_html (Quote s) = encode_string s.
Proof.
  intros Ha Hs. unfold Quote, encode_string. rewrite !escape_html_app. f_equal. f_equal.
  unfold is_ascii in Ha. induction s as [|c s IH]; [done|]. cbn [all_chars] in Ha, Hs.
  apply andb_true_iff in Ha as [Hc Ha]. apply andb_true_iff in Hs as [Hq Hs].
  cbn [quote_body]. rewrite escape_html_app, escape_quote_char, encode_chars_ascii by done. f_equal. auto.
Qed.

Lemma Option_compact_print o :
  is_ascii (Option_String o) = true -> Option_compact o = print <$> Option_json o.
Proof.
  intros Ha. unfold Option_compact, Option_json, Option_MarshalJSON. destruct (all_chars _ _) eqn:E; [|done].
  by rewrite escape_html_Quote.
Qed.

(** ** Lemmas: values *)

Lemma all_some_spec {A : Type} (l : list (option A)) xs : all_some l = Some xs <-> l = Some <$> xs.
Proof.
  revert xs. induction l as [|o l IH]; intros xs; simpl; [by destruct xs|].
  destruct o as [x|]; simpl; [|by destruct xs]. destruct (all_some l) as [ys|]; simpl.
  - assert (l = Some <$> ys) as -> by by apply IH. destruct xs as [|y xs]; [done|]. simpl. split.
    + by intros [= -> ->].
    + intros [= -> E%list_fmap_eq_inj]; [by subst|]. by intros ?? [=].
  - destruct xs as [|y xs]; [done|]. split; [done|]. intros [= _ E']. by apply IH in E'.
Qed.

Lemma all_some_is_Some {A : Type} (l : list (option A)) :
  Forall is_Some l -> is_Some (all_some l).
Proof. induction 1 as [|o l [x ->] _ [xs IH]]; [by eexists|]. simpl. rewrite IH. by eexists. Qed.

Lemma entries_map_to_list {A B : Type} (f : A -> B) (m : gmap string A) :
  map_fold (fun k v acc => (k, f v) :: acc) [] m = (fun kv => (kv.1, f kv.2)) <$> map_to_list m.
Proof.
  rewrite map_fold_foldr. induction (map_to_list m) as [|[k v] l IH]; [done|]. simpl. by rewrite IH.
Qed.

Lemma to_json_AMap m :
  to_json (AMap m) =
    l ← all_some ((fun kv => pair_some (kv.1, to_json kv.2)) <$> map_to_list m);
    Some (JObj (merge_sort key_le l)).
Proof.
  cbn [to_json]. rewrite entries_map_to_list.
  change (map pair_some ?l) with (pair_some <$> l). by rewrite <- list_fmap_compose.
Qed.

(** The members of a map's JSON object are the map's entries. *)
Lemma to_json_AMap_members m l :
  to_json (AMap m) = Some (JObj l) ->
  forall k j, (k, j) ∈ l <-> exists v, m !! k = Some v /\ to_json v = Some j.
Proof.
  rewrite to_json_AMap. destruct (all_some _) as [xs|] eqn:E; [|done]. intros [= <-] k j.
  rewrite merge_sort_Permutation. apply all_some_spec in E. split.
  - intros [i Hi]%list_elem_of_lookup.
    assert (((fun kv => pair_some (kv.1, to_json kv.2)) <$> map_to_list m) !! i = Some (Some (k, j))) as H
      by (rewrite E, list_lookup_fmap, Hi; done).
    apply list_lookup_fmap_Some in H as ([k' v] & H1 & H2). unfold pair_some in H1. simpl in H1.
    destruct (to_json v) as [j'|] eqn:Ej; [|done]. simpl in H1. simplify_eq.
    exists v. split; [|done]. apply elem_of_map_to_list. by eapply list_elem_of_lookup_2.
  - intros (v & Hv & Hj). apply elem_of_map_to_list in Hv.
    assert (Some (k, j) ∈ Some <$> xs) as H.
    { rewrite <- E. apply list_elem_of_fmap. exists (k, v). split; [|done].
      unfold pair_some. simpl. by rewrite Hj. }
    apply list_elem_of_fmap in H as (x & [= <-] & H). done.
Qed.

(** A map is written when its values are, with its keys in order. *)
Lemma to_json_AMap_Some m :
  (forall k v, m !! k = Some v -> is_Some (to_json v)) ->
  exists l, to_json (AMap m) = Some (JObj l) /\ StronglySorted key_le l.
Proof.
  intros H. rewrite to_json_AMap. destruct (all_some_is_Some
    ((fun kv => pair_some (kv.1, to_json kv.2)) <$> map_to_list m)) as [xs ->].
  - apply Forall_fmap, Forall_forall. intros [k v] Hin%elem_of_map_to_list.
    destruct (H k v Hin) as [j Hj]. unfold pair_some. simpl. rewrite Hj. by eexists.
  - eexists. split; [done|]. apply StronglySorted_merge_sort.
    + intros x y z. unfold key_le. apply (transitivity (R := String.le)).
    + intros x y. unfold key_le. apply (total String.le).
Qed.

(** *** Values without nested maps *)

(** An option whose text is printable ASCII and can be taken apart again. *)
Definition option_ok (o : Option) : Prop :=
  no_colon (Kind o) = true /\ all_chars plain_char (Kind o) = true /\ 0 <= Value o.

Definition flat_ok (v : any) : Prop :=
  match v with
  | AOptions (Some l) => Forall option_ok l
  | AMap _ => False
  | _ => True
  end.

(** The dynamic type of a value. *)
Definition type_of (v : any) : nat :=
  match v with
  | AString _ => 0 | ABool _ => 1 | AUint8 _ => 2 | AUint16 _ => 3 | AUint32 _ => 4 | AUint64 _ => 5
  | AInt _ => 6 | AInt64 _ => 7 | ADuration _ => 8 | AOptions _ => 9 | AStrings _ => 10 | AMap _ => 11
  end.

Lemma plain_quoted_is_json s : all_chars plain_char s = true -> all_chars quoted_is_json s = true.
Proof.
  induction s as [|c s IH]; [done|]. cbn [all_chars]. rewrite !andb_true_iff. intros [Hc Hs].
  split; [|auto]. by destruct c as [[] [] [] [] [] [] [] []].
Qed.

Lemma Option_String_plain o : option_ok o -> all_chars plain_char (Option_String o) = true.
Proof.
  intros (_ & Hk & Hv). unfold Option_String. case_bool; [done|]. by rewrite !all_chars_app, Hk, hex2_plain.
Qed.

Lemma Option_json_ok o : option_ok o -> Option_json o = Some (JStr (Option_String o)).
Proof. intros Ho. unfold Option_json. by rewrite plain_quoted_is_json by by apply Option_String_plain. Qed.

Lemma options_json_ok l :
  Forall option_ok l -> all_some (map Option_json l) = Some ((JStr ∘ Option_String) <$> l).
Proof.
  intros Hl. apply all_some_spec. induction Hl as [|o l Ho Hl IH]; [done|].
  simpl. by rewrite Option_json_ok, IH.
Qed.

Lemma Option_String_inj o o' : option_ok o -> option_ok o' -> Option_String o = Option_String o' -> o = o'.
Proof.
  intros (Hk & _ & Hv) (Hk' & _ & Hv') E.
  by rewrite <- (parse_option_String o), <- (parse_option_String o'), E.
Qed.

Lemma options_inj l l' :
  Forall option_ok l -> Forall option_ok l' ->
  (JStr ∘ Option_String) <$> l = (JStr ∘ Option_String) <$> l' -> l = l'.
Proof.
  intros Hl. revert l'. induction Hl as [|o l Ho Hl IH]; intros [|o' l'] Hl' E; try done.
  apply Forall_cons in Hl' as [Ho' Hl']. simpl in E. injection E as E E'. f_equal; [|auto].
  by apply Option_String_inj.
Qed.

Lemma to_json_flat v : flat_ok v -> is_Some (to_json v).
Proof.
  destruct v as [| | | | | | | | |[l|]|[l|]|]; simpl; intros Hl; try done; try (by eexists).
  rewrite options_json_ok by done. by eexists.
Qed.

(** Between values of one type nothing is lost. *)
Lemma to_json_flat_inj v w :
  type_of v = type_of w -> flat_ok v -> flat_ok w -> to_json v = to_json w -> v = w.
Proof.
  destruct v as [| | | | | | | | |[l|]|[l|]|], w as [| | | | | | | | |[l'|]|[l'|]|]; simpl; intros Ht Hv Hw E;
    try done; try congruence.
  - rewrite !options_json_ok in E by done. simpl in E. injection E as E%options_inj; congruence.
  - rewrite options_json_ok in E by done. done.
  - rewrite options_json_ok in E by done. done.
  - injection E as E%list_fmap_eq_inj; [congruence|]. by intros ?? [=].
Qed.

Lemma to_json_AMap_flat m :
  map_Forall (fun _ => flat_ok) m -> exists l, to_json (AMap m) = Some (JObj l) /\ StronglySorted key_le l.
Proof. intros H. apply to_json_AMap_Some. intros k v Hv. by apply to_json_flat, (H k). Qed.

(** The texts of a value are read back. *)
Lemma parse_print j : parse (print j) = Some (utf8_json j).
Proof.
  rewrite <- (string_app_nil_r (print j)).
  apply (Text_parse _ _ EmptyString EmptyString); [apply print_Text|done..].
Qed.

Lemma parse_print_indent j : parse (print_indent 0 j) = Some (utf8_json j).
Proof.
  rewrite <- (string_app_nil_r (print_indent 0 j)).
  apply (Text_parse _ _ EmptyString EmptyString); [apply print_indent_Text|done..].
Qed.

Lemma print_inj j j' : print j = print j' -> utf8_json j = utf8_json j'.
Proof. intros E. apply (inj Some). by rewrite <- !parse_print, E. Qed.

(** *** Values as they are read back *)

(** A value without nested maps with its strings as UTF-8. *)
Definition utf8_any (v : any) : any :=
  match v with
  | AString s => AString (utf8 s)
  | AStrings (Some l) => AStrings (Some (utf8 <$> l))
  | _ => v
  end.

(** A map whose keys are kept. *)
Definition utf8_keys (m : gmap string any) : Prop := map_Forall (fun k _ => utf8 k = k) m.

Lemma plain_is_ascii s : all_chars plain_char s = true -> is_ascii s = true.
Proof. apply all_chars_impl. by intros [[] [] [] [] [] [] [] []]. Qed.

Lemma utf8_Option_String o : option_ok o -> utf8 (Option_String o) = Option_String o.
Proof. intros Ho. by apply utf8_ascii, plain_is_ascii, Option_String_plain. Qed.

Lemma utf8_options l :
  Forall option_ok l -> map utf8_json ((JStr ∘ Option_String) <$> l) = (JStr ∘ Option_String) <$> l.
Proof.
  induction 1 as [|o l Ho Hl IH]; [done|]. cbn [fmap list_fmap map compose utf8_json].
  rewrite utf8_Option_String by done. f_equal. apply IH.
Qed.

(** Writing and reading a flat value is reading its UTF-8. *)
Lemma to_json_utf8 v j : flat_ok v -> to_json v = Some j -> to_json (utf8_any v) = Some (utf8_json j).
Proof.
  destruct v as [| | | | | | | | |[l|]|[l|]|]; simpl; intros Hv E; simplify_eq; try done.
  - rewrite options_json_ok in E by done. simpl in E. injection E as <-. cbn [utf8_json].
    rewrite options_json_ok, utf8_options by done. done.
  - cbn [utf8_json]. do 2 f_equal. induction l as [|s l IH]; [done|]. simpl. by f_equal.
Qed.

Lemma flat_utf8_any v : flat_ok v -> flat_ok (utf8_any v).
Proof. by destruct v as [| | | | | | | | |[l|]|[l|]|]. Qed.

Lemma type_utf8_any v : type_of (utf8_any v) = type_of v.
Proof. by destruct v as [| | | | | | | | |[l|]|[l|]|]. Qed.

(** The members that are read back of a map. *)
Definition utf8_members (l : list (string * json)) : list (string * json) :=
  (fun kv => (utf8 kv.1, utf8_json kv.2)) <$> l.

Lemma utf8_json_JObj l : utf8_json (JObj l) = JObj (utf8_members l).
Proof. done. Qed.

Lemma utf8_AMap_members m l :
  utf8_keys m -> to_json (AMap m) = Some (JObj l) ->
  forall k j, (k, j) ∈ utf8_members l <-> exists v jv, m !! k = Some v /\ to_json v = Some jv /\ j = utf8_json jv.
Proof.
  intros Hk El k j. pose proof (to_json_AMap_members m l El) as Hm. unfold utf8_members.
  rewrite list_elem_of_fmap. split.
  - intros ([k' j'] & [= -> ->] & Hin). apply Hm in Hin as (v & Hv & Hj). exists v, j'.
    by rewrite (Hk k' v Hv).
  - intros (v & jv & Hv & Hj & ->). exists (k, jv). simpl. rewrite (Hk k v Hv). split; [done|].
    apply Hm. eauto.
Qed.

Lemma utf8_members_sorted m l :
  utf8_keys m -> to_json (AMap m) = Some (JObj l) -> StronglySorted key_le l ->
  StronglySorted key_le (utf8_members l).
Proof.
  intros Hk El Hs. assert (Forall (fun kv => utf8 kv.1 = kv.1) l) as Hl.
  { apply Forall_forall. intros [k j] Hin. apply (to_json_AMap_members m l El) in Hin as (v & Hv & _).
    by apply (Hk k v). }
  clear -Hs Hl. induction Hs as [|[k j] l Hs IH Hle]; [constructor|].
  apply Forall_cons in Hl as [E Hl]. constructor; [by apply IH|].
  unfold utf8_members. apply Forall_fmap. rewrite Forall_forall in Hle. rewrite Forall_forall in Hl.
  apply Forall_forall. intros [k' j'] Hin. specialize (Hle _ Hin). specialize (Hl _ Hin).
  unfold key_le in *. simpl in *. by rewrite E, Hl.
Qed.

(** The text of a flat map: maps that are equal have one text, and maps with one
    text are equal once their strings are taken as UTF-8. *)
Lemma Marshal_flat m m' :
  map_Forall (fun _ => flat_ok) m -> map_Forall (fun _ => flat_ok) m' -> utf8_keys m -> utf8_keys m' ->
  (forall k v w, m !! k = Some v -> m' !! k = Some w -> type_of v = type_of w) ->
  exists x y, Marshal (AMap m) = Some x /\ Marshal (AMap m') = Some y /\
    (m = m' -> x = y) /\ (x = y -> utf8_any <$> m = utf8_any <$> m').
Proof.
  intros H H' Hk Hk' Ht. unfold Marshal.
  destruct (to_json_AMap_flat m H) as (l & El & _), (to_json_AMap_flat m' H') as (l' & El' & _).
  exists (print (JObj l)), (print (JObj l')). rewrite El, El'. split_and!; [done..|congruence|].
  intros E%print_inj. rewrite !utf8_json_JObj in E. injection E as E.
  assert (forall m1 m2 l1 l2, map_Forall (fun _ => flat_ok) m1 -> map_Forall (fun _ => flat_ok) m2 ->
    utf8_keys m1 -> utf8_keys m2 -> to_json (AMap m1) = Some (JObj l1) -> to_json (AMap m2) = Some (JObj l2) ->
    (forall k v w, m1 !! k = Some v -> m2 !! k = Some w -> type_of v = type_of w) ->
    utf8_members l1 = utf8_members l2 ->
    forall k v, m1 !! k = Some v -> exists w, m2 !! k = Some w /\ utf8_any v = utf8_any w) as Hsub.
  { clear. intros m1 m2 l1 l2 F1 F2 K1 K2 E1 E2 Ht E k v Hv.
    destruct (to_json_flat v (F1 k v Hv)) as [jv Hjv].
    assert ((k, utf8_json jv) ∈ utf8_members l1) as Hin by (apply (utf8_AMap_members m1 l1 K1 E1); eauto).
    rewrite E in Hin. apply (utf8_AMap_members m2 l2 K2 E2) in Hin as (w & jw & Hw & Hjw & Ej).
    exists w. split; [done|]. apply to_json_flat_inj.
    - rewrite !type_utf8_any. by apply (Ht k).
    - by apply flat_utf8_any, (F1 k).
    - by apply flat_utf8_any, (F2 k).
    - rewrite (to_json_utf8 v jv (F1 k v Hv) Hjv), (to_json_utf8 w jw (F2 k w Hw) Hjw). by f_equal. }
  apply map_eq. intros k. rewrite !lookup_fmap. destruct (m !! k) as [v|] eqn:Hv.
  - destruct (Hsub m m' l l' H H' Hk Hk' El El' Ht E k v Hv) as (w & -> & Ew). simpl. by rewrite Ew.
  - destruct (m' !! k) as [w|] eqn:Hw; [|done].
    destruct (Hsub m' m l' l H' H Hk' Hk El' El (fun k v w Hv Hw => eq_sym (Ht k w v Hw Hv)) (eq_sym E) k w Hw)
      as (v & Hv' & _). congruence.
Qed.
