(* ===== verification/InitLinux.v ===== *)
(** * pkg/tcpinfo/init_linux.go: adapting to the running kernel

    The package variables of the file are the record [globals]; a Flag pointer
    of the size table is the name of the variable it points to. The table is
    scanned from its newest entry down, as in [adaptToKernelVersion]. *)

From S2P Require Import Prelude GoStrings KernelVersion.
From Stdlib Require Import Sorted.

(** The variables kernelVersionIsAtLeast_X. *)
Inductive kflag : Type :=
| AtLeast_2_6_2 | AtLeast_3_15 | AtLeast_4_1 | AtLeast_4_2 | AtLeast_4_6 | AtLeast_4_9
| AtLeast_4_10 | AtLeast_4_18 | AtLeast_4_19 | AtLeast_5_4 | AtLeast_5_5 | AtLeast_6_2
| AtLeast_6_7.

#[global] Instance kflag_eq_dec : EqDecision kflag.
Proof. solve_decision. Defined.

Record VersionedStructSize : Type := mkVersionedStructSize {
  Version : VersionInfo;
  Size : Z;
  Flag : kflag
}.

Record globals : Type := mkGlobals {
  linuxKernelVersion : option VersionInfo;
  sizeOfRawTCPInfo : Z;
  flags : kflag -> bool
}.

#[global] Instance globals_eta : RecordEta globals :=
  fconst mkGlobals <*> linuxKernelVersion <*> sizeOfRawTCPInfo <*> flags.

Definition initial_globals : globals := mkGlobals None 0 (fun _ => false).

(** kernel.VersionInfo{Kernel: k, Major: major, Minor: minor}. *)
Definition kver (k major minor : Z) : VersionInfo := mkVersionInfo k major minor EmptyString.

Definition tcpInfoSizes : list VersionedStructSize := [
  mkVersionedStructSize (kver 2 6 2) 104 AtLeast_2_6_2;
  mkVersionedStructSize (kver 3 15 0) 120 AtLeast_3_15;
  mkVersionedStructSize (kver 4 1 0) 136 AtLeast_4_1;
  mkVersionedStructSize (kver 4 2 0) 144 AtLeast_4_2;
  mkVersionedStructSize (kver 4 6 0) 160 AtLeast_4_6;
  mkVersionedStructSize (kver 4 9 0) 148 AtLeast_4_9;
  mkVersionedStructSize (kver 4 10 0) 192 AtLeast_4_10;
  mkVersionedStructSize (kver 4 18 0) 200 AtLeast_4_18;
  mkVersionedStructSize (kver 4 19 0) 224 AtLeast_4_19;
  mkVersionedStructSize (kver 5 4 0) 232 AtLeast_5_4;
  mkVersionedStructSize (kver 5 5 0) 232 AtLeast_5_5;
  mkVersionedStructSize (kver 6 2 0) 240 AtLeast_6_2;
  mkVersionedStructSize (kver 6 7 0) 248 AtLeast_6_7
].

Definition set_flag (f : kflag) (b : bool) (g : globals) : globals :=
  g <| flags := fun f' => if decide (f' = f) then b else flags g f' |>.

(** The inner loop: the flags of the entries from here down become true. *)
Fixpoint set_flags_down (es : list VersionedStructSize) (g : globals) : globals :=
  match es with
  | [] => g
  | e :: es' => set_flags_down es' (set_flag (Flag e) true g)
  end.

(** The outer loop over the entries, newest first. *)
Fixpoint adapt_loop (v : VersionInfo) (es : list VersionedStructSize) (g : globals) : globals :=
  match es with
  | [] => g
  | e :: es' =>
      if 0 <=? CompareKernelVersion v (Version e)
      then set_flags_down (e :: es') (g <| sizeOfRawTCPInfo := Size e |>)
      else adapt_loop v es' (set_flag (Flag e) false g)
  end.

(** The version the loop compares with: the kernel's, or 2.6.2 when it cannot
    be determined. The variable is local: the := of the source declares it. *)
Definition effective_version (kv : result VersionInfo) : VersionInfo :=
  match kv with
  | Ok v => v
  | Err _ => kver 2 6 2
  end.

Definition adaptToKernelVersion (kv : result VersionInfo) (g : globals) : globals :=
  adapt_loop (effective_version kv) (rev tcpInfoSizes) g.

(** init, run once when the program starts, with the kernel version of pkg/kernel. *)
Definition init (intBits : Z) (ByteSliceToString : list Z -> string) (Uname : list Z * option error) : globals :=
  adaptToKernelVersion (GetKernelVersion intBits ByteSliceToString (uname Uname)) initial_globals.

(** ** Specification *)

(** The bytes of a text. *)
Definition bytes_of (s : string) : list Z :=
  (fun c => Z.of_nat (nat_of_ascii c)) <$> String.list_ascii_of_string s.

(** The documented behaviour of unix.ByteSliceToString: the text before the
    first NUL. *)
Definition stops_at_nul (ByteSliceToString : list Z -> string) : Prop :=
  forall s rest, 0 ∉ bytes_of s -> ByteSliceToString (bytes_of s ++ 0 :: rest) = s.

(** The newest entry of the table that is not newer than the kernel. *)
Definition newest_entry (v : VersionInfo) : option VersionedStructSize :=
  find (fun e => 0 <=? CompareKernelVersion v (Version e)) (rev tcpInfoSizes).

(** The version each flag stands for. *)
Definition flag_version (f : kflag) : VersionInfo :=
  match f with
  | AtLeast_2_6_2 => kver 2 6 2 | AtLeast_3_15 => kver 3 15 0 | AtLeast_4_1 => kver 4 1 0
  | AtLeast_4_2 => kver 4 2 0 | AtLeast_4_6 => kver 4 6 0 | AtLeast_4_9 => kver 4 9 0
  | AtLeast_4_10 => kver 4 10 0 | AtLeast_4_18 => kver 4 18 0 | AtLeast_4_19 => kver 4 19 0
  | AtLeast_5_4 => kver 5 4 0 | AtLeast_5_5 => kver 5 5 0 | AtLeast_6_2 => kver 6 2 0
  | AtLeast_6_7 => kver 6 7 0
  end.

(** Newest first, strictly. *)
Definition newer (a b : VersionedStructSize) : Prop := version_lt (Version b) (Version a).

(** ** Lemmas *)

Lemma set_flags_down_size es g : sizeOfRawTCPInfo (set_flags_down es g) = sizeOfRawTCPInfo g.
Proof. revert g. induction es as [|e es IH]; intros g; [done|]. simpl. by rewrite IH. Qed.

Lemma set_flags_down_flags es g f :
  flags (set_flags_down es g) f = bool_decide (f ∈ Flag <$> es) || flags g f.
Proof.
  revert g. induction es as [|e es IH]; intros g; [done|]. simpl. rewrite IH. simpl.
  destruct (decide (f = Flag e)) as [->|Hne].
  - rewrite orb_true_r. symmetry. apply orb_true_iff. left. apply bool_decide_eq_true. set_solver.
  - f_equal. apply bool_decide_ext. set_solver.
Qed.

Lemma adapt_loop_other v es g f :
  f ∉ Flag <$> es -> flags (adapt_loop v es g) f = flags g f.
Proof.
  revert g. induction es as [|e es IH]; intros g Hf; [done|]. cbn [adapt_loop].
  case_bool.
  - rewrite set_flags_down_flags, bool_decide_eq_false_2 by done. done.
  - rewrite IH by set_solver. simpl. case_decide; set_solver.
Qed.

(** On a table sorted newest first, with distinct flags, each flag ends up
    telling whether the kernel is at least the flag's version. *)
Lemma adapt_loop_flags v es g e :
  StronglySorted newer es -> NoDup (Flag <$> es) -> e ∈ es ->
  flags (adapt_loop v es g) (Flag e) = bool_decide (0 <= CompareKernelVersion v (Version e)).
Proof.
  intros Hs Hnd He. revert g.
  induction Hs as [|e0 es Hs IH Hall]; intros g; [set_solver|]. cbn [adapt_loop].
  simpl in Hnd. apply NoDup_cons in Hnd as [Hni Hnd].
  case_bool.
  - rewrite set_flags_down_flags.
    rewrite bool_decide_eq_true_2 by (apply list_elem_of_fmap; eauto).
    symmetry. apply bool_decide_eq_true_2.
    apply elem_of_cons in He as [->|He]; [done|].
    rewrite Forall_forall in Hall. pose proof (Hall e He) as Hn.
    apply CompareKernelVersion_ge. apply CompareKernelVersion_ge in H.
    eapply version_le_trans; [|done]. by left.
  - apply elem_of_cons in He as [->|He]; [|by apply IH].
    rewrite adapt_loop_other by done. simpl. rewrite decide_True by done.
    symmetry. apply bool_decide_eq_false_2. lia.
Qed.

Lemma adapt_loop_size v es g :
  sizeOfRawTCPInfo (adapt_loop v es g) =
    match find (fun e => 0 <=? CompareKernelVersion v (Version e)) es with
    | Some e => Size e
    | None => sizeOfRawTCPInfo g
    end.
Proof.
  revert g. induction es as [|e es IH]; intros g; [done|]. cbn [adapt_loop find].
  case_bool; [by rewrite set_flags_down_size|by rewrite IH].
Qed.

Lemma adapt_loop_linuxKernelVersion v es g :
  linuxKernelVersion (adapt_loop v es g) = linuxKernelVersion g.
Proof.
  assert (forall es g, linuxKernelVersion (set_flags_down es g) = linuxKernelVersion g) as Hd.
  { clear. induction es as [|e es IH]; intros g; [done|]. simpl. by rewrite IH. }
  revert g. induction es as [|e es IH]; intros g; [done|]. cbn [adapt_loop].
  case_bool; [by rewrite Hd|by rewrite IH].
Qed.

Lemma newer_trans : Transitive newer.
Proof. intros a b c. unfold newer, version_lt. lia. Qed.

Lemma tcpInfoSizes_sorted : StronglySorted newer (rev tcpInfoSizes).
Proof.
  apply Sorted_StronglySorted; [exact newer_trans|]. cbn.
  repeat (apply Sorted_cons || apply Sorted_nil || apply HdRel_cons || apply HdRel_nil).
  all: unfold newer, version_lt; simpl; lia.
Qed.

Lemma tcpInfoSizes_flags_NoDup : NoDup (Flag <$> rev tcpInfoSizes).
Proof. by apply (bool_decide_unpack _); vm_compute. Qed.

Lemma tcpInfoSizes_flag_total f : exists e, e ∈ rev tcpInfoSizes /\ Flag e = f.
Proof.
  assert (f ∈ Flag <$> rev tcpInfoSizes) as (e & -> & He)%list_elem_of_fmap; [|by exists e].
  apply (bool_decide_unpack _). by destruct f; vm_compute.
Qed.

Lemma tcpInfoSizes_flag_version e : e ∈ rev tcpInfoSizes -> Version e = flag_version (Flag e).
Proof.
  intros He. assert (Forall (fun e => Version e = flag_version (Flag e)) (rev tcpInfoSizes)) as H.
  { by apply (bool_decide_unpack _); vm_compute. }
  rewrite Forall_forall in H. by apply H.
Qed.

Lemma adapt_flags kv g f :
  flags (adaptToKernelVersion kv g) f =
    bool_decide (0 <= CompareKernelVersion (effective_version kv) (flag_version f)).
Proof.
  destruct (tcpInfoSizes_flag_total f) as (e & He & <-).
  rewrite <- (tcpInfoSizes_flag_version e He).
  apply adapt_loop_flags; [exact tcpInfoSizes_sorted|exact tcpInfoSizes_flags_NoDup|done].
Qed.

Lemma adapt_flags_mono kv g f f' :
  flags (adaptToKernelVersion kv g) f = true -> version_le (flag_version f') (flag_version f) ->
  flags (adaptToKernelVersion kv g) f' = true.
Proof.
  rewrite !adapt_flags, !bool_decide_eq_true, !CompareKernelVersion_ge.
  intros H1 H2. by eapply version_le_trans.
Qed.

Lemma adapt_size kv g :
  sizeOfRawTCPInfo (adaptToKernelVersion kv g) =
    match newest_entry (effective_version kv) with
    | Some e => Size e
    | None => sizeOfRawTCPInfo g
    end.
Proof. apply adapt_loop_size. Qed.

Lemma newest_entry_Some v e :
  newest_entry v = Some e -> e ∈ tcpInfoSizes /\ version_le (Version e) v.
Proof.
  intros [He Hc]%find_some. apply Z.leb_le, CompareKernelVersion_ge in Hc. split; [|done].
  apply list_elem_of_In, in_rev. done.
Qed.

Lemma newest_entry_None v : newest_entry v = None <-> version_lt v (kver 2 6 2).
Proof.
  assert (forall e, In e (rev tcpInfoSizes) -> version_le (kver 2 6 2) (Version e)) as Hmin.
  { intros e He%list_elem_of_In.
    assert (Forall (fun e => 0 <= CompareKernelVersion (Version e) (kver 2 6 2)) (rev tcpInfoSizes))
      as H by (by apply (bool_decide_unpack _); vm_compute).
    rewrite Forall_forall in H. by apply CompareKernelVersion_ge, H. }
  split.
  - intros H. pose proof (find_none _ _ H (mkVersionedStructSize (kver 2 6 2) 104 AtLeast_2_6_2))
      as Hn.
    cbn in Hn. specialize (Hn ltac:(tauto)). apply Z.leb_gt in Hn.
    destruct (CompareKernelVersion_cases v (kver 2 6 2)) as [[E ?]|[[E ?]|[E ?]]]; [done|lia|lia].
  - intros H. unfold newest_entry. destruct (find _ _) as [e|] eqn:E; [|done].
    apply find_some in E as [He Hc]. apply Z.leb_le, CompareKernelVersion_ge in Hc.
    pose proof (version_le_trans _ _ _ (Hmin e He) Hc) as Hle.
    unfold version_le, version_lt, version_eqv in *. lia.
Qed.

(** The first match of a sorted list is the newest one. *)
Lemma find_newest (P : VersionedStructSize -> bool) es e e' :
  StronglySorted newer es -> find P es = Some e -> e' ∈ es -> P e' = true ->
  version_le (Version e') (Version e).
Proof.
  induction 1 as [|e0 es Hs IH Hall]; [done|]. cbn [find].
  destruct (P e0) eqn:E0.
  - intros [= ->] [->|He']%elem_of_cons _; [right; by unfold version_eqv|].
    left. rewrite Forall_forall in Hall. by apply Hall.
  - intros Hf [->|He']%elem_of_cons HP; [congruence|]. by apply IH.
Qed.

Lemma newest_entry_newest v e e' :
  newest_entry v = Some e -> e' ∈ tcpInfoSizes -> version_le (Version e') v ->
  version_le (Version e') (Version e).
Proof.
  intros He He' Hle. eapply find_newest; [exact tcpInfoSizes_sorted|exact He| |].
  - by apply list_elem_of_In, in_rev; rewrite rev_involutive; apply list_elem_of_In.
  - by apply Z.leb_le, CompareKernelVersion_ge.
Qed.

Lemma tcpInfoSizes_bounds e : e ∈ tcpInfoSizes -> 104 <= Size e <= 248.
Proof.
  intros He. assert (Forall (fun e => 104 <= Size e <= 248) tcpInfoSizes) as H.
  { by apply (bool_decide_unpack _); vm_compute. }
  rewrite Forall_forall in H. by apply H.
Qed.

Lemma flag_version_min f : version_le (kver 2 6 2) (flag_version f).
Proof. apply CompareKernelVersion_ge. by destruct f. Qed.

(** ** Properties *)

(** C9: after adaptToKernelVersion every kernelVersionIsAtLeast flag is true
    exactly when the kernel version (2.6.2 if it cannot be determined) is at
    least the flag's version, whatever the flags were before. Hence flags are
    downward closed and only grow with the version. *)
Theorem adaptToKernelVersion_flags kv g f :
  flags (adaptToKernelVersion kv g) f = true <->
  version_le (flag_version f) (effective_version kv).
Proof. by rewrite adapt_flags, bool_decide_eq_true, CompareKernelVersion_ge. Qed.

(** the size asked of the kernel is the one listed for the newest table
    entry the kernel has reached; it is between 104 and 248 bytes. Before
    2.6.2 no entry applies: every flag is false and the size is left alone. *)
Theorem adaptToKernelVersion_size kv g :
  (version_le (kver 2 6 2) (effective_version kv) /\
   exists e, newest_entry (effective_version kv) = Some e /\
     e ∈ tcpInfoSizes /\ version_le (Version e) (effective_version kv) /\
     (forall e', e' ∈ tcpInfoSizes -> version_le (Version e') (effective_version kv) ->
        version_le (Version e') (Version e)) /\
     sizeOfRawTCPInfo (adaptToKernelVersion kv g) = Size e /\ 104 <= Size e <= 248) \/
  (version_lt (effective_version kv) (kver 2 6 2) /\
   sizeOfRawTCPInfo (adaptToKernelVersion kv g) = sizeOfRawTCPInfo g /\
   forall f, flags (adaptToKernelVersion kv g) f = false).
Proof.
  pose proof (adapt_size kv g) as Hsz. set (v := effective_version kv) in *.
  destruct (newest_entry v) as [e|] eqn:E.
  - left. destruct (newest_entry_Some v e E) as [He Hle]. split.
    { destruct (CompareKernelVersion_cases v (kver 2 6 2)) as [[_ H]|[[_ H]|[_ H]]].
      - apply newest_entry_None in H. congruence.
      - right. unfold version_eqv in *. lia.
      - by left. }
    exists e. split_and!; try done; [|apply tcpInfoSizes_bounds; done..].
    intros e' He' Hle'. by apply (newest_entry_newest v).
  - right. apply newest_entry_None in E. split_and!; [done..|]. intros f.
    rewrite adapt_flags. apply bool_decide_eq_false_2. rewrite CompareKernelVersion_ge.
    intros H. pose proof (version_le_trans _ _ _ (flag_version_min f) H) as Hle.
    fold v in Hle. unfold version_le, version_lt, version_eqv in *. lia.
Qed.

(** assigning the package variable linuxKernelVersion has no influence:
    adaptToKernelVersion declares a variable of the same name of its own, so
    neither the flags nor the size depend on the package variable, and it is
    never written. *)
Theorem linuxKernelVersion_unused kv g override :
  let g' := g <| linuxKernelVersion := override |> in
  sizeOfRawTCPInfo (adaptToKernelVersion kv g') = sizeOfRawTCPInfo (adaptToKernelVersion kv g) /\
  (forall f, flags (adaptToKernelVersion kv g') f = flags (adaptToKernelVersion kv g) f) /\
  linuxKernelVersion (adaptToKernelVersion kv g') = override.
Proof.
  intros g'. rewrite !adapt_size. split_and!; [done| |apply adapt_loop_linuxKernelVersion].
  intros f. by rewrite !adapt_flags.
Qed.

(** *** From uname to the flags *)


(** A reading of the bytes up to the first NUL. *)
Fixpoint until_nul (bs : list Z) : string :=
  match bs with
  | [] => EmptyString
  | b :: bs' => if b =? 0 then EmptyString else String (ascii_of_nat (Z.to_nat b)) (until_nul bs')
  end.

Lemma until_nul_stops : stops_at_nul until_nul.
Proof.
  intros s rest. induction s as [|c s IH]; [done|].
  change (bytes_of (String c s)) with (Z.of_nat (nat_of_ascii c) :: bytes_of s).
  rewrite not_elem_of_cons. intros [Hc Hs]. cbn [app until_nul].
  destruct (Z.eqb_spec (Z.of_nat (nat_of_ascii c)) 0) as [E|_]; [congruence|].
  by rewrite Nat2Z.id, ascii_nat_embedding, IH.
Qed.

