(* ===== verification/TcpInfoLinux.v ===== *)
(** * pkg/tcpinfo on Linux: data and operations

    tcpinfo_linux.go with GetRawTCPInfo of tcpinfo_linux_others.go and of
    tcpinfo_linux_386.go. The kernel fills the Go struct byte by byte, so the
    struct is modelled with its memory image; the package variables of
    init_linux.go are the argument [g]. System calls and the getsockopt
    wrappers of golang.org/x/sys/unix are arguments ([Answers]). *)

From S2P Require Import Prelude GoStrings GoLayout KernelVersion InitLinux TcpInfo.

(** ** Data *)

(** The struct the kernel fills (struct tcp_info). *)
Record RawTCPInfo : Type := mkRawTCPInfo {
  state : Z;
  ca_state : Z;
  retransmits : Z;
  probes : Z;
  backoff : Z;
  options : Z;
  bitfield0 : Z;
  bitfield1 : Z;
  rto : Z;
  ato : Z;
  snd_mss : Z;
  rcv_mss : Z;
  unacked : Z;
  sacked : Z;
  lost : Z;
  retrans : Z;
  fackets : Z;
  last_data_sent : Z;
  last_ack_sent : Z;
  last_data_recv : Z;
  last_ack_recv : Z;
  pmtu : Z;
  rcv_ssthresh : Z;
  rtt : Z;
  rttvar : Z;
  snd_ssthresh : Z;
  snd_cwnd : Z;
  advmss : Z;
  reordering : Z;
  rcv_rtt : Z;
  rcv_space : Z;
  total_retrans : Z;
  pacing_rate : Z;
  max_pacing_rate : Z;
  bytes_acked : Z;
  bytes_received : Z;
  segs_out : Z;
  segs_in : Z;
  notsent_bytes : Z;
  min_rtt : Z;
  data_segs_in : Z;
  data_segs_out : Z;
  delivery_rate : Z;
  busy_time : Z;
  rwnd_limited : Z;
  sndbuf_limited : Z;
  delivered : Z;
  delivered_ce : Z;
  bytes_sent : Z;
  bytes_retrans : Z;
  dsack_dups : Z;
  reord_seen : Z;
  rcv_ooopack : Z;
  snd_wnd : Z;
  rcv_wnd : Z;
  rehash : Z;
  total_rto : Z;
  total_rto_recoveries : Z;
  total_rto_time : Z
}.

(** The field types, in order. *)
Definition RawTCPInfo_types : list gotype :=
  [TU8; TU8; TU8; TU8; TU8; TU8; TU8; TU8; TU32; TU32; TU32; TU32; TU32; TU32; TU32; TU32; TU32;
   TU32; TU32; TU32; TU32; TU32; TU32; TU32; TU32; TU32; TU32; TU32; TU32; TU32; TU32; TU32;
   TU64; TU64; TU64; TU64; TU32; TU32; TU32; TU32; TU32; TU32; TU64; TU64; TU64; TU64; TU32;
   TU32; TU64; TU64; TU32; TU32; TU32; TU32; TU32; TU32; TU16; TU16; TU32].

(** The end offset the source notes beside each field. *)
Definition RawTCPInfo_ends : list nat :=
  [1; 2; 3; 4; 5; 6; 7; 8; 12; 16; 20; 24; 28; 32; 36; 40; 44; 48; 52; 56; 60; 64; 68; 72; 76;
   80; 84; 88; 92; 96; 100; 104; 112; 120; 128; 136; 140; 144; 148; 152; 156; 160; 168; 176;
   184; 192; 196; 200; 208; 216; 220; 224; 228; 232; 236; 240; 242; 244; 248]%nat.

(** The fields with their types. *)
Definition RawTCPInfo_fields (r : RawTCPInfo) : list (gotype * Z) := [
  (TU8, state r);
  (TU8, ca_state r);
  (TU8, retransmits r);
  (TU8, probes r);
  (TU8, backoff r);
  (TU8, options r);
  (TU8, bitfield0 r);
  (TU8, bitfield1 r);
  (TU32, rto r);
  (TU32, ato r);
  (TU32, snd_mss r);
  (TU32, rcv_mss r);
  (TU32, unacked r);
  (TU32, sacked r);
  (TU32, lost r);
  (TU32, retrans r);
  (TU32, fackets r);
  (TU32, last_data_sent r);
  (TU32, last_ack_sent r);
  (TU32, last_data_recv r);
  (TU32, last_ack_recv r);
  (TU32, pmtu r);
  (TU32, rcv_ssthresh r);
  (TU32, rtt r);
  (TU32, rttvar r);
  (TU32, snd_ssthresh r);
  (TU32, snd_cwnd r);
  (TU32, advmss r);
  (TU32, reordering r);
  (TU32, rcv_rtt r);
  (TU32, rcv_space r);
  (TU32, total_retrans r);
  (TU64, pacing_rate r);
  (TU64, max_pacing_rate r);
  (TU64, bytes_acked r);
  (TU64, bytes_received r);
  (TU32, segs_out r);
  (TU32, segs_in r);
  (TU32, notsent_bytes r);
  (TU32, min_rtt r);
  (TU32, data_segs_in r);
  (TU32, data_segs_out r);
  (TU64, delivery_rate r);
  (TU64, busy_time r);
  (TU64, rwnd_limited r);
  (TU64, sndbuf_limited r);
  (TU32, delivered r);
  (TU32, delivered_ce r);
  (TU64, bytes_sent r);
  (TU64, bytes_retrans r);
  (TU32, dsack_dups r);
  (TU32, reord_seen r);
  (TU32, rcv_ooopack r);
  (TU32, snd_wnd r);
  (TU32, rcv_wnd r);
  (TU32, rehash r);
  (TU16, total_rto r);
  (TU16, total_rto_recoveries r);
  (TU32, total_rto_time r)
].

(** The struct a memory image holds. *)
Definition RawTCPInfo_of_mem (be : bool) (mem : list Z) : RawTCPInfo :=
  let u8 off := read_uint be mem off 1 in
  let u16 off := read_uint be mem off 2 in
  let u32 off := read_uint be mem off 4 in
  let u64 off := read_uint be mem off 8 in
  {|
    state := u8 0;
    ca_state := u8 1;
    retransmits := u8 2;
    probes := u8 3;
    backoff := u8 4;
    options := u8 5;
    bitfield0 := u8 6;
    bitfield1 := u8 7;
    rto := u32 8;
    ato := u32 12;
    snd_mss := u32 16;
    rcv_mss := u32 20;
    unacked := u32 24;
    sacked := u32 28;
    lost := u32 32;
    retrans := u32 36;
    fackets := u32 40;
    last_data_sent := u32 44;
    last_ack_sent := u32 48;
    last_data_recv := u32 52;
    last_ack_recv := u32 56;
    pmtu := u32 60;
    rcv_ssthresh := u32 64;
    rtt := u32 68;
    rttvar := u32 72;
    snd_ssthresh := u32 76;
    snd_cwnd := u32 80;
    advmss := u32 84;
    reordering := u32 88;
    rcv_rtt := u32 92;
    rcv_space := u32 96;
    total_retrans := u32 100;
    pacing_rate := u64 104;
    max_pacing_rate := u64 112;
    bytes_acked := u64 120;
    bytes_received := u64 128;
    segs_out := u32 136;
    segs_in := u32 140;
    notsent_bytes := u32 144;
    min_rtt := u32 148;
    data_segs_in := u32 152;
    data_segs_out := u32 156;
    delivery_rate := u64 160;
    busy_time := u64 168;
    rwnd_limited := u64 176;
    sndbuf_limited := u64 184;
    delivered := u32 192;
    delivered_ce := u32 196;
    bytes_sent := u64 200;
    bytes_retrans := u64 208;
    dsack_dups := u32 216;
    reord_seen := u32 220;
    rcv_ooopack := u32 224;
    snd_wnd := u32 228;
    rcv_wnd := u32 232;
    rehash := u32 236;
    total_rto := u16 240;
    total_rto_recoveries := u16 242;
    total_rto_time := u32 244
  |}%nat.


(** NullableBool, NullableUint8, ..., NullableDuration. *)
Record Nullable {A : Type} : Type := mkNullable {
  Valid : bool;
  NValue : A
}.
Arguments Nullable : clear implicits.
Arguments mkNullable {A} _ _.

(** A field that is null, with the zero value, unless [b] holds. *)
Definition valid_if {A : Type} (b : bool) (zero v : A) : Nullable A :=
  if b then mkNullable true v else mkNullable false zero.

Record SysInfo : Type := mkSysInfo {
  State : Z;
  StateName : string;
  CAState : Z;
  Retransmits : Z;
  Probes : Z;
  Backoff : Z;
  TxOptions : slice Option;
  RxOptions : slice Option;
  TxWindowScale : Z;
  RxWindowScale : Z;
  DeliveryRateAppLimited : Nullable bool;
  FastOpenClientFail : Nullable Z;
  RTO : Z;
  ATO : Z;
  TxMSS : Z;
  RxMSS : Z;
  UnAcked : Z;
  Sacked : Z;
  Lost : Z;
  Retrans : Z;
  Fackets : Z;
  LastTxAt : Z;
  LastTxAckAt : Z;
  LastRxAt : Z;
  LastRxAckAt : Z;
  PMTU : Z;
  RxSSThreshold : Z;
  RTT : Z;
  RTTVar : Z;
  TxSSThreshold : Z;
  TxCWindow : Z;
  AdvMSS : Z;
  Reordering : Z;
  RxRTT : Z;
  RxSpace : Z;
  TotalRetrans : Z;
  PacingRate : Nullable Z;
  MaxPacingRate : Nullable Z;
  BytesAcked : Nullable Z;
  BytesReceived : Nullable Z;
  SegsOut : Nullable Z;
  SegsIn : Nullable Z;
  NotSentBytes : Nullable Z;
  MinRTT : Nullable Z;
  DataSegsIn : Nullable Z;
  DataSegsOut : Nullable Z;
  DeliveryRate : Nullable Z;
  BusyTime : Nullable Z;
  RxWindowLimited : Nullable Z;
  TxBufferLimited : Nullable Z;
  Delivered : Nullable Z;
  DeliveredCE : Nullable Z;
  BytesSent : Nullable Z;
  BytesRetrans : Nullable Z;
  DSACKDups : Nullable Z;
  ReordSeen : Nullable Z;
  RxOutOfOrder : Nullable Z;
  TxWindow : Nullable Z;
  RxWindow : Nullable Z;
  Rehash : Nullable Z;
  TotalRTO : Nullable Z;
  TotalRTORecoveries : Nullable Z;
  TotalRTOTime : Nullable Z;
  CCAlgorithm : string;
  CCVegasEnabled : Nullable Z;
  CCVegasRTTCnt : Nullable Z;
  CCVegasRTT : Nullable Z;
  CCVegasRTTMin : Nullable Z;
  CCBBRBwLo : Nullable Z;
  CCBBRBwHi : Nullable Z;
  CCBBRMinRTT : Nullable Z;
  CCBBRPacingGain : Nullable Z;
  CCBBRCWindowGain : Nullable Z;
  CCDCTCPEnabled : Nullable bool;
  CCDCTCPCEState : Nullable Z;
  CCDCTCPAlpha : Nullable Z;
  CCDCTCPABECN : Nullable Z;
  CCDCTCPABTOT : Nullable Z
}.

#[global] Instance SysInfo_eta : RecordEta SysInfo :=
  fconst mkSysInfo <*> State <*> StateName <*> CAState <*> Retransmits <*> Probes <*>
    Backoff <*> TxOptions <*> RxOptions <*> TxWindowScale <*> RxWindowScale <*>
    DeliveryRateAppLimited <*> FastOpenClientFail <*> RTO <*> ATO <*> TxMSS <*> RxMSS <*>
    UnAcked <*> Sacked <*> Lost <*> Retrans <*> Fackets <*> LastTxAt <*> LastTxAckAt <*>
    LastRxAt <*> LastRxAckAt <*> PMTU <*> RxSSThreshold <*> RTT <*> RTTVar <*> TxSSThreshold
    <*> TxCWindow <*> AdvMSS <*> Reordering <*> RxRTT <*> RxSpace <*> TotalRetrans <*>
    PacingRate <*> MaxPacingRate <*> BytesAcked <*> BytesReceived <*> SegsOut <*> SegsIn <*>
    NotSentBytes <*> MinRTT <*> DataSegsIn <*> DataSegsOut <*> DeliveryRate <*> BusyTime <*>
    RxWindowLimited <*> TxBufferLimited <*> Delivered <*> DeliveredCE <*> BytesSent <*>
    BytesRetrans <*> DSACKDups <*> ReordSeen <*> RxOutOfOrder <*> TxWindow <*> RxWindow <*>
    Rehash <*> TotalRTO <*> TotalRTORecoveries <*> TotalRTOTime <*> CCAlgorithm <*>
    CCVegasEnabled <*> CCVegasRTTCnt <*> CCVegasRTT <*> CCVegasRTTMin <*> CCBBRBwLo <*>
    CCBBRBwHi <*> CCBBRMinRTT <*> CCBBRPacingGain <*> CCBBRCWindowGain <*> CCDCTCPEnabled
    <*> CCDCTCPCEState <*> CCDCTCPAlpha <*> CCDCTCPABECN <*> CCDCTCPABTOT.

(** The structs of golang.org/x/sys/unix the program reads. *)
Record TCPVegasInfo : Type := mkTCPVegasInfo {
  Vegas_Enabled : Z; Vegas_Rttcnt : Z; Vegas_Rtt : Z; Vegas_Minrtt : Z
}.

Record TCPBBRInfo : Type := mkTCPBBRInfo {
  BBR_Bw_lo : Z; BBR_Bw_hi : Z; BBR_Min_rtt : Z; BBR_Pacing_gain : Z; BBR_Cwnd_gain : Z
}.

Record TCPDCTCPInfo : Type := mkTCPDCTCPInfo {
  DCTCP_Enabled : Z; DCTCP_Ce_state : Z; DCTCP_Alpha : Z; DCTCP_Ab_ecn : Z; DCTCP_Ab_tot : Z
}.

Record TCPInfoPlusCC : Type := mkTCPInfoPlusCC {
  TCPInfo : RawTCPInfo;
  CCAlg : string;
  CCVegas : option TCPVegasInfo;
  CCBBR : option TCPBBRInfo;
  CCDCTP : option TCPDCTCPInfo
}.

#[global] Instance TCPInfoPlusCC_eta : RecordEta TCPInfoPlusCC :=
  fconst mkTCPInfoPlusCC <*> TCPInfo <*> CCAlg <*> CCVegas <*> CCBBR <*> CCDCTP.

(** ** Constants and tables *)

Definition TCP_ESTABLISHED : Z := 1.
Definition TCP_SYN_SENT : Z := 2.
Definition TCP_SYN_RECV : Z := 3.
Definition TCP_FIN_WAIT1 : Z := 4.
Definition TCP_FIN_WAIT2 : Z := 5.
Definition TCP_TIME_WAIT : Z := 6.
Definition TCP_CLOSE : Z := 7.
Definition TCP_CLOSE_WAIT : Z := 8.
Definition TCP_LAST_ACK : Z := 9.
Definition TCP_LISTEN : Z := 10.
Definition TCP_CLOSING : Z := 11.
Definition TCP_NEW_SYN_RECV : Z := 12.

Definition tcpStateMap : gmap Z string := list_to_map [
  (TCP_ESTABLISHED, "ESTABLISHED");
  (TCP_SYN_SENT, "SYN_SENT");
  (TCP_SYN_RECV, "SYN_RECV");
  (TCP_FIN_WAIT1, "FIN_WAIT1");
  (TCP_FIN_WAIT2, "FIN_WAIT2");
  (TCP_TIME_WAIT, "TIME_WAIT");
  (TCP_CLOSE, "CLOSE");
  (TCP_CLOSE_WAIT, "CLOSE_WAIT");
  (TCP_LAST_ACK, "LAST_ACK");
  (TCP_LISTEN, "LISTEN");
  (TCP_CLOSING, "CLOSING")
].

Definition TCPI_OPT_TIMESTAMPS : Z := 1.
Definition TCPI_OPT_SACK : Z := 2.
Definition TCPI_OPT_WSCALE : Z := 4.
Definition TCPI_OPT_ECN : Z := 8.
Definition TCPI_OPT_ECN_SEEN : Z := 16.
Definition TCPI_OPT_SYN_DATA : Z := 32.
Definition TCPI_OPT_USEC_TS : Z := 64.
Definition TCPI_OPT_TFO_CHILD : Z := 128.

Definition tcpOptionsMap : gmap Z string := list_to_map [
  (TCPI_OPT_TIMESTAMPS, "Timestamps");
  (TCPI_OPT_SACK, "SACK");
  (TCPI_OPT_WSCALE, "WindowScale");
  (TCPI_OPT_ECN, "ECN");
  (TCPI_OPT_ECN_SEEN, "ECNSeen");
  (TCPI_OPT_SYN_DATA, "SYNData");
  (TCPI_OPT_USEC_TS, "UsecTS");
  (TCPI_OPT_TFO_CHILD, "TFOChild")
].

Definition tcpOptions : list Z := [
  TCPI_OPT_TIMESTAMPS;
  TCPI_OPT_SACK;
  TCPI_OPT_WSCALE;
  TCPI_OPT_ECN;
  TCPI_OPT_ECN_SEEN;
  TCPI_OPT_SYN_DATA;
  TCPI_OPT_USEC_TS;
  TCPI_OPT_TFO_CHILD
].

(** syscall's values on Linux. *)
Definition ENOENT : Z := 2.
Definition EAGAIN : Z := 11.
Definition EINVAL : Z := 22.
Definition SOL_TCP : Z := 6.
Definition TCP_INFO : Z := 11.
Definition netGetSockOpt : Z := 15.

Definition ErrKernelTooOld : error :=
  NewError "tcp_info is not available on Linux prior to kernel 2.6.2".

(** time.Microsecond, in nanoseconds. *)
Definition timeFieldMultiplier : Z := 1000.

(** ** SysInfo.ToMap *)

(** if x.Valid { r[key] = x.Value } *)
Definition put_valid {A : Type} (key : string) (mk : A -> any) (x : Nullable A)
    (r : gmap string any) : gmap string any :=
  if Valid x then <[key := mk (NValue x)]> r else r.

(** The end of ToMap: the DCTCP part. *)
Definition put_dctcp (s : SysInfo) (r : gmap string any) : gmap string any :=
  let r := put_valid "ccDCTCPEnabled" ABool (CCDCTCPEnabled s) r in
  let r := put_valid "ccDCTCPCEState" AUint16 (CCDCTCPCEState s) r in
  let r := put_valid "ccDCTCPAlpha" AUint32 (CCDCTCPAlpha s) r in
  let r := put_valid "ccDCTCPABECN" AUint32 (CCDCTCPABECN s) r in
  let r := put_valid "ccDCTCPABTOT" AUint32 (CCDCTCPABTOT s) r in
  r.

Definition SysInfo_ToMap (s : SysInfo) : gmap string any :=
  let r : gmap string any := list_to_map [
    ("state", AString (StateName s));
    ("caState", AUint8 (CAState s));
    ("retransmits", AUint8 (Retransmits s));
    ("probes", AUint8 (Probes s));
    ("backoff", AUint8 (Backoff s));
    ("txOptions", AOptions (TxOptions s));
    ("rxOptions", AOptions (RxOptions s));
    ("txWindowScale", AUint8 (TxWindowScale s));
    ("rxWindowScale", AUint8 (RxWindowScale s));
    ("rto", ADuration (RTO s));
    ("ato", ADuration (ATO s));
    ("txMSS", AUint32 (TxMSS s));
    ("rxMSS", AUint32 (RxMSS s));
    ("unAcked", AUint32 (UnAcked s));
    ("sacked", AUint32 (Sacked s));
    ("lost", AUint32 (Lost s));
    ("retrans", AUint32 (Retrans s));
    ("fackets", AUint32 (Fackets s));
    ("lastTxAt", ADuration (LastTxAt s));
    ("lastTxAckAt", ADuration (LastTxAckAt s));
    ("lastRxAt", ADuration (LastRxAt s));
    ("lastRxAckAt", ADuration (LastRxAckAt s));
    ("pmtu", AUint32 (PMTU s));
    ("rxSSThreshold", AUint32 (RxSSThreshold s));
    ("rtt", ADuration (RTT s));
    ("rttVar", ADuration (RTTVar s));
    ("txSSThreshold", AUint32 (TxSSThreshold s));
    ("txCWindow", AUint32 (TxCWindow s));
    ("advMSS", AUint32 (AdvMSS s));
    ("reordering", AUint32 (Reordering s));
    ("rxRTT", ADuration (RxRTT s));
    ("rxSpace", AUint32 (RxSpace s));
    ("totalRetrans", AUint32 (TotalRetrans s));
    ("ccAlgorithm", AString (CCAlgorithm s))
  ] in
  let r := put_valid "deliveryRateAppLimited" ABool (DeliveryRateAppLimited s) r in
  let r := put_valid "fastOpenClientFail" AUint8 (FastOpenClientFail s) r in
  let r := put_valid "pacingRate" AUint64 (PacingRate s) r in
  let r := put_valid "maxPacingRate" AUint64 (MaxPacingRate s) r in
  let r := put_valid "bytesAcked" AUint64 (BytesAcked s) r in
  let r := put_valid "bytesReceived" AUint64 (BytesReceived s) r in
  let r := put_valid "segsOut" AUint32 (SegsOut s) r in
  let r := put_valid "segsIn" AUint32 (SegsIn s) r in
  let r := put_valid "notSentBytes" AUint32 (NotSentBytes s) r in
  let r := put_valid "minRTT" ADuration (MinRTT s) r in
  let r := put_valid "dataSegsIn" AUint32 (DataSegsIn s) r in
  let r := put_valid "dataSegsOut" AUint32 (DataSegsOut s) r in
  let r := put_valid "deliveryRate" AUint64 (DeliveryRate s) r in
  let r := put_valid "busyTime" AUint64 (BusyTime s) r in
  let r := put_valid "rxWindowLimited" AUint64 (RxWindowLimited s) r in
  let r := put_valid "txBufferLimited" AUint64 (TxBufferLimited s) r in
  let r := put_valid "delivered" AUint32 (Delivered s) r in
  let r := put_valid "deliveredCE" AUint32 (DeliveredCE s) r in
  let r := put_valid "bytesSent" AUint64 (BytesSent s) r in
  let r := put_valid "bytesRetrans" AUint64 (BytesRetrans s) r in
  let r := put_valid "dsackDups" AUint32 (DSACKDups s) r in
  let r := put_valid "reordSeen" AUint32 (ReordSeen s) r in
  let r := put_valid "rxOutOfOrder" AUint32 (RxOutOfOrder s) r in
  let r := put_valid "txWindow" AUint32 (TxWindow s) r in
  let r := put_valid "rxWindow" AUint32 (RxWindow s) r in
  let r := put_valid "rehash" AUint32 (Rehash s) r in
  let r := put_valid "totalRTO" AUint16 (TotalRTO s) r in
  let r := put_valid "totalRTORecoveries" AUint16 (TotalRTORecoveries s) r in
  let r := put_valid "totalRTOTime" AUint32 (TotalRTOTime s) r in
  let r := put_valid "ccVegasEnabled" AUint32 (CCVegasEnabled s) r in
  let r := put_valid "ccVegasRTTCnt" AUint32 (CCVegasRTTCnt s) r in
  let r := put_valid "ccVegasRTT" ADuration (CCVegasRTT s) r in
  let r := put_valid "ccVegasRTTMin" ADuration (CCVegasRTTMin s) r in
  let r := put_valid "ccBBRBwLo" AUint32 (CCBBRBwLo s) r in
  let r := put_valid "ccBBRBwHi" AUint32 (CCBBRBwHi s) r in
  let r := put_valid "ccBBRMinRTT" ADuration (CCBBRMinRTT s) r in
  let r := put_valid "ccBBRPacingGain" AUint32 (CCBBRPacingGain s) r in
  let r := put_valid "ccBBRCWindowGain" AUint32 (CCBBRCWindowGain s) r in
  put_dctcp s r.

(** ** RawTCPInfo.Unpack *)

(** The body of the option loop, on the two slices built so far. *)
Definition unpack_option (packed : RawTCPInfo) (acc : slice Option * slice Option) (flag : Z)
    : slice Option * slice Option :=
  let '(tx, rx) := acc in
  if Z.land (options packed) flag =? 0 then acc
  else if bool_decide (flag ∈ [TCPI_OPT_TIMESTAMPS; TCPI_OPT_SACK; TCPI_OPT_ECN;
      TCPI_OPT_ECN_SEEN; TCPI_OPT_SYN_DATA; TCPI_OPT_USEC_TS; TCPI_OPT_TFO_CHILD]) then
    (append tx (mkOption (lookup_name tcpOptionsMap flag) 0),
     append rx (mkOption (lookup_name tcpOptionsMap flag) 0))
  else if flag =? TCPI_OPT_WSCALE then
    (append tx (mkOption (lookup_name tcpOptionsMap flag) (wrap_u 64 (snd_wnd packed))),
     append rx (mkOption (lookup_name tcpOptionsMap flag) (wrap_u 64 (rcv_wnd packed))))
  else acc.

(** TxOptions starts as an empty slice, RxOptions as nil. *)
Definition unpack_options (packed : RawTCPInfo) : slice Option * slice Option :=
  foldl (unpack_option packed) (Some [], None) tcpOptions.

Definition Unpack (g : globals) (packed : RawTCPInfo) : SysInfo :=
  let at_least f := flags g f in
  let dur x := Duration x timeFieldMultiplier in
  {|
    State := state packed;
    StateName := lookup_name tcpStateMap (state packed);
    CAState := ca_state packed;
    Retransmits := retransmits packed;
    Probes := probes packed;
    Backoff := backoff packed;
    TxOptions := fst (unpack_options packed);
    RxOptions := snd (unpack_options packed);
    TxWindowScale := Z.land (bitfield0 packed) 0x0f;
    RxWindowScale := Z.shiftr (bitfield0 packed) 4;
    DeliveryRateAppLimited := valid_if (at_least AtLeast_4_9) false (Z.land (bitfield1 packed) 1 =? 1);
    FastOpenClientFail := valid_if (at_least AtLeast_5_5) 0 (Z.land (Z.shiftr (bitfield1 packed) 1) 0x3);
    RTO := dur (rto packed);
    ATO := dur (ato packed);
    TxMSS := snd_mss packed;
    RxMSS := rcv_mss packed;
    UnAcked := unacked packed;
    Sacked := sacked packed;
    Lost := lost packed;
    Retrans := retrans packed;
    Fackets := fackets packed;
    LastTxAt := dur (last_data_sent packed);
    LastTxAckAt := dur (last_ack_sent packed);
    LastRxAt := dur (last_data_recv packed);
    LastRxAckAt := dur (last_ack_recv packed);
    PMTU := pmtu packed;
    RxSSThreshold := rcv_ssthresh packed;
    RTT := dur (rtt packed);
    RTTVar := dur (rttvar packed);
    TxSSThreshold := snd_ssthresh packed;
    TxCWindow := snd_cwnd packed;
    AdvMSS := advmss packed;
    Reordering := reordering packed;
    RxRTT := dur (rcv_rtt packed);
    RxSpace := rcv_space packed;
    TotalRetrans := total_retrans packed;
    PacingRate := valid_if (at_least AtLeast_3_15) 0 (pacing_rate packed);
    MaxPacingRate := valid_if (at_least AtLeast_3_15) 0 (max_pacing_rate packed);
    BytesAcked := valid_if (at_least AtLeast_4_1) 0 (bytes_acked packed);
    BytesReceived := valid_if (at_least AtLeast_4_1) 0 (bytes_received packed);
    SegsOut := valid_if (at_least AtLeast_4_2) 0 (segs_out packed);
    SegsIn := valid_if (at_least AtLeast_4_2) 0 (segs_in packed);
    NotSentBytes := valid_if (at_least AtLeast_4_6) 0 (notsent_bytes packed);
    MinRTT := valid_if (at_least AtLeast_4_6) 0 (dur (min_rtt packed));
    DataSegsIn := valid_if (at_least AtLeast_4_6) 0 (data_segs_in packed);
    DataSegsOut := valid_if (at_least AtLeast_4_6) 0 (data_segs_out packed);
    DeliveryRate := valid_if (at_least AtLeast_4_9) 0 (delivery_rate packed);
    BusyTime := valid_if (at_least AtLeast_4_10) 0 (busy_time packed);
    RxWindowLimited := valid_if (at_least AtLeast_4_10) 0 (rwnd_limited packed);
    TxBufferLimited := valid_if (at_least AtLeast_4_10) 0 (sndbuf_limited packed);
    Delivered := valid_if (at_least AtLeast_4_18) 0 (delivered packed);
    DeliveredCE := valid_if (at_least AtLeast_4_18) 0 (delivered_ce packed);
    BytesSent := valid_if (at_least AtLeast_4_19) 0 (bytes_sent packed);
    BytesRetrans := valid_if (at_least AtLeast_4_19) 0 (bytes_retrans packed);
    DSACKDups := valid_if (at_least AtLeast_4_19) 0 (dsack_dups packed);
    ReordSeen := valid_if (at_least AtLeast_4_19) 0 (reord_seen packed);
    RxOutOfOrder := valid_if (at_least AtLeast_5_4) 0 (rcv_ooopack packed);
    TxWindow := valid_if (at_least AtLeast_5_4) 0 (snd_wnd packed);
    RxWindow := valid_if (at_least AtLeast_6_2) 0 (rcv_wnd packed);
    Rehash := valid_if (at_least AtLeast_6_2) 0 (rehash packed);
    TotalRTO := valid_if (at_least AtLeast_6_2) 0 (total_rto packed);
    TotalRTORecoveries := valid_if (at_least AtLeast_6_2) 0 (total_rto_recoveries packed);
    TotalRTOTime := valid_if (at_least AtLeast_6_2) 0 (total_rto_time packed);
    CCAlgorithm := EmptyString;
    CCVegasEnabled := mkNullable false 0;
    CCVegasRTTCnt := mkNullable false 0;
    CCVegasRTT := mkNullable false 0;
    CCVegasRTTMin := mkNullable false 0;
    CCBBRBwLo := mkNullable false 0;
    CCBBRBwHi := mkNullable false 0;
    CCBBRMinRTT := mkNullable false 0;
    CCBBRPacingGain := mkNullable false 0;
    CCBBRCWindowGain := mkNullable false 0;
    CCDCTCPEnabled := mkNullable false false;
    CCDCTCPCEState := mkNullable false 0;
    CCDCTCPAlpha := mkNullable false 0;
    CCDCTCPABECN := mkNullable false 0;
    CCDCTCPABTOT := mkNullable false 0
  |}.

(** ** SysInfo.ToInfo and SysInfo.Warnings *)

Definition ToInfo (s : SysInfo) : Info SysInfo :=
  {|
    TcpInfo.State := StateName s;
    TcpInfo.TxOptions := TxOptions s;
    TcpInfo.RxOptions := RxOptions s;
    TcpInfo.TxMSS := wrap_u 64 (TxMSS s);
    TcpInfo.RxMSS := wrap_u 64 (RxMSS s);
    TcpInfo.RTT := RTT s;
    TcpInfo.RTTVar := RTTVar s;
    TcpInfo.RTO := RTO s;
    TcpInfo.ATO := ATO s;
    TcpInfo.LastTxAt := LastTxAt s;
    TcpInfo.LastRxAt := LastRxAt s;
    TcpInfo.LastTxAckAt := LastTxAckAt s;
    TcpInfo.LastRxAckAt := LastRxAckAt s;
    TcpInfo.RxWindow := wrap_u 64 (RxSpace s);
    TcpInfo.TxSSThreshold := wrap_u 64 (TxSSThreshold s);
    TcpInfo.RxSSThreshold := wrap_u 64 (RxSSThreshold s);
    TcpInfo.TxWindowBytes := 0;
    TcpInfo.TxWindowSegs := wrap_u 64 (TxCWindow s);
    TcpInfo.Retransmits := wrap_u 64 (TotalRetrans s);
    TcpInfo.Sys := Some s
  |}.

Definition valid_pos (x : Nullable Z) : bool := Valid x && (0 <? NValue x).

Definition Warnings (s : SysInfo) : slice string :=
  let warns : slice string := None in
  let warns := warn_if (valid_pos (BytesRetrans s)) "retransBytes="
    (NValue (BytesRetrans s)) warns in
  let warns := warn_if (0 <? TotalRetrans s) "retransTotal="
    (wrap_u 64 (TotalRetrans s)) warns in
  let warns := warn_if (0 <? Backoff s) "backoff=" (wrap_u 64 (Backoff s)) warns in
  let warns := warn_if (valid_pos (RxOutOfOrder s)) "outOfOrderBytes="
    (wrap_u 64 (NValue (RxOutOfOrder s))) warns in
  let warns := warn_if (valid_pos (TxBufferLimited s)) "txSendBufferLimited="
    (NValue (TxBufferLimited s)) warns in
  let warns := warn_if (valid_pos (RxWindowLimited s)) "rxWindowLimited="
    (NValue (RxWindowLimited s)) warns in
  warns.

(** ** The system calls *)

(** What the program asks of the kernel: getsockopt(2), or on 386 the
    multiplexed socketcall(2) with its argument block. The answer is the errno
    and the bytes of the kernel's tcp_info. *)
Inductive request : Type :=
| Getsockopt (fd level optname len : Z)
| Socketcall (call fd level optname len : Z).

Record Answers : Type := mkAnswers {
  ans_fd : Z;
  ans_syscall : request -> Z * list Z;
  ans_congestion : result string;
  ans_vegas : result TCPVegasInfo;
  ans_bbr : result TCPBBRInfo;
  ans_dctcp : result TCPDCTCPInfo
}.

(** unsafe.Sizeof(RawTCPInfo{}): the zeroed variable the kernel writes to. *)
Definition sizeof_RawTCPInfo : nat := struct_size 8 RawTCPInfo_types.

Definition zero_mem : list Z := replicate sizeof_RawTCPInfo 0.

(** The errno switch and the return of the filled struct. *)
Definition raw_result (be : bool) (len : Z) (answer : Z * list Z) : result RawTCPInfo :=
  let '(errNo, kdata) := answer in
  if negb (errNo =? 0) then
    if errNo =? EAGAIN then Err (Errno EAGAIN)
    else if errNo =? EINVAL then Err (Errno EINVAL)
    else if errNo =? ENOENT then Err (Errno ENOENT)
    else Err (Errno errNo)
  else Ok (RawTCPInfo_of_mem be (copyout zero_mem kdata (Z.to_nat len))).

(** tcpinfo_linux_others.go *)
Definition GetRawTCPInfo (be : bool) (g : globals) (sys : request -> Z * list Z) (fd : Z)
    : result RawTCPInfo :=
  let length := wrap_u 32 (sizeOfRawTCPInfo g) in
  raw_result be length (sys (Getsockopt fd SOL_TCP TCP_INFO length)).

(** tcpinfo_linux_386.go *)
Definition GetRawTCPInfo_386 (be : bool) (g : globals) (sys : request -> Z * list Z) (fd : Z)
    : result RawTCPInfo :=
  let length := wrap_u 32 (sizeOfRawTCPInfo g) in
  raw_result be length (sys (Socketcall netGetSockOpt fd SOL_TCP TCP_INFO length)).

(** The getsockopt wrapper's answer is passed on. *)
Definition GetTCPCongestionAlgorithm (answer : result string) : string * option error :=
  match answer with
  | Err err => (EmptyString, Some err)
  | Ok algo => (algo, None)
  end.

(** TCPInfoPlusCC.Unpack *)
Definition UnpackCC (g : globals) (t : TCPInfoPlusCC) : SysInfo :=
  let sysInfo := Unpack g (TCPInfo t) in
  let sysInfo := sysInfo <| CCAlgorithm := CCAlg t |> in
  let ok {A : Type} (v : A) := mkNullable true v in
  let usec v := Duration v 1000 in
  match String.eqb (CCAlg t) "vegas", CCVegas t with
  | true, Some v =>
      sysInfo <| CCVegasEnabled := ok (Vegas_Enabled v) |>
              <| CCVegasRTTCnt := ok (Vegas_Rttcnt v) |>
              <| CCVegasRTTMin := ok (usec (Vegas_Minrtt v)) |>
              <| CCVegasRTT := ok (usec (Vegas_Rtt v)) |>
  | _, _ =>
  match String.eqb (CCAlg t) "bbr", CCBBR t with
  | true, Some b =>
      sysInfo <| CCBBRBwHi := ok (BBR_Bw_hi b) |>
              <| CCBBRBwLo := ok (BBR_Bw_lo b) |>
              <| CCBBRMinRTT := ok (usec (BBR_Min_rtt b)) |>
              <| CCBBRPacingGain := ok (BBR_Pacing_gain b) |>
              <| CCBBRCWindowGain := ok (BBR_Cwnd_gain b) |>
  | _, _ =>
  match String.eqb (CCAlg t) "dctcp", CCDCTP t with
  | true, Some d =>
      sysInfo <| CCDCTCPEnabled := ok (negb (DCTCP_Enabled d =? 0)) |>
              <| CCDCTCPCEState := ok (DCTCP_Ce_state d) |>
              <| CCDCTCPAlpha := ok (DCTCP_Alpha d) |>
              <| CCDCTCPABECN := ok (DCTCP_Ab_ecn d) |>
              <| CCDCTCPABTOT := ok (DCTCP_Ab_tot d) |>
  | _, _ => sysInfo
  end end end.

(** GetTCPInfo, over the GetRawTCPInfo of the architecture. *)
Definition GetTCPInfo (get_raw : globals -> (request -> Z * list Z) -> Z -> result RawTCPInfo)
    (g : globals) (a : Answers) : option SysInfo * option error :=
  if negb (flags g AtLeast_2_6_2) then (None, Some ErrKernelTooOld)
  else
    match get_raw g (ans_syscall a) (ans_fd a) with
    | Err err => (None, Some err)
    | Ok tcpInfo =>
        let res := mkTCPInfoPlusCC tcpInfo EmptyString None None None in
        match GetTCPCongestionAlgorithm (ans_congestion a) with
        | (_, Some err) => (Some (UnpackCC g res), Some err)
        | (alg, None) =>
            let res := res <| CCAlg := alg |> in
            if String.eqb alg "vegas" then
              match ans_vegas a with
              | Err err => (Some (UnpackCC g res), Some err)
              | Ok v => (Some (UnpackCC g (res <| CCVegas := Some v |>)), None)
              end
            else if String.eqb alg "bbr" then
              match ans_bbr a with
              | Err err => (Some (UnpackCC g res), Some err)
              | Ok v => (Some (UnpackCC g (res <| CCBBR := Some v |>)), None)
              end
            else if String.eqb alg "dctcp" then
              match ans_dctcp a with
              | Err err => (Some (UnpackCC g res), Some err)
              | Ok v => (Some (UnpackCC g (res <| CCDCTP := Some v |>)), None)
              end
            else (Some (UnpackCC g res), None)
        end
    end.

Definition Supported (g : globals) : bool := flags g AtLeast_2_6_2.

(** ** The platform interface *)

#[global] Instance linux_platform (be : bool) (g : globals) : Platform := {|
  TcpInfo.SysInfo := SysInfo;
  TcpInfo.Answers := Answers;
  TcpInfo.Supported := Supported g;
  TcpInfo.GetTCPInfo := GetTCPInfo (GetRawTCPInfo be) g;
  TcpInfo.ToInfo := ToInfo;
  TcpInfo.SysInfo_Warnings := Warnings;
  TcpInfo.nil_Warnings := None;
  TcpInfo.SysInfo_ToMap := SysInfo_ToMap
|}.
