(* ===== verification/TcpInfoLinuxProps.v ===== *)
(** * pkg/tcpinfo on Linux: properties

    The memory layout of RawTCPInfo, what Unpack reports for the bytes the
    kernel delivered under the size requested of it, and the option lists. *)

From S2P Require Import Prelude GoStrings GoLayout KernelVersion InitLinux TcpInfo TcpInfoLinux.

(** ** Specification *)

Definition RawTCPInfo_ok (r : RawTCPInfo) : Prop := Forall field_ok (RawTCPInfo_fields r).

(** The end of the last byte Unpack reads under a flag. *)
Definition flag_end (f : kflag) : Z :=
  match f with
  | AtLeast_2_6_2 => 104 | AtLeast_3_15 => 120 | AtLeast_4_1 => 136 | AtLeast_4_2 => 144
  | AtLeast_4_6 => 160 | AtLeast_4_9 => 168 | AtLeast_4_10 => 192 | AtLeast_4_18 => 200
  | AtLeast_4_19 => 224 | AtLeast_5_4 => 232 | AtLeast_5_5 => 8 | AtLeast_6_2 => 248
  | AtLeast_6_7 => 0
  end.

Definition all_kflags : list kflag :=
  [AtLeast_2_6_2; AtLeast_3_15; AtLeast_4_1; AtLeast_4_2; AtLeast_4_6; AtLeast_4_9; AtLeast_4_10;
   AtLeast_4_18; AtLeast_4_19; AtLeast_5_4; AtLeast_5_5; AtLeast_6_2; AtLeast_6_7].

(** The table entries whose size is smaller than what their flags read. *)
Definition short_entry (e : VersionedStructSize) : bool :=
  bool_decide (Flag e = AtLeast_4_9 \/ Flag e = AtLeast_6_2).

Definition version_in (v lo hi : VersionInfo) : Prop := version_le lo v /\ version_lt v hi.

(** What the kernel's bytes [kdata] become when [len] of them are asked for. *)
Definition raw_of_kernel (be : bool) (kdata : list Z) (len : Z) : RawTCPInfo :=
  RawTCPInfo_of_mem be (copyout zero_mem kdata (Z.to_nat len)).

Definition drop_options (s : SysInfo) : SysInfo := s <| TxOptions := None |> <| RxOptions := None |>.

(** ** Layout *)

Lemma raw_of_kernel_ok be kdata len :
  Forall is_byte kdata -> RawTCPInfo_ok (raw_of_kernel be kdata len).
Proof.
  intros Hk. assert (Forall is_byte (copyout zero_mem kdata (Z.to_nat len))) as Hm.
  { apply copyout_bytes; [apply zeros_bytes|done]. }
  unfold RawTCPInfo_ok, RawTCPInfo_fields, raw_of_kernel.
  repeat (apply Forall_cons; split; [by apply (read_uint_range be _ _ _ Hm)|]).
  apply Forall_nil_2.
Qed.

(** C33: RawTCPInfo has the memory layout the source notes for the kernel's
    struct, in the comment behind each field. Under Go's alignment rules, with
    8-byte or (on 386) 4-byte alignment of uint64, no padding is inserted, each
    field ends where its comment says and the struct is 248 bytes long; and from
    memory every field is read at that place with its width, so that nothing is
    read beyond the struct. *)
Theorem RawTCPInfo_layout align64 be mem :
  align64 = 4%nat \/ align64 = 8%nat ->
  let offs := fst (field_offsets align64 0 RawTCPInfo_types) in
  zip_with Nat.add offs (size_of <$> RawTCPInfo_types) = RawTCPInfo_ends /\
  offs = 0%nat :: removelast RawTCPInfo_ends /\
  struct_size align64 RawTCPInfo_types = 248%nat /\ last RawTCPInfo_ends = Some 248%nat /\
  RawTCPInfo_fields (RawTCPInfo_of_mem be mem) =
    zip_with (fun off t => (t, read_uint be mem off (size_of t))) offs RawTCPInfo_types.
Proof. intros [-> | ->]; split_and!; vm_compute; reflexivity. Qed.

Lemma RawTCPInfo_layout_witness :
  struct_size 4 RawTCPInfo_types = 248%nat /\
  RawTCPInfo_fields (RawTCPInfo_of_mem false (seqZ 0 248)) =
    zip_with (fun off t => (t, read_uint false (seqZ 0 248) off (size_of t)))
      (fst (field_offsets 4 0 RawTCPInfo_types)) RawTCPInfo_types.
Proof.
  destruct (RawTCPInfo_layout 4 false (seqZ 0 248)) as (_ & _ & Hs & _ & Hf); [by left|].
  split; [exact Hs|exact Hf].
Defined.

(** ** Requested size and reported fields *)

Lemma length_zero_mem : length zero_mem = 248%nat.
Proof. reflexivity. Qed.

(** Except for the entries of 4.9 and 6.2 the size listed for an entry covers
    what is read under every flag the entry sets. *)
Lemma entries_cover e f :
  e ∈ tcpInfoSizes -> short_entry e = false -> version_le (flag_version f) (Version e) ->
  flag_end f <= Size e.
Proof.
  intros He Hs Hle.
  assert (Forall (fun e => short_entry e = true \/
    Forall (fun f => 0 <= CompareKernelVersion (Version e) (flag_version f) ->
      flag_end f <= Size e) all_kflags) tcpInfoSizes) as H.
  { by apply (bool_decide_unpack _); vm_compute. }
  rewrite Forall_forall in H. destruct (H e He) as [|H']; [congruence|].
  rewrite Forall_forall in H'. apply H'; [by apply (bool_decide_unpack _); destruct f; vm_compute|].
  by apply CompareKernelVersion_ge.
Qed.

Lemma entry_of_flag f : exists e, e ∈ tcpInfoSizes /\ Flag e = f /\ Version e = flag_version f.
Proof.
  destruct (tcpInfoSizes_flag_total f) as (e & He & <-). exists e.
  split_and!; [|done|by apply tcpInfoSizes_flag_version].
  by apply list_elem_of_In, in_rev, list_elem_of_In.
Qed.

Lemma adapt_flag_newest kv g f e :
  newest_entry (effective_version kv) = Some e ->
  flags (adaptToKernelVersion kv g) f = true -> version_le (flag_version f) (Version e).
Proof.
  intros He Hf. destruct (entry_of_flag f) as (e' & He' & <- & E). rewrite <- E.
  apply (newest_entry_newest _ _ _ He He'). rewrite E. apply CompareKernelVersion_ge.
  rewrite adapt_flags in Hf. by apply bool_decide_eq_true in Hf.
Qed.

(** The newest entry is a given one exactly between its version and the next. *)
Lemma newest_entry_interval v f f' e :
  newest_entry v = Some e -> Flag e = f -> version_lt (flag_version f) (flag_version f') ->
  version_in v (flag_version f) (flag_version f').
Proof.
  intros He <- Hlt. pose proof (newest_entry_Some _ _ He) as [Hin Hle].
  assert (Version e = flag_version (Flag e)) as E.
  { apply tcpInfoSizes_flag_version. by apply list_elem_of_In, in_rev; rewrite rev_involutive;
      apply list_elem_of_In. }
  split; [by rewrite <- E|].
  destruct (CompareKernelVersion_cases v (flag_version f')) as [[_ H]|H]; [done|].
  destruct (entry_of_flag f') as (e' & He' & _ & E').
  assert (version_le (Version e') v) as Hle'.
  { rewrite E'. apply CompareKernelVersion_ge. lia. }
  pose proof (newest_entry_newest _ _ _ He He' Hle') as Hc. rewrite E', E in Hc.
  unfold version_le, version_lt, version_eqv in *. lia.
Qed.

Lemma adapt_covers kv g f :
  version_le (kver 2 6 2) (effective_version kv) ->
  ~ version_in (effective_version kv) (kver 4 9 0) (kver 4 10 0) ->
  ~ version_in (effective_version kv) (kver 6 2 0) (kver 6 7 0) ->
  flags (adaptToKernelVersion kv g) f = true ->
  flag_end f <= sizeOfRawTCPInfo (adaptToKernelVersion kv g).
Proof.
  intros Hmin H49 H62 Hf. rewrite adapt_size.
  destruct (newest_entry (effective_version kv)) as [e|] eqn:E.
  - apply entries_cover; [by apply newest_entry_Some in E as [? _]| |by eapply adapt_flag_newest].
    apply bool_decide_eq_false. intros [HF|HF].
    + apply H49. by apply (newest_entry_interval _ AtLeast_4_9 AtLeast_4_10 e E HF);
        unfold version_lt; simpl; lia.
    + apply H62. by apply (newest_entry_interval _ AtLeast_6_2 AtLeast_6_7 e E HF);
        unfold version_lt; simpl; lia.
  - apply newest_entry_None in E. unfold version_le, version_lt, version_eqv in *. lia.
Qed.

Lemma adapt_size_bounds kv g :
  version_le (kver 2 6 2) (effective_version kv) ->
  104 <= sizeOfRawTCPInfo (adaptToKernelVersion kv g) <= 248.
Proof.
  intros Hmin. rewrite adapt_size. destruct (newest_entry _) as [e|] eqn:E.
  - apply tcpInfoSizes_bounds. by apply newest_entry_Some in E as [? _].
  - apply newest_entry_None in E. unfold version_le, version_lt, version_eqv in *. lia.
Qed.

(** Reduce Unpack on a memory image to the record of its reads. *)
Ltac unfold_unpack :=
  cbv beta iota zeta delta [
    drop_options Unpack raw_of_kernel RawTCPInfo_of_mem field_set
    state ca_state retransmits probes backoff options bitfield0 bitfield1 rto ato snd_mss
    rcv_mss unacked sacked lost retrans fackets last_data_sent last_ack_sent last_data_recv
    last_ack_recv pmtu rcv_ssthresh rtt rttvar snd_ssthresh snd_cwnd advmss reordering
    rcv_rtt rcv_space total_retrans pacing_rate max_pacing_rate bytes_acked bytes_received
    segs_out segs_in notsent_bytes min_rtt data_segs_in data_segs_out delivery_rate
    busy_time rwnd_limited sndbuf_limited delivered delivered_ce bytes_sent bytes_retrans
    dsack_dups reord_seen rcv_ooopack snd_wnd rcv_wnd rehash total_rto total_rto_recoveries
    total_rto_time State StateName CAState Retransmits Probes Backoff TxOptions RxOptions
    TxWindowScale RxWindowScale DeliveryRateAppLimited FastOpenClientFail RTO ATO TxMSS
    RxMSS UnAcked Sacked Lost Retrans Fackets LastTxAt LastTxAckAt LastRxAt LastRxAckAt PMTU
    RxSSThreshold RTT RTTVar TxSSThreshold TxCWindow AdvMSS Reordering RxRTT RxSpace
    TotalRetrans PacingRate MaxPacingRate BytesAcked BytesReceived SegsOut SegsIn
    NotSentBytes MinRTT DataSegsIn DataSegsOut DeliveryRate BusyTime RxWindowLimited
    TxBufferLimited Delivered DeliveredCE BytesSent BytesRetrans DSACKDups ReordSeen
    RxOutOfOrder TxWindow RxWindow Rehash TotalRTO TotalRTORecoveries TotalRTOTime
    CCAlgorithm CCVegasEnabled CCVegasRTTCnt CCVegasRTT CCVegasRTTMin CCBBRBwLo CCBBRBwHi
    CCBBRMinRTT CCBBRPacingGain CCBBRCWindowGain CCDCTCPEnabled CCDCTCPCEState CCDCTCPAlpha
    CCDCTCPABECN CCDCTCPABTOT
  ].

(** A field that ends within the requested size has the value the whole
    struct would give. *)
Ltac read_whole :=
  first
    [ reflexivity
    | unfold valid_if;
      match goal with
      | |- (if flags ?g ?f then _ else _) = _ =>
          let E := fresh "E" in
          destruct (flags g f) eqn:E; [|reflexivity];
          match goal with Hc : forall f, flags g f = true -> flag_end f <= _ |- _ =>
            apply Hc in E; cbn [flag_end] in E end
      | _ => idtac
      end;
      match goal with
      | |- context [read_uint ?be (copyout ?d ?k ?n) ?o ?sz] =>
          rewrite (read_uint_copyout be d k n (Z.to_nat 248) o sz)
            by (rewrite ?length_zero_mem; lia)
      end; reflexivity ].

Lemma Unpack_size_irrelevant be g kdata len :
  104 <= len <= 248 -> (forall f, flags g f = true -> flag_end f <= len) ->
  drop_options (Unpack g (raw_of_kernel be kdata len)) =
  drop_options (Unpack g (raw_of_kernel be kdata 248)).
Proof.
  intros Hlen Hc. unfold_unpack. f_equal; read_whole.
Qed.

(** *** The option lists without the values of WindowScale *)

Definition unscale (o : Option) : Option :=
  if String.eqb (Kind o) "WindowScale" then mkOption (Kind o) 0 else o.

Definition unscaled_options (l : slice Option) : slice Option := option_map (map unscale) l.

Definition unscaled (s : SysInfo) : SysInfo :=
  s <| TxOptions := unscaled_options (TxOptions s) |> <| RxOptions := unscaled_options (RxOptions s) |>.

Lemma unscaled_append l o : unscaled_options (append l o) = append (unscaled_options l) (unscale o).
Proof. unfold unscaled_options, append. destruct l as [l|]; [|done]. simpl. by rewrite map_app. Qed.

Lemma unpack_option_unscaled r r' tx rx tx' rx' flag :
  options r = options r' -> unscaled_options tx = unscaled_options tx' ->
  unscaled_options rx = unscaled_options rx' ->
  let out := unpack_option r (tx, rx) flag in
  let out' := unpack_option r' (tx', rx') flag in
  unscaled_options out.1 = unscaled_options out'.1 /\ unscaled_options out.2 = unscaled_options out'.2.
Proof.
  intros Ho Ht Hr. unfold unpack_option. rewrite Ho. destruct (_ =? 0); [done|].
  case_bool_decide; cbn [fst snd]; [by rewrite !unscaled_append, Ht, Hr|].
  destruct (Z.eqb_spec flag TCPI_OPT_WSCALE) as [->|]; [|done]. cbn [fst snd].
  by rewrite !unscaled_append, Ht, Hr.
Qed.

Lemma unpack_options_unscaled r r' :
  options r = options r' ->
  unscaled_options (unpack_options r).1 = unscaled_options (unpack_options r').1 /\
  unscaled_options (unpack_options r).2 = unscaled_options (unpack_options r').2.
Proof.
  intros Ho. unfold unpack_options.
  assert (forall l acc acc', unscaled_options acc.1 = unscaled_options acc'.1 ->
    unscaled_options acc.2 = unscaled_options acc'.2 ->
    let out := foldl (unpack_option r) acc l in
    let out' := foldl (unpack_option r') acc' l in
    unscaled_options out.1 = unscaled_options out'.1 /\ unscaled_options out.2 = unscaled_options out'.2)
    as H; [|by apply H].
  induction l as [|flag l IH]; intros [tx rx] [tx' rx'] Ht Hr; [done|]. cbn [foldl].
  apply IH; by apply (unpack_option_unscaled r r').
Qed.

(** The values of WindowScale are those of two fields. *)
Lemma unpack_options_ext r r' :
  options r = options r' -> snd_wnd r = snd_wnd r' -> rcv_wnd r = rcv_wnd r' ->
  unpack_options r = unpack_options r'.
Proof.
  intros Ho Hs Hr. unfold unpack_options. generalize (@Some (list Option) [], @None (list Option)).
  induction tcpOptions as [|flag l IH]; intros acc; [done|]. cbn [foldl].
  assert (unpack_option r acc flag = unpack_option r' acc flag) as ->; [|apply IH].
  unfold unpack_option. by rewrite Ho, Hs, Hr.
Qed.

Lemma drop_options_unscaled s s' :
  drop_options s = drop_options s' -> unscaled_options (TxOptions s) = unscaled_options (TxOptions s') ->
  unscaled_options (RxOptions s) = unscaled_options (RxOptions s') -> unscaled s = unscaled s'.
Proof.
  intros H Ht Hr. assert (forall s, unscaled s = (drop_options s) <| TxOptions := unscaled_options (TxOptions s) |>
    <| RxOptions := unscaled_options (RxOptions s) |>) as E by (intros []; reflexivity). by rewrite !E, H, Ht, Hr.
Qed.

Lemma drop_options_inj s s' :
  drop_options s = drop_options s' -> TxOptions s = TxOptions s' -> RxOptions s = RxOptions s' -> s = s'.
Proof.
  intros H Ht Hr. assert (forall s, s = (drop_options s) <| TxOptions := TxOptions s |>
    <| RxOptions := RxOptions s |>) as E by (intros []; reflexivity). by rewrite (E s), (E s'), H, Ht, Hr.
Qed.

(** The option byte, and the two window fields when they were asked for. *)
Lemma raw_options_whole be kdata len :
  104 <= len <= 248 ->
  options (raw_of_kernel be kdata len) = options (raw_of_kernel be kdata 248) /\
  (240 <= len -> snd_wnd (raw_of_kernel be kdata len) = snd_wnd (raw_of_kernel be kdata 248) /\
    rcv_wnd (raw_of_kernel be kdata len) = rcv_wnd (raw_of_kernel be kdata 248)).
Proof.
  intros Hlen. unfold raw_of_kernel, RawTCPInfo_of_mem. cbn [options snd_wnd rcv_wnd].
  split; [|intros Hw; split]; apply read_uint_copyout; rewrite ?length_zero_mem; lia.
Qed.

(** C7: the size asked of the kernel is enough. On every kernel from 2.6.2 on but
    4.9 and 6.2 to 6.6, Unpack of the bytes that the size chosen for its version
    asks for reports the same as Unpack of the whole struct, the values of the
    WindowScale options excepted: no field is marked valid, or reported
    unconditionally, whose bytes were not requested. From 6.7 on the two are the
    same without exception. (The code fills WindowScale from two fields that
    older kernels do not have.) *)
Theorem Unpack_requested_size_suffices be kv g0 kdata :
  let v := effective_version kv in
  let g := adaptToKernelVersion kv g0 in
  let asked := Unpack g (raw_of_kernel be kdata (sizeOfRawTCPInfo g)) in
  let whole := Unpack g (raw_of_kernel be kdata 248) in
  version_le (kver 2 6 2) v ->
  ~ version_in v (kver 4 9 0) (kver 4 10 0) ->
  ~ version_in v (kver 6 2 0) (kver 6 7 0) ->
  unscaled asked = unscaled whole /\ (version_le (kver 6 7 0) v -> asked = whole).
Proof.
  intros v g asked whole Hmin H49 H62.
  pose proof (adapt_size_bounds kv g0 Hmin) as Hsize. fold g in Hsize.
  assert (forall f, flags g f = true -> flag_end f <= sizeOfRawTCPInfo g) as Hcov
    by (intros f Hf; by apply adapt_covers).
  pose proof (Unpack_size_irrelevant be g kdata _ Hsize Hcov) as Hd.
  destruct (raw_options_whole be kdata _ Hsize) as [Ho Hw]. split.
  - destruct (unpack_options_unscaled _ _ Ho) as [Ht Hr]. by apply drop_options_unscaled.
  - intros H67. assert (flag_end AtLeast_6_2 <= sizeOfRawTCPInfo g) as Hlen.
    { apply Hcov. unfold g. rewrite adapt_flags. apply bool_decide_eq_true_2, CompareKernelVersion_ge.
      unfold version_le, version_lt, version_eqv in *. fold v. simpl in *. lia. }
    cbn [flag_end] in Hlen. destruct Hw as [Hs Hr]; [lia|].
    pose proof (unpack_options_ext _ _ Ho Hs Hr) as Hopts.
    apply drop_options_inj; [done| |]; unfold asked, whole; cbn [Unpack TxOptions RxOptions]; by rewrite Hopts.
Qed.

Lemma Unpack_requested_size_suffices_witness :
  let g := adaptToKernelVersion (Ok (kver 5 10 0)) initial_globals in
  sizeOfRawTCPInfo g = 232 /\
  unscaled (Unpack g (raw_of_kernel false (seqZ 1 248) 232)) =
  unscaled (Unpack g (raw_of_kernel false (seqZ 1 248) 248)).
Proof.
  split; [reflexivity|].
  apply (Unpack_requested_size_suffices false (Ok (kver 5 10 0)) initial_globals);
    unfold version_in, version_le, version_lt, version_eqv; simpl; lia.
Defined.

Lemma adapt_interval kv g f f' e :
  newest_entry (flag_version f) = Some e -> Flag e = f ->
  (forall f0, version_le (flag_version f0) (flag_version f) \/
              version_le (flag_version f') (flag_version f0)) ->
  version_in (effective_version kv) (flag_version f) (flag_version f') ->
  sizeOfRawTCPInfo (adaptToKernelVersion kv g) = Size e /\
  flags (adaptToKernelVersion kv g) f = true.
Proof.
  intros He HF Hgap [Hlo Hhi]. split.
  - rewrite adapt_size.
    assert (newest_entry (effective_version kv) = newest_entry (flag_version f)) as ->;
      [|by rewrite He].
    unfold newest_entry. set (l := rev tcpInfoSizes).
    assert (forall e0, e0 ∈ l -> Version e0 = flag_version (Flag e0)) as Hv
      by exact tcpInfoSizes_flag_version.
    induction l as [|e0 l IH]; [done|]. cbn [find].
    rewrite IH by (intros; apply Hv; set_solver).
    replace (0 <=? CompareKernelVersion (effective_version kv) (Version e0))
      with (0 <=? CompareKernelVersion (flag_version f) (Version e0)); [done|].
    apply eq_bool_prop_intro. rewrite !Is_true_true, !Z.leb_le, !CompareKernelVersion_ge.
    rewrite (Hv e0) by set_solver.
    destruct (Hgap (Flag e0)); unfold version_le, version_lt, version_eqv in *; lia.
  - rewrite adapt_flags. apply bool_decide_eq_true_2. by apply CompareKernelVersion_ge.
Qed.

Lemma gap_4_9 f0 :
  version_le (flag_version f0) (kver 4 9 0) \/ version_le (kver 4 10 0) (flag_version f0).
Proof. destruct f0; unfold version_le, version_lt, version_eqv; simpl; lia. Qed.

Lemma gap_6_2 f0 :
  version_le (flag_version f0) (kver 6 2 0) \/ version_le (kver 6 7 0) (flag_version f0).
Proof. destruct f0; unfold version_le, version_lt, version_eqv; simpl; lia. Qed.

(** A flagged field beyond the requested size is a valid zero. *)
Lemma read_beyond be kdata len off size :
  (len <= off)%nat -> (len <= 248)%nat -> read_uint be (copyout zero_mem kdata len) off size = 0.
Proof.
  intros H1 H2. rewrite read_uint_copyout_beyond by (rewrite ?length_zero_mem; lia).
  apply read_uint_zeros.
Qed.

(** on kernel 4.9 the size requested, 148 bytes, is smaller than on 4.6:
    MinRTT, DataSegsIn, DataSegsOut and DeliveryRate are marked valid but are
    zero whatever the kernel's values are, because their bytes are never
    copied. *)
Theorem Unpack_4_9_truncated be kv g0 kdata :
  let g := adaptToKernelVersion kv g0 in
  let s := Unpack g (raw_of_kernel be kdata (sizeOfRawTCPInfo g)) in
  version_in (effective_version kv) (kver 4 9 0) (kver 4 10 0) ->
  sizeOfRawTCPInfo g = 148 /\
  MinRTT s = mkNullable true 0 /\ DataSegsIn s = mkNullable true 0 /\
  DataSegsOut s = mkNullable true 0 /\ DeliveryRate s = mkNullable true 0.
Proof.
  intros g s Hv.
  destruct (adapt_interval kv g0 AtLeast_4_9 AtLeast_4_10
    (mkVersionedStructSize (kver 4 9 0) 148 AtLeast_4_9) eq_refl eq_refl gap_4_9 Hv) as [Hsz Hf].
  fold g in Hsz, Hf. cbn [Size] in Hsz. split; [done|].
  assert (flags g AtLeast_4_6 = true) as Hf'.
  { apply (adapt_flags_mono kv g0 AtLeast_4_9); [done|].
    unfold version_le, version_lt; simpl; lia. }
  subst s. rewrite Hsz. unfold Unpack. cbn [MinRTT DataSegsIn DataSegsOut DeliveryRate].
  unfold valid_if. rewrite Hf, Hf'.
  unfold raw_of_kernel, RawTCPInfo_of_mem. cbn [min_rtt data_segs_in data_segs_out delivery_rate].
  rewrite !read_beyond by lia. done.
Qed.

Lemma Unpack_4_9_truncated_witness :
  let g := adaptToKernelVersion (Ok (kver 4 9 337)) initial_globals in
  DeliveryRate (Unpack g (raw_of_kernel false (replicate 168 255) (sizeOfRawTCPInfo g))) =
    mkNullable true 0 /\
  delivery_rate (raw_of_kernel false (replicate 168 255) 168) = 2 ^ 64 - 1.
Proof.
  split; [|reflexivity].
  apply (Unpack_4_9_truncated false (Ok (kver 4 9 337)) initial_globals).
  unfold version_in, version_le, version_lt, version_eqv; simpl; lia.
Defined.

(** on kernels 6.2 to 6.6 the fields TotalRTO, TotalRTORecoveries and
    TotalRTOTime, which the source notes as added in 6.7, are marked valid with
    the value zero: the flag tested is that of 6.2 while 240 bytes are asked
    for. *)
Theorem Unpack_6_2_rto be kv g0 kdata :
  let g := adaptToKernelVersion kv g0 in
  let s := Unpack g (raw_of_kernel be kdata (sizeOfRawTCPInfo g)) in
  version_in (effective_version kv) (kver 6 2 0) (kver 6 7 0) ->
  sizeOfRawTCPInfo g = 240 /\ flags g AtLeast_6_7 = false /\
  TotalRTO s = mkNullable true 0 /\ TotalRTORecoveries s = mkNullable true 0 /\
  TotalRTOTime s = mkNullable true 0.
Proof.
  intros g s Hv.
  destruct (adapt_interval kv g0 AtLeast_6_2 AtLeast_6_7
    (mkVersionedStructSize (kver 6 2 0) 240 AtLeast_6_2) eq_refl eq_refl gap_6_2 Hv) as [Hsz Hf].
  fold g in Hsz, Hf. cbn [Size] in Hsz. split; [done|]. split.
  { subst g. rewrite adapt_flags. apply bool_decide_eq_false_2. rewrite CompareKernelVersion_ge.
    destruct Hv as [_ Hv]. unfold version_le, version_lt, version_eqv in *. simpl in *. lia. }
  subst s. rewrite Hsz. unfold Unpack. cbn [TotalRTO TotalRTORecoveries TotalRTOTime].
  unfold valid_if. rewrite Hf.
  unfold raw_of_kernel, RawTCPInfo_of_mem. cbn [total_rto total_rto_recoveries total_rto_time].
  rewrite !read_beyond by lia. done.
Qed.

Lemma Unpack_6_2_rto_witness :
  let g := adaptToKernelVersion (Ok (kver 6 5 0)) initial_globals in
  TotalRTO (Unpack g (raw_of_kernel false (replicate 248 1) (sizeOfRawTCPInfo g))) =
    mkNullable true 0.
Proof.
  refine (proj1 (proj2 (proj2 (Unpack_6_2_rto false (Ok (kver 6 5 0)) initial_globals
    (replicate 248 1) _)))).
  unfold version_in, version_le, version_lt, version_eqv; simpl; lia.
Defined.

(** ** Options *)

Definition tx_option (packed : RawTCPInfo) (flag : Z) : Option :=
  mkOption (lookup_name tcpOptionsMap flag)
    (if flag =? TCPI_OPT_WSCALE then wrap_u 64 (snd_wnd packed) else 0).

Definition rx_option (packed : RawTCPInfo) (flag : Z) : Option :=
  mkOption (lookup_name tcpOptionsMap flag)
    (if flag =? TCPI_OPT_WSCALE then wrap_u 64 (rcv_wnd packed) else 0).

(** The option flags set in the byte, in table order. *)
Definition set_flags (opts : Z) : list Z :=
  List.filter (fun flag => negb (Z.land opts flag =? 0)) tcpOptions.

(** The option byte with the bits of the listed kinds. *)
Definition options_byte (kinds : list string) : Z :=
  foldr Z.lor 0 (List.filter (fun flag => bool_decide (lookup_name tcpOptionsMap flag ∈ kinds))
    tcpOptions).

Lemma unpack_option_step packed tx rx flag :
  flag ∈ tcpOptions ->
  unpack_option packed (tx, rx) flag =
    if Z.land (options packed) flag =? 0 then (tx, rx)
    else (append tx (tx_option packed flag), append rx (rx_option packed flag)).
Proof.
  intros Hf. unfold unpack_option. destruct (_ =? 0); [done|].
  unfold tx_option, rx_option.
  assert (bool_decide (flag ∈ [TCPI_OPT_TIMESTAMPS; TCPI_OPT_SACK; TCPI_OPT_ECN;
    TCPI_OPT_ECN_SEEN; TCPI_OPT_SYN_DATA; TCPI_OPT_USEC_TS; TCPI_OPT_TFO_CHILD]) =
    negb (flag =? TCPI_OPT_WSCALE)) as ->.
  { unfold tcpOptions in Hf. repeat apply elem_of_cons in Hf as [->|Hf]; [reflexivity..|].
    by apply not_elem_of_nil in Hf. }
  by destruct (flag =? TCPI_OPT_WSCALE).
Qed.

Lemma unpack_options_fold packed l tx rx :
  (forall f, f ∈ l -> f ∈ tcpOptions) ->
  let out := foldl (unpack_option packed) (tx, rx) l in
  let on := List.filter (fun flag => negb (Z.land (options packed) flag =? 0)) l in
  elems (fst out) = elems tx ++ (tx_option packed <$> on) /\
  elems (snd out) = elems rx ++ (rx_option packed <$> on).
Proof.
  revert tx rx. induction l as [|f l IH]; intros tx rx Hl.
  { simpl. by rewrite !app_nil_r. }
  cbn [foldl List.filter]. rewrite unpack_option_step by (apply Hl; set_solver).
  destruct (_ =? 0) eqn:E; cbn [negb]; [apply IH; set_solver|].
  destruct (IH (append tx (tx_option packed f)) (append rx (rx_option packed f))) as [-> ->];
    [set_solver|].
  rewrite !elems_append, <- !app_assoc. done.
Qed.

Lemma unpack_option_Some packed acc flag :
  is_Some (fst acc) -> is_Some (fst (unpack_option packed acc flag)).
Proof.
  destruct acc as [tx rx]. intros Ht. unfold unpack_option.
  repeat case_match; try done; by eexists.
Qed.

Lemma unpack_options_Some packed l acc :
  is_Some (fst acc) -> is_Some (fst (foldl (unpack_option packed) acc l)).
Proof.
  revert acc. induction l as [|f l IH]; intros acc H; [done|].
  apply IH. by apply unpack_option_Some.
Qed.

Lemma unpack_options_elems packed :
  elems (fst (unpack_options packed)) = tx_option packed <$> set_flags (options packed) /\
  elems (snd (unpack_options packed)) = rx_option packed <$> set_flags (options packed).
Proof. by apply (unpack_options_fold packed tcpOptions (Some []) None). Qed.

Lemma options_byte_set_flags opts :
  uint 8 opts -> options_byte (lookup_name tcpOptionsMap <$> set_flags opts) = opts.
Proof.
  intros Ho. assert (Forall (fun o => options_byte (lookup_name tcpOptionsMap <$> set_flags o) = o)
    (seqZ 0 256)) as H by (by apply (bool_decide_unpack _); vm_compute).
  rewrite Forall_forall in H. apply H, elem_of_seqZ. unfold uint in Ho. lia.
Qed.

Lemma Kind_tx_options packed (l : list Z) :
  Kind <$> (tx_option packed <$> l) = lookup_name tcpOptionsMap <$> l.
Proof. rewrite <- list_fmap_compose. by apply list_fmap_ext. Qed.

Lemma Kind_rx_options packed (l : list Z) :
  Kind <$> (rx_option packed <$> l) = lookup_name tcpOptionsMap <$> l.
Proof. rewrite <- list_fmap_compose. by apply list_fmap_ext. Qed.



(** the value of the WindowScale option is the peer's receive window
    (and, on the receiving side, the local window), not the window scale: the
    option agrees with TxWindowScale only if the window happens to be equal to
    the scale. *)
Theorem Unpack_WindowScale_is_window g packed o :
  uint 32 (snd_wnd packed) -> Z.land (options packed) TCPI_OPT_WSCALE <> 0 ->
  let s := Unpack g packed in
  o ∈ elems (TxOptions s) -> Kind o = "WindowScale" ->
  Value o = snd_wnd packed /\
  (Value o = TxWindowScale s <-> snd_wnd packed = Z.land (bitfield0 packed) 15).
Proof.
  intros Hw Hbit s Hin Hk. pose proof (unpack_options_elems packed) as [Ht _].
  change (elems (TxOptions s)) with (elems (fst (unpack_options packed))) in Hin.
  rewrite Ht in Hin. apply list_elem_of_fmap in Hin as (f & -> & Hf).
  assert (f = TCPI_OPT_WSCALE) as ->.
  { apply list_elem_of_In, filter_In in Hf as [Hf%list_elem_of_In _].
    unfold tcpOptions in Hf. repeat apply elem_of_cons in Hf as [->|Hf]; try done.
    by apply not_elem_of_nil in Hf. }
  assert (Value (tx_option packed TCPI_OPT_WSCALE) = snd_wnd packed) as ->.
  { cbn. apply wrap_u_id. by apply (uint_mono 32). }
  done.
Qed.

Lemma Unpack_WindowScale_is_window_witness :
  let p := raw_of_kernel false ([1; 0; 0; 0; 0; 4; 7; 0] ++ replicate 220 0 ++ [255; 255; 0; 0]) 248 in
  let o := mkOption "WindowScale" 65535 in
  o ∈ elems (TxOptions (Unpack initial_globals p)) /\ TxWindowScale (Unpack initial_globals p) = 7 /\
  Value o = snd_wnd p.
Proof.
  intros p o. assert (o ∈ elems (TxOptions (Unpack initial_globals p))) as Hin.
  { replace (elems (TxOptions (Unpack initial_globals p))) with [o] by (vm_compute; reflexivity).
    apply list_elem_of_here. }
  split_and!; [exact Hin|vm_compute; reflexivity|].
  refine (proj1 (Unpack_WindowScale_is_window initial_globals p o _ _ Hin eq_refl));
    vm_compute; intuition congruence.
Defined.
