(* ===== verification/TcpInfoLinuxReport.v ===== *)
(** * pkg/tcpinfo on Linux: what GetTCPInfo reports

    The ranges of the reported values, the error paths of GetTCPInfo and the
    equality of its two architecture variants, SysInfo.ToMap and
    SysInfo.Warnings, and the laws of the platform interface. *)

From S2P Require Import Prelude GoStrings GoLayout KernelVersion InitLinux TcpInfo.
From S2P Require Import TcpInfoLinux TcpInfoLinuxProps.

(** ** Specification *)

(** Times of at most 32 bits of microseconds. *)
Definition dur_ok (d : Z) : Prop := 0 <= d <= (2 ^ 32 - 1) * 1000.

(** A nullable value in the range of its type, zero when it is null. *)
Definition null_ok (P : Z -> Prop) (x : Nullable Z) : Prop :=
  P (NValue x) /\ (Valid x = false -> NValue x = 0).

Definition null_bool_ok (x : Nullable bool) : Prop := Valid x = false -> NValue x = false.

Definition SysInfo_ok (s : SysInfo) : Prop :=
  Forall (uint 8)
    [State s; CAState s; Retransmits s; Probes s; Backoff s] /\
  Forall (uint 4) [TxWindowScale s; RxWindowScale s] /\
  null_ok (uint 2) (FastOpenClientFail s) /\
  Forall (uint 32)
    [TxMSS s; RxMSS s; UnAcked s; Sacked s; Lost s; Retrans s; Fackets s; PMTU s;
     RxSSThreshold s; TxSSThreshold s; TxCWindow s; AdvMSS s; Reordering s; RxSpace s;
     TotalRetrans s] /\
  Forall dur_ok
    [RTO s; ATO s; LastTxAt s; LastTxAckAt s; LastRxAt s; LastRxAckAt s; RTT s; RTTVar
     s; RxRTT s] /\
  Forall (null_ok (uint 16))
    [TotalRTO s; TotalRTORecoveries s; CCDCTCPCEState s] /\
  Forall (null_ok (uint 32))
    [SegsOut s; SegsIn s; NotSentBytes s; DataSegsIn s; DataSegsOut s; Delivered s;
     DeliveredCE s; DSACKDups s; ReordSeen s; RxOutOfOrder s; TxWindow s; RxWindow s;
     Rehash s; TotalRTOTime s; CCVegasEnabled s; CCVegasRTTCnt s; CCBBRBwLo s; CCBBRBwHi
     s; CCBBRPacingGain s; CCBBRCWindowGain s; CCDCTCPAlpha s; CCDCTCPABECN s;
     CCDCTCPABTOT s] /\
  Forall (null_ok (uint 64))
    [PacingRate s; MaxPacingRate s; BytesAcked s; BytesReceived s; DeliveryRate s;
     BusyTime s; RxWindowLimited s; TxBufferLimited s; BytesSent s; BytesRetrans s] /\
  Forall (null_ok dur_ok)
    [MinRTT s; CCVegasRTT s; CCVegasRTTMin s; CCBBRMinRTT s] /\
  Forall null_bool_ok [DeliveryRateAppLimited s; CCDCTCPEnabled s].

(** What the kernel and the getsockopt wrappers return has its C type. *)
Definition vegas_ok (v : TCPVegasInfo) : Prop :=
  Forall (uint 32) [Vegas_Enabled v; Vegas_Rttcnt v; Vegas_Rtt v; Vegas_Minrtt v].

Definition bbr_ok (b : TCPBBRInfo) : Prop :=
  Forall (uint 32) [BBR_Bw_lo b; BBR_Bw_hi b; BBR_Min_rtt b; BBR_Pacing_gain b; BBR_Cwnd_gain b].

Definition dctcp_ok (d : TCPDCTCPInfo) : Prop :=
  Forall (uint 16) [DCTCP_Enabled d; DCTCP_Ce_state d] /\
  Forall (uint 32) [DCTCP_Alpha d; DCTCP_Ab_ecn d; DCTCP_Ab_tot d].

Definition Answers_ok (a : Answers) : Prop :=
  (forall q, Forall is_byte (snd (ans_syscall a q))) /\
  (forall v, ans_vegas a = Ok v -> vegas_ok v) /\
  (forall b, ans_bbr a = Ok b -> bbr_ok b) /\
  (forall d, ans_dctcp a = Ok d -> dctcp_ok d).

(** The congestion control part reset to what Unpack leaves. *)
Definition clear_cc (s : SysInfo) : SysInfo :=
  s <| CCAlgorithm := EmptyString |>
    <| CCVegasEnabled := mkNullable false 0 |>
    <| CCVegasRTTCnt := mkNullable false 0 |>
    <| CCVegasRTT := mkNullable false 0 |>
    <| CCVegasRTTMin := mkNullable false 0 |>
    <| CCBBRBwLo := mkNullable false 0 |>
    <| CCBBRBwHi := mkNullable false 0 |>
    <| CCBBRMinRTT := mkNullable false 0 |>
    <| CCBBRPacingGain := mkNullable false 0 |>
    <| CCBBRCWindowGain := mkNullable false 0 |>
    <| CCDCTCPEnabled := mkNullable false false |>
    <| CCDCTCPCEState := mkNullable false 0 |>
    <| CCDCTCPAlpha := mkNullable false 0 |>
    <| CCDCTCPABECN := mkNullable false 0 |>
    <| CCDCTCPABTOT := mkNullable false 0 |>.

(** *** The congestion control part *)

(** The fields of each algorithm, as one value. *)
Definition vegas_family (s : SysInfo) :=
  (CCVegasEnabled s, CCVegasRTTCnt s, CCVegasRTT s, CCVegasRTTMin s).

Definition bbr_family (s : SysInfo) :=
  (CCBBRBwLo s, CCBBRBwHi s, CCBBRMinRTT s, CCBBRPacingGain s, CCBBRCWindowGain s).

Definition dctcp_family (s : SysInfo) :=
  (CCDCTCPEnabled s, CCDCTCPCEState s, CCDCTCPAlpha s, CCDCTCPABECN s, CCDCTCPABTOT s).

(** A field of a family: what the kernel's struct holds, or null. *)
Definition nullable_of {S A : Type} (zero : A) (o : option S) (f : S -> A) : Nullable A :=
  match o with Some x => mkNullable true (f x) | None => mkNullable false zero end.

(** The struct that is read for an algorithm: only that of the algorithm in use. *)
Definition when_alg {S : Type} (alg name : string) (o : option S) : option S :=
  if String.eqb alg name then o else None.

Definition vegas_values (o : option TCPVegasInfo) :=
  (nullable_of 0 o Vegas_Enabled, nullable_of 0 o Vegas_Rttcnt,
   nullable_of 0 o (fun v => Duration (Vegas_Rtt v) 1000),
   nullable_of 0 o (fun v => Duration (Vegas_Minrtt v) 1000)).

Definition bbr_values (o : option TCPBBRInfo) :=
  (nullable_of 0 o BBR_Bw_lo, nullable_of 0 o BBR_Bw_hi,
   nullable_of 0 o (fun b => Duration (BBR_Min_rtt b) 1000),
   nullable_of 0 o BBR_Pacing_gain, nullable_of 0 o BBR_Cwnd_gain).

Definition dctcp_values (o : option TCPDCTCPInfo) :=
  (nullable_of false o (fun d => negb (DCTCP_Enabled d =? 0)), nullable_of 0 o DCTCP_Ce_state,
   nullable_of 0 o DCTCP_Alpha, nullable_of 0 o DCTCP_Ab_ecn, nullable_of 0 o DCTCP_Ab_tot).

(** The answers as values and as errors. *)
Definition value_of {A : Type} (r : result A) : option A :=
  match r with Ok v => Some v | Err _ => None end.

Definition error_of {A : Type} (r : result A) : option error :=
  match r with Ok _ => None | Err e => Some e end.

Definition algorithm (a : Answers) : string := default EmptyString (value_of (ans_congestion a)).

(** The first failing congestion control query. *)
Definition cc_error (a : Answers) : option error :=
  match ans_congestion a with
  | Err e => Some e
  | Ok alg =>
      if String.eqb alg "vegas" then error_of (ans_vegas a)
      else if String.eqb alg "bbr" then error_of (ans_bbr a)
      else if String.eqb alg "dctcp" then error_of (ans_dctcp a)
      else None
  end.

(** The times of [s] are those of the kernel in nanoseconds: the kernel's
    microseconds in the struct [r] and in the answers [a]. *)
Definition times_exact (g : globals) (a : Answers) (r : RawTCPInfo) (s : SysInfo) : Prop :=
  let ns usec := 1000 * usec in
  [RTO s; ATO s; LastTxAt s; LastTxAckAt s; LastRxAt s; LastRxAckAt s; RTT s; RTTVar s; RxRTT s] =
    ns <$> [rto r; ato r; last_data_sent r; last_ack_sent r; last_data_recv r; last_ack_recv r; rtt r;
            rttvar r; rcv_rtt r] /\
  MinRTT s = (if flags g AtLeast_4_6 then mkNullable true (ns (min_rtt r)) else mkNullable false 0) /\
  CCVegasRTT s = nullable_of 0 (when_alg (algorithm a) "vegas" (value_of (ans_vegas a))) (ns ∘ Vegas_Rtt) /\
  CCVegasRTTMin s =
    nullable_of 0 (when_alg (algorithm a) "vegas" (value_of (ans_vegas a))) (ns ∘ Vegas_Minrtt) /\
  CCBBRMinRTT s = nullable_of 0 (when_alg (algorithm a) "bbr" (value_of (ans_bbr a))) (ns ∘ BBR_Min_rtt).

(** *** ToMap as a table *)

(** What a nullable field adds to the map. *)
Definition entry {A : Type} (mk : A -> any) (x : Nullable A) : option any :=
  if Valid x then Some (mk (NValue x)) else None.

Definition fixed_entries (s : SysInfo) : list (string * any) := [
  ("state", AString (StateName s));
  ("caState", AUint8 (CAState s));
  ("retransmits", AUint8 (Retransmits s));
  ("probes", AUint8 (Probes s));
  ("backoff", AUint8 (Backoff s));
  ("txOptions", AOptions (TxOptions s));
  ("rxOptions", AOptions (RxOptions s));
  ("txWindowScale", AUint8 (TxWindowScale s));
  ("rxWindowScale", AUint8 (RxWindowScale s));
  ("rto", ADuration (RTO s));
  ("ato", ADuration (ATO s));
  ("txMSS", AUint32 (TxMSS s));
  ("rxMSS", AUint32 (RxMSS s));
  ("unAcked", AUint32 (UnAcked s));
  ("sacked", AUint32 (Sacked s));
  ("lost", AUint32 (Lost s));
  ("retrans", AUint32 (Retrans s));
  ("fackets", AUint32 (Fackets s));
  ("lastTxAt", ADuration (LastTxAt s));
  ("lastTxAckAt", ADuration (LastTxAckAt s));
  ("lastRxAt", ADuration (LastRxAt s));
  ("lastRxAckAt", ADuration (LastRxAckAt s));
  ("pmtu", AUint32 (PMTU s));
  ("rxSSThreshold", AUint32 (RxSSThreshold s));
  ("rtt", ADuration (RTT s));
  ("rttVar", ADuration (RTTVar s));
  ("txSSThreshold", AUint32 (TxSSThreshold s));
  ("txCWindow", AUint32 (TxCWindow s));
  ("advMSS", AUint32 (AdvMSS s));
  ("reordering", AUint32 (Reordering s));
  ("rxRTT", ADuration (RxRTT s));
  ("rxSpace", AUint32 (RxSpace s));
  ("totalRetrans", AUint32 (TotalRetrans s));
  ("ccAlgorithm", AString (CCAlgorithm s))
].

Definition nullable_entries (s : SysInfo) : list (string * option any) := [
  ("deliveryRateAppLimited", entry ABool (DeliveryRateAppLimited s));
  ("fastOpenClientFail", entry AUint8 (FastOpenClientFail s));
  ("pacingRate", entry AUint64 (PacingRate s));
  ("maxPacingRate", entry AUint64 (MaxPacingRate s));
  ("bytesAcked", entry AUint64 (BytesAcked s));
  ("bytesReceived", entry AUint64 (BytesReceived s));
  ("segsOut", entry AUint32 (SegsOut s));
  ("segsIn", entry AUint32 (SegsIn s));
  ("notSentBytes", entry AUint32 (NotSentBytes s));
  ("minRTT", entry ADuration (MinRTT s));
  ("dataSegsIn", entry AUint32 (DataSegsIn s));
  ("dataSegsOut", entry AUint32 (DataSegsOut s));
  ("deliveryRate", entry AUint64 (DeliveryRate s));
  ("busyTime", entry AUint64 (BusyTime s));
  ("rxWindowLimited", entry AUint64 (RxWindowLimited s));
  ("txBufferLimited", entry AUint64 (TxBufferLimited s));
  ("delivered", entry AUint32 (Delivered s));
  ("deliveredCE", entry AUint32 (DeliveredCE s));
  ("bytesSent", entry AUint64 (BytesSent s));
  ("bytesRetrans", entry AUint64 (BytesRetrans s));
  ("dsackDups", entry AUint32 (DSACKDups s));
  ("reordSeen", entry AUint32 (ReordSeen s));
  ("rxOutOfOrder", entry AUint32 (RxOutOfOrder s));
  ("txWindow", entry AUint32 (TxWindow s));
  ("rxWindow", entry AUint32 (RxWindow s));
  ("rehash", entry AUint32 (Rehash s));
  ("totalRTO", entry AUint16 (TotalRTO s));
  ("totalRTORecoveries", entry AUint16 (TotalRTORecoveries s));
  ("totalRTOTime", entry AUint32 (TotalRTOTime s));
  ("ccVegasEnabled", entry AUint32 (CCVegasEnabled s));
  ("ccVegasRTTCnt", entry AUint32 (CCVegasRTTCnt s));
  ("ccVegasRTT", entry ADuration (CCVegasRTT s));
  ("ccVegasRTTMin", entry ADuration (CCVegasRTTMin s));
  ("ccBBRBwLo", entry AUint32 (CCBBRBwLo s));
  ("ccBBRBwHi", entry AUint32 (CCBBRBwHi s));
  ("ccBBRMinRTT", entry ADuration (CCBBRMinRTT s));
  ("ccBBRPacingGain", entry AUint32 (CCBBRPacingGain s));
  ("ccBBRCWindowGain", entry AUint32 (CCBBRCWindowGain s));
  ("ccDCTCPEnabled", entry ABool (CCDCTCPEnabled s));
  ("ccDCTCPCEState", entry AUint16 (CCDCTCPCEState s));
  ("ccDCTCPAlpha", entry AUint32 (CCDCTCPAlpha s));
  ("ccDCTCPABECN", entry AUint32 (CCDCTCPABECN s));
  ("ccDCTCPABTOT", entry AUint32 (CCDCTCPABTOT s))
].

(** A nullable value without the value behind a null. *)
Definition normal {A : Type} (zero : A) (x : Nullable A) : Nullable A :=
  if Valid x then x else mkNullable false zero.

(** The part of a SysInfo its map shows: not the numeric state, and of a null
    field only that it is null. *)
Definition visible (s : SysInfo) : SysInfo :=
  s <| State := 0 |>
    <| DeliveryRateAppLimited := normal false (DeliveryRateAppLimited s) |>
    <| FastOpenClientFail := normal 0 (FastOpenClientFail s) |>
    <| PacingRate := normal 0 (PacingRate s) |>
    <| MaxPacingRate := normal 0 (MaxPacingRate s) |>
    <| BytesAcked := normal 0 (BytesAcked s) |>
    <| BytesReceived := normal 0 (BytesReceived s) |>
    <| SegsOut := normal 0 (SegsOut s) |>
    <| SegsIn := normal 0 (SegsIn s) |>
    <| NotSentBytes := normal 0 (NotSentBytes s) |>
    <| MinRTT := normal 0 (MinRTT s) |>
    <| DataSegsIn := normal 0 (DataSegsIn s) |>
    <| DataSegsOut := normal 0 (DataSegsOut s) |>
    <| DeliveryRate := normal 0 (DeliveryRate s) |>
    <| BusyTime := normal 0 (BusyTime s) |>
    <| RxWindowLimited := normal 0 (RxWindowLimited s) |>
    <| TxBufferLimited := normal 0 (TxBufferLimited s) |>
    <| Delivered := normal 0 (Delivered s) |>
    <| DeliveredCE := normal 0 (DeliveredCE s) |>
    <| BytesSent := normal 0 (BytesSent s) |>
    <| BytesRetrans := normal 0 (BytesRetrans s) |>
    <| DSACKDups := normal 0 (DSACKDups s) |>
    <| ReordSeen := normal 0 (ReordSeen s) |>
    <| RxOutOfOrder := normal 0 (RxOutOfOrder s) |>
    <| TxWindow := normal 0 (TxWindow s) |>
    <| RxWindow := normal 0 (RxWindow s) |>
    <| Rehash := normal 0 (Rehash s) |>
    <| TotalRTO := normal 0 (TotalRTO s) |>
    <| TotalRTORecoveries := normal 0 (TotalRTORecoveries s) |>
    <| TotalRTOTime := normal 0 (TotalRTOTime s) |>
    <| CCVegasEnabled := normal 0 (CCVegasEnabled s) |>
    <| CCVegasRTTCnt := normal 0 (CCVegasRTTCnt s) |>
    <| CCVegasRTT := normal 0 (CCVegasRTT s) |>
    <| CCVegasRTTMin := normal 0 (CCVegasRTTMin s) |>
    <| CCBBRBwLo := normal 0 (CCBBRBwLo s) |>
    <| CCBBRBwHi := normal 0 (CCBBRBwHi s) |>
    <| CCBBRMinRTT := normal 0 (CCBBRMinRTT s) |>
    <| CCBBRPacingGain := normal 0 (CCBBRPacingGain s) |>
    <| CCBBRCWindowGain := normal 0 (CCBBRCWindowGain s) |>
    <| CCDCTCPEnabled := normal false (CCDCTCPEnabled s) |>
    <| CCDCTCPCEState := normal 0 (CCDCTCPCEState s) |>
    <| CCDCTCPAlpha := normal 0 (CCDCTCPAlpha s) |>
    <| CCDCTCPABECN := normal 0 (CCDCTCPABECN s) |>
    <| CCDCTCPABTOT := normal 0 (CCDCTCPABTOT s) |>.

(** *** Warnings as a table *)

(** The counters that are reported, with their current value; None when the
    kernel does not provide the counter. *)
Definition counter_of (x : Nullable Z) : option Z := if Valid x then Some (NValue x) else None.

Definition warning_table (s : SysInfo) : list (string * option Z) := [
  ("retransBytes=", counter_of (BytesRetrans s));
  ("retransTotal=", Some (TotalRetrans s));
  ("backoff=", Some (Backoff s));
  ("outOfOrderBytes=", counter_of (RxOutOfOrder s));
  ("txSendBufferLimited=", counter_of (TxBufferLimited s));
  ("rxWindowLimited=", counter_of (RxWindowLimited s))
].

(** A socket on a 5.10 kernel that uses BBR. *)
Definition sample_globals : globals := adaptToKernelVersion (Ok (kver 5 10 0)) initial_globals.

Definition sample_answers : Answers :=
  mkAnswers 3 (fun _ => (0, seqZ 1 232)) (Ok "bbr") (Err (Errno 92))
    (Ok (mkTCPBBRInfo 1 2 3 4 5)) (Err (Errno 92)).

(** ** Ranges *)

Lemma null_ok_valid_if (P : Z -> Prop) b v : P 0 -> P v -> null_ok P (valid_if b 0 v).
Proof. intros H0 Hv. by destruct b; split. Qed.

Lemma null_ok_null (P : Z -> Prop) : P 0 -> null_ok P (mkNullable false 0).
Proof. by split. Qed.

Lemma null_ok_Some (P : Z -> Prop) v : P v -> null_ok P (mkNullable true v).
Proof. by split. Qed.

Lemma dur_ok_usec v : uint 32 v -> dur_ok (Duration v 1000).
Proof. unfold uint, dur_ok. intros Hv. rewrite Duration_exact; lia. Qed.

Lemma land_low v m k : m = Z.ones k -> 0 <= k -> uint k (Z.land v m).
Proof. intros -> Hk. unfold uint. rewrite Z.land_ones by done. apply Z.mod_pos_bound. lia. Qed.

Lemma shiftr_high v w k : 0 <= k <= w -> uint w v -> uint (w - k) (Z.shiftr v k).
Proof.
  unfold uint. intros Hk Hv. rewrite Z.shiftr_div_pow2 by lia.
  assert (2 ^ w = 2 ^ k * 2 ^ (w - k)) as E by (rewrite <- Z.pow_add_r by lia; f_equal; lia).
  split; [apply Z.div_pos; lia|]. apply Z.div_lt_upper_bound; lia.
Qed.

Lemma uint_0 w : 0 <= w -> uint w 0.
Proof. unfold uint. lia. Qed.

Lemma dur_ok_0 : dur_ok 0.
Proof. unfold dur_ok. lia. Qed.

Lemma null_bool_valid_if b v : null_bool_ok (valid_if b false v).
Proof. by destruct b. Qed.

Lemma null_bool_null : null_bool_ok (mkNullable false false).
Proof. done. Qed.

Lemma null_bool_Some v : null_bool_ok (mkNullable true v).
Proof. done. Qed.

#[export] Hint Resolve null_bool_valid_if null_bool_null null_bool_Some null_ok_valid_if null_ok_null null_ok_Some dur_ok_usec uint_0 dur_ok_0 : go.

(** Every entry of a list of fields by one tactic. *)
Ltac each_field tac := repeat (apply Forall_cons; split; [tac|]); apply Forall_nil_2.

Lemma Unpack_ok g r : RawTCPInfo_ok r -> SysInfo_ok (Unpack g r).
Proof.
  unfold RawTCPInfo_ok, RawTCPInfo_fields. intros Hok. destruct r.
  repeat (apply Forall_cons in Hok as [? Hok]). clear Hok.
  unfold field_ok in *. cbn [fst snd size_of Z.of_nat Z.mul] in *.
  unfold SysInfo_ok. split_and!.
  all: unfold_unpack; unfold timeFieldMultiplier.
  all: try (each_field ltac:(auto with go lia)).
  - apply Forall_cons; split; [by apply land_low|]. each_field ltac:(by apply (shiftr_high _ 8 4)).
  - apply null_ok_valid_if; [by apply uint_0|]. by apply land_low.
Qed.

(** The facts about the fields of [s], one per field. *)
Ltac fields_of H :=
  unfold SysInfo_ok in H; destruct_and! H;
  repeat match goal with
  | F : Forall _ (_ :: _) |- _ => apply Forall_cons in F as [? F]
  | F : Forall _ [] |- _ => clear F
  end.

Lemma UnpackCC_ok g r c v b d :
  RawTCPInfo_ok r -> (forall x, v = Some x -> vegas_ok x) -> (forall x, b = Some x -> bbr_ok x) ->
  (forall x, d = Some x -> dctcp_ok x) ->
  SysInfo_ok (UnpackCC g (mkTCPInfoPlusCC r c v b d)).
Proof.
  intros Hr Hv Hb Hd. unfold UnpackCC. cbn [TCPInfo CCAlg CCVegas CCBBR CCDCTP].
  pose proof (Unpack_ok g r Hr) as H. set (s := Unpack g r) in *. clearbody s. destruct s.
  repeat case_match; subst; try specialize (Hv _ eq_refl); try specialize (Hb _ eq_refl);
    try specialize (Hd _ eq_refl); unfold vegas_ok, bbr_ok, dctcp_ok in *;
    destruct_and?; fields_of H;
    (unfold SysInfo_ok; split_and!); unfold_unpack;
    first [assumption | each_field ltac:(auto with go)].
Qed.

(** ** Outcomes of GetTCPInfo *)

Lemma UnpackCC_clear g t : clear_cc (UnpackCC g t) = Unpack g (TCPInfo t).
Proof.
  unfold UnpackCC. set (s := Unpack g (TCPInfo t)).
  assert (clear_cc s = s) as E by reflexivity. clearbody s. rewrite <- E at 2.
  destruct s. repeat case_match; reflexivity.
Qed.

(** On the struct GetTCPInfo assembles: the algorithm, and the fields of its
    family only. *)
Lemma UnpackCC_families g r c v b d :
  let s := UnpackCC g (mkTCPInfoPlusCC r c v b d) in
  CCAlgorithm s = c /\
  vegas_family s = vegas_values (when_alg c "vegas" v) /\
  bbr_family s = bbr_values (when_alg c "bbr" b) /\
  dctcp_family s = dctcp_values (when_alg c "dctcp" d).
Proof.
  unfold UnpackCC, when_alg. cbn [TCPInfo CCAlg CCVegas CCBBR CCDCTP].
  destruct (String.eqb_spec c "vegas") as [->|]; [by destruct v|].
  destruct (String.eqb_spec c "bbr") as [->|]; [by destruct b|].
  destruct (String.eqb_spec c "dctcp") as [->|]; by destruct d.
Qed.

(** Whatever the congestion control queries return, the struct is unpacked
    from the answers to those that succeeded. *)
Lemma GetTCPInfo_Ok get_raw g a r :
  flags g AtLeast_2_6_2 = true -> get_raw g (ans_syscall a) (ans_fd a) = Ok r ->
  exists v b d, GetTCPInfo get_raw g a =
    (Some (UnpackCC g (mkTCPInfoPlusCC r (algorithm a) v b d)), cc_error a) /\
    when_alg (algorithm a) "vegas" v = when_alg (algorithm a) "vegas" (value_of (ans_vegas a)) /\
    when_alg (algorithm a) "bbr" b = when_alg (algorithm a) "bbr" (value_of (ans_bbr a)) /\
    when_alg (algorithm a) "dctcp" d = when_alg (algorithm a) "dctcp" (value_of (ans_dctcp a)).
Proof.
  intros Hg Hr. unfold GetTCPInfo, algorithm, cc_error, when_alg. rewrite Hg, Hr. simpl.
  destruct (ans_congestion a) as [c|e]; simpl; [|by eexists None, None, None].
  destruct (String.eqb_spec c "vegas") as [->|]; [by destruct (ans_vegas a); eexists _, None, None|].
  destruct (String.eqb_spec c "bbr") as [->|]; [by destruct (ans_bbr a); eexists None, _, None|].
  destruct (String.eqb_spec c "dctcp") as [->|]; [by destruct (ans_dctcp a); eexists None, None, _|].
  by eexists None, None, None.
Qed.

Lemma raw_result_Ok be len kdata : raw_result be len (0, kdata) = Ok (raw_of_kernel be kdata len).
Proof. done. Qed.

Lemma raw_result_Err be len e kdata : e <> 0 -> raw_result be len (e, kdata) = Err (Errno e).
Proof. intros He. unfold raw_result. by repeat case_bool; subst. Qed.

(** The request GetRawTCPInfo makes. *)
Definition info_request (g : globals) (a : Answers) : request :=
  Getsockopt (ans_fd a) SOL_TCP TCP_INFO (wrap_u 32 (sizeOfRawTCPInfo g)).

Lemma GetTCPInfo_SysInfo_ok be g a s err :
  Answers_ok a -> GetTCPInfo (GetRawTCPInfo be) g a = (Some s, err) -> SysInfo_ok s.
Proof.
  intros (Hsys & Hv & Hb & Hd) H. unfold GetTCPInfo in H.
  destruct (flags g AtLeast_2_6_2); [|done]. simpl in H.
  destruct (GetRawTCPInfo be g _ _) as [r|] eqn:Hr; [|done].
  assert (RawTCPInfo_ok r) as Hok.
  { unfold GetRawTCPInfo in Hr. pose proof (Hsys (info_request g a)) as Hk.
    fold (info_request g a) in Hr. destruct (ans_syscall a (info_request g a)) as [e kdata].
    destruct (decide (e = 0)) as [->|He]; [|by rewrite raw_result_Err in Hr].
    rewrite raw_result_Ok in Hr. injection Hr as <-. by apply raw_of_kernel_ok. }
  repeat case_match; simplify_eq; apply UnpackCC_ok; naive_solver.
Qed.

Lemma Duration_usec v : uint 32 v -> Duration v timeFieldMultiplier = 1000 * v.
Proof. unfold uint, timeFieldMultiplier. intros Hv. rewrite Duration_exact; lia. Qed.

Lemma nullable_of_ext {S A : Type} (zero : A) (o : option S) (f h : S -> A) :
  (forall x, o = Some x -> f x = h x) -> nullable_of zero o f = nullable_of zero o h.
Proof. destruct o as [x|]; [|done]. intros H. simpl. by rewrite H. Qed.

Lemma when_alg_Some {S : Type} alg name (r : result S) x :
  when_alg alg name (value_of r) = Some x -> r = Ok x.
Proof. unfold when_alg. destruct (String.eqb _ _), r; naive_solver. Qed.

Lemma Unpack_times g r i :
  RawTCPInfo_ok r -> clear_cc i = Unpack g r ->
  [RTO i; ATO i; LastTxAt i; LastTxAckAt i; LastRxAt i; LastRxAckAt i; RTT i; RTTVar i; RxRTT i] =
    (fun usec => 1000 * usec) <$> [rto r; ato r; last_data_sent r; last_ack_sent r; last_data_recv r;
      last_ack_recv r; rtt r; rttvar r; rcv_rtt r] /\
  MinRTT i = (if flags g AtLeast_4_6 then mkNullable true (1000 * min_rtt r) else mkNullable false 0).
Proof.
  unfold RawTCPInfo_ok, RawTCPInfo_fields. intros Hok Hi.
  change (RTO i) with (RTO (clear_cc i)). change (ATO i) with (ATO (clear_cc i)).
  change (LastTxAt i) with (LastTxAt (clear_cc i)). change (LastTxAckAt i) with (LastTxAckAt (clear_cc i)).
  change (LastRxAt i) with (LastRxAt (clear_cc i)). change (LastRxAckAt i) with (LastRxAckAt (clear_cc i)).
  change (RTT i) with (RTT (clear_cc i)). change (RTTVar i) with (RTTVar (clear_cc i)).
  change (RxRTT i) with (RxRTT (clear_cc i)). change (MinRTT i) with (MinRTT (clear_cc i)).
  rewrite Hi. clear i Hi. destruct r. repeat (apply Forall_cons in Hok as [? Hok]). clear Hok.
  unfold field_ok in *. cbn [fst snd size_of Z.of_nat Z.mul] in *.
  cbn -[Z.mul Duration timeFieldMultiplier]. rewrite !Duration_usec by done. split; [done|]. by destruct (flags g AtLeast_4_6).
Qed.

(** C30: on bytes from the kernel, every field GetTCPInfo reports is in the
    range of its Go type, the bit fields are in their 4 and 2 bits, and the
    value behind a null field is zero or false. Every time is exactly the
    kernel's microseconds times 1000, those of the congestion control
    algorithms included; int64 does not overflow. *)
Theorem GetTCPInfo_typed be g a s err :
  Answers_ok a -> GetTCPInfo (GetRawTCPInfo be) g a = (Some s, err) ->
  SysInfo_ok s /\
  times_exact g a
    (raw_of_kernel be (snd (ans_syscall a (info_request g a))) (wrap_u 32 (sizeOfRawTCPInfo g))) s.
Proof.
  intros Ha H. split; [by eapply GetTCPInfo_SysInfo_ok|]. destruct Ha as (Hsys & Hv & Hb & _).
  destruct (flags g AtLeast_2_6_2) eqn:Hg; [|unfold GetTCPInfo in H; by rewrite Hg in H].
  pose proof (Hsys (info_request g a)) as Hk. destruct (ans_syscall a (info_request g a)) as [e kdata] eqn:Es.
  assert (GetRawTCPInfo be g (ans_syscall a) (ans_fd a) =
    raw_result be (wrap_u 32 (sizeOfRawTCPInfo g)) (e, kdata)) as Hr by (by rewrite <- Es).
  destruct (decide (e = 0)) as [->|He];
    [|rewrite raw_result_Err in Hr by done; unfold GetTCPInfo in H; by rewrite Hg, Hr in H].
  rewrite raw_result_Ok in Hr. cbn [snd] in *. set (r := raw_of_kernel be kdata _) in *.
  destruct (GetTCPInfo_Ok _ _ _ _ Hg Hr) as (v & b & d & E & Ev & Eb & _). rewrite E in H.
  injection H as <- _. unfold times_exact.
  destruct (Unpack_times g r (UnpackCC g (mkTCPInfoPlusCC r (algorithm a) v b d)))
    as [Ht Hm]; [by apply raw_of_kernel_ok|apply UnpackCC_clear|].
  destruct (UnpackCC_families g r (algorithm a) v b d) as (_ & Fv & Fb & _). rewrite Ev in Fv. rewrite Eb in Fb.
  unfold vegas_family, vegas_values in Fv. unfold bbr_family, bbr_values in Fb.
  split; [exact Ht|]. split; [exact Hm|]. injection Fv as _ _ -> ->. injection Fb as _ _ -> _ _.
  split_and!; apply nullable_of_ext; intros x Hx%when_alg_Some.
  - specialize (Hv x Hx). unfold vegas_ok in Hv. rewrite !Forall_cons in Hv. apply Duration_usec. tauto.
  - specialize (Hv x Hx). unfold vegas_ok in Hv. rewrite !Forall_cons in Hv. apply Duration_usec. tauto.
  - specialize (Hb x Hx). unfold bbr_ok in Hb. rewrite !Forall_cons in Hb. apply Duration_usec. tauto.
Qed.

Lemma sample_answers_ok : Answers_ok sample_answers.
Proof.
  unfold Answers_ok, sample_answers; simpl. split_and!; intros; simplify_eq.
  all: by apply (bool_decide_unpack _); vm_compute.
Qed.

Lemma GetTCPInfo_typed_witness :
  exists s, GetTCPInfo (GetRawTCPInfo false) sample_globals sample_answers = (Some s, None) /\
  SysInfo_ok s /\ times_exact sample_globals sample_answers (raw_of_kernel false (seqZ 1 232) 232) s /\
  CCBBRMinRTT s = mkNullable true 3000.
Proof.
  eexists. split; [reflexivity|].
  destruct (GetTCPInfo_typed false sample_globals sample_answers _ None sample_answers_ok eq_refl) as [Hok Ht].
  split; [exact Hok|]. split; [exact Ht|]. reflexivity.
Defined.

(** C6: what GetTCPInfo returns on every path. Without information exactly
    when the kernel is too old (ErrKernelTooOld) or getsockopt failed (its
    errno); otherwise with what Unpack makes of the kernel's bytes, the name of
    the algorithm, and the values of the algorithm in use only, all others
    null. The error is then that of the first failing congestion control query:
    it comes together with the information. *)
Theorem GetTCPInfo_outcomes be g a :
  let '(s, err) := GetTCPInfo (GetRawTCPInfo be) g a in
  let '(errNo, kdata) := ans_syscall a (info_request g a) in
  if negb (flags g AtLeast_2_6_2) then s = None /\ err = Some ErrKernelTooOld
  else if negb (errNo =? 0) then s = None /\ err = Some (Errno errNo)
  else exists i, s = Some i /\ err = cc_error a /\
    clear_cc i = Unpack g (raw_of_kernel be kdata (wrap_u 32 (sizeOfRawTCPInfo g))) /\
    CCAlgorithm i = algorithm a /\
    vegas_family i = vegas_values (when_alg (algorithm a) "vegas" (value_of (ans_vegas a))) /\
    bbr_family i = bbr_values (when_alg (algorithm a) "bbr" (value_of (ans_bbr a))) /\
    dctcp_family i = dctcp_values (when_alg (algorithm a) "dctcp" (value_of (ans_dctcp a))).
Proof.
  destruct (ans_syscall a (info_request g a)) as [e kdata] eqn:Ha.
  destruct (flags g AtLeast_2_6_2) eqn:Hg; [|unfold GetTCPInfo; by rewrite Hg].
  assert (GetRawTCPInfo be g (ans_syscall a) (ans_fd a) =
    raw_result be (wrap_u 32 (sizeOfRawTCPInfo g)) (e, kdata)) as Hr by (by rewrite <- Ha).
  simpl negb. destruct (Z.eqb_spec e 0) as [->|He]; simpl negb; cbv iota.
  - rewrite raw_result_Ok in Hr.
    destruct (GetTCPInfo_Ok _ _ _ _ Hg Hr) as (v & b & d & -> & <- & <- & <-).
    eexists. split_and!; [done..| | | | |]; [apply UnpackCC_clear|apply UnpackCC_families..].
  - rewrite raw_result_Err in Hr by done. unfold GetTCPInfo. by rewrite Hg, Hr.
Qed.

(** the 386 build asks through socketcall(2) and gets the same result,
    given that the kernel dispatches the call number 15 of socketcall to
    getsockopt with the same arguments. *)
Theorem GetTCPInfo_386_agrees be g a :
  (forall fd level optname len,
    ans_syscall a (Socketcall 15 fd level optname len) =
    ans_syscall a (Getsockopt fd level optname len)) ->
  GetTCPInfo (GetRawTCPInfo_386 be) g a = GetTCPInfo (GetRawTCPInfo be) g a.
Proof.
  intros H. unfold GetTCPInfo, GetRawTCPInfo_386, GetRawTCPInfo.
  change netGetSockOpt with 15. by rewrite H.
Qed.

(** A kernel that knows one socket and rejects every other request. *)
Definition one_socket (q : request) : Z * list Z :=
  match q with
  | Getsockopt 3 6 11 len | Socketcall 15 3 6 11 len => (0, seqZ 1 (len `min` 232))
  | _ => (EINVAL, [])
  end.

Lemma GetTCPInfo_386_agrees_witness :
  let a := mkAnswers 3 one_socket (Ok "cubic") (Err (Errno 92)) (Err (Errno 92)) (Err (Errno 92)) in
  GetTCPInfo (GetRawTCPInfo_386 false) sample_globals a =
  GetTCPInfo (GetRawTCPInfo false) sample_globals a /\
  snd (GetTCPInfo (GetRawTCPInfo_386 false) sample_globals a) = None.
Proof.
  intros a. split; [|reflexivity]. apply (GetTCPInfo_386_agrees false sample_globals a).
  intros fd level optname len. simpl. unfold one_socket. repeat case_match; congruence.
Defined.

(** The promises of the platform interface. *)
#[global] Instance linux_platform_ok be g : PlatformOk (linux_platform be g).
Proof.
  split; [|done]. intros a s H. simpl in H.
  pose proof (GetTCPInfo_Ok (GetRawTCPInfo be) g a) as HOk. unfold GetTCPInfo in *.
  destruct (flags g AtLeast_2_6_2); [|done]. simpl in *.
  destruct (GetRawTCPInfo _ _ _ _) as [r|e]; [|done].
  destruct (HOk r) as (? & ? & ? & E & _); [done..|].
  rewrite E in H. by simplify_eq.
Qed.

(** ** ToMap *)

Lemma put_valid_entry {A : Type} key (mk : A -> any) (x : Nullable A) r :
  put_valid key mk x r = put_entry r (key, entry mk x).
Proof. unfold put_valid, put_entry, entry. simpl. by destruct (Valid x). Qed.

Lemma SysInfo_ToMap_table s :
  SysInfo_ToMap s = foldl put_entry (list_to_map (fixed_entries s)) (nullable_entries s).
Proof.
  unfold SysInfo_ToMap, put_dctcp. rewrite !put_valid_entry. reflexivity.
Qed.

(** The keys, whatever the values. *)
Definition fixed_keys : list string := Eval vm_compute in
  (fixed_entries (Unpack initial_globals (raw_of_kernel false [] 0))).*1.

Definition nullable_keys : list string := Eval vm_compute in
  (nullable_entries (Unpack initial_globals (raw_of_kernel false [] 0))).*1.

Lemma ToMap_keys_NoDup : NoDup (fixed_keys ++ nullable_keys).
Proof. by apply (bool_decide_unpack _); vm_compute. Qed.

Lemma SysInfo_ToMap_fixed s k v :
  (k, v) ∈ fixed_entries s -> SysInfo_ToMap s !! k = Some v.
Proof. rewrite SysInfo_ToMap_table. apply table_fixed, ToMap_keys_NoDup. Qed.

Lemma SysInfo_ToMap_nullable s k o :
  (k, o) ∈ nullable_entries s -> SysInfo_ToMap s !! k = o.
Proof. rewrite SysInfo_ToMap_table. apply table_optional, ToMap_keys_NoDup. Qed.

(** Two tables with the same keys that a function of the keys determines. *)
Lemma table_determined {V W : Type} (f : V -> W) `{!Inj (=) (=) f} (m : string -> W)
    (l1 l2 : list (string * V)) :
  l1.*1 = l2.*1 -> (forall k v, (k, v) ∈ l1 -> m k = f v) ->
  (forall k v, (k, v) ∈ l2 -> m k = f v) -> l1 = l2.
Proof.
  revert l2. induction l1 as [|[k v] l1 IH]; intros [|[k' v'] l2] E H1 H2; try done.
  simpl in E. injection E as -> E. f_equal.
  - f_equal. apply (inj f). rewrite <- (H1 k' v), <- (H2 k' v') by apply list_elem_of_here. done.
  - apply IH; [done|..]; intros k v0 Hin; [apply H1|apply H2]; by apply elem_of_cons; right.
Qed.

Lemma ToMap_fixed_inj s t : SysInfo_ToMap s = SysInfo_ToMap t -> fixed_entries s = fixed_entries t.
Proof.
  intros H. apply (table_determined Some (fun k => SysInfo_ToMap s !! k)); [done|..].
  - apply SysInfo_ToMap_fixed.
  - rewrite H. apply SysInfo_ToMap_fixed.
Qed.

Lemma ToMap_nullable_inj s t :
  SysInfo_ToMap s = SysInfo_ToMap t -> nullable_entries s = nullable_entries t.
Proof.
  intros H. apply (table_determined id (fun k => SysInfo_ToMap s !! k)); [done|..].
  - apply SysInfo_ToMap_nullable.
  - rewrite H. apply SysInfo_ToMap_nullable.
Qed.

Lemma entry_inj {A : Type} (mk : A -> any) `{!Inj (=) (=) mk} (zero : A) (x y : Nullable A) :
  entry mk x = entry mk y -> normal zero x = normal zero y.
Proof.
  unfold entry, normal. destruct x as [[] x], y as [[] y]; simpl; try done.
  intros E. injection E as E. by apply (inj mk) in E as ->.
Qed.

#[global] Instance ABool_inj : Inj (=) (=) ABool.
Proof. by intros ?? [=]. Qed.
#[global] Instance AUint8_inj : Inj (=) (=) AUint8.
Proof. by intros ?? [=]. Qed.
#[global] Instance AUint16_inj : Inj (=) (=) AUint16.
Proof. by intros ?? [=]. Qed.
#[global] Instance AUint32_inj : Inj (=) (=) AUint32.
Proof. by intros ?? [=]. Qed.
#[global] Instance AUint64_inj : Inj (=) (=) AUint64.
Proof. by intros ?? [=]. Qed.
#[global] Instance ADuration_inj : Inj (=) (=) ADuration.
Proof. by intros ?? [=]. Qed.

Lemma visible_inj s t :
  fixed_entries s = fixed_entries t -> nullable_entries s = nullable_entries t ->
  visible s = visible t.
Proof.
  destruct s, t. unfold fixed_entries, nullable_entries, visible. unfold_unpack.
  intros Hf Hn. injection Hf; injection Hn; clear Hf Hn; intros; subst.
  f_equal; first [reflexivity | eapply entry_inj; [|eassumption]; apply _].
Qed.

Lemma entry_normal {A : Type} (mk : A -> any) zero (x : Nullable A) :
  entry mk (normal zero x) = entry mk x.
Proof. by destruct x as [[] x]. Qed.

Lemma SysInfo_ToMap_visible s : SysInfo_ToMap (visible s) = SysInfo_ToMap s.
Proof.
  rewrite !SysInfo_ToMap_table. f_equal.
  destruct s. unfold nullable_entries, visible. unfold_unpack. by rewrite !entry_normal.
Qed.

(** SysInfo.ToMap shows exactly the visible part of the struct: two
    structs have the same map if and only if they agree on every field, up to
    the numeric state (only its name is shown) and the values behind null
    fields. In particular no field overwrites another's key, and a null field
    differs from a zero one. *)
Theorem SysInfo_ToMap_faithful s t : SysInfo_ToMap s = SysInfo_ToMap t <-> visible s = visible t.
Proof.
  split; intros H.
  - apply visible_inj; [by apply ToMap_fixed_inj|by apply ToMap_nullable_inj].
  - by rewrite <- (SysInfo_ToMap_visible s), H, SysInfo_ToMap_visible.
Qed.

(** ** Warnings *)

Lemma warning_line_counter name x :
  (if valid_pos x then Some (name +:+ FormatUint (NValue x) 10) else None) =
  warning_line (name, counter_of x).
Proof. by destruct x as [[] x]. Qed.

Lemma elems_Warnings s :
  SysInfo_ok s -> elems (Warnings s) = omap warning_line (warning_table s).
Proof.
  intros H. assert (forall v w, uint w v -> 0 <= w <= 64 -> wrap_u 64 v = v) as E.
  { intros v w Hv Hw. apply wrap_u_id. by apply (uint_mono w). }
  fields_of H. repeat match goal with H : null_ok _ _ |- _ => destruct H as [? _] end.
  unfold Warnings. rewrite !warn_if_line.
  rewrite (E (TotalRetrans s) 32), (E (Backoff s) 8), (E (NValue (RxOutOfOrder s)) 32) by done.
  rewrite !warning_line_counter, <- !(assoc_L (++)). simpl elems.
  unfold warning_table. rewrite <- !option_list_omap. by rewrite app_nil_r.
Qed.

(** C31: the warnings of a reported struct are the lines of the nonzero
    counters among retransmitted bytes, retransmissions, backoff, out-of-order
    packets and the two limited times, in this order, each with its decimal
    value; a counter the kernel does not provide gives none. Warnings returns
    nil exactly when no counter is positive. *)
Theorem Warnings_counters s :
  SysInfo_ok s ->
  elems (Warnings s) = omap warning_line (warning_table s) /\
  (Warnings s = None <-> omap warning_line (warning_table s) = []).
Proof.
  intros H. rewrite <- elems_Warnings by done. split; [done|]. split; [by intros ->|].
  repeat apply warn_if_empty. done.
Qed.

Lemma Warnings_counters_witness :
  exists s, GetTCPInfo (GetRawTCPInfo false) sample_globals sample_answers = (Some s, None) /\
  elems (Warnings s) = omap warning_line (warning_table s).
Proof.
  eexists. split; [reflexivity|].
  refine (proj1 (Warnings_counters _ (GetTCPInfo_SysInfo_ok false sample_globals sample_answers _ None
    sample_answers_ok _))). reflexivity.
Defined.
