(* ===== verification/TcpInfoDarwin.v ===== *)
(** * pkg/tcpinfo on Darwin

    tcpinfo_darwin.go: the struct tcp_connection_info the kernel fills, its
    unpacking and the platform interface. The answer of getsockopt is an
    argument ([Answers]). *)

From S2P Require Import Prelude GoStrings GoLayout TcpInfo.

(** ** Data *)

(** The struct the kernel fills (struct tcp_connection_info). *)
Record RawInfo : Type := mkRawInfo {
  raw_State : Z;
  raw_SendWscale : Z;
  raw_RecvWscale : Z;
  raw_Options : Z;
  raw_Flags : Z;
  raw_RTO : Z;
  raw_MaxSeg : Z;
  raw_SendSSThresh : Z;
  raw_SendCwnd : Z;
  raw_SendWnd : Z;
  raw_SendSBBytes : Z;
  raw_RecvWnd : Z;
  raw_RTTCur : Z;
  raw_SRTT : Z;
  raw_RTTVar : Z;
  raw_TFOFlags : Z;
  raw_TxPackets : Z;
  raw_TxBytes : Z;
  raw_TxRetransmitBytes : Z;
  raw_RxPackets : Z;
  raw_RxBytes : Z;
  raw_RxOutOfOrderBytes : Z;
  raw_TxRetransmitPackets : Z
}.

(** The field types, in order, with the padding byte. *)
Definition RawInfo_types : list gotype :=
  [TU8; TU8; TU8; TU8; TU32; TU32; TU32; TU32; TU32; TU32; TU32; TU32; TU32; TU32; TU32; TU32;
   TU32; TU64; TU64; TU64; TU64; TU64; TU64; TU64].

(** The struct a memory image holds. *)
Definition RawInfo_of_mem (be : bool) (mem : list Z) : RawInfo :=
  let u8 off := read_uint be mem off 1 in
  let u32 off := read_uint be mem off 4 in
  let u64 off := read_uint be mem off 8 in
  {|
    raw_State := u8 0;
    raw_SendWscale := u8 1;
    raw_RecvWscale := u8 2;
    raw_Options := u32 4;
    raw_Flags := u32 8;
    raw_RTO := u32 12;
    raw_MaxSeg := u32 16;
    raw_SendSSThresh := u32 20;
    raw_SendCwnd := u32 24;
    raw_SendWnd := u32 28;
    raw_SendSBBytes := u32 32;
    raw_RecvWnd := u32 36;
    raw_RTTCur := u32 40;
    raw_SRTT := u32 44;
    raw_RTTVar := u32 48;
    raw_TFOFlags := u32 52;
    raw_TxPackets := u64 56;
    raw_TxBytes := u64 64;
    raw_TxRetransmitBytes := u64 72;
    raw_RxPackets := u64 80;
    raw_RxBytes := u64 88;
    raw_RxOutOfOrderBytes := u64 96;
    raw_TxRetransmitPackets := u64 104
  |}%nat.

Record SysInfo : Type := mkSysInfo {
  State : Z;
  StateName : string;
  TxWindowScale : Z;
  RxWindowScale : Z;
  TxOptions : slice Option;
  RxOptions : slice Option;
  Flags : string;
  RTO : Z;
  MaxSeg : Z;
  TxSSThreshold : Z;
  TxCWindow : Z;
  TxWindow : Z;
  TxSendBufferBytes : Z;
  RxWindow : Z;
  RTTCur : Z;
  SRTT : Z;
  RTTVar : Z;
  TFOFlags : Z;
  TxPackets : Z;
  TxBytes : Z;
  TxRetransmitBytes : Z;
  RxPackets : Z;
  RxBytes : Z;
  RxOutOfOrderBytes : Z;
  TxRetransmitPackets : Z
}.

#[global] Instance SysInfo_eta : RecordEta SysInfo :=
  fconst mkSysInfo <*> State <*> StateName <*> TxWindowScale <*> RxWindowScale <*> TxOptions
  <*> RxOptions <*> Flags <*> RTO <*> MaxSeg <*> TxSSThreshold <*> TxCWindow <*> TxWindow
  <*> TxSendBufferBytes <*> RxWindow <*> RTTCur <*> SRTT <*> RTTVar <*> TFOFlags <*> TxPackets
  <*> TxBytes <*> TxRetransmitBytes <*> RxPackets <*> RxBytes <*> RxOutOfOrderBytes
  <*> TxRetransmitPackets.

(** ** Constants and tables *)

Definition TCPS_CLOSED : Z := 0.
Definition TCPS_LISTEN : Z := 1.
Definition TCPS_SYN_SENT : Z := 2.
Definition TCPS_SYN_RECEIVED : Z := 3.
Definition TCPS_ESTABLISHED : Z := 4.
Definition TCPS_CLOSE_WAIT : Z := 5.
Definition TCPS_FIN_WAIT_1 : Z := 6.
Definition TCPS_CLOSING : Z := 7.
Definition TCPS_LAST_ACK : Z := 8.
Definition TCPS_FIN_WAIT_2 : Z := 9.
Definition TCPS_TIME_WAIT : Z := 10.

Definition tcpStateMap : gmap Z string := list_to_map [
  (TCPS_ESTABLISHED, "ESTABLISHED");
  (TCPS_SYN_SENT, "SYN_SENT");
  (TCPS_SYN_RECEIVED, "SYN_RECV");
  (TCPS_FIN_WAIT_1, "FIN_WAIT1");
  (TCPS_FIN_WAIT_2, "FIN_WAIT2");
  (TCPS_TIME_WAIT, "TIME_WAIT");
  (TCPS_CLOSED, "CLOSE");
  (TCPS_CLOSE_WAIT, "CLOSE_WAIT");
  (TCPS_LAST_ACK, "LAST_ACK");
  (TCPS_LISTEN, "LISTEN");
  (TCPS_CLOSING, "CLOSING")
].

Definition SysFlagLossRecovery : Z := 0x1.
Definition SysFlagReorderingDetected : Z := 0x2.

Definition tcpFlagsMap : gmap Z string := list_to_map [
  (SysFlagLossRecovery, "LOSS_RECOVERY");
  (SysFlagReorderingDetected, "REORDERING_DETECTED")
].

Definition tcpFlags : list Z := [SysFlagLossRecovery; SysFlagReorderingDetected].

Definition TCPCI_OPT_TIMESTAMPS : Z := 0x1.
Definition TCPCI_OPT_SACK : Z := 0x2.
Definition TCPCI_OPT_WSCALE : Z := 0x4.
Definition TCPCI_OPT_ECN : Z := 0x8.

Definition tcpOptionsMap : gmap Z string := list_to_map [
  (TCPCI_OPT_TIMESTAMPS, "Timestamps");
  (TCPCI_OPT_SACK, "SACK");
  (TCPCI_OPT_WSCALE, "WindowScale");
  (TCPCI_OPT_ECN, "ECN")
].

Definition tcpOptions : list Z :=
  [TCPCI_OPT_TIMESTAMPS; TCPCI_OPT_SACK; TCPCI_OPT_WSCALE; TCPCI_OPT_ECN].

(** syscall's values on Darwin. *)
Definition ENOENT : Z := 2.
Definition EINVAL : Z := 22.
Definition EAGAIN : Z := 35.

(** time.Millisecond, in nanoseconds. *)
Definition timeFieldMultiplier : Z := 1000000.

(** ** Operations *)

Definition SysInfo_ToMap (s : SysInfo) : gmap string any :=
  list_to_map [
    ("state", AString (StateName s));
    ("txWindowScale", AUint8 (TxWindowScale s));
    ("rxWindowScale", AUint8 (RxWindowScale s));
    ("txOptions", AOptions (TxOptions s));
    ("rxOptions", AOptions (RxOptions s));
    ("flags", AString (Flags s));
    ("rto", ADuration (RTO s));
    ("mss", AUint32 (MaxSeg s));
    ("txSSThreshold", AUint32 (TxSSThreshold s));
    ("txCWindowBytes", AUint32 (TxCWindow s));
    ("txWindow", AUint32 (TxWindow s));
    ("txSendBufferBytes", AUint32 (TxSendBufferBytes s));
    ("rxWindow", AUint32 (RxWindow s));
    ("rttCur", ADuration (RTTCur s));
    ("rttSmoothed", ADuration (SRTT s));
    ("rttVar", ADuration (RTTVar s));
    ("tfoFlags", AUint32 (TFOFlags s));
    ("txPackets", AUint64 (TxPackets s));
    ("txBytes", AUint64 (TxBytes s));
    ("txRetransmitBytes", AUint64 (TxRetransmitBytes s));
    ("rxPackets", AUint64 (RxPackets s));
    ("rxBytes", AUint64 (RxBytes s));
    ("rxOutOfOrderBytes", AUint64 (RxOutOfOrderBytes s));
    ("txRetransmitPackets", AUint64 (TxRetransmitPackets s))
  ].

(** The body of the loop over the flags. *)
Definition flag_name (options : Z) (opts : slice string) (flag : Z) : slice string :=
  if Z.land options flag =? 0 then opts else append opts (lookup_name tcpFlagsMap flag).

Definition tcpInfoTCPFlagsString (options : Z) : string :=
  Join (elems (foldl (flag_name options) None tcpFlags)) ",".

(** The body of the option loop, on the two slices built so far. *)
Definition unpack_option (packed : RawInfo) (acc : slice Option * slice Option) (flag : Z)
    : slice Option * slice Option :=
  let '(tx, rx) := acc in
  if Z.land (raw_Options packed) flag =? 0 then acc
  else if bool_decide (flag ∈ [TCPCI_OPT_SACK; TCPCI_OPT_ECN; TCPCI_OPT_TIMESTAMPS]) then
    (append tx (mkOption (lookup_name tcpOptionsMap flag) 0),
     append rx (mkOption (lookup_name tcpOptionsMap flag) 0))
  else if flag =? TCPCI_OPT_WSCALE then
    (append tx (mkOption (lookup_name tcpOptionsMap flag) (wrap_u 64 (raw_SendWscale packed))),
     append rx (mkOption (lookup_name tcpOptionsMap flag) (wrap_u 64 (raw_RecvWscale packed))))
  else acc.

Definition unpack_options (packed : RawInfo) : slice Option * slice Option :=
  foldl (unpack_option packed) (Some [], None) tcpOptions.

Definition Unpack (packed : RawInfo) : SysInfo :=
  let dur x := Duration x timeFieldMultiplier in
  {|
    State := raw_State packed;
    StateName := lookup_name tcpStateMap (raw_State packed);
    TxWindowScale := raw_SendWscale packed;
    RxWindowScale := raw_RecvWscale packed;
    TxOptions := fst (unpack_options packed);
    RxOptions := snd (unpack_options packed);
    Flags := tcpInfoTCPFlagsString (raw_Flags packed);
    RTO := dur (raw_RTO packed);
    MaxSeg := raw_MaxSeg packed;
    TxSSThreshold := raw_SendSSThresh packed;
    TxCWindow := raw_SendCwnd packed;
    TxWindow := raw_SendWnd packed;
    TxSendBufferBytes := raw_SendSBBytes packed;
    RxWindow := raw_RecvWnd packed;
    RTTCur := dur (raw_RTTCur packed);
    SRTT := dur (raw_SRTT packed);
    RTTVar := dur (raw_RTTVar packed);
    TFOFlags := raw_TFOFlags packed;
    TxPackets := raw_TxPackets packed;
    TxBytes := raw_TxBytes packed;
    TxRetransmitBytes := raw_TxRetransmitBytes packed;
    RxPackets := raw_RxPackets packed;
    RxBytes := raw_RxBytes packed;
    RxOutOfOrderBytes := raw_RxOutOfOrderBytes packed;
    TxRetransmitPackets := raw_TxRetransmitPackets packed
  |}.

Definition ToInfo (s : SysInfo) : Info SysInfo :=
  {|
    TcpInfo.State := StateName s;
    TcpInfo.TxOptions := TxOptions s;
    TcpInfo.RxOptions := RxOptions s;
    TcpInfo.TxMSS := wrap_u 64 (MaxSeg s);
    TcpInfo.RxMSS := wrap_u 64 (MaxSeg s);
    TcpInfo.RTT := SRTT s;
    TcpInfo.RTTVar := RTTVar s;
    TcpInfo.RTO := RTO s;
    TcpInfo.ATO := 0;
    TcpInfo.LastTxAt := 0;
    TcpInfo.LastRxAt := 0;
    TcpInfo.LastTxAckAt := 0;
    TcpInfo.LastRxAckAt := 0;
    TcpInfo.RxWindow := wrap_u 64 (RxWindow s);
    TcpInfo.TxSSThreshold := wrap_u 64 (TxSSThreshold s);
    TcpInfo.RxSSThreshold := 0;
    TcpInfo.TxWindowBytes := wrap_u 64 (TxCWindow s);
    TcpInfo.TxWindowSegs := wrap_u 64 (TxWindow s);
    TcpInfo.Retransmits := TxRetransmitPackets s;
    TcpInfo.Sys := Some s
  |}.

(** getsockopt(fd, IPPROTO_TCP, TCP_CONNECTION_INFO) with a buffer of the given
    length: the errno and the bytes of the kernel's struct. *)
Definition Answers : Type := Z -> Z * list Z.

(** unsafe.Sizeof(RawInfo{}). *)
Definition sizeof_RawInfo : nat := struct_size 8 RawInfo_types.

Definition GetTCPInfo (be : bool) (getsockopt : Answers) : option SysInfo * option error :=
  let length := wrap_u 32 (Z.of_nat sizeof_RawInfo) in
  let '(errno, kdata) := getsockopt length in
  if negb (errno =? 0) then
    if errno =? EAGAIN then (None, Some (Errno EAGAIN))
    else if errno =? EINVAL then (None, Some (Errno EINVAL))
    else if errno =? ENOENT then (None, Some (Errno ENOENT))
    else (None, Some (Errno errno))
  else
    let value := RawInfo_of_mem be (copyout (replicate sizeof_RawInfo 0) kdata (Z.to_nat length)) in
    (Some (Unpack value), None).

Definition Supported : bool := true.

Definition Warnings (s : SysInfo) : slice string :=
  let warns : slice string := None in
  let warns := warn_if (0 <? TxRetransmitBytes s) "retransmitBytes=" (TxRetransmitBytes s) warns in
  let warns := warn_if (0 <? TxRetransmitPackets s) "retransmitPackets="
    (TxRetransmitPackets s) warns in
  let warns := warn_if (0 <? RxOutOfOrderBytes s) "outOfOrderBytes=" (RxOutOfOrderBytes s) warns in
  warns.

Definition darwin_platform (be : bool) : Platform := {|
  TcpInfo.SysInfo := SysInfo;
  TcpInfo.Answers := Answers;
  TcpInfo.Supported := Supported;
  TcpInfo.GetTCPInfo := GetTCPInfo be;
  TcpInfo.ToInfo := ToInfo;
  TcpInfo.SysInfo_Warnings := Warnings;
  TcpInfo.nil_Warnings := None;
  TcpInfo.SysInfo_ToMap := SysInfo_ToMap
|}.

(** ** Specification *)

(** Times of at most 32 bits of milliseconds. *)
Definition dur_ok (d : Z) : Prop := 0 <= d <= (2 ^ 32 - 1) * 1000000.

Definition SysInfo_ok (s : SysInfo) : Prop :=
  Forall (uint 8) [State s; TxWindowScale s; RxWindowScale s] /\
  Forall (uint 32)
    [MaxSeg s; TxSSThreshold s; TxCWindow s; TxWindow s; TxSendBufferBytes s; RxWindow s;
     TFOFlags s] /\
  Forall dur_ok [RTO s; RTTCur s; SRTT s; RTTVar s] /\
  Forall (uint 64)
    [TxPackets s; TxBytes s; TxRetransmitBytes s; RxPackets s; RxBytes s; RxOutOfOrderBytes s;
     TxRetransmitPackets s].

(** What the kernel's bytes become. *)
Definition raw_of_kernel (be : bool) (kdata : list Z) : RawInfo :=
  RawInfo_of_mem be (copyout (replicate 112 0) kdata 112).

Definition warning_table (s : SysInfo) : list (string * option Z) := [
  ("retransmitBytes=", Some (TxRetransmitBytes s));
  ("retransmitPackets=", Some (TxRetransmitPackets s));
  ("outOfOrderBytes=", Some (RxOutOfOrderBytes s))
].

(** ** Lemmas *)

Lemma dur_ok_msec v : uint 32 v -> dur_ok (Duration v 1000000).
Proof. unfold uint, dur_ok. intros Hv. rewrite Duration_exact; lia. Qed.

Lemma darwin_Unpack_ok be kdata : Forall is_byte kdata -> SysInfo_ok (Unpack (raw_of_kernel be kdata)).
Proof.
  intros Hk. assert (Forall is_byte (copyout (replicate 112 0) kdata 112)) as Hm.
  { apply copyout_bytes; [apply zeros_bytes|done]. }
  pose proof (fun off size => read_uint_range be _ off size Hm) as H.
  unfold SysInfo_ok. split_and!; repeat (apply Forall_cons; split); try apply Forall_nil_2.
  all: try apply dur_ok_msec; apply H.
Qed.

Lemma darwin_Warnings_lines s : elems (Warnings s) = omap warning_line (warning_table s).
Proof.
  unfold Warnings. rewrite !warn_if_line, <- !(assoc_L (++)). simpl elems.
  unfold warning_table. rewrite <- !option_list_omap. by rewrite app_nil_r.
Qed.

(** The two option lists, by the four bits that are looked at. *)
Lemma unpack_options_bits packed :
  let on flag := negb (Z.land (raw_Options packed) flag =? 0) in
  let opt scale flag := if on flag then
    [mkOption (lookup_name tcpOptionsMap flag) (if flag =? TCPCI_OPT_WSCALE then scale else 0)]
    else [] in
  uint 8 (raw_SendWscale packed) -> uint 8 (raw_RecvWscale packed) ->
  elems (fst (unpack_options packed)) = tcpOptions ≫= opt (raw_SendWscale packed) /\
  elems (snd (unpack_options packed)) = tcpOptions ≫= opt (raw_RecvWscale packed).
Proof.
  intros on opt Hs Hr.
  assert (wrap_u 64 (raw_SendWscale packed) = raw_SendWscale packed) as Es.
  { apply wrap_u_id. by apply (uint_mono 8). }
  assert (wrap_u 64 (raw_RecvWscale packed) = raw_RecvWscale packed) as Er.
  { apply wrap_u_id. by apply (uint_mono 8). }
  unfold unpack_options, unpack_option. rewrite Es, Er. unfold opt, on.
  cbn [tcpOptions foldl mbind list_bind].
  destruct (Z.land (raw_Options packed) TCPCI_OPT_TIMESTAMPS =? 0),
    (Z.land (raw_Options packed) TCPCI_OPT_SACK =? 0),
    (Z.land (raw_Options packed) TCPCI_OPT_WSCALE =? 0),
    (Z.land (raw_Options packed) TCPCI_OPT_ECN =? 0); vm_compute; done.
Qed.

Lemma lookup_name_inj f g :
  f ∈ tcpOptions -> g ∈ tcpOptions ->
  lookup_name tcpOptionsMap f = lookup_name tcpOptionsMap g -> f = g.
Proof.
  intros Hf Hg. assert (Forall (fun f => Forall (fun g =>
    lookup_name tcpOptionsMap f = lookup_name tcpOptionsMap g -> f = g) tcpOptions) tcpOptions) as H.
  { by apply (bool_decide_unpack _); vm_compute. }
  rewrite Forall_forall in H. specialize (H f Hf). rewrite Forall_forall in H. by apply H.
Qed.

(** ** Properties *)

(** C34: what GetTCPInfo returns on Darwin. Its errno, and nothing else, when
    getsockopt fails; otherwise what Unpack makes of the kernel's bytes, with
    every field in the range of its Go type and each of the four times exactly
    the kernel's milliseconds times 10^6; int64 does not overflow. *)
Theorem GetTCPInfo_darwin be getsockopt :
  (forall len, Forall is_byte (snd (getsockopt len))) ->
  let '(s, err) := GetTCPInfo be getsockopt in
  let '(errno, kdata) := getsockopt 112 in
  if errno =? 0 then
    err = None /\ exists i, s = Some i /\ SysInfo_ok i /\ i = Unpack (raw_of_kernel be kdata) /\
    let r := raw_of_kernel be kdata in
    [RTO i; RTTCur i; SRTT i; RTTVar i] =
      (fun msec => msec * 1000000) <$> [raw_RTO r; raw_RTTCur r; raw_SRTT r; raw_RTTVar r]
  else s = None /\ err = Some (Errno errno).
Proof.
  intros Hk. unfold GetTCPInfo. change (wrap_u 32 (Z.of_nat sizeof_RawInfo)) with 112.
  specialize (Hk 112). destruct (getsockopt 112) as [e kdata]. simpl in Hk.
  destruct (Z.eqb_spec e 0) as [->|He]; cbn [negb]; cbv iota.
  - split; [done|]. eexists. split; [done|]. split; [by apply darwin_Unpack_ok|]. split; [done|].
    assert (Forall is_byte (copyout (replicate 112 0) kdata 112)) as Hm.
    { apply copyout_bytes; [apply zeros_bytes|done]. }
    assert (forall off, Duration (read_uint be (copyout (replicate 112 0) kdata 112) off 4) 1000000 =
      read_uint be (copyout (replicate 112 0) kdata 112) off 4 * 1000000) as Hx.
    { intros off. assert (uint 32 (read_uint be (copyout (replicate 112 0) kdata 112) off 4)) as Hu
        by exact (read_uint_range be _ off 4 Hm). unfold uint in Hu. apply Duration_exact; lia. }
    pose proof (Hx 12%nat) as H12. pose proof (Hx 40%nat) as H40. pose proof (Hx 44%nat) as H44.
    pose proof (Hx 48%nat) as H48. cbn [fmap list_fmap]. repeat f_equal; assumption.
  - by repeat case_bool; subst.
Qed.

Definition sample_getsockopt (len : Z) : Z * list Z :=
  if len =? 112 then (0, seqZ 1 112) else (EINVAL, []).

Lemma GetTCPInfo_darwin_witness :
  exists i, GetTCPInfo false sample_getsockopt = (Some i, None) /\ SysInfo_ok i /\
  RTTCur i = raw_RTTCur (raw_of_kernel false (seqZ 1 112)) * 1000000.
Proof.
  assert (forall len, Forall is_byte (snd (sample_getsockopt len))) as Hk.
  { intros len. unfold sample_getsockopt. destruct (len =? 112);
      by apply (bool_decide_unpack _); vm_compute. }
  pose proof (GetTCPInfo_darwin false sample_getsockopt Hk) as H.
  destruct (GetTCPInfo false sample_getsockopt) as [s err].
  destruct H as (-> & i & -> & Hok & _ & Ht). exists i. split; [reflexivity|]. split; [exact Hok|].
  by injection Ht.
Defined.

(** on Darwin the option lists name exactly the option bits that are set,
    on both sides, and WindowScale carries the window scale of its side. *)
Theorem Unpack_darwin_options packed flag :
  uint 8 (raw_SendWscale packed) -> uint 8 (raw_RecvWscale packed) -> flag ∈ tcpOptions ->
  let s := Unpack packed in
  let value scale := if flag =? TCPCI_OPT_WSCALE then scale else 0 in
  (Z.land (raw_Options packed) flag <> 0 <->
   mkOption (lookup_name tcpOptionsMap flag) (value (TxWindowScale s)) ∈ elems (TxOptions s)) /\
  (Z.land (raw_Options packed) flag <> 0 <->
   mkOption (lookup_name tcpOptionsMap flag) (value (RxWindowScale s)) ∈ elems (RxOptions s)).
Proof.
  intros Hs Hr Hf s value. destruct (unpack_options_bits packed Hs Hr) as [Et Er].
  change (elems (TxOptions s)) with (elems (fst (unpack_options packed))).
  change (elems (RxOptions s)) with (elems (snd (unpack_options packed))).
  rewrite Et, Er. change (TxWindowScale s) with (raw_SendWscale packed).
  change (RxWindowScale s) with (raw_RecvWscale packed). unfold value.
  split; (split; [intros Hn|]).
  1, 3: apply list_elem_of_bind; exists flag; split; [|done];
    rewrite (proj2 (Z.eqb_neq _ _) Hn); apply list_elem_of_here.
  all: intros (f & Hin & Hf')%list_elem_of_bind; destruct (Z.eqb_spec (Z.land (raw_Options packed) f) 0);
    [by apply not_elem_of_nil in Hin|]; apply elem_of_cons in Hin as [E|Hin];
    [|by apply not_elem_of_nil in Hin]; injection E as E _;
    by rewrite (lookup_name_inj flag f Hf Hf' E).
Qed.

Lemma Unpack_darwin_options_witness :
  let packed := raw_of_kernel false [4; 7; 9; 0; 6] in
  mkOption "WindowScale" 7 ∈ elems (TxOptions (Unpack packed)) /\
  mkOption "WindowScale" 9 ∈ elems (RxOptions (Unpack packed)).
Proof.
  intros packed.
  destruct (Unpack_darwin_options packed TCPCI_OPT_WSCALE) as [[Ht _] [Hr _]];
    [by vm_compute|by vm_compute|by apply (bool_decide_unpack _); vm_compute|].
  split; [apply Ht|apply Hr]; by vm_compute.
Defined.

(** The promises of the platform interface. *)
#[global] Instance darwin_platform_ok be : PlatformOk (darwin_platform be).
Proof.
  split; [|done]. intros a s H. simpl in H. unfold GetTCPInfo in H.
  destruct (a _) as [e kdata]. repeat case_match; naive_solver.
Qed.
