(* ===== verification/TcpInfoWindows.v ===== *)
(** * pkg/tcpinfo on Windows and on other systems

    tcpinfo_windows.go: the structs TCP_INFO_v0 and TCP_INFO_v1, their
    unpacking and the fallback from the second to the first. The answers of
    WSAIoctl are an argument ([Answers]). The module [Other] is
    tcpinfo_other.go, the build for systems without support. *)

From S2P Require Import Prelude GoStrings GoLayout TcpInfo.

(** ** Data *)

Record RawInfoV0 : Type := mkRawInfoV0 {
  v0_State : Z;
  v0_Mss : Z;
  v0_ConnectionTimeMs : Z;
  v0_TimestampsEnabled : bool;
  v0_RttUs : Z;
  v0_MinRttUs : Z;
  v0_BytesInFlight : Z;
  v0_Cwnd : Z;
  v0_SndWnd : Z;
  v0_RcvWnd : Z;
  v0_RcvBuf : Z;
  v0_BytesOut : Z;
  v0_BytesIn : Z;
  v0_BytesReordered : Z;
  v0_BytesRetrans : Z;
  v0_FastRetrans : Z;
  v0_DupAcksIn : Z;
  v0_TimeoutEpisodes : Z;
  v0_SynRetrans : Z
}.

(** The field types, in order. *)
Definition RawInfoV0_types : list gotype :=
  [TU32; TU32; TU64; TBool; TU32; TU32; TU32; TU32; TU32; TU32; TU32; TU64; TU64; TU32; TU32;
   TU32; TU32; TU32; TU8].

(** The struct a memory image holds. *)
Definition RawInfoV0_of_mem (be : bool) (mem : list Z) : RawInfoV0 :=
  let b8 off := negb (read_uint be mem off 1 =? 0) in
  let u8 off := read_uint be mem off 1 in
  let u32 off := read_uint be mem off 4 in
  let u64 off := read_uint be mem off 8 in
  {|
    v0_State := u32 0;
    v0_Mss := u32 4;
    v0_ConnectionTimeMs := u64 8;
    v0_TimestampsEnabled := b8 16;
    v0_RttUs := u32 20;
    v0_MinRttUs := u32 24;
    v0_BytesInFlight := u32 28;
    v0_Cwnd := u32 32;
    v0_SndWnd := u32 36;
    v0_RcvWnd := u32 40;
    v0_RcvBuf := u32 44;
    v0_BytesOut := u64 48;
    v0_BytesIn := u64 56;
    v0_BytesReordered := u32 64;
    v0_BytesRetrans := u32 68;
    v0_FastRetrans := u32 72;
    v0_DupAcksIn := u32 76;
    v0_TimeoutEpisodes := u32 80;
    v0_SynRetrans := u8 84
  |}%nat.

Record RawInfoV1 : Type := mkRawInfoV1 {
  v1_State : Z;
  v1_Mss : Z;
  v1_ConnectionTimeMs : Z;
  v1_TimestampsEnabled : bool;
  v1_RttUs : Z;
  v1_MinRttUs : Z;
  v1_BytesInFlight : Z;
  v1_Cwnd : Z;
  v1_SndWnd : Z;
  v1_RcvWnd : Z;
  v1_RcvBuf : Z;
  v1_BytesOut : Z;
  v1_BytesIn : Z;
  v1_BytesReordered : Z;
  v1_BytesRetrans : Z;
  v1_FastRetrans : Z;
  v1_DupAcksIn : Z;
  v1_TimeoutEpisodes : Z;
  v1_SynRetrans : Z;
  v1_SndLimTransRwin : Z;
  v1_SndLimTimeRwin : Z;
  v1_SndLimBytesRwin : Z;
  v1_SndLimTransCwnd : Z;
  v1_SndLimTimeCwnd : Z;
  v1_SndLimBytesCwnd : Z;
  v1_SndLimTransSnd : Z;
  v1_SndLimTimeSnd : Z;
  v1_SndLimBytesSnd : Z
}.

(** The field types, in order. *)
Definition RawInfoV1_types : list gotype :=
  [TU32; TU32; TU64; TBool; TU32; TU32; TU32; TU32; TU32; TU32; TU32; TU64; TU64; TU32; TU32;
   TU32; TU32; TU32; TU8; TU32; TU32; TU64; TU32; TU32; TU64; TU32; TU32; TU64].

(** The struct a memory image holds. *)
Definition RawInfoV1_of_mem (be : bool) (mem : list Z) : RawInfoV1 :=
  let b8 off := negb (read_uint be mem off 1 =? 0) in
  let u8 off := read_uint be mem off 1 in
  let u32 off := read_uint be mem off 4 in
  let u64 off := read_uint be mem off 8 in
  {|
    v1_State := u32 0;
    v1_Mss := u32 4;
    v1_ConnectionTimeMs := u64 8;
    v1_TimestampsEnabled := b8 16;
    v1_RttUs := u32 20;
    v1_MinRttUs := u32 24;
    v1_BytesInFlight := u32 28;
    v1_Cwnd := u32 32;
    v1_SndWnd := u32 36;
    v1_RcvWnd := u32 40;
    v1_RcvBuf := u32 44;
    v1_BytesOut := u64 48;
    v1_BytesIn := u64 56;
    v1_BytesReordered := u32 64;
    v1_BytesRetrans := u32 68;
    v1_FastRetrans := u32 72;
    v1_DupAcksIn := u32 76;
    v1_TimeoutEpisodes := u32 80;
    v1_SynRetrans := u8 84;
    v1_SndLimTransRwin := u32 88;
    v1_SndLimTimeRwin := u32 92;
    v1_SndLimBytesRwin := u64 96;
    v1_SndLimTransCwnd := u32 104;
    v1_SndLimTimeCwnd := u32 108;
    v1_SndLimBytesCwnd := u64 112;
    v1_SndLimTransSnd := u32 120;
    v1_SndLimTimeSnd := u32 124;
    v1_SndLimBytesSnd := u64 128
  |}%nat.

Record SysInfo : Type := mkSysInfo {
  State : Z;
  StateName : string;
  MSS : Z;
  ConnectedTimeNS : Z;
  RTT : Z;
  RTTMin : Z;
  BytesInFlight : Z;
  CongestionWindow : Z;
  TxWindow : Z;
  RxWindow : Z;
  RxBuffer : Z;
  TxBytes : Z;
  RxBytes : Z;
  RxOutOfOrderBytes : Z;
  TxRetransmitBytes : Z;
  FastRetrans : Z;
  DupAcksIn : Z;
  TimeoutEpisodes : Z;
  SynRetrans : Z;
  SndLimTransRwin : Z;
  SndLimTransTimeRwin : Z;
  SndLimBytesRwin : Z;
  SndLimTransCwnd : Z;
  SndLimTimeCwnd : Z;
  SndLimBytesCwnd : Z;
  SndLimTransSnd : Z;
  SndLimTimeSnd : Z;
  SndLimBytesSnd : Z
}.

#[global] Instance SysInfo_eta : RecordEta SysInfo :=
  fconst mkSysInfo <*> State <*> StateName <*> MSS <*> ConnectedTimeNS <*> RTT <*> RTTMin
  <*> BytesInFlight <*> CongestionWindow <*> TxWindow <*> RxWindow <*> RxBuffer <*> TxBytes
  <*> RxBytes <*> RxOutOfOrderBytes <*> TxRetransmitBytes <*> FastRetrans <*> DupAcksIn
  <*> TimeoutEpisodes <*> SynRetrans <*> SndLimTransRwin <*> SndLimTransTimeRwin
  <*> SndLimBytesRwin <*> SndLimTransCwnd <*> SndLimTimeCwnd <*> SndLimBytesCwnd
  <*> SndLimTransSnd <*> SndLimTimeSnd <*> SndLimBytesSnd.

(** ** Constants and tables *)

Definition TCPS_CLOSED : Z := 0.
Definition TCPS_LISTEN : Z := 1.
Definition TCPS_SYN_SENT : Z := 2.
Definition TCPS_SYN_RECEIVED : Z := 3.
Definition TCPS_ESTABLISHED : Z := 4.
Definition TCPS_FIN_WAIT_1 : Z := 5.
Definition TCPS_FIN_WAIT_2 : Z := 6.
Definition TCPS_CLOSE_WAIT : Z := 7.
Definition TCPS_CLOSING : Z := 8.
Definition TCPS_LAST_ACK : Z := 9.
Definition TCPS_TIME_WAIT : Z := 10.

Definition tcpStateMap : gmap Z string := list_to_map [
  (TCPS_ESTABLISHED, "ESTABLISHED");
  (TCPS_SYN_SENT, "SYN_SENT");
  (TCPS_SYN_RECEIVED, "SYN_RECV");
  (TCPS_FIN_WAIT_1, "FIN_WAIT1");
  (TCPS_FIN_WAIT_2, "FIN_WAIT2");
  (TCPS_TIME_WAIT, "TIME_WAIT");
  (TCPS_CLOSED, "CLOSE");
  (TCPS_CLOSE_WAIT, "CLOSE_WAIT");
  (TCPS_LAST_ACK, "LAST_ACK");
  (TCPS_LISTEN, "LISTEN");
  (TCPS_CLOSING, "CLOSING")
].

(** time.Microsecond, in nanoseconds. *)
Definition timeFieldMultiplier : Z := 1000.

(** ** Operations *)

Definition SysInfo_ToMap (s : SysInfo) : gmap string any :=
  list_to_map [
    ("state", AString (StateName s));
    ("mss", AUint32 (MSS s));
    ("connectedTimeNS", ADuration (ConnectedTimeNS s));
    ("rtt", ADuration (RTT s));
    ("rttMin", ADuration (RTTMin s));
    ("bytesInFlight", AUint32 (BytesInFlight s));
    ("congestionWindow", AUint32 (CongestionWindow s));
    ("txWindow", AUint32 (TxWindow s));
    ("rxWindow", AUint32 (RxWindow s));
    ("rxBuffer", AUint32 (RxBuffer s));
    ("txBytes", AUint64 (TxBytes s));
    ("rxBytes", AUint64 (RxBytes s));
    ("rxOutOfOrderBytes", AUint32 (RxOutOfOrderBytes s));
    ("txRetransmitBytes", AUint64 (TxRetransmitBytes s));
    ("fastRetransmissions", AUint32 (FastRetrans s));
    ("duplicateAcksIn", AUint32 (DupAcksIn s));
    ("timeoutEpisodes", AUint32 (TimeoutEpisodes s));
    ("synRetransmissions", AUint8 (SynRetrans s));
    ("sndLimTransRwin", AUint64 (SndLimTransRwin s));
    ("sndLimTimeRwin", ADuration (SndLimTransTimeRwin s));
    ("sndLimBytesRwin", AUint64 (SndLimBytesRwin s));
    ("sndLimTransCwnd", AUint64 (SndLimTransCwnd s));
    ("sndLimTimeCwnd", ADuration (SndLimTimeCwnd s));
    ("sndLimBytesCwnd", AUint64 (SndLimBytesCwnd s));
    ("sndLimTransSnd", AUint64 (SndLimTransSnd s));
    ("sndLimTimeSnd", ADuration (SndLimTimeSnd s));
    ("sndLimBytesSnd", AUint64 (SndLimBytesSnd s))
  ].

Definition Unpack_V0 (packed : RawInfoV0) : SysInfo :=
  {|
    State := v0_State packed;
    StateName := lookup_name tcpStateMap (v0_State packed);
    MSS := v0_Mss packed;
    ConnectedTimeNS := Duration (v0_ConnectionTimeMs packed) 1000000;
    RTT := Duration (v0_RttUs packed) 1000;
    RTTMin := Duration (v0_MinRttUs packed) 1000;
    BytesInFlight := v0_BytesInFlight packed;
    CongestionWindow := v0_Cwnd packed;
    TxWindow := v0_SndWnd packed;
    RxWindow := v0_RcvWnd packed;
    RxBuffer := v0_RcvBuf packed;
    TxBytes := v0_BytesOut packed;
    RxBytes := v0_BytesIn packed;
    RxOutOfOrderBytes := v0_BytesReordered packed;
    TxRetransmitBytes := wrap_u 64 (v0_BytesRetrans packed);
    FastRetrans := v0_FastRetrans packed;
    DupAcksIn := v0_DupAcksIn packed;
    TimeoutEpisodes := v0_TimeoutEpisodes packed;
    SynRetrans := v0_SynRetrans packed;
    SndLimTransRwin := 0;
    SndLimTransTimeRwin := 0;
    SndLimBytesRwin := 0;
    SndLimTransCwnd := 0;
    SndLimTimeCwnd := 0;
    SndLimBytesCwnd := 0;
    SndLimTransSnd := 0;
    SndLimTimeSnd := 0;
    SndLimBytesSnd := 0
  |}.

Definition Unpack_V1 (packed : RawInfoV1) : SysInfo :=
  {|
    State := v1_State packed;
    StateName := lookup_name tcpStateMap (v1_State packed);
    MSS := v1_Mss packed;
    ConnectedTimeNS := Duration (v1_ConnectionTimeMs packed) timeFieldMultiplier;
    RTT := Duration (v1_RttUs packed) 1000;
    RTTMin := Duration (v1_MinRttUs packed) 1000;
    BytesInFlight := v1_BytesInFlight packed;
    CongestionWindow := v1_Cwnd packed;
    TxWindow := v1_SndWnd packed;
    RxWindow := v1_RcvWnd packed;
    RxBuffer := v1_RcvBuf packed;
    TxBytes := v1_BytesOut packed;
    RxBytes := v1_BytesIn packed;
    RxOutOfOrderBytes := v1_BytesReordered packed;
    TxRetransmitBytes := wrap_u 64 (v1_BytesRetrans packed);
    FastRetrans := v1_FastRetrans packed;
    DupAcksIn := v1_DupAcksIn packed;
    TimeoutEpisodes := v1_TimeoutEpisodes packed;
    SynRetrans := v1_SynRetrans packed;
    SndLimTransRwin := wrap_u 64 (v1_SndLimTransRwin packed);
    SndLimTransTimeRwin := Duration (v1_SndLimTimeRwin packed) 1000000;
    SndLimBytesRwin := v1_SndLimBytesRwin packed;
    SndLimTransCwnd := wrap_u 64 (v1_SndLimTransCwnd packed);
    SndLimTimeCwnd := Duration (v1_SndLimTimeCwnd packed) 1000000;
    SndLimBytesCwnd := v1_SndLimBytesCwnd packed;
    SndLimTransSnd := wrap_u 64 (v1_SndLimTransSnd packed);
    SndLimTimeSnd := Duration (v1_SndLimTimeSnd packed) 1000000;
    SndLimBytesSnd := v1_SndLimBytesSnd packed
  |}.

Definition ToInfo (s : SysInfo) : Info SysInfo :=
  {|
    TcpInfo.State := StateName s;
    TcpInfo.TxOptions := None;
    TcpInfo.RxOptions := None;
    TcpInfo.TxMSS := wrap_u 64 (MSS s);
    TcpInfo.RxMSS := 0;
    TcpInfo.RTT := RTTMin s;
    TcpInfo.RTTVar := 0;
    TcpInfo.RTO := 0;
    TcpInfo.ATO := 0;
    TcpInfo.LastTxAt := 0;
    TcpInfo.LastRxAt := 0;
    TcpInfo.LastTxAckAt := 0;
    TcpInfo.LastRxAckAt := 0;
    TcpInfo.RxWindow := wrap_u 64 (RxWindow s);
    TcpInfo.TxSSThreshold := 0;
    TcpInfo.RxSSThreshold := 0;
    TcpInfo.TxWindowBytes := 0;
    TcpInfo.TxWindowSegs := wrap_u 64 (TxWindow s);
    TcpInfo.Retransmits := wrap_u 64 (SynRetrans s);
    TcpInfo.Sys := Some s
  |}.

Definition tcpInfoTCPStateString (state : Z) : string :=
  match tcpStateMap !! state with
  | Some s => s
  | None => "UNKNOWN(" +:+ FormatUint state 10 +:+ ")"
  end.

(** syscall's values: IOC_IN | IOC_OUT and IOC_VENDOR. *)
Definition IOC_INOUT : Z := Z.lor 0x80000000 0x40000000.
Definition IOC_VENDOR : Z := 0x18000000.

Definition SIO_TCP_INFO : Z := Z.lor (Z.lor IOC_INOUT IOC_VENDOR) 39.

(** WSAIoctl of the socket with a control code, for a version of the struct and
    with an output buffer of the given length: the error, or the bytes it
    delivers. *)
Definition Answers : Type := Z -> Z -> Z -> option error * list Z.

(** unsafe.Sizeof of the two structs. *)
Definition sizeof_RawInfoV0 : nat := struct_size 8 RawInfoV0_types.
Definition sizeof_RawInfoV1 : nat := struct_size 8 RawInfoV1_types.

Definition GetTCPInfo `{ErrnoOps} (be : bool) (wsaIoctl : Answers)
    : option SysInfo * option error :=
  let len1 := wrap_u 32 (Z.of_nat sizeof_RawInfoV1) in
  match wsaIoctl SIO_TCP_INFO 1 len1 with
  | (None, data) =>
      let outbufv1 :=
        RawInfoV1_of_mem be (copyout (replicate sizeof_RawInfoV1 0) data (Z.to_nat len1)) in
      (Some (Unpack_V1 outbufv1), None)
  | (Some _, _) =>
      let len0 := wrap_u 32 (Z.of_nat sizeof_RawInfoV0) in
      match wsaIoctl SIO_TCP_INFO 0 len0 with
      | (Some err, _) =>
          (None, Some (NewError ("could not perform the WSAIoctl: " +:+ error_Error err)))
      | (None, data) =>
          let outbufv0 :=
            RawInfoV0_of_mem be (copyout (replicate sizeof_RawInfoV0 0) data (Z.to_nat len0)) in
          (Some (Unpack_V0 outbufv0), None)
      end
  end.

Definition Supported : bool := true.

Definition Warnings (s : SysInfo) : slice string :=
  let warns : slice string := None in
  let warns := warn_if (0 <? TxRetransmitBytes s) "retransmitBytes=" (TxRetransmitBytes s) warns in
  let warns := warn_if (0 <? SynRetrans s) "retransmitSyn=" (wrap_u 64 (SynRetrans s)) warns in
  let warns := warn_if (0 <? RxOutOfOrderBytes s) "outOfOrderBytes=" (wrap_u 64 (RxOutOfOrderBytes s)) warns in
  let warns := warn_if (0 <? TimeoutEpisodes s) "timeoutEpisodes=" (wrap_u 64 (TimeoutEpisodes s)) warns in
  let warns := warn_if (0 <? DupAcksIn s) "duplicateAcksIn=" (wrap_u 64 (DupAcksIn s)) warns in
  let warns := warn_if (0 <? FastRetrans s) "fastRetransmissions=" (wrap_u 64 (FastRetrans s)) warns in
  warns.

Definition windows_platform `{ErrnoOps} (be : bool) : Platform := {|
  TcpInfo.SysInfo := SysInfo;
  TcpInfo.Answers := Answers;
  TcpInfo.Supported := Supported;
  TcpInfo.GetTCPInfo := GetTCPInfo be;
  TcpInfo.ToInfo := ToInfo;
  TcpInfo.SysInfo_Warnings := Warnings;
  TcpInfo.nil_Warnings := None;
  TcpInfo.SysInfo_ToMap := SysInfo_ToMap
|}.

(** ** Systems without support: tcpinfo_other.go *)

Module Other.

Record SysInfo : Type := mkSysInfo {}.

(** &Info{} *)
Definition ToInfo (s : SysInfo) : Info SysInfo :=
  mkInfo SysInfo EmptyString None None 0 0 0 0 0 0 0 0 0 0 0 0 0 0 0 0 None.

Definition Warnings (s : SysInfo) : slice string := None.

Definition SysInfo_ToMap (s : SysInfo) : gmap string any := ∅.

(** [goos] is runtime.GOOS. *)
Definition GetTCPInfo (goos : string) (fd : Z) : option SysInfo * option error :=
  (None, Some (NewError (goos +:+ " is unsupported"))).

Definition Supported : bool := false.

Definition other_platform (goos : string) : Platform := {|
  TcpInfo.SysInfo := SysInfo;
  TcpInfo.Answers := Z;
  TcpInfo.Supported := Supported;
  TcpInfo.GetTCPInfo := GetTCPInfo goos;
  TcpInfo.ToInfo := ToInfo;
  TcpInfo.SysInfo_Warnings := Warnings;
  TcpInfo.nil_Warnings := Some None;
  TcpInfo.SysInfo_ToMap := SysInfo_ToMap
|}.

End Other.

(** ** Specification *)

Definition warning_table (s : SysInfo) : list (string * option Z) := [
  ("retransmitBytes=", Some (TxRetransmitBytes s));
  ("retransmitSyn=", Some (SynRetrans s));
  ("outOfOrderBytes=", Some (RxOutOfOrderBytes s));
  ("timeoutEpisodes=", Some (TimeoutEpisodes s));
  ("duplicateAcksIn=", Some (DupAcksIn s));
  ("fastRetransmissions=", Some (FastRetrans s))
].

(** The fields only v1 has, reset to what Unpack of v0 leaves. *)
Definition drop_v1 (s : SysInfo) : SysInfo :=
  s <| SndLimTransRwin := 0 |> <| SndLimTransTimeRwin := 0 |> <| SndLimBytesRwin := 0 |>
    <| SndLimTransCwnd := 0 |> <| SndLimTimeCwnd := 0 |> <| SndLimBytesCwnd := 0 |>
    <| SndLimTransSnd := 0 |> <| SndLimTimeSnd := 0 |> <| SndLimBytesSnd := 0 |>.

(** ** Lemmas *)

Lemma windows_Warnings_lines s :
  Forall (uint 64) [RxOutOfOrderBytes s; TimeoutEpisodes s; DupAcksIn s; FastRetrans s; SynRetrans s] ->
  elems (Warnings s) = omap warning_line (warning_table s).
Proof.
  intros H. repeat (apply Forall_cons in H as [? H]).
  unfold Warnings. rewrite !warn_if_line, !wrap_u_id by done. rewrite <- !(assoc_L (++)). simpl elems.
  unfold warning_table. rewrite <- !option_list_omap. by rewrite app_nil_r.
Qed.

(** ** Properties *)

(** TCP_INFO_v1 extends TCP_INFO_v0: under Go's layout rules, with 8-byte
    or (on 386) 4-byte alignment of uint64, the structs have the sizes 88 and
    136 of the Windows SDK, and the fields of v0 lie at the same offsets in v1. *)
Theorem windows_layouts align64 :
  align64 = 4%nat \/ align64 = 8%nat ->
  struct_size align64 RawInfoV0_types = 88%nat /\ struct_size align64 RawInfoV1_types = 136%nat /\
  fst (field_offsets align64 0 RawInfoV0_types) =
    take 19 (fst (field_offsets align64 0 RawInfoV1_types)).
Proof. intros [-> | ->]; vm_compute; done. Qed.

Lemma windows_layouts_witness : struct_size 4 RawInfoV1_types = 136%nat.
Proof. apply (windows_layouts 4). by left. Defined.

(** the two versions agree on what they share, but for the connection
    time. For the same bytes, unpacking v1 and dropping its additional fields
    gives what unpacking v0 gives, except for ConnectedTimeNS: v0 converts the
    milliseconds to nanoseconds, v1 reports a thousandth of that. *)
Theorem Unpack_V1_V0 be mem :
  let v0 := Unpack_V0 (RawInfoV0_of_mem be mem) in
  let v1 := Unpack_V1 (RawInfoV1_of_mem be mem) in
  let ms := v1_ConnectionTimeMs (RawInfoV1_of_mem be mem) in
  drop_v1 v1 <| ConnectedTimeNS := 0 |> = v0 <| ConnectedTimeNS := 0 |> /\
  (0 <= ms -> ms * 1000000 < 2 ^ 63 ->
   ConnectedTimeNS v0 = ms * 1000000 /\ ConnectedTimeNS v0 = 1000 * ConnectedTimeNS v1).
Proof.
  split; [reflexivity|]. intros H0 Hm. cbv beta zeta in *.
  assert (ConnectedTimeNS (Unpack_V0 (RawInfoV0_of_mem be mem)) =
    v1_ConnectionTimeMs (RawInfoV1_of_mem be mem) * 1000000) as ->.
  { apply Duration_exact; simpl in *; lia. }
  split; [done|].
  assert (ConnectedTimeNS (Unpack_V1 (RawInfoV1_of_mem be mem)) =
    v1_ConnectionTimeMs (RawInfoV1_of_mem be mem) * 1000) as ->.
  { apply Duration_exact; lia. }
  lia.
Qed.

Lemma Unpack_V1_V0_witness :
  let mem := replicate 8 0 ++ [16; 39] ++ replicate 126 0 in
  v1_ConnectionTimeMs (RawInfoV1_of_mem false mem) = 10000 /\
  ConnectedTimeNS (Unpack_V0 (RawInfoV0_of_mem false mem)) =
  1000 * ConnectedTimeNS (Unpack_V1 (RawInfoV1_of_mem false mem)).
Proof.
  intros mem. split; [reflexivity|].
  refine (proj2 (proj2 (Unpack_V1_V0 false mem) _ _)); vm_compute; congruence.
Defined.

(** C35: GetTCPInfo on Windows asks for v1, and for v0 when that fails, with the
    control code of the Windows SDK and buffers of its sizes; it fails only when
    both calls fail, with an error that quotes the second one. *)
Theorem GetTCPInfo_windows `{ErrnoOps} be (wsaIoctl : Answers) :
  let '(e1, d1) := wsaIoctl 0xD8000027 1 136 in
  let '(e0, d0) := wsaIoctl 0xD8000027 0 88 in
  GetTCPInfo be wsaIoctl =
  match e1, e0 with
  | None, _ => (Some (Unpack_V1 (RawInfoV1_of_mem be (copyout (replicate 136 0) d1 136))), None)
  | Some _, None =>
      (Some (Unpack_V0 (RawInfoV0_of_mem be (copyout (replicate 88 0) d0 88))), None)
  | Some _, Some e =>
      (None, Some (NewError ("could not perform the WSAIoctl: " +:+ error_Error e)))
  end.
Proof.
  unfold GetTCPInfo. change SIO_TCP_INFO with 0xD8000027. change (wrap_u 32 (Z.of_nat sizeof_RawInfoV1)) with 136.
  change (wrap_u 32 (Z.of_nat sizeof_RawInfoV0)) with 88.
  destruct (wsaIoctl 0xD8000027 1 136) as [[e1|] d1], (wsaIoctl 0xD8000027 0 88) as [[e0|] d0]; reflexivity.
Qed.

(** The promises of the platform interface. *)
#[global] Instance windows_platform_ok `{ErrnoOps} be : PlatformOk (windows_platform be).
Proof.
  split; [|done]. intros a s H0. simpl in H0. unfold GetTCPInfo in H0.
  destruct (a _ 1 _) as [[|] ?]; [|naive_solver]. destruct (a _ 0 _) as [[|] ?]; naive_solver.
Qed.

#[global] Instance other_platform_ok goos : PlatformOk (Other.other_platform goos).
Proof. by split. Qed.
