(* ===== verification/TcpInfoJson.v ===== *)
(** * pkg/tcpinfo as JSON

    The MarshalJSON methods of the platforms' SysInfo structs, the JSON object
    of an Info (its struct tags), and what both show of the values. The
    platform interface is extended by what a platform promises of its map: its
    values are flat and keep their types. *)

From stdpp Require Import sorting.
From S2P Require Import TcpInfoLinux TcpInfoLinuxProps TcpInfoLinuxReport TcpInfoDarwin TcpInfoWindows.
From S2P Require Import Prelude GoStrings GoUtf8 InitLinux TcpInfo Json.

(** ** The MarshalJSON methods *)

(** json.Marshal(s.ToMap()), the same in each of the four platform files. *)
Module Linux.
Definition MarshalJSON (s : TcpInfoLinux.SysInfo) : option string :=
  Marshal (AMap (TcpInfoLinux.SysInfo_ToMap s)).
End Linux.

Module Darwin.
Definition MarshalJSON (s : TcpInfoDarwin.SysInfo) : option string :=
  Marshal (AMap (TcpInfoDarwin.SysInfo_ToMap s)).
End Darwin.

Module Windows.
Definition MarshalJSON (s : TcpInfoWindows.SysInfo) : option string :=
  Marshal (AMap (TcpInfoWindows.SysInfo_ToMap s)).
End Windows.

Module Other.
Definition MarshalJSON (s : TcpInfoWindows.Other.SysInfo) : option string :=
  Marshal (AMap (TcpInfoWindows.Other.SysInfo_ToMap s)).
End Other.

(** ** Structs with tags *)

(** A field tagged omitempty: no member for zero, for the empty string, for an
    empty slice and for a nil pointer. *)
Definition omit_zero (z : Z) : option json := if z =? 0 then None else Some (JNum z).

Definition omit_empty (s : string) : option json := if String.eqb s EmptyString then None else Some (JStr s).

(** The outer option is the error. *)
Definition omit_options (l : slice Option) : option (option json) :=
  match elems l with [] => Some None | l => js ← all_some (map Option_json l); Some (Some (JArr js)) end.

Definition omit_nil {A : Type} (f : A -> option json) (p : option A) : option (option json) :=
  match p with None => Some None | Some x => j ← f x; Some (Some j) end.

(** The object of a struct: the members that are there, in order. *)
Definition object (fields : list (string * option json)) : json := JObj (omap pair_some fields).

Section json.
Context `{P : Platform}.

(** What the MarshalJSON method of a SysInfo writes, as a value. *)
Definition SysInfo_json (s : SysInfo) : option json := to_json (AMap (SysInfo_ToMap s)).

Definition Info_fields (i : Info SysInfo) (tx rx sys : option json) : list (string * option json) := [
  ("state", omit_empty (State i));
  ("txOptions", tx);
  ("rxOptions", rx);
  ("txMSS", omit_zero (TxMSS i));
  ("rxMSS", omit_zero (RxMSS i));
  ("rtt", omit_zero (RTT i));
  ("rttVar", omit_zero (RTTVar i));
  ("rto", omit_zero (RTO i));
  ("ato", omit_zero (ATO i));
  ("lastTxAt", omit_zero (LastTxAt i));
  ("lastRxAt", omit_zero (LastRxAt i));
  ("lastTxAckAt", omit_zero (LastTxAckAt i));
  ("lastRxAckAt", omit_zero (LastRxAckAt i));
  ("rxWindow", omit_zero (RxWindow i));
  ("txSSThreshold", omit_zero (TxSSThreshold i));
  ("rxSSThreshold", omit_zero (RxSSThreshold i));
  ("txCWindowBytes", omit_zero (TxWindowBytes i));
  ("txCWindowSegs", omit_zero (TxWindowSegs i));
  ("retransmits", omit_zero (Retransmits i));
  ("sysInfo", sys)
].

(** An Info through reflection: its fields in the order of the struct. *)
Definition Info_json (i : Info SysInfo) : option json :=
  tx ← omit_options (TxOptions i);
  rx ← omit_options (RxOptions i);
  sys ← omit_nil SysInfo_json (Sys i);
  Some (object (Info_fields i tx rx sys)).

End json.

(** ** Specification *)

(** What a platform promises of the maps it makes: those of reported structs
    hold no nested maps and only printable options, a key has one type, and
    keys are written as they are. *)
Class PlatformJson (P : Platform) : Prop := {
  reported_flat : forall a s e, GetTCPInfo a = (Some s, e) ->
    map_Forall (fun _ => flat_ok) (SysInfo_ToMap s);
  ToMap_types : forall s t k v w,
    SysInfo_ToMap s !! k = Some v -> SysInfo_ToMap t !! k = Some w -> type_of v = type_of w;
  ToMap_keys : forall s, utf8_keys (SysInfo_ToMap s);
  ToInfo_options : forall a s e, GetTCPInfo a = (Some s, e) ->
    Forall option_ok (elems (TxOptions (ToInfo s))) /\ Forall option_ok (elems (RxOptions (ToInfo s)));
  ToInfo_own : forall s, Sys (ToInfo s) = Some s \/ Sys (ToInfo s) = None
}.

(** An entry of a table and what it has to satisfy. *)
Definition entry_flat (e : string * option any) : Prop := forall v, e.2 = Some v -> flat_ok v.

Definition entry_agree (e e' : string * option any) : Prop :=
  e.1 = e'.1 /\ forall v w, e.2 = Some v -> e'.2 = Some w -> type_of v = type_of w.

(** A table of fixed and optional entries, as one list. *)
Definition entries (fixed : list (string * any)) (opts : list (string * option any))
    : list (string * option any) :=
  ((fun e => (e.1, Some e.2)) <$> fixed) ++ opts.

(** The Linux struct GetTCPInfo reports. *)
Definition reported_linux (s : TcpInfoLinux.SysInfo) : Prop :=
  exists get_raw g a e, TcpInfoLinux.GetTCPInfo get_raw g a = (Some s, e).

(** ** Tables *)

Lemma table_entry fixed opts k v :
  foldl put_entry (list_to_map fixed) opts !! k = Some v -> (k, Some v) ∈ entries fixed opts.
Proof.
  unfold entries. induction opts as [|[k' o] opts IH] using rev_ind.
  - rewrite app_nil_r. cbn [foldl]. intros H%elem_of_list_to_map_2.
    apply list_elem_of_fmap. by exists (k, v).
  - rewrite foldl_app. cbn [foldl]. unfold put_entry at 1. cbn [fst snd]. rewrite app_assoc, elem_of_app.
    destruct o as [w|]; [|by left; apply IH].
    intros [[<- <-]|[_ H]]%lookup_insert_Some; [right; by apply list_elem_of_singleton|by left; apply IH].
Qed.

Lemma table_flat fixed opts :
  Forall entry_flat (entries fixed opts) ->
  map_Forall (fun _ => flat_ok) (foldl put_entry (list_to_map fixed) opts).
Proof. intros H k v Hv%table_entry. rewrite Forall_forall in H. by apply (H _ Hv). Qed.

Lemma table_utf8_keys fixed opts :
  Forall (fun k => utf8 k = k) (fixed.*1 ++ opts.*1) -> utf8_keys (foldl put_entry (list_to_map fixed) opts).
Proof. intros H k v Hv%table_key. rewrite Forall_forall in H. by apply H. Qed.

Lemma table_fmap (f : any -> any) fixed opts :
  f <$> foldl put_entry (list_to_map fixed : gmap string any) opts =
  foldl put_entry (list_to_map (prod_map (@id string) f <$> fixed))
    (prod_map (@id string) (fmap (M := option) f) <$> opts).
Proof.
  induction opts as [|[k o] opts IH] using rev_ind.
  { simpl. by rewrite list_to_map_fmap. }
  rewrite fmap_app, !foldl_app, <- IH. simpl. unfold put_entry. simpl.
  destruct o; simpl; [apply fmap_insert|done].
Qed.

Lemma entries_keys fixed opts : (entries fixed opts).*1 = fixed.*1 ++ opts.*1.
Proof.
  unfold entries. rewrite fmap_app. f_equal. induction fixed as [|e l IH]; [done|]. simpl. f_equal. apply IH.
Qed.

Lemma entries_agree_keys l l' : Forall2 entry_agree l l' -> l.*1 = l'.*1.
Proof. induction 1 as [|e e' l l' [E _] _ IH]; [done|]. simpl. f_equal; [done|apply IH]. Qed.

Lemma entries_agree l l' k v w :
  Forall2 entry_agree l l' -> NoDup l.*1 -> (k, Some v) ∈ l -> (k, Some w) ∈ l' -> type_of v = type_of w.
Proof.
  intros H. assert (l.*1 = l'.*1) as El by by apply entries_agree_keys. revert El.
  induction H as [|[k1 o] [k2 o'] l l' [Ek Ht] Hl IH]; intros El Hnd Hv Hw; [by apply not_elem_of_nil in Hv|].
  simpl in *. subst k2. apply NoDup_cons in Hnd as [Hk Hnd].
  assert (forall u, ~ (k1, Some u) ∈ l /\ ~ (k1, Some u) ∈ l') as Hno.
  { injection El as El. intros u. split; intros Hin; apply Hk; [|rewrite El];
      apply list_elem_of_fmap; by exists (k1, Some u). }
  apply elem_of_cons in Hv as [Ev|Hv]; apply elem_of_cons in Hw as [Ew|Hw]; simplify_eq.
  - by apply Ht.
  - by destruct (Hno w).
  - by destruct (Hno v).
  - by apply IH.
Qed.

Lemma table_types fixed opts fixed' opts' k v w :
  Forall2 entry_agree (entries fixed opts) (entries fixed' opts') -> NoDup (fixed.*1 ++ opts.*1) ->
  foldl put_entry (list_to_map fixed) opts !! k = Some v ->
  foldl put_entry (list_to_map fixed') opts' !! k = Some w -> type_of v = type_of w.
Proof.
  intros Ha Hnd Hv%table_entry Hw%table_entry. eapply entries_agree; [exact Ha| |exact Hv|exact Hw].
  by rewrite entries_keys.
Qed.

(** A table without optional entries. *)
Definition typed_key (e : string * any) : string * nat := (e.1, type_of e.2).

Lemma agree_fixed fixed fixed' :
  typed_key <$> fixed = typed_key <$> fixed' -> Forall2 entry_agree (entries fixed []) (entries fixed' []).
Proof.
  unfold entries. rewrite !app_nil_r. revert fixed'.
  induction fixed as [|[k v] l IH]; intros [|[k' v'] l'] E; try done.
  injection E as Ek Et E. apply Forall2_cons. split; [|by apply IH].
  split; [done|]. intros ?? [= <-] [= <-]. done.
Qed.

Lemma fixed_types fixed fixed' k v w :
  typed_key <$> fixed = typed_key <$> fixed' -> NoDup fixed.*1 ->
  (list_to_map fixed : gmap string any) !! k = Some v ->
  (list_to_map fixed' : gmap string any) !! k = Some w -> type_of v = type_of w.
Proof. intros E Hnd. apply (table_types fixed [] fixed' []); [by apply agree_fixed|by rewrite app_nil_r]. Qed.

(** Every entry of a concrete table. *)
Ltac flat_entries :=
  repeat (apply Forall_cons; split; [intros ? [= <-]; cbn [flat_ok]; try exact I|]); try apply Forall_nil_2.

Ltac agree_entries :=
  repeat (apply Forall2_cons; split; [split; [reflexivity|intros ?? E1 E2; simpl in E1, E2;
    unfold TcpInfoLinuxReport.entry in E1, E2; repeat case_match; simplify_eq; reflexivity]|]);
  apply Forall2_nil_2.

(** ** Linux *)

Lemma linux_option_names flag :
  flag ∈ TcpInfoLinux.tcpOptions ->
  no_colon (lookup_name TcpInfoLinux.tcpOptionsMap flag) = true /\
  all_chars plain_char (lookup_name TcpInfoLinux.tcpOptionsMap flag) = true.
Proof.
  intros Hf. assert (Forall (fun f => no_colon (lookup_name TcpInfoLinux.tcpOptionsMap f) = true /\
    all_chars plain_char (lookup_name TcpInfoLinux.tcpOptionsMap f) = true) TcpInfoLinux.tcpOptions) as H.
  { repeat constructor. }
  rewrite Forall_forall in H. by apply H.
Qed.

Lemma linux_unpack_options_ok packed :
  Forall option_ok (elems (fst (TcpInfoLinux.unpack_options packed))) /\
  Forall option_ok (elems (snd (TcpInfoLinux.unpack_options packed))).
Proof.
  destruct (unpack_options_elems packed) as [-> ->].
  assert (forall v, 0 <= wrap_u 64 v) as Hw by (intros; apply Z.mod_pos_bound; lia).
  split; apply Forall_fmap, Forall_forall; intros flag Hf; apply list_elem_of_In, filter_In in Hf as [Hf _];
    apply list_elem_of_In, linux_option_names in Hf as [Hc Hp]; (split_and!; [done..|]); simpl;
    by destruct (flag =? _).
Qed.

Lemma reported_linux_options s :
  reported_linux s ->
  Forall option_ok (elems (TcpInfoLinux.TxOptions s)) /\ Forall option_ok (elems (TcpInfoLinux.RxOptions s)).
Proof.
  intros (get_raw & g & a & e & H). unfold TcpInfoLinux.GetTCPInfo in H.
  assert (exists t, s = TcpInfoLinux.UnpackCC g t) as [t ->].
  { repeat case_match; simplify_eq; by eexists. }
  pose proof (linux_unpack_options_ok (TcpInfoLinux.TCPInfo t)) as Ho.
  change (fst (TcpInfoLinux.unpack_options ?p)) with (TcpInfoLinux.TxOptions (TcpInfoLinux.Unpack g p)) in Ho.
  change (snd (TcpInfoLinux.unpack_options ?p)) with (TcpInfoLinux.RxOptions (TcpInfoLinux.Unpack g p)) in Ho.
  rewrite <- UnpackCC_clear in Ho. exact Ho.
Qed.

Lemma flat_options l : Forall option_ok (elems l) -> flat_ok (AOptions l).
Proof. by destruct l. Qed.

Lemma linux_ToMap_flat s :
  reported_linux s -> map_Forall (fun _ => flat_ok) (TcpInfoLinux.SysInfo_ToMap s).
Proof.
  intros [Ht Hr]%reported_linux_options. rewrite SysInfo_ToMap_table. apply table_flat.
  unfold entries. apply Forall_app. split.
  - apply Forall_fmap. unfold fixed_entries. flat_entries; by apply flat_options.
  - unfold nullable_entries, TcpInfoLinuxReport.entry.
    repeat (apply Forall_cons; split; [intros ? E; simpl in E; case_match; by simplify_eq|]).
    apply Forall_nil_2.
Qed.

Lemma linux_ToMap_types s t k v w :
  TcpInfoLinux.SysInfo_ToMap s !! k = Some v -> TcpInfoLinux.SysInfo_ToMap t !! k = Some w ->
  type_of v = type_of w.
Proof.
  rewrite !SysInfo_ToMap_table. apply table_types; [|apply ToMap_keys_NoDup].
  unfold entries, fixed_entries, nullable_entries. cbn [fmap list_fmap app fst snd].
  agree_entries.
Qed.

Lemma linux_ToMap_utf8_keys s : utf8_keys (TcpInfoLinux.SysInfo_ToMap s).
Proof. rewrite SysInfo_ToMap_table. apply table_utf8_keys. repeat (constructor; [reflexivity|]). constructor. Qed.

#[global] Instance linux_platform_json be g : PlatformJson (TcpInfoLinux.linux_platform be g).
Proof.
  split.
  - intros a s e H. apply linux_ToMap_flat. by exists (TcpInfoLinux.GetRawTCPInfo be), g, a, e.
  - apply linux_ToMap_types.
  - apply linux_ToMap_utf8_keys.
  - intros a s e H. apply (reported_linux_options s). by exists (TcpInfoLinux.GetRawTCPInfo be), g, a, e.
  - by left.
Qed.

(** ** Darwin, Windows and the other systems *)

Lemma darwin_unpack_options_ok packed :
  Forall option_ok (elems (fst (TcpInfoDarwin.unpack_options packed))) /\
  Forall option_ok (elems (snd (TcpInfoDarwin.unpack_options packed))).
Proof.
  unfold TcpInfoDarwin.unpack_options.
  assert (forall v, 0 <= wrap_u 64 v) as Hw by (intros; apply Z.mod_pos_bound; lia).
  assert (forall l acc, Forall (fun f => f ∈ TcpInfoDarwin.tcpOptions) l ->
    Forall option_ok (elems (fst acc)) /\ Forall option_ok (elems (snd acc)) ->
    let out := foldl (TcpInfoDarwin.unpack_option packed) acc l in
    Forall option_ok (elems (fst out)) /\ Forall option_ok (elems (snd out))) as H.
  { intros l acc Hl. revert acc. induction Hl as [|f l Hf Hl IH]; intros [tx rx] [Ht Hr]; [done|].
    apply IH. unfold TcpInfoDarwin.unpack_option. clear IH Hl.
    assert (no_colon (lookup_name TcpInfoDarwin.tcpOptionsMap f) = true /\
      all_chars plain_char (lookup_name TcpInfoDarwin.tcpOptionsMap f) = true) as [Hc Hp].
    { revert Hf. unfold TcpInfoDarwin.tcpOptions. rewrite !elem_of_cons.
      intros [->|[->|[->|[->|Hf]]]]; [done..|]. by apply not_elem_of_nil in Hf. }
    repeat case_match; cbn [fst snd]; autorewrite with go; rewrite ?Forall_app, ?Forall_singleton;
      unfold option_ok; simpl; auto with lia. }
  apply H; [|done]. by repeat (constructor; [by apply (bool_decide_unpack _); vm_compute|]).
Qed.

#[global] Instance darwin_platform_json be : PlatformJson (TcpInfoDarwin.darwin_platform be).
Proof.
  assert (forall getsockopt s e, TcpInfoDarwin.GetTCPInfo be getsockopt = (Some s, e) ->
    Forall option_ok (elems (TcpInfoDarwin.TxOptions s)) /\
    Forall option_ok (elems (TcpInfoDarwin.RxOptions s))) as Hopts.
  { intros getsockopt s e H. unfold TcpInfoDarwin.GetTCPInfo in H.
    assert (exists r, s = TcpInfoDarwin.Unpack r) as [r ->] by (repeat case_match; simplify_eq; by eexists).
    apply darwin_unpack_options_ok. }
  split.
  - intros getsockopt s e H. destruct (Hopts _ _ _ H) as [Ht Hr].
    refine (table_flat _ [] _). unfold entries. cbn [fmap list_fmap app fst snd].
    flat_entries; by apply flat_options.
  - intros s t k v w. apply fixed_types; [done|]. by apply (bool_decide_unpack _); vm_compute.
  - intros s. refine (table_utf8_keys _ [] _). repeat (constructor; [reflexivity|]). constructor.
  - exact Hopts.
  - by left.
Qed.

#[global] Instance windows_platform_json `{ErrnoOps} be : PlatformJson (TcpInfoWindows.windows_platform be).
Proof.
  split.
  - intros _ s _ _. refine (table_flat _ [] _). unfold entries. cbn [fmap list_fmap app fst snd].
    flat_entries.
  - intros s t k v w. apply fixed_types; [done|]. by apply (bool_decide_unpack _); vm_compute.
  - intros s. refine (table_utf8_keys _ [] _). repeat (constructor; [reflexivity|]). constructor.
  - done.
  - by left.
Qed.

#[global] Instance other_platform_json goos : PlatformJson (TcpInfoWindows.Other.other_platform goos).
Proof. split; [done..|]. by right. Qed.

(** ** The members of an object *)

Fixpoint assoc {A : Type} (k : string) (l : list (string * A)) : option A :=
  match l with
  | [] => None
  | (k', v) :: l' => if String.eqb k k' then Some v else assoc k l'
  end.

Definition member (j : json) (k : string) : option json :=
  match j with JObj l => assoc k l | _ => None end.

(** An omitted number is zero, an omitted string is empty. *)
Definition number_at (j : json) (k : string) : Z :=
  match member j k with Some (JNum z) => z | _ => 0 end.

Definition string_at (j : json) (k : string) : string :=
  match member j k with Some (JStr s) => s | _ => EmptyString end.

Definition read_option (j : json) : Option :=
  match j with JStr s => parse_option s | _ => mkOption EmptyString 0 end.

(** An omitted list of options is empty. *)
Definition options_at (j : json) (k : string) : list Option :=
  match member j k with
  | Some (JArr l) => read_option <$> l
  | _ => []
  end.

Lemma read_options l : Forall option_ok l -> read_option <$> ((JStr ∘ Option_String) <$> l) = l.
Proof.
  induction 1 as [|y ys (Hc & _ & Hv) Hl IH]; [done|]. simpl. f_equal; [|apply IH].
  by apply parse_option_String.
Qed.

Lemma assoc_present k o (fields : list (string * option json)) :
  NoDup fields.*1 -> (k, o) ∈ fields -> member (object fields) k = o.
Proof.
  unfold object, member. induction fields as [|[k' o'] l IH]; intros Hnd Hin; [by apply not_elem_of_nil in Hin|].
  apply NoDup_cons in Hnd as [Hk Hnd]. apply elem_of_cons in Hin as [E|Hin].
  - simplify_eq. destruct o' as [j|]; simpl; [by rewrite String.eqb_refl|].
    clear -Hk. induction l as [|[k [j|]] l IH]; [done| |]; simpl in *; apply not_elem_of_cons in Hk as [Hne Hk].
    + destruct (String.eqb_spec k' k) as [->|_]; [done|]. by apply IH.
    + by apply IH.
  - assert (k <> k') as Hne.
    { intros ->. apply Hk, list_elem_of_fmap. by exists (k', o). }
    destruct o' as [j|]; simpl; [|by apply IH].
    destruct (String.eqb_spec k k') as [->|_]; [done|]. by apply IH.
Qed.

(** The keys of a struct: distinct, and read back as they are. *)
Definition good_keys (fields : list (string * option json)) : Prop :=
  NoDup fields.*1 /\ Forall (fun k => utf8 k = k) fields.*1.

Lemma member_utf8 k (fields : list (string * option json)) :
  Forall (fun k => utf8 k = k) fields.*1 ->
  member (utf8_json (object fields)) k = utf8_json <$> member (object fields) k.
Proof.
  unfold object, member. induction fields as [|[k' o] l IH]; [done|]. intros [Hk Hl]%Forall_cons.
  destruct o as [j|]; [|by apply IH]. simpl in *. rewrite Hk. destruct (String.eqb k k'); [done|]. by apply IH.
Qed.

Lemma member_present k o (fields : list (string * option json)) :
  good_keys fields -> (k, o) ∈ fields -> member (utf8_json (object fields)) k = utf8_json <$> o.
Proof. intros [Hnd Hk] Hin. by rewrite member_utf8, (assoc_present k _ _ Hnd Hin). Qed.

Lemma number_present k z (fields : list (string * option json)) :
  good_keys fields -> (k, omit_zero z) ∈ fields -> number_at (utf8_json (object fields)) k = z.
Proof.
  intros Hg Hin. unfold number_at. rewrite (member_present k _ _ Hg Hin). unfold omit_zero.
  by destruct (Z.eqb_spec z 0).
Qed.

Lemma string_present k s (fields : list (string * option json)) :
  good_keys fields -> (k, omit_empty s) ∈ fields -> string_at (utf8_json (object fields)) k = utf8 s.
Proof.
  intros Hg Hin. unfold string_at. rewrite (member_present k _ _ Hg Hin). unfold omit_empty.
  by destruct (String.eqb_spec s EmptyString) as [->|].
Qed.

(** The options of a field that could be written are read back. *)
Lemma options_present k l o (fields : list (string * option json)) :
  Forall option_ok (elems l) -> omit_options l = Some o ->
  good_keys fields -> (k, o) ∈ fields -> options_at (utf8_json (object fields)) k = elems l.
Proof.
  intros Hl Ho Hg Hin. unfold options_at. rewrite (member_present k _ _ Hg Hin). clear Hin.
  unfold omit_options in Ho. destruct (elems l) as [|x xs]; [by simplify_eq|].
  rewrite options_json_ok in Ho by done. cbn [mbind option_bind] in Ho. injection Ho as <-.
  change (utf8_json <$> Some (JArr ?js)) with (Some (JArr (map utf8_json js))).
  transitivity (read_option <$> map utf8_json ((JStr ∘ Option_String) <$> (x :: xs))); [done|].
  by rewrite utf8_options, read_options.
Qed.

Lemma omit_options_ok l : Forall option_ok (elems l) -> is_Some (omit_options l).
Proof.
  intros Hl. unfold omit_options. destruct (elems l); [by eexists|]. rewrite options_json_ok by done.
  by eexists.
Qed.

Lemma omit_nil_ok {A : Type} (f : A -> option json) p o : omit_nil f p = Some o -> o = p ≫= f.
Proof.
  destruct p as [x|]; simpl; [|by intros [= <-]]. destruct (f x); simpl; [|done]. by intros [= <-].
Qed.

(** Membership in a list that is written out. *)
Ltac in_list := solve [repeat first [apply list_elem_of_here | apply list_elem_of_further]].

(** ** What the texts show *)

Section platform_json.
Context {P : Platform} {PJ : PlatformJson P}.

(** A struct that GetTCPInfo reported, with an error or without. *)
Definition reported (s : SysInfo) : Prop := exists a e, GetTCPInfo a = (Some s, e).

Lemma SysInfo_json_object s :
  reported s -> exists l, SysInfo_json s = Some (JObj l) /\ StronglySorted key_le l.
Proof. intros (a & e & H). by apply to_json_AMap_flat, (reported_flat a s e). Qed.

(** *** The object of an Info *)

Definition info_numbers (i : Info SysInfo) : list (string * Z) := [
  ("txMSS", TxMSS i); ("rxMSS", RxMSS i); ("rtt", RTT i); ("rttVar", RTTVar i); ("rto", RTO i);
  ("ato", ATO i); ("lastTxAt", LastTxAt i); ("lastRxAt", LastRxAt i);
  ("lastTxAckAt", LastTxAckAt i); ("lastRxAckAt", LastRxAckAt i); ("rxWindow", RxWindow i);
  ("txSSThreshold", TxSSThreshold i); ("rxSSThreshold", RxSSThreshold i);
  ("txCWindowBytes", TxWindowBytes i); ("txCWindowSegs", TxWindowSegs i);
  ("retransmits", Retransmits i)
].

(** What a JSON value that was read shows of an Info. *)
Definition shows_info (i : Info SysInfo) (j : json) : Prop :=
  string_at j "state" = utf8 (State i) /\
  options_at j "txOptions" = elems (TxOptions i) /\
  options_at j "rxOptions" = elems (RxOptions i) /\
  Forall (fun kz => number_at j kz.1 = kz.2) (info_numbers i) /\
  member j "sysInfo" = utf8_json <$> (Sys i ≫= SysInfo_json).

Lemma Info_fields_keys i tx rx sys : good_keys (Info_fields i tx rx sys).
Proof. split; by apply (bool_decide_unpack _); vm_compute. Qed.

Lemma Info_json_shows i j :
  Forall option_ok (elems (TxOptions i)) -> Forall option_ok (elems (RxOptions i)) ->
  Info_json i = Some j -> shows_info i (utf8_json j).
Proof.
  intros Ht Hr. unfold Info_json.
  destruct (omit_options (TxOptions i)) as [tx|] eqn:Et; [|done].
  destruct (omit_options (RxOptions i)) as [rx|] eqn:Er; [|done].
  destruct (omit_nil SysInfo_json (Sys i)) as [sys|] eqn:Es; [|done]. intros [= <-].
  pose proof (Info_fields_keys i tx rx sys) as Hnd. unfold shows_info. split_and!.
  - apply string_present; [done|]. in_list.
  - apply (options_present _ _ tx); [done..|]. in_list.
  - apply (options_present _ _ rx); [done..|]. in_list.
  - repeat (apply Forall_cons; split; [apply number_present; [done|]; in_list|]). apply Forall_nil_2.
  - rewrite <- (omit_nil_ok _ _ _ Es). apply member_present; [done|]. in_list.
Qed.

(** The information GetTCPInfo and ToInfo make can be written. *)
Lemma Info_json_reported s :
  reported s -> exists j, Info_json (ToInfo s) = Some j /\ shows_info (ToInfo s) (utf8_json j).
Proof.
  intros Hs. assert (exists j, Info_json (ToInfo s) = Some j) as [j Hj].
  { pose proof (SysInfo_json_object s Hs) as (l & El & _). destruct Hs as (a & e & Ha).
    destruct (ToInfo_options a s e Ha) as [[tx Ht]%omit_options_ok [rx Hr]%omit_options_ok].
    unfold Info_json. rewrite Ht, Hr. cbn [mbind option_bind].
    destruct (ToInfo_own s) as [-> | ->]; simpl; [rewrite El|]; by eexists. }
  exists j. split; [done|]. destruct Hs as (a & e & Ha). destruct (ToInfo_options a s e Ha) as [Ht Hr].
  by apply Info_json_shows.
Qed.

End platform_json.

(** ** Properties *)

Lemma options_text l :
  Forall option_ok l ->
  all_some (map Option_compact l) = Some (map print ((JStr ∘ Option_String) <$> l)).
Proof.
  intros Hl. apply all_some_spec. induction Hl as [|o l Ho Hl IH]; [done|].
  cbn [fmap list_fmap map]. f_equal; [|exact IH].
  rewrite Option_compact_print by (by apply plain_is_ascii, Option_String_plain). by rewrite Option_json_ok.
Qed.

(** C18: the options in JSON. A list of options with printable kinds that hold
    no colon, as Unpack makes them, is written as the array of the texts
    Option.MarshalJSON returns, each checked and escaped by json, and the kind
    and the value of every option are read back from the text, in order; a nil
    list is null. *)
Theorem Options_Marshal_roundtrip (l : slice Option) :
  Forall option_ok (elems l) ->
  exists s, Marshal (AOptions l) = Some s /\
  match l with
  | None => s = "null"
  | Some os =>
      (exists texts, all_some (map Option_compact os) = Some texts /\ s = "[" +:+ Join texts "," +:+ "]") /\
      exists js, parse s = Some (JArr js) /\ read_option <$> js = os
  end.
Proof.
  intros Hl. unfold Marshal. destruct l as [os|]; [|by eexists]. simpl in Hl. cbn [to_json].
  rewrite options_json_ok by done. eexists. split; [reflexivity|]. split.
  - eexists. split; [by apply options_text|reflexivity].
  - exists ((JStr ∘ Option_String) <$> os). split; [|by apply read_options].
    etransitivity; [apply parse_print|]. cbn [utf8_json]. by rewrite utf8_options.
Qed.

Lemma Options_Marshal_roundtrip_witness :
  let os := [mkOption "WindowScale" 200; mkOption "SACK" 0; mkOption "A&B" 7] in
  exists s js, Marshal (AOptions (Some os)) = Some s /\ parse s = Some (JArr js) /\ read_option <$> js = os.
Proof.
  intros os. destruct (Options_Marshal_roundtrip (Some os)) as (s & E & _ & js & Hp & Hr).
  { repeat (constructor; [split_and!; [reflexivity..|vm_compute; discriminate]|]). constructor. }
  exists s, js. split; [exact E|]. split; [exact Hp|exact Hr].
Defined.

(** *** The names in a Linux struct *)

(** The struct with the name of the algorithm, which the kernel chooses, as
    UTF-8: the struct itself for a valid name. *)
Definition utf8_name (s : TcpInfoLinux.SysInfo) : TcpInfoLinux.SysInfo :=
  s <| TcpInfoLinux.CCAlgorithm := utf8 (TcpInfoLinux.CCAlgorithm s) |>.

Lemma lookup_name_ascii (m : gmap Z string) k :
  map_Forall (fun _ v => is_ascii v = true) m -> is_ascii (lookup_name m k) = true.
Proof. intros H. unfold lookup_name. destruct (m !! k) as [v|] eqn:E; [|done]. by apply (H k). Qed.

Lemma reported_StateName s :
  reported_linux s -> utf8 (TcpInfoLinux.StateName s) = TcpInfoLinux.StateName s.
Proof.
  intros (get_raw & g & a & e & H). unfold TcpInfoLinux.GetTCPInfo in H.
  assert (exists t, s = TcpInfoLinux.UnpackCC g t) as [t ->] by (repeat case_match; simplify_eq; by eexists).
  apply utf8_ascii. change (TcpInfoLinux.StateName (TcpInfoLinux.UnpackCC g t)) with
    (TcpInfoLinux.StateName (clear_cc (TcpInfoLinux.UnpackCC g t))). rewrite UnpackCC_clear.
  apply lookup_name_ascii. by apply (bool_decide_unpack _); vm_compute.
Qed.

Lemma utf8_entry {A : Type} (mk : A -> any) x :
  (forall v, utf8_any (mk v) = mk v) ->
  utf8_any <$> TcpInfoLinuxReport.entry mk x = TcpInfoLinuxReport.entry mk x.
Proof. intros H. unfold TcpInfoLinuxReport.entry. destruct (Valid x); [|done]. simpl. by rewrite H. Qed.

Lemma utf8_ToMap s :
  utf8 (TcpInfoLinux.StateName s) = TcpInfoLinux.StateName s ->
  utf8_any <$> TcpInfoLinux.SysInfo_ToMap s = TcpInfoLinux.SysInfo_ToMap (utf8_name s).
Proof.
  intros Hn. rewrite !SysInfo_ToMap_table, table_fmap. f_equal.
  - f_equal. unfold fixed_entries. cbn [fmap list_fmap prod_map utf8_any id fst snd]. by rewrite Hn.
  - unfold nullable_entries. cbn [fmap list_fmap prod_map id fst snd].
    change (option_fmap any any) with (@fmap option _ any any). by rewrite !utf8_entry by done.
Qed.

(** C17: the JSON of a reported Linux struct. Whatever GetTCPInfo returns, with
    an error or without, its MarshalJSON succeeds and the text is a JSON object
    with sorted keys. Two structs, also of different kernels, that agree on
    everything but the numeric state and the values behind null fields have the
    same text, and structs with the same text agree so, up to the bytes of the
    algorithm's name that are not valid UTF-8, which json replaces: for valid
    names the texts are equal if and only if the structs agree. *)
Theorem MarshalJSON_linux_faithful be g a e s g' a' e' t :
  TcpInfoLinux.GetTCPInfo (TcpInfoLinux.GetRawTCPInfo be) g a = (Some s, e) ->
  TcpInfoLinux.GetTCPInfo (TcpInfoLinux.GetRawTCPInfo be) g' a' = (Some t, e') ->
  exists x y l, Linux.MarshalJSON s = Some x /\ Linux.MarshalJSON t = Some y /\
    parse x = Some (JObj l) /\ StronglySorted key_le l /\
    (visible s = visible t -> x = y) /\
    (x = y -> visible (utf8_name s) = visible (utf8_name t)) /\
    (valid_utf8 (TcpInfoLinux.CCAlgorithm s) = true -> valid_utf8 (TcpInfoLinux.CCAlgorithm t) = true ->
     (x = y <-> visible s = visible t)).
Proof.
  intros Hs Ht.
  assert (reported_linux s) as Rs by by eexists _, g, a, e.
  assert (reported_linux t) as Rt by by eexists _, g', a', e'.
  pose proof (linux_ToMap_flat s Rs) as Fs. pose proof (linux_ToMap_flat t Rt) as Ft.
  destruct (to_json_AMap_flat _ Fs) as (l & El & Hl).
  destruct (Marshal_flat _ _ Fs Ft (linux_ToMap_utf8_keys s) (linux_ToMap_utf8_keys t) (linux_ToMap_types s t))
    as (x & y & Hx & Hy & Heq & Hxy).
  assert (visible s = visible t -> x = y) as Hvis.
  { intros E. apply Heq. by rewrite <- (SysInfo_ToMap_visible s), E, SysInfo_ToMap_visible. }
  assert (x = y -> visible (utf8_name s) = visible (utf8_name t)) as Hname.
  { intros E%Hxy. rewrite !utf8_ToMap in E by (by apply reported_StateName).
    apply visible_inj; [by apply ToMap_fixed_inj|by apply ToMap_nullable_inj]. }
  exists x, y, (utf8_members l). split_and!; [done..| | |done|done|].
  - unfold Marshal in Hx. rewrite El in Hx. injection Hx as <-. exact (parse_print (JObj l)).
  - by eapply utf8_members_sorted; [apply linux_ToMap_utf8_keys|..].
  - assert (forall u, valid_utf8 (TcpInfoLinux.CCAlgorithm u) = true -> utf8_name u = u) as Hid.
    { intros u Hu. unfold utf8_name. rewrite utf8_valid by done. by destruct u. }
    intros Vs Vt. split; [|done]. intros E%Hname. by rewrite !Hid in E by done.
Qed.

(** The sample socket with another congestion control error behind BBR. *)
Definition other_answers : TcpInfoLinux.Answers :=
  TcpInfoLinux.mkAnswers 4 (fun _ => (0, seqZ 1 232)) (Ok "bbr") (Err (Errno 9))
    (Ok (TcpInfoLinux.mkTCPBBRInfo 1 2 3 4 5)) (Err (Errno 9)).

Lemma MarshalJSON_linux_faithful_witness :
  exists s t x y,
    TcpInfoLinux.GetTCPInfo (TcpInfoLinux.GetRawTCPInfo false) sample_globals sample_answers = (Some s, None) /\
    TcpInfoLinux.GetTCPInfo (TcpInfoLinux.GetRawTCPInfo false) sample_globals
      other_answers = (Some t, None) /\
    Linux.MarshalJSON s = Some x /\ Linux.MarshalJSON t = Some y /\ x = y.
Proof.
  eexists _, _.
  destruct (MarshalJSON_linux_faithful false sample_globals sample_answers None _ sample_globals
    other_answers None _ eq_refl eq_refl)
    as (x & y & l & Hx & Hy & _ & _ & Hvis & _).
  exists x, y. split_and!; [reflexivity..|exact Hx|exact Hy|]. by apply Hvis.
Defined.
