(* ===== verification/Wrap.v ===== *)
(** * wrap.go: the wrapped connection

    [Conn] is the struct with the fields the methods use; reportStats, which is
    set once by the constructor, is the argument [report]. The inner net.Conn,
    the clock and the operating system are outside code: the calls [query].
    Every read and every write of a field is an effect of its own, so that the
    role of the mutex is visible. *)

From S2P Require Import Prelude GoStrings GoProg TcpInfo.

Definition Opened : Z := 0.
Definition Closed : Z := 1.

Definition StateMap : gmap Z string := list_to_map [(Opened, "open"); (Closed, "close")].

Record Conn {SysInfo : Type} : Type := mkConn {
  OpenedAt : Z;
  ClosedAt : Z;
  FirstRxAt : Z;
  FirstTxAt : Z;
  LastRxAt : Z;
  LastTxAt : Z;
  TxBytes : Z;
  RxBytes : Z;
  RxErr : option error;
  TxErr : option error;
  InfoErr : option error;
  Reconnects : Z;
  OpenedInfo : option (Info SysInfo);
  ClosedInfo : option (Info SysInfo);
  supportsTCPInfo : bool
}.
Arguments Conn : clear implicits.

#[global] Instance Conn_eta {S : Type} : RecordEta (Conn S) :=
  fconst (mkConn S) <*> OpenedAt <*> ClosedAt <*> FirstRxAt <*> FirstTxAt <*> LastRxAt
    <*> LastTxAt <*> TxBytes <*> RxBytes <*> RxErr <*> TxErr <*> InfoErr <*> Reconnects
    <*> OpenedInfo <*> ClosedInfo <*> supportsTCPInfo.

(** What time.Now().UnixNano() is called for. *)
Inductive clock_use : Type := AtOpen | AtClose | AtRx | AtTx.

(** The calls of outside code: the clock, the type assertion to *net.TCPConn,
    SyscallConn, rawConn.Control with the closure that calls GetTCPInfo, and
    the methods of the inner connection. *)
Inductive query : Type :=
| Now (why : clock_use)
| AsTCPConn
| SyscallConn
| Control
| ConnRead (b : list Z)
| ConnWrite (b : list Z)
| ConnClose
| ConnLocalAddr
| ConnRemoteAddr.

(** Control returns an error, and calls the closure or not; a method of the
    inner connection may panic (it may be nil). *)
Definition reply `{Platform} (q : query) : Type :=
  match q with
  | Now _ => Z
  | AsTCPConn => bool
  | SyscallConn => option error
  | Control => option error * option Answers
  | ConnRead _ | ConnWrite _ => go (Z * option error)
  | ConnClose => go (option error)
  | ConnLocalAddr | ConnRemoteAddr => go string
  end.

(** The ghost marks: reportStats is called, what a callback does outside the
    connection, and that a user is about to call SetReconnects. *)
Inductive mark : Type :=
| Reported (state : Z)
| Did (what : string)
| Requested (reconnects : Z).

Definition ConnSig `{Platform} : Sig := mkSig (Conn SysInfo) query reply mark.

Section methods.
Context `{P : Platform} `{EO : ErrnoOps}.
Variable report : option (Z -> prog ConnSig (go unit)).

Definition M (A : Type) : Type := prog ConnSig (go A).

Definition now (why : clock_use) : M Z := ask (G := ConnSig) (Now why).

(** w.reportStats(w, state) *)
Definition call_report (reportStats : Z -> M unit) (state : Z) : M unit :=
  emit (G := ConnSig) (Reported state) ;;; reportStats state.

(** The part of gatherAndReport after the defer statement. *)
Definition gather (state : Z) : M unit :=
  supports <- load (G := ConnSig) supportsTCPInfo ;;
  stop <- (if negb supports then ret true
           else infoErr <- load (G := ConnSig) InfoErr ;; ret (negb (is_none infoErr))) ;;
  if stop then ret tt else
  ok <- ask (G := ConnSig) AsTCPConn ;;
  if negb ok then ret tt else
  err <- ask (G := ConnSig) SyscallConn ;;
  if negb (is_none err) then ret tt else
  res <- ask (G := ConnSig) Control ;;
  let '(err, called) := res in
  let '(sysInfo, tcpErr) :=
    match called with Some a => GetTCPInfo a | None => (None, None) end in
  with_lock (
    match err, tcpErr, sysInfo with
    | Some e, _, _ => store (G := ConnSig) (fun w => w <| InfoErr := Some e |>)
    | None, Some e, _ => store (G := ConnSig) (fun w => w <| InfoErr := Some e |>)
    | None, None, None => ret tt
    | None, None, Some s =>
        if state =? Opened then store (G := ConnSig) (fun w => w <| OpenedInfo := Some (ToInfo s) |>)
        else store (G := ConnSig) (fun w => w <| ClosedInfo := Some (ToInfo s) |>)
    end).

Definition gatherAndReport (state : Z) : M unit :=
  match report with
  | None => ret tt
  | Some reportStats =>
      if negb (state =? Opened) && negb (state =? Closed) then ret tt else
      have <- (if state =? Opened
               then i <- load (G := ConnSig) OpenedInfo ;; ret (negb (is_none i)) else ret false) ;;
      if have : bool then ret tt else
      have <- (if state =? Closed
               then i <- load (G := ConnSig) ClosedInfo ;; ret (negb (is_none i)) else ret false) ;;
      if have : bool then ret tt else
      deferring (call_report reportStats state) (gather state)
  end.

(** The constructor; the object is not shared before it returns. *)
Definition WrapConnWithContext : M unit :=
  ts <- now AtOpen ;;
  store (G := ConnSig) (fun _ =>
    mkConn SysInfo ts 0 0 0 0 0 0 0 None None None 0 None None Supported) ;;;
  gatherAndReport Opened.

Definition WrapConn : M unit := WrapConnWithContext.

Definition SetReconnects (reconnects : Z) : M unit :=
  with_lock (store (G := ConnSig) (fun w => w <| Reconnects := reconnects |>)).

Definition Close : M (option error) :=
  Lock (
    gbind (now AtClose) (fun ts =>
    gbind (store (G := ConnSig) (fun w => w <| ClosedAt := ts |>)) (fun _ =>
    Unlock (
    gbind (gatherAndReport Closed) (fun _ =>
    Ask (G := ConnSig) ConnClose Ret))))).

Definition Read (b : list Z) : M (Z * option error) :=
  res <- Ask (G := ConnSig) (ConnRead b) Ret ;;
  let '(n, err) := res : Z * option error in
  with_lock (
    (if is_none err && (0 <? n) then
       ts <- now AtRx ;;
       first <- load (G := ConnSig) FirstRxAt ;;
       if first =? 0 then
         store (G := ConnSig) (fun w => w <| FirstRxAt := ts |>) ;;;
         store (G := ConnSig) (fun w => w <| LastRxAt := ts |>)
       else store (G := ConnSig) (fun w => w <| LastRxAt := ts |>)
     else ret tt) ;;;
    rxBytes <- load (G := ConnSig) RxBytes ;;
    store (G := ConnSig) (fun w => w <| RxBytes := wrap_s 64 (rxBytes + wrap_s 64 n) |>) ;;;
    (if bool_decide ((err ≫= as_net_Error) = Some false)
     then store (G := ConnSig) (fun w => w <| RxErr := err |>) else ret tt) ;;;
    ret (n, err)).

Definition Write (b : list Z) : M (Z * option error) :=
  res <- Ask (G := ConnSig) (ConnWrite b) Ret ;;
  let '(n, err) := res : Z * option error in
  with_lock (
    (if is_none err && (0 <? n) then
       ts <- now AtTx ;;
       first <- load (G := ConnSig) FirstTxAt ;;
       if first =? 0 then
         store (G := ConnSig) (fun w => w <| FirstTxAt := ts |>) ;;;
         store (G := ConnSig) (fun w => w <| LastTxAt := ts |>)
       else store (G := ConnSig) (fun w => w <| LastTxAt := ts |>)
     else ret tt) ;;;
    txBytes <- load (G := ConnSig) TxBytes ;;
    store (G := ConnSig) (fun w => w <| TxBytes := wrap_s 64 (txBytes + wrap_s 64 n) |>) ;;;
    store (G := ConnSig) (fun w => w <| TxErr := err |>) ;;;
    (if bool_decide ((err ≫= as_net_Error) = Some false)
     then store (G := ConnSig) (fun w => w <| TxErr := err |>) else ret tt) ;;;
    ret (n, err)).

(** The body of the loop over OpenedInfo and ClosedInfo. *)
Definition info_warnings (info : option (Info SysInfo)) (warns : slice string)
    : go (slice string) :=
  match info with
  | None => Val warns
  | Some info =>
      let warns :=
        if 0 <? Retransmits info
        then append warns ("retransmits=" +:+ FormatInt (wrap_s 64 (Retransmits info)) 10)
        else warns in
      match Sys info with
      | Some s => Val (append_all warns (elems (SysInfo_Warnings s)))
      | None =>
          match nil_Warnings with
          | Some ws => Val (append_all warns (elems ws))
          | None => Panics
          end
      end
  end.

Definition warnings : M (slice string) :=
  reconnects <- load (G := ConnSig) Reconnects ;;
  let warns : slice string :=
    if 0 <? reconnects then append None ("reconnects=" +:+ FormatInt (wrap_s 64 reconnects) 10)
    else None in
  opened <- load (G := ConnSig) OpenedInfo ;;
  closed <- load (G := ConnSig) ClosedInfo ;;
  warns <- Ret (info_warnings opened warns) ;;
  Ret (info_warnings closed warns).

Definition Warnings : M (slice string) := with_lock warnings.

(** if e != nil { fset[key] = e.Error() } *)
Definition put_error (key : string) (e : option error) (m : gmap string any) : gmap string any :=
  match e with Some e => <[key := AString (error_Error e)]> m | None => m end.

Definition put_info (key : string) (i : option (Info SysInfo)) (m : gmap string any)
    : gmap string any :=
  match i with Some i => <[key := AMap (Info_ToMap SysInfo_ToMap i)]> m | None => m end.

(** The map, from the fields, the two addresses and the warnings. *)
Definition fields_map (w : Conn SysInfo) (localAddr remoteAddr : string) (warns : slice string)
    : gmap string any :=
  let fset : gmap string any := list_to_map [
    ("openedAt", AInt64 (OpenedAt w));
    ("closedAt", AInt64 (ClosedAt w));
    ("firstRxAt", AInt64 (FirstRxAt w));
    ("firstTxAt", AInt64 (FirstTxAt w));
    ("lastRxAt", AInt64 (LastRxAt w));
    ("lastTxAt", AInt64 (LastTxAt w));
    ("txBytes", AInt64 (TxBytes w));
    ("rxBytes", AInt64 (RxBytes w));
    ("reconnects", AInt (Reconnects w));
    ("localAddr", AString localAddr);
    ("remoteAddr", AString remoteAddr);
    ("warnings", AStrings warns)
  ] in
  let fset := put_error "rxErr" (RxErr w) fset in
  let fset := put_error "rxErr" (RxErr w) fset in
  let fset := put_error "txErr" (TxErr w) fset in
  let fset := put_error "infoErr" (InfoErr w) fset in
  let fset := put_info "openedInfo" (OpenedInfo w) fset in
  let fset := put_info "closedInfo" (ClosedInfo w) fset in
  fset.

Definition ToMap : M (gmap string any) :=
  with_lock (
    w <- load (G := ConnSig) id ;;
    localAddr <- Ask (G := ConnSig) ConnLocalAddr Ret ;;
    remoteAddr <- Ask (G := ConnSig) ConnRemoteAddr Ret ;;
    warns <- warnings ;;
    ret (fields_map w localAddr remoteAddr warns)).

End methods.
