(* ===== verification/WrapProps.v ===== *)
(** * wrap.go: properties of one goroutine

    The fields of a wrapped connection as a function of what happened on it,
    the reports, the gathering of the socket information, and that no method
    panics, deadlocks or leaves the mutex locked. All of it is proved against
    the platform interface of TcpInfo.v and for every callback that respects
    the stated contract. *)

From S2P Require Import InitLinux TcpInfoLinux TcpInfoLinuxReport.
From S2P Require Import Prelude GoStrings GoProg TcpInfo Wrap.

(** ** Specification: what happened on a connection *)

Definition sumZ (l : list Z) : Z := foldr Z.add 0 l.

Section spec.
Context `{P : Platform} `{EO : ErrnoOps}.

Definition trace : Type := list (event ConnSig).

(** A value taken from the calls of the trace and their replies. *)
Definition of_call {A : Type} (f : forall q, reply q -> option A) (e : event ConnSig) : option A :=
  match e with Asked q r => f q r | Marked _ => None end.

Definition of_go {A : Type} (r : go A) : option A :=
  match r with Val a => Some a | Panics => None end.

(** The results of the reads and writes of the inner connection. *)
Definition reads : trace -> list (Z * option error) :=
  omap (of_call (fun q => match q return reply q -> _ with
    | ConnRead _ => of_go | _ => fun _ => None end)).

Definition writes : trace -> list (Z * option error) :=
  omap (of_call (fun q => match q return reply q -> _ with
    | ConnWrite _ => of_go | _ => fun _ => None end)).

(** The times taken for one of the uses of the clock. *)
Definition times (why : clock_use) : trace -> list Z :=
  omap (of_call (fun q => match q return reply q -> _ with
    | Now AtOpen => fun t => match why with AtOpen => Some t | _ => None end
    | Now AtClose => fun t => match why with AtClose => Some t | _ => None end
    | Now AtRx => fun t => match why with AtRx => Some t | _ => None end
    | Now AtTx => fun t => match why with AtTx => Some t | _ => None end
    | _ => fun _ => None end)).

(** The attempts to read the socket information. *)
Definition gathers : trace -> list (option error * option Answers) :=
  omap (of_call (fun q => match q return reply q -> _ with
    | Control => Some | _ => fun _ => None end)).

(** The closes of the inner connection. *)
Definition closes : trace -> list (go (option error)) :=
  omap (of_call (fun q => match q return reply q -> _ with
    | ConnClose => Some | _ => fun _ => None end)).

(** The reports. *)
Definition reports : trace -> list Z :=
  omap (fun e : event ConnSig =>
    match e with Marked m => match (m : mark) with Reported s => Some s | _ => None end | _ => None end).

(** The numbers SetReconnects is called with. *)
Definition requests : trace -> list Z :=
  omap (fun e : event ConnSig =>
    match e with Marked m => match (m : mark) with Requested n => Some n | _ => None end | _ => None end).

(** The outcome of one attempt to read the socket information. *)
Definition gathered (g : option error * option Answers) : option SysInfo * option error :=
  match g with
  | (Some e, _) => (None, Some e)
  | (None, Some a) =>
      let '(s, err) := GetTCPInfo a in
      match err with Some e => (None, Some e) | None => (s, None) end
  | (None, None) => (None, None)
  end.

(** A call of Close begins: it reads the clock. *)
Definition closing (e : event ConnSig) : bool :=
  match e with
  | Asked q _ => match (q : query) with Now AtClose => true | _ => false end
  | Marked _ => false
  end.

(** The part of a trace before the first call of Close, and the part after its
    begin. *)
Fixpoint before_close (t : trace) : trace :=
  match t with
  | [] => []
  | e :: t' => if closing e then [] else e :: before_close t'
  end.

Fixpoint after_close (t : trace) : trace :=
  match t with
  | [] => []
  | e :: t' => if closing e then t' else after_close t'
  end.

Definition part (state : Z) (t : trace) : trace :=
  if state =? Opened then before_close t else after_close t.

(** The informations that were read for a state. *)
Definition infos (state : Z) (t : trace) : list (Info SysInfo) :=
  omap (fun g => ToInfo <$> fst (gathered g)) (gathers (part state t)).

(** A transfer whose time is recorded. *)
Definition successful (r : Z * option error) : bool := is_none (snd r) && (0 <? fst r).

(** An error of a read that is recorded: a net.Error that is no timeout. *)
Definition lasting (r : Z * option error) : option error :=
  e ← snd r; if bool_decide (as_net_Error e = Some false) then Some e else None.

Definition first_time (ts : list Z) : Z := default 0 (head (filter (fun t => t <> 0) ts)).

Definition last_time (ts : list Z) : Z := default 0 (last ts).

(** The statistics of a connection as a function of its trace. *)
Record Accounted (c : Conn SysInfo) (t : trace) : Prop := {
  acc_opened : OpenedAt c = last_time (times AtOpen t);
  acc_closed : ClosedAt c = last_time (times AtClose t);
  acc_rx_bytes : RxBytes c = wrap_s 64 (sumZ (fst <$> reads t));
  acc_tx_bytes : TxBytes c = wrap_s 64 (sumZ (fst <$> writes t));
  acc_first_rx : FirstRxAt c = first_time (times AtRx t);
  acc_first_tx : FirstTxAt c = first_time (times AtTx t);
  acc_last_rx : LastRxAt c = last_time (times AtRx t);
  acc_last_tx : LastTxAt c = last_time (times AtTx t);
  acc_rx_times : length (times AtRx t) = length (filter successful (reads t));
  acc_tx_times : length (times AtTx t) = length (filter successful (writes t));
  acc_rx_err : RxErr c = last (omap lasting (reads t));
  acc_tx_err : TxErr c = last (writes t) ≫= snd;
  acc_info_err : InfoErr c = head (omap (snd ∘ gathered) (gathers t));
  acc_reconnects : Reconnects c = default 0 (last (requests t));
  acc_opened_info : infos Opened t = option_list (OpenedInfo c);
  acc_closed_info : infos Closed t = option_list (ClosedInfo c)
}.

(** Whether an information was read by some gather. *)
Definition from_gather (i : option (Info SysInfo)) (t : trace) : Prop :=
  forall info, i = Some info ->
  exists g s, g ∈ gathers t /\ gathered g = (Some s, None) /\ info = ToInfo s.

(** What holds of a wrapped connection between two calls of its methods. *)
Record ConnInv (w : world ConnSig) : Prop := {
  inv_unlocked : locked w = false;
  inv_accounted : Accounted (st w) (events w);
  inv_supported : supportsTCPInfo (st w) = Supported;
  inv_unsupported : Supported = false -> gathers (events w) = []
}.

(** The contract of the callback: called on an unlocked connection it returns,
    whether normally or by a panic, with the mutex unlocked and the fields not
    falsified. It may call the methods of the connection, SetReconnects with
    its mark. *)
Definition callback_ok (report : option (Z -> M unit)) : Prop :=
  forall f s w, report = Some f -> ConnInv w -> wp (f s) (fun _ => ConnInv) w.

(** The operations a user calls on a wrapped connection. *)
Inductive op : Type :=
| ORead (b : list Z)
| OWrite (b : list Z)
| OClose
| OSetReconnects (n : Z)
| OWarnings
| OToMap.

Definition exec (report : option (Z -> M unit)) (o : op) : M unit :=
  match o with
  | ORead b => Read b ;;; ret tt
  | OWrite b => Write b ;;; ret tt
  | OClose => Close report ;;; ret tt
  | OSetReconnects n => emit (G := ConnSig) (Requested n) ;;; SetReconnects n
  | OWarnings => Warnings ;;; ret tt
  | OToMap => ToMap ;;; ret tt
  end.

(** A user that goes on after a panic of a method. *)
Definition exec_all (report : option (Z -> M unit)) (ops : list op) : prog ConnSig unit :=
  foldr (fun o k => pbind (exec report o) (fun _ => k)) (Ret tt) ops.

Definition session (report : option (Z -> M unit)) (ops : list op) : prog ConnSig unit :=
  pbind (WrapConn report) (fun _ => exec_all report ops).

End spec.

(** The world before the constructor is called: nothing happened, and the
    fields hold anything. *)
Definition fresh `{Platform} (c : Conn SysInfo) : world ConnSig := mkWorld (G := ConnSig) c false [].

(** ** Lemmas on traces *)

Lemma sumZ_app l l' : sumZ (l ++ l') = sumZ l + sumZ l'.
Proof. induction l as [|x l IH]; simpl; lia. Qed.

Lemma wrap_counter x n : wrap_s 64 (wrap_s 64 x + wrap_s 64 n) = wrap_s 64 (x + n).
Proof. rewrite wrap_s_add_l, Z.add_comm, wrap_s_add_l by done. f_equal. lia. Qed.

Lemma first_time_snoc ts t :
  first_time (ts ++ [t]) = if first_time ts =? 0 then t else first_time ts.
Proof.
  unfold first_time. rewrite filter_app.
  assert (forall x, x ∈ filter (fun t => t <> 0) ts -> x <> 0) as Hnz.
  { intros x Hx. by apply list_elem_of_filter in Hx as [? _]. }
  destruct (filter _ ts) as [|x l]; simpl.
  - destruct (decide (t = 0)) as [->|Ht]; [by rewrite filter_cons_False by lia|].
    by rewrite filter_cons_True.
  - pose proof (Hnz x (list_elem_of_here _ _)) as Hx. by rewrite (proj2 (Z.eqb_neq _ _) Hx).
Qed.

Lemma last_time_snoc ts t : last_time (ts ++ [t]) = t.
Proof. unfold last_time. by rewrite last_snoc. Qed.

Lemma filter_snoc_length {A} (p : A -> bool) l x :
  length (filter p (l ++ [x])) = (length (filter p l) + if p x then 1 else 0)%nat.
Proof.
  rewrite filter_app, length_app. f_equal. rewrite filter_cons. destruct (p x); done.
Qed.

#[export] Hint Rewrite sumZ_app wrap_counter first_time_snoc last_time_snoc
  @filter_snoc_length @last_snoc @omap_app @fmap_app @length_app @app_nil_r : go.

Create HintDb conn.

Section methods.
Context `{P : Platform} `{EO : ErrnoOps}.

Lemma trace_snoc (t : trace) e :
  reads (t ++ [e]) = reads t ++ reads [e] /\ writes (t ++ [e]) = writes t ++ writes [e] /\
  (forall u, times u (t ++ [e]) = times u t ++ times u [e]) /\
  gathers (t ++ [e]) = gathers t ++ gathers [e] /\
  closes (t ++ [e]) = closes t ++ closes [e] /\ reports (t ++ [e]) = reports t ++ reports [e].
Proof. split_and!; intros; apply omap_app. Qed.

Lemma requests_snoc (t : trace) e : requests (t ++ [e]) = requests t ++ requests [e].
Proof. apply omap_app. Qed.

Lemma existsb_closing_snoc (t : trace) e : existsb closing (t ++ [e]) = existsb closing t || closing e.
Proof. rewrite existsb_app. simpl. by rewrite orb_false_r. Qed.

(** One more event is of the part the trace has reached. *)
Lemma before_close_snoc (t : trace) e :
  before_close (t ++ [e]) =
    if existsb closing t then before_close t else if closing e then before_close t else before_close t ++ [e].
Proof.
  induction t as [|e' t IH]; simpl; [by destruct (closing e)|]. destruct (closing e'); [done|].
  rewrite IH. by destruct (existsb closing t), (closing e).
Qed.

Lemma after_close_snoc (t : trace) e :
  after_close (t ++ [e]) = if existsb closing t then after_close t ++ [e] else after_close t.
Proof.
  induction t as [|e' t IH]; simpl; [by destruct (closing e)|]. destruct (closing e'); [done|].
  by rewrite IH.
Qed.

(** An event that is no call of Control leaves the informations. *)
Lemma infos_snoc state (t : trace) e : gathers [e] = [] -> infos state (t ++ [e]) = infos state t.
Proof.
  intros He. unfold infos, part. destruct (state =? Opened).
  - rewrite before_close_snoc. destruct (existsb closing t), (closing e); try done.
    rewrite (proj1 (proj2 (proj2 (proj2 (trace_snoc _ _))))), He. by rewrite app_nil_r.
  - rewrite after_close_snoc. destruct (existsb closing t); [|done].
    rewrite (proj1 (proj2 (proj2 (proj2 (trace_snoc _ _))))), He. by rewrite app_nil_r.
Qed.

(** What a call of gatherAndReport is made for, by the part of the trace it
    is in. *)
Definition gathered_for (state : Z) (t : trace) : Prop :=
  state = (if existsb closing t then Closed else Opened).

Lemma infos_Control state state' (t : trace) g :
  gathered_for state t -> state' = Opened \/ state' = Closed ->
  infos state' (t ++ [Asked (G := ConnSig) Control g]) =
    infos state' t ++ (if state' =? state then option_list (ToInfo <$> fst (gathered g)) else []).
Proof.
  intros -> Hs'. unfold infos, part. rewrite before_close_snoc, after_close_snoc.
  assert (forall u : trace, omap (fun g => ToInfo <$> fst (gathered g))
    (gathers (u ++ [Asked (G := ConnSig) Control g])) =
    omap (fun g => ToInfo <$> fst (gathered g)) (gathers u) ++
      option_list (ToInfo <$> fst (gathered g))) as Hu.
  { intros u. rewrite (proj1 (proj2 (proj2 (proj2 (trace_snoc _ _))))), omap_app. done. }
  destruct Hs' as [-> | ->], (existsb closing t); simpl; rewrite ?Hu, ?app_nil_r; done.
Qed.

Lemma gathered_for_snoc state (t : trace) e :
  closing e = false -> gathered_for state t -> gathered_for state (t ++ [e]).
Proof. unfold gathered_for. intros He. by rewrite existsb_closing_snoc, He, orb_false_r. Qed.

Lemma infos_from_gather state (t : trace) i : infos state t = option_list i -> from_gather i t.
Proof.
  intros Hi info ->. assert (info ∈ infos state t) as Hin by (rewrite Hi; apply list_elem_of_here).
  unfold infos in Hin. apply list_elem_of_omap in Hin as (g & Hg & Hs).
  destruct (gathered g) as [[s|] e] eqn:E; [|done]. simpl in Hs. injection Hs as <-.
  assert (e = None) as -> by (revert E; unfold gathered; repeat case_match; naive_solver).
  exists g, s. split; [|done]. revert Hg. unfold gathers, part. rewrite !list_elem_of_omap.
  intros (x & Hx & ?). exists x. split; [|done]. revert Hx. clear.
  destruct (state =? Opened); induction t as [|y t IH]; simpl; try done.
  - destruct (closing y); [by intros ?%not_elem_of_nil|]. rewrite !elem_of_cons. naive_solver.
  - destruct (closing y); rewrite elem_of_cons; naive_solver.
Qed.

Lemma inv_opened_info w : ConnInv w -> from_gather (OpenedInfo (st w)) (events w).
Proof. intros [_ Ha _ _]. by eapply infos_from_gather, acc_opened_info. Qed.

Lemma inv_closed_info w : ConnInv w -> from_gather (ClosedInfo (st w)) (events w).
Proof. intros [_ Ha _ _]. by eapply infos_from_gather, acc_closed_info. Qed.

(** Take the calls at the end of a trace into account. *)
Ltac account :=
  repeat match goal with
  | |- context [reads (?t ++ [?e])] => rewrite (proj1 (trace_snoc t e))
  | |- context [writes (?t ++ [?e])] => rewrite (proj1 (proj2 (trace_snoc t e)))
  | |- context [times ?u (?t ++ [?e])] => rewrite (proj1 (proj2 (proj2 (trace_snoc t e))) u)
  | |- context [gathers (?t ++ [?e])] =>
      rewrite (proj1 (proj2 (proj2 (proj2 (trace_snoc t e)))))
  | |- context [closes (?t ++ [?e])] =>
      rewrite (proj1 (proj2 (proj2 (proj2 (proj2 (trace_snoc t e))))))
  | |- context [reports (?t ++ [?e])] =>
      rewrite (proj2 (proj2 (proj2 (proj2 (proj2 (trace_snoc t e))))))
  | |- context [requests (?t ++ [?e])] => rewrite (requests_snoc t e)
  | |- context [infos ?s (?t ++ [?e])] => rewrite (infos_snoc s t e eq_refl)
  end;
  cbn [reads writes times gathers closes reports requests omap list_omap of_call of_go app].

Lemma from_gather_snoc i (t : trace) e : from_gather i t -> from_gather i (t ++ [e]).
Proof.
  intros H info Hi. destruct (H info Hi) as (g & s & Hg & ?). exists g, s. split; [|done].
  account. apply elem_of_app. by left.
Qed.

Lemma lasting_Some n err :
  err ≫= as_net_Error = Some false -> lasting (n, err) = err.
Proof.
  unfold lasting. destruct err as [e|]; [|done]. simpl. intros ->. by rewrite bool_decide_true.
Qed.

Lemma lasting_None n err :
  err ≫= as_net_Error <> Some false -> lasting (n, err) = None.
Proof.
  unfold lasting. destruct err as [e|]; [|done]. simpl. intros ?. by rewrite bool_decide_false.
Qed.

(** One more transfer, on each of the recorded fields. *)
Lemma counter_step y l (n : Z) (err : option error) :
  y = wrap_s 64 (sumZ l) -> wrap_s 64 (y + wrap_s 64 n) = wrap_s 64 (sumZ l + sumZ [(n, err)].*1).
Proof. intros ->. rewrite wrap_counter. simpl. f_equal. lia. Qed.

Lemma first_step x l (ts : Z) :
  (x =? 0) = true -> x = first_time l -> ts = if first_time l =? 0 then ts else first_time l.
Proof. by intros Hx <-; rewrite Hx. Qed.

Lemma first_kept x l (ts : Z) :
  (x =? 0) = false -> x = first_time l -> x = if first_time l =? 0 then ts else first_time l.
Proof. by intros Hx <-; rewrite Hx. Qed.

Lemma lasting_step l n err :
  err ≫= as_net_Error = Some false -> err = last (omap lasting l ++ omap lasting [(n, err)]).
Proof.
  intros H. simpl. rewrite (lasting_Some n err H). destruct err; [|done]. by rewrite last_snoc.
Qed.

Lemma lasting_kept x l n err :
  err ≫= as_net_Error <> Some false -> x = last (omap lasting l) ->
  x = last (omap lasting l ++ omap lasting [(n, err)]).
Proof. intros H ->. simpl. by rewrite (lasting_None n err H), app_nil_r. Qed.

Hint Resolve from_gather_snoc counter_step first_step first_kept lasting_step lasting_kept : conn.

(** Prove the invariant of a world that is given by its fields, from the
    invariant of the world before. *)
Ltac inv_fields :=
  split; [done|split|..]; simpl; account; autorewrite with go;
  repeat match goal with
  | H : Accounted _ _ |- _ => destruct H
  | H : successful _ = _ |- _ => rewrite H
  end;
  first [ by eauto with conn | congruence | lia
        | simpl; rewrite ?Nat.add_0_r; congruence | idtac ].

Lemma Read_inv b w : ConnInv w -> wp (Read b) (fun _ => ConnInv) w.
Proof.
  intros [Hl Ha Hs Hu]. unfold Read. rewrite wp_gbind. simpl.
  intros [[n err]|]; simpl; [|inv_fields].
  split; [done|]. unfold deferring. rewrite wp_bind.
  change (is_none err && (0 <? n)) with (successful (n, err)).
  destruct (successful (n, err)) eqn:Hsucc; simpl.
  - intros ts. destruct (FirstRxAt (st w) =? 0) eqn:Hf; simpl.
    all: case_bool_decide; simpl; (split; [done|]); inv_fields.
  - case_bool_decide; simpl; (split; [done|]); inv_fields.
Qed.

Lemma Write_inv b w : ConnInv w -> wp (Write b) (fun _ => ConnInv) w.
Proof.
  intros [Hl Ha Hs Hu]. unfold Write. rewrite wp_gbind. simpl.
  intros [[n err]|]; simpl; [|inv_fields].
  split; [done|]. unfold deferring. rewrite wp_bind.
  change (is_none err && (0 <? n)) with (successful (n, err)).
  destruct (successful (n, err)) eqn:Hsucc; simpl.
  - intros ts. destruct (FirstTxAt (st w) =? 0) eqn:Hf; simpl.
    all: case_bool_decide; simpl; (split; [done|]); inv_fields.
  - case_bool_decide; simpl; (split; [done|]); inv_fields.
Qed.

Lemma SetReconnects_inv n w :
  ConnInv w -> wp (emit (G := ConnSig) (Requested n) ;;; SetReconnects n) (fun _ => ConnInv) w.
Proof. intros [Hl Ha Hs Hu]. simpl. split; [done|]. split; [done|]. inv_fields. Qed.


Lemma info_err_step (t : trace) g e :
  head (omap (snd ∘ gathered) (gathers t)) = None -> snd (gathered g) = e ->
  e = head (omap (snd ∘ gathered) (gathers t) ++ omap (snd ∘ gathered) [g]).
Proof.
  intros H <-. destruct (omap _ (gathers t)); [|done]. simpl. by destruct (snd (gathered g)).
Qed.

Lemma from_gather_new (t : trace) g s :
  gathered g = (Some s, None) -> from_gather (Some (ToInfo s)) (t ++ [Asked (G := ConnSig) Control g]).
Proof.
  intros Hg info [= <-]. exists g, s. split; [|done]. account. apply elem_of_app. right.
  apply list_elem_of_here.
Qed.

(** What the closure passed to Control leaves in sysInfo and tcpErr. *)
Definition call_closure (called : option Answers) : option SysInfo * option error :=
  match called with Some a => GetTCPInfo a | None => (None, None) end.

Lemma gathered_closure err called :
  gathered (err, called) =
  match err, snd (call_closure called) with
  | None, None => call_closure called
  | None, e | e, _ => (None, e)
  end.
Proof.
  unfold gathered, call_closure. destruct err, called; simpl; [done..| |done].
  by destruct (GetTCPInfo a) as [? []].
Qed.

Lemma gather_inv state w :
  ConnInv w -> gathered_for state (events w) ->
  (if state =? Opened then OpenedInfo (st w) else ClosedInfo (st w)) = None ->
  wp (gather state) (fun r w' => r = Val tt /\ ConnInv w') w.
Proof.
  intros HI Hfor Hnew. pose proof HI as [Hl Ha Hs Hu]. unfold gather. simpl.
  destruct (supportsTCPInfo (st w)) eqn:Hsup; simpl; [|done].
  destruct (InfoErr (st w)) as [e|] eqn:HE; simpl; [done|].
  intros [|]; simpl; [|split; [done|]; inv_fields].
  intros [e|]; simpl; [split; [done|]; inv_fields|].
  intros [err called].
  assert (head (omap (snd ∘ gathered) (gathers (events w))) = None) as Hnone.
  { by rewrite <- (acc_info_err _ _ Ha). }
  pose proof (gathered_closure err called) as Hg.
  fold (call_closure called). destruct (call_closure called) as [sysInfo tcpErr].
  destruct err as [e|]; [|destruct tcpErr as [e|]; [|destruct sysInfo as [s|];
    [destruct (state =? Opened) eqn:Hst|]]].
  all: cbv iota in Hg; simpl; (split; [done|]); (split; [done|]); (split; [done|]); inv_fields.
  all: rewrite ?HE.
  all: first [ apply info_err_step; [done|by rewrite Hg]
             | rewrite (infos_Control state) by auto using gathered_for_snoc; account; rewrite Hg; simpl ].
  all: unfold gathered_for in Hfor; destruct (existsb closing (events w)); subst state; simpl in *; try discriminate Hst.
  all: repeat match goal with H : infos _ _ = _ |- _ => rewrite H end; rewrite ?Hnew, ?app_nil_r; done.
Qed.

(** What the callback is called with, and that it runs after the gathering. *)
Lemma gatherAndReport_inv report state w :
  callback_ok report -> ConnInv w -> gathered_for state (events w) ->
  wp (gatherAndReport report state) (fun _ => ConnInv) w.
Proof.
  intros Hcb HI Hfor. unfold gatherAndReport. destruct report as [f|]; [|done].
  destruct (negb _ && _); [done|].
  assert ((if state =? Opened then OpenedInfo (st w) else ClosedInfo (st w)) = None ->
    wp (deferring (call_report f state) (gather state)) (fun _ => ConnInv) w) as Hgo.
  { intros Hnew. rewrite wp_deferring. eapply wp_mono; [|by apply gather_inv]. intros r w' [-> HI'].
    unfold call_report. rewrite wp_gbind. simpl.
    apply (wp_mono _ (fun _ => ConnInv)); [by intros [[]|] w''|].
    apply Hcb; [done|]. destruct HI' as [Hl Ha Hs Hu]. inv_fields. }
  unfold gathered_for in Hfor. rewrite wp_gbind. destruct (existsb closing (events w)); subst state; simpl in *.
  - destruct (ClosedInfo (st w)); simpl; auto.
  - destruct (OpenedInfo (st w)); simpl; auto.
Qed.

Lemma Close_inv report w :
  callback_ok report -> ConnInv w -> wp (Close report) (fun _ => ConnInv) w.
Proof.
  intros Hcb HI. pose proof HI as [Hl Ha Hs Hu]. simpl. split; [done|]. intros ts.
  split; [done|]. rewrite wp_gbind. eapply wp_mono; [|apply gatherAndReport_inv; [done|..]].
  - intros [[]|] w' [Hl' Ha' Hs' Hu']; [|done]. simpl. intros r. inv_fields.
  - inv_fields.
  - unfold gathered_for. simpl. by rewrite existsb_closing_snoc, orb_true_r.
Qed.

(** warnings only reads. *)
Definition warnings_of (c : Conn SysInfo) : go (slice string) :=
  match info_warnings (OpenedInfo c)
    (if 0 <? Reconnects c then append None ("reconnects=" +:+ FormatInt (wrap_s 64 (Reconnects c)) 10)
     else None) with
  | Val ws => info_warnings (ClosedInfo c) ws
  | Panics => Panics
  end.

Lemma wp_warnings Q w : wp warnings Q w <-> Q (warnings_of (st w)) w.
Proof. unfold warnings, warnings_of. simpl. by destruct (info_warnings _ _). Qed.

Lemma Warnings_inv w :
  ConnInv w -> wp Warnings (fun r w' => r = warnings_of (st w) /\ ConnInv w') w.
Proof.
  intros [Hl Ha Hs Hu]. unfold Warnings. rewrite wp_with_lock, wp_warnings. simpl.
  split_and!; [done..|]. inv_fields.
Qed.

(** Asking for the addresses and what a callback does elsewhere do not touch
    the connection. *)
Lemma ConnInv_LocalAddr w r : ConnInv w -> ConnInv (log (Asked (G := ConnSig) ConnLocalAddr r) w).
Proof. intros [Hl Ha Hs Hu]. inv_fields. Qed.

Lemma ConnInv_RemoteAddr w r : ConnInv w -> ConnInv (log (Asked (G := ConnSig) ConnRemoteAddr r) w).
Proof. intros [Hl Ha Hs Hu]. inv_fields. Qed.

Lemma ConnInv_Did w what : ConnInv w -> ConnInv (log (Marked (G := ConnSig) (Did what)) w).
Proof. intros [Hl Ha Hs Hu]. inv_fields. Qed.

(** ToMap asks for the two addresses and changes no field; it returns a map
    unless an address method or warnings panics. *)
Lemma ToMap_inv w :
  ConnInv w ->
  wp ToMap (fun r w' => ConnInv w' /\ st w' = st w /\
    match r with
    | Val m => exists la ra ws, warnings_of (st w) = Val ws /\ m = fields_map (st w) la ra ws /\
        events w' = events w ++ [Asked (G := ConnSig) ConnLocalAddr (Val la);
                                 Asked (G := ConnSig) ConnRemoteAddr (Val ra)]
    | Panics => warnings_of (st w) = Panics \/
        last (events w') = Some (Asked (G := ConnSig) ConnLocalAddr Panics) \/
        last (events w') = Some (Asked (G := ConnSig) ConnRemoteAddr Panics)
    end) w.
Proof.
  intros [Hl Ha Hs Hu]. unfold ToMap. rewrite wp_with_lock. split; [done|].
  rewrite wp_gbind, wp_load. cbn [on_val]. rewrite wp_gbind. intros [la|].
  2: { cbn. rewrite last_snoc. split_and!; [done| |done|auto]. inv_fields. }
  cbn [wp on_val]. rewrite wp_gbind. intros [ra|].
  2: { cbn. rewrite last_snoc. split_and!; [done| |done|auto]. inv_fields. }
  cbn [wp on_val]. rewrite wp_gbind, wp_warnings.
  change (st (log _ (log _ w <| locked := true |>))) with (st w).
  destruct (warnings_of (st w)) as [ws|]; cbn [wp on_val ret].
  - split_and!; [done| |done|]; [simpl; inv_fields|].
    exists la, ra, ws. split_and!; [done..|]. simpl. by rewrite <- (assoc_L (++)).
  - split_and!; [done| |done|auto]. simpl. inv_fields.
Qed.

Lemma exec_inv report o w :
  callback_ok report -> ConnInv w -> wp (exec report o) (fun _ => ConnInv) w.
Proof.
  intros Hcb HI.
  assert (forall A (m : M A), wp m (fun _ => ConnInv) w -> wp (m ;;; ret tt) (fun _ => ConnInv) w)
    as Hret.
  { intros A m Hm. rewrite wp_gbind. eapply wp_mono; [|exact Hm]. by intros [a|] w'. }
  destruct o; simpl exec; try apply Hret.
  - by apply Read_inv.
  - by apply Write_inv.
  - by apply Close_inv.
  - by apply SetReconnects_inv.
  - eapply wp_mono; [|by apply Warnings_inv]. by intros r w' [_ ?].
  - eapply wp_mono; [|by apply ToMap_inv]. by intros r w' [? _].
Qed.

Lemma exec_all_inv report ops w :
  callback_ok report -> ConnInv w -> wp (exec_all report ops) (fun _ => ConnInv) w.
Proof.
  intros Hcb. revert w. induction ops as [|o ops IH]; intros w HI; [done|]. simpl.
  rewrite wp_bind. eapply wp_mono; [|by apply exec_inv]. intros r w' HI'. by apply IH.
Qed.

Lemma WrapConn_inv report c :
  callback_ok report -> wp (WrapConn report) (fun _ => ConnInv) (fresh c).
Proof.
  intros Hcb. unfold WrapConn, WrapConnWithContext. rewrite wp_gbind. simpl. intros ts.
  apply gatherAndReport_inv; [done| |done]. split; [done|split; done|done|done].
Qed.

Lemma session_inv report ops c :
  callback_ok report -> wp (session report ops) (fun _ => ConnInv) (fresh c).
Proof.
  intros Hcb. unfold session. rewrite wp_bind. eapply wp_mono; [|by apply WrapConn_inv].
  intros r w' HI. by apply exec_all_inv.
Qed.

(** ** The information part: what the methods leave alone *)

(** Worlds with the same socket information, gathered by the same calls. *)
Definition info_same (w w' : world ConnSig) : Prop :=
  OpenedInfo (st w') = OpenedInfo (st w) /\ ClosedInfo (st w') = ClosedInfo (st w) /\
  InfoErr (st w') = InfoErr (st w) /\ supportsTCPInfo (st w') = supportsTCPInfo (st w) /\
  gathers (events w') = gathers (events w).

#[local] Instance info_same_equiv : Equivalence info_same.
Proof.
  unfold info_same. split.
  - by intros w.
  - by intros w w' (-> & -> & -> & -> & ->).
  - by intros w w' w'' (-> & -> & -> & -> & ->).
Qed.

Definition same_info (w w' : world ConnSig) : Prop :=
  locked w' = false /\ info_same w w' /\
  reports (events w') = reports (events w) /\ closes (events w') = closes (events w).

(** A callback that only looks: it returns, and leaves the information, the
    mutex and the inner connection as they are. *)
Definition observer (report : option (Z -> M unit)) : Prop :=
  forall f s w, report = Some f -> locked w = false ->
  wp (f s) (fun r w' => r = Val tt /\ same_info w w') w.

Ltac same_fields := unfold same_info, info_same; simpl; account; rewrite ?app_nil_r; split_and!; done.

Lemma same_info_Did (w : world ConnSig) what :
  locked w = false -> same_info w (log (Marked (G := ConnSig) (Did what)) w).
Proof. intros Hl. same_fields. Qed.

Lemma same_info_refl (w : world ConnSig) : locked w = false -> same_info w w.
Proof. intros Hl. same_fields. Qed.

Lemma Read_same b (w : world ConnSig) : locked w = false -> wp (Read b) (fun _ => same_info w) w.
Proof.
  intros Hl. unfold Read. rewrite wp_gbind. simpl. intros [[n err]|]; simpl; [|same_fields].
  split; [done|]. unfold deferring. rewrite wp_bind. destruct (is_none err && _); simpl.
  - intros ts. destruct (FirstRxAt (st w) =? 0); simpl; case_bool_decide; simpl;
      (split; [done|]); same_fields.
  - case_bool_decide; simpl; (split; [done|]); same_fields.
Qed.

Lemma Write_same b (w : world ConnSig) : locked w = false -> wp (Write b) (fun _ => same_info w) w.
Proof.
  intros Hl. unfold Write. rewrite wp_gbind. simpl. intros [[n err]|]; simpl; [|same_fields].
  split; [done|]. unfold deferring. rewrite wp_bind. destruct (is_none err && _); simpl.
  - intros ts. destruct (FirstTxAt (st w) =? 0); simpl; case_bool_decide; simpl;
      (split; [done|]); same_fields.
  - case_bool_decide; simpl; (split; [done|]); same_fields.
Qed.

Lemma SetReconnects_same n (w : world ConnSig) :
  locked w = false -> wp (emit (G := ConnSig) (Requested n) ;;; SetReconnects n) (fun _ => same_info w) w.
Proof. intros Hl. simpl. split; [done|]. split; [done|]. same_fields. Qed.

Lemma Warnings_same (w : world ConnSig) :
  locked w = false -> wp Warnings (fun r w' => r = warnings_of (st w) /\ same_info w w') w.
Proof.
  intros Hl. unfold Warnings. rewrite wp_with_lock, wp_warnings. simpl. split_and!; [done..|].
  same_fields.
Qed.

Lemma ToMap_same (w : world ConnSig) : locked w = false -> wp ToMap (fun _ => same_info w) w.
Proof.
  intros Hl. unfold ToMap. rewrite wp_with_lock. split; [done|].
  rewrite wp_gbind, wp_load. cbn [on_val]. rewrite wp_gbind. intros [la|].
  2: { cbn. split; [done|]. same_fields. }
  cbn [wp on_val]. rewrite wp_gbind. intros [ra|].
  2: { cbn. split; [done|]. same_fields. }
  cbn [wp on_val]. rewrite wp_gbind, wp_warnings.
  destruct (warnings_of _) as [ws|]; cbn [wp on_val ret]; (split; [done|]); same_fields.
Qed.

(** What one attempt to gather for [state] may change: at most one call of
    Control, and its result stored. *)
Definition info_step (state : Z) (w w' : world ConnSig) : Prop :=
  info_same w w' \/
  exists g, supportsTCPInfo (st w) = true /\ InfoErr (st w) = None /\
    supportsTCPInfo (st w') = true /\
    gathers (events w') = gathers (events w) ++ [g] /\
    InfoErr (st w') = snd (gathered g) /\
    let stored := (fun s => Some (ToInfo s)) <$> fst (gathered g) in
    OpenedInfo (st w') = (if state =? Opened then default (OpenedInfo (st w)) stored
                          else OpenedInfo (st w)) /\
    ClosedInfo (st w') = (if state =? Opened then ClosedInfo (st w)
                          else default (ClosedInfo (st w)) stored).

#[local] Instance info_step_proper state : Proper (info_same ==> info_same ==> iff) (info_step state).
Proof.
  intros w1 w2 H12 w1' w2' H12'. unfold info_step.
  destruct (id H12) as (-> & -> & -> & -> & ->), (id H12') as (-> & -> & -> & -> & ->).
  f_equiv. by rewrite H12, H12'.
Qed.

Definition gather_step (state : Z) (w w' : world ConnSig) : Prop :=
  locked w' = false /\ info_step state w w' /\
  reports (events w') = reports (events w) /\ closes (events w') = closes (events w).

Lemma gather_spec state (w : world ConnSig) :
  locked w = false -> wp (gather state) (fun r w' => r = Val tt /\ gather_step state w w') w.
Proof.
  intros Hl. unfold gather. simpl.
  assert (forall w', same_info w w' -> gather_step state w w') as Hsame.
  { intros w' (? & ? & ? & ?). split_and!; [done|by left|done|done]. }
  destruct (supportsTCPInfo (st w)) eqn:Hsup; simpl; [|split; [done|]; apply Hsame; same_fields].
  destruct (InfoErr (st w)) as [e|] eqn:HE; simpl; [split; [done|]; apply Hsame; same_fields|].
  intros [|]; simpl; [|split; [done|]; apply Hsame; same_fields].
  intros [e|]; simpl; [split; [done|]; apply Hsame; same_fields|].
  intros [err called]. fold (call_closure called).
  pose proof (gathered_closure err called) as Hg.
  destruct (call_closure called) as [sysInfo tcpErr].
  destruct err as [e|]; [|destruct tcpErr as [e|]; [|destruct sysInfo as [s|]]].
  3: destruct (state =? Opened) eqn:Hst.
  all: cbv iota in Hg; cbn; (split; [done|]); (split; [done|]); (split; [done|]).
  all: unfold gather_step, info_step; rewrite ?Hst; cbn; account; rewrite ?app_nil_r.
  all: split_and!; try done; right; eexists; rewrite Hg; cbn; account; rewrite ?app_nil_r; split_and!; try done.
  all: by destruct (state =? Opened).
Qed.


(** gatherAndReport with a callback that only looks, when the information of
    the state is not there yet, and when it is. *)
Definition have_info (state : Z) (c : Conn SysInfo) : bool :=
  if state =? Opened then negb (is_none (OpenedInfo c)) else negb (is_none (ClosedInfo c)).

Lemma gatherAndReport_unfold f state :
  state = Opened \/ state = Closed ->
  forall Q (w : world ConnSig), wp (gatherAndReport (Some f) state) Q w <->
  wp (if have_info state (st w) then ret tt
      else deferring (call_report f state) (gather state)) Q w.
Proof.
  intros [-> | ->] Q w; unfold gatherAndReport, have_info; simpl.
  - by destruct (OpenedInfo (st w)).
  - by destruct (ClosedInfo (st w)).
Qed.

Lemma gatherAndReport_spec report state (w : world ConnSig) :
  observer report -> state = Opened \/ state = Closed -> locked w = false ->
  wp (gatherAndReport report state) (fun r w' => r = Val tt /\
    locked w' = false /\ closes (events w') = closes (events w) /\
    if is_none report || have_info state (st w) then w' = w
    else info_step state w w' /\ reports (events w') = reports (events w) ++ [state]) w.
Proof.
  intros Hobs Hst Hl. destruct report as [f|]; [|done]. rewrite gatherAndReport_unfold by done.
  simpl. destruct (have_info state (st w)); [done|].
  rewrite wp_deferring. eapply wp_mono; [|by apply gather_spec].
  intros r w1 (-> & Hl1 & Hi1 & Hr1 & Hc1). unfold call_report. rewrite wp_gbind. simpl.
  eapply wp_mono; [|by apply Hobs].
  intros r w2 (-> & Hl2 & Hi2 & Hr2 & Hc2). simpl in *. revert Hi2 Hr2 Hc2. account.
  rewrite ?app_nil_r. intros Hi2 -> ->. rewrite Hr1. split_and!; try done.
  rewrite <- Hi2. by assert (info_same w1 (log (Marked (G := ConnSig) (Reported state)) w1)) as <- by same_fields.
Qed.

(** Close with a callback that only looks. *)
Lemma Close_spec report (w : world ConnSig) :
  observer report -> locked w = false ->
  wp (Close report) (fun r w' =>
    locked w' = false /\ closes (events w') = closes (events w) ++ [r] /\
    (exists pre, events w' = pre ++ [Asked (G := ConnSig) ConnClose r]) /\
    if is_none report || negb (is_none (ClosedInfo (st w)))
    then info_same w w' /\ reports (events w') = reports (events w)
    else info_step Closed w w' /\ reports (events w') = reports (events w) ++ [Closed]) w.
Proof.
  intros Hobs Hl. simpl. split; [done|]. intros ts. split; [done|]. rewrite wp_gbind.
  eapply wp_mono; [|apply gatherAndReport_spec; [done|by right|done]].
  intros r w' (-> & Hl' & Hc' & H). simpl. intros e. revert Hc' H. unfold have_info. simpl. account.
  rewrite ?app_nil_r. intros Hc' H. rewrite Hc'. split_and!; [done|done|by eexists|].
  assert (info_same w' (log (Asked (G := ConnSig) ConnClose e) w')) as Hlog by same_fields.
  destruct (is_none report || _).
  - subst w'. simpl. account. rewrite ?app_nil_r. split; [|done]. same_fields.
  - destruct H as [H1 H2]. rewrite H2. split; [|done]. rewrite <- Hlog. revert H1.
    apply info_step_proper; [|done]. same_fields.
Qed.

Definition is_close (o : op) : bool := match o with OClose => true | _ => false end.

Definition close_count (ops : list op) : nat := length (filter is_close ops).

(** One operation, seen from the information and the reports. *)
Lemma exec_info report o (w : world ConnSig) :
  observer report -> locked w = false ->
  wp (exec report o) (fun _ w' => locked w' = false /\
    length (closes (events w')) = (length (closes (events w)) + if is_close o then 1 else 0)%nat /\
    if is_close o && negb (is_none report) && is_none (ClosedInfo (st w))
    then info_step Closed w w' /\ reports (events w') = reports (events w) ++ [Closed]
    else info_same w w' /\ reports (events w') = reports (events w)) w.
Proof.
  intros Hobs Hl.
  assert (forall A (m : M A) (Q : world ConnSig -> Prop),
    wp m (fun _ => Q) w -> wp (m ;;; ret tt) (fun _ => Q) w) as Hret.
  { intros A m Q Hm. rewrite wp_gbind. eapply wp_mono; [|exact Hm]. by intros [a|] w'. }
  assert (forall w', same_info w w' -> locked w' = false /\
    length (closes (events w')) = (length (closes (events w)) + 0)%nat /\
    info_same w w' /\ reports (events w') = reports (events w)) as Hsame.
  { intros w' (? & ? & ? & ->). rewrite Nat.add_0_r. done. }
  destruct o; simpl exec; try apply Hret.
  3: { eapply wp_mono; [|by apply Close_spec]. intros r w' (? & -> & _ & H).
       rewrite length_app. split_and!; [done..|].
       by destruct report, (ClosedInfo (st w)). }
  all: eapply wp_mono; [intros r w' H; apply Hsame; exact H|].
  - by apply Read_same.
  - by apply Write_same.
  - by apply SetReconnects_same.
  - eapply wp_mono; [|by apply Warnings_same]. by intros r w' [_ ?].
  - by apply ToMap_same.
Qed.

Lemma info_step_ClosedInfo w w' i :
  info_step Closed w w' -> ClosedInfo (st w) = Some i -> is_Some (ClosedInfo (st w')).
Proof.
  intros [(_ & -> & _)|(g & _ & _ & _ & _ & _ & _ & H)] Hi; rewrite ?Hi; [done|].
  simpl in H. rewrite H, Hi. by destruct (fst (gathered g)).
Qed.

(** The number of reports of a sequence of operations. *)
Lemma exec_all_reports f ops (w : world ConnSig) :
  observer (Some f) -> locked w = false ->
  wp (exec_all (Some f) ops) (fun _ w' => locked w' = false /\
    (is_Some (ClosedInfo (st w)) -> is_Some (ClosedInfo (st w'))) /\
    length (closes (events w')) = (length (closes (events w)) + close_count ops)%nat /\
    exists k, reports (events w') = reports (events w) ++ replicate k Closed /\
      (k <= close_count ops)%nat /\
      (ClosedInfo (st w) = None -> close_count ops <> 0%nat -> k <> 0%nat) /\
      (ClosedInfo (st w') = None -> k = close_count ops)) w.
Proof.
  intros Hobs. revert w. induction ops as [|o ops IH]; intros w Hl.
  { split_and!; [done|done|by rewrite Nat.add_0_r|]. exists 0%nat. by rewrite app_nil_r. }
  simpl exec_all. rewrite wp_bind. eapply wp_mono; [|by apply exec_info].
  intros r w1 (Hl1 & Hc1 & H1). eapply wp_mono; [|by apply IH].
  intros [] w2 (Hl2 & Hsome & Hc2 & k & Hr2 & Hk & Hpos & Hall).
  assert (close_count (o :: ops) = (if is_close o then 1 else 0) + close_count ops)%nat as Hn.
  { unfold close_count. rewrite filter_cons. by destruct o. }
  rewrite Hn. destruct (is_close o); cbv iota in *; simpl in H1.
  - destruct (ClosedInfo (st w)) as [i|] eqn:Hi; simpl in H1.
    + destruct H1 as [(_ & Hcl & _) H1]. rewrite Hcl, Hi in Hsome.
      split_and!; [done|done|lia|]. exists k. rewrite Hr2, H1.
      split_and!; [done|lia|done|]. intros HN. destruct (Hsome ltac:(done)). congruence.
    + destruct H1 as [_ H1]. split_and!; [done|by intros []|lia|]. exists (S k).
      rewrite Hr2, H1, <- (assoc_L (++)). split_and!; [done|lia|done|]. intros HN.
      by rewrite (Hall HN).
  - destruct H1 as [(_ & Hcl & _) H1]. rewrite Hcl in *. split_and!; [done|done|lia|].
    exists k. by rewrite Hr2, H1.
Qed.

(** Once nothing more can be gathered. *)
Lemma exec_all_settled report ops (w : world ConnSig) :
  observer report -> locked w = false ->
  is_Some (ClosedInfo (st w)) \/ is_Some (InfoErr (st w)) ->
  wp (exec_all report ops) (fun _ w' => locked w' = false /\ info_same w w') w.
Proof.
  intros Hobs. revert w. induction ops as [|o ops IH]; intros w Hl Hset; [done|].
  simpl exec_all. rewrite wp_bind. eapply wp_mono; [|by apply exec_info].
  intros r w1 (Hl1 & _ & H1). assert (info_same w w1) as Hs.
  { destruct (is_close o && _ && _) eqn:E; [|by destruct H1].
    destruct H1 as [[|(g & _ & Hn & _)] _]; [done|]. destruct Hset as [[i Hi]|[e He]].
    - rewrite Hi in E. by rewrite andb_false_r in E.
    - congruence. }
  eapply wp_mono; [|apply IH; [done|]].
  - intros u w2 [? ?]. split; [done|]. by rewrite Hs.
  - destruct Hs as (_ & -> & -> & _). done.
Qed.

(** ** The trace of a transfer *)

(** The call of the clock after a transfer with result [r]. *)
Definition clock_after (why : clock_use) (r : go (Z * option error)) (ts : Z) : trace :=
  match r with
  | Val r => if successful r then [Asked (G := ConnSig) (Now why) ts] else []
  | Panics => []
  end.

Lemma Read_trace b (w : world ConnSig) :
  locked w = false ->
  wp (Read b) (fun r w' => locked w' = false /\ exists ts,
    events w' = events w ++ Asked (G := ConnSig) (ConnRead b) r :: clock_after AtRx r ts) w.
Proof.
  intros Hl. unfold Read. rewrite wp_gbind. simpl. intros [[n err]|]; simpl; [|by split; [|exists 0]].
  split; [done|]. unfold deferring. rewrite wp_bind.
  change (is_none err && (0 <? n)) with (successful (n, err)).
  destruct (successful (n, err)) eqn:Hs; simpl; [intros ts; destruct (FirstRxAt (st w) =? 0)|].
  all: simpl; case_bool_decide; simpl; (split; [done|]); (split; [done|]);
    (exists ts || exists 0); rewrite Hs, <- ?(assoc_L (++)); done.
Qed.

Lemma Write_trace b (w : world ConnSig) :
  locked w = false ->
  wp (Write b) (fun r w' => locked w' = false /\ exists ts,
    events w' = events w ++ Asked (G := ConnSig) (ConnWrite b) r :: clock_after AtTx r ts) w.
Proof.
  intros Hl. unfold Write. rewrite wp_gbind. simpl. intros [[n err]|]; simpl; [|by split; [|exists 0]].
  split; [done|]. unfold deferring. rewrite wp_bind.
  change (is_none err && (0 <? n)) with (successful (n, err)).
  destruct (successful (n, err)) eqn:Hs; simpl; [intros ts; destruct (FirstTxAt (st w) =? 0)|].
  all: simpl; case_bool_decide; simpl; (split; [done|]); (split; [done|]);
    (exists ts || exists 0); rewrite Hs, <- ?(assoc_L (++)); done.
Qed.

(** ** More on reports and warnings *)

Lemma closes_snoc (t : trace) r : closes (t ++ [Asked (G := ConnSig) ConnClose r]) = closes t ++ [r].
Proof. by account. Qed.

Lemma reports_snoc (t : trace) r : reports (t ++ [Asked (G := ConnSig) ConnClose r]) = reports t.
Proof. account. by rewrite app_nil_r. Qed.

Lemma wp_and {A : Type} (p : prog ConnSig A) (Q1 Q2 : A -> world ConnSig -> Prop) w :
  wp p Q1 w -> wp p Q2 w -> wp p (fun a w' => Q1 a w' /\ Q2 a w') w.
Proof.
  revert w. induction p as [a|k IH|k IH|k IH|u k IH|q k IH|e k IH]; intros w; simpl; auto.
  - intros [? ?] [? ?]. auto.
  - intros [? ?] [? ?]. auto.
Qed.

Lemma session_reports_wp f ops (c : Conn SysInfo) :
  observer (Some f) ->
  wp (session (Some f) ops) (fun _ w => exists k,
    reports (events w) = Opened :: replicate k Closed /\
    length (closes (events w)) = close_count ops /\
    (k <= close_count ops)%nat /\ (close_count ops <> 0%nat -> k <> 0%nat) /\
    (ClosedInfo (st w) = None -> k = close_count ops)) (fresh c).
Proof.
  intros Hobs. unfold session, WrapConn, WrapConnWithContext. rewrite wp_bind, wp_gbind.
  intros ts. cbn [wp ret on_val]. rewrite wp_gbind. cbn [store wp ret on_val]. eapply wp_mono; [|apply gatherAndReport_spec; [done|by left|done]].
  intros r w1 (-> & Hl1 & Hc1 & Hi1 & Hr1). simpl in Hi1, Hr1, Hc1.
  assert (ClosedInfo (st w1) = None) as Hn.
  { destruct Hi1 as [(_ & -> & _)|(g & _ & _ & _ & _ & _ & _ & ->)]; done. }
  eapply wp_mono; [|by apply exec_all_reports].
  intros [] w2 (_ & _ & Hc2 & k & Hr2 & Hk & Hpos & Hall). exists k.
  rewrite Hr2, Hr1, Hc2, Hc1. auto 10.
Qed.

Lemma exec_all_settled_reports f ops (w : world ConnSig) :
  observer (Some f) -> locked w = false ->
  is_Some (ClosedInfo (st w)) \/ is_Some (InfoErr (st w)) ->
  wp (exec_all (Some f) ops) (fun _ w' => exists k,
    reports (events w') = reports (events w) ++ replicate k Closed /\
    (ClosedInfo (st w') = None -> k = close_count ops) /\ info_same w w') w.
Proof.
  intros Hobs Hl Hset. eapply wp_mono; [|apply wp_and;
    [by apply (exec_all_reports f ops)|by apply (exec_all_settled (Some f) ops)]].
  intros [] w' [(_ & _ & _ & k & Hr & _ & _ & Hall) [_ Hs]]. by exists k.
Qed.

Definition reconnect_line (n : Z) : list string :=
  if 0 <? n then ["reconnects=" +:+ FormatInt (wrap_s 64 n) 10] else [].

Definition info_lines (i : option (Info SysInfo)) : list string :=
  match i with
  | None => []
  | Some i =>
      (if 0 <? Retransmits i then ["retransmits=" +:+ FormatInt (wrap_s 64 (Retransmits i)) 10]
       else []) ++
      match Sys i with Some s => elems (SysInfo_Warnings s) | None => [] end
  end.

(** The information that is stored points to its SysInfo. *)
Lemma stored_Sys `{!PlatformOk P} i (t : trace) info :
  Supported = true -> from_gather i t -> i = Some info -> is_Some (Sys info).
Proof.
  intros Hs Hf Hi. destruct (Hf info Hi) as (g & s & _ & _ & ->). by rewrite ToInfo_Sys.
Qed.

Lemma info_warnings_lines i warns :
  (forall info, i = Some info -> is_Some (Sys info)) ->
  exists ws, info_warnings i warns = Val ws /\ elems ws = elems warns ++ info_lines i.
Proof.
  intros H. destruct i as [i|]; simpl; [|by rewrite app_nil_r; eauto].
  destruct (H i eq_refl) as [s ->]. eexists. split; [done|]. rewrite elems_append_all.
  destruct (0 <? Retransmits i); simpl; [|done]. by rewrite <- (assoc_L (++)).
Qed.

Lemma stored_only_if_supported w i info :
  ConnInv w -> from_gather i (events w) -> i = Some info -> Supported = true.
Proof.
  intros HI Hf Hi. destruct (Hf info Hi) as (g & _ & Hg & _).
  destruct Supported eqn:E; [done|]. rewrite (inv_unsupported w HI E) in Hg.
  by apply not_elem_of_nil in Hg.
Qed.

Lemma warnings_of_lines `{!PlatformOk P} w :
  ConnInv w -> exists ws, warnings_of (st w) = Val ws /\
  elems ws = reconnect_line (Reconnects (st w)) ++
    info_lines (OpenedInfo (st w)) ++ info_lines (ClosedInfo (st w)).
Proof.
  intros HI. unfold warnings_of.
  match goal with |- context [info_warnings (OpenedInfo _) ?x] => set (w0 := x) end.
  assert (elems w0 = reconnect_line (Reconnects (st w))) as <-.
  { unfold w0, reconnect_line. by destruct (0 <? _). }
  pose proof (inv_opened_info w HI) as Ho. pose proof (inv_closed_info w HI) as Hc.
  destruct (info_warnings_lines (OpenedInfo (st w)) w0) as (w1 & -> & H1).
  { intros info Hi. apply (stored_Sys _ _ info (stored_only_if_supported w _ _ HI Ho Hi) Ho Hi). }
  destruct (info_warnings_lines (ClosedInfo (st w)) w1) as (w2 & -> & H2).
  { intros info Hi. apply (stored_Sys _ _ info (stored_only_if_supported w _ _ HI Hc Hi) Hc Hi). }
  exists w2. split; [done|]. by rewrite H2, H1, <- (assoc_L (++)).
Qed.

(** ** The map of a connection *)

(** The entries that are always there, and those that may be missing. *)
Definition always (c : Conn SysInfo) (la ra : string) (ws : slice string) : list (string * any) := [
  ("openedAt", AInt64 (OpenedAt c));
  ("closedAt", AInt64 (ClosedAt c));
  ("firstRxAt", AInt64 (FirstRxAt c));
  ("firstTxAt", AInt64 (FirstTxAt c));
  ("lastRxAt", AInt64 (LastRxAt c));
  ("lastTxAt", AInt64 (LastTxAt c));
  ("txBytes", AInt64 (TxBytes c));
  ("rxBytes", AInt64 (RxBytes c));
  ("reconnects", AInt (Reconnects c));
  ("localAddr", AString la);
  ("remoteAddr", AString ra);
  ("warnings", AStrings ws)
].

Definition optional (c : Conn SysInfo) : list (string * option any) := [
  ("rxErr", (AString ∘ error_Error) <$> RxErr c);
  ("txErr", (AString ∘ error_Error) <$> TxErr c);
  ("infoErr", (AString ∘ error_Error) <$> InfoErr c);
  ("openedInfo", (AMap ∘ Info_ToMap SysInfo_ToMap) <$> OpenedInfo c);
  ("closedInfo", (AMap ∘ Info_ToMap SysInfo_ToMap) <$> ClosedInfo c)
].

Lemma put_error_entry k e m : put_error k e m = put_entry m (k, (AString ∘ error_Error) <$> e).
Proof. by destruct e. Qed.

Lemma put_info_entry k i m :
  put_info k i m = put_entry m (k, (AMap ∘ Info_ToMap SysInfo_ToMap) <$> i).
Proof. by destruct i. Qed.

Lemma fields_map_table c la ra ws :
  fields_map c la ra ws = foldl put_entry (list_to_map (always c la ra ws)) (optional c).
Proof.
  unfold fields_map. rewrite !put_error_entry, !put_info_entry.
  assert (forall m e, put_entry (put_entry m e) e = put_entry m e) as ->.
  { intros m [k [v|]]; [|done]. unfold put_entry. simpl. by rewrite insert_insert_eq. }
  reflexivity.
Qed.

Lemma fields_map_keys c la ra ws : NoDup ((always c la ra ws).*1 ++ (optional c).*1).
Proof. by apply (bool_decide_unpack _); vm_compute. Qed.

End methods.
