(* ===== verification/WrapTheorems.v ===== *)
(** * wrap.go: theorems on executions of one goroutine

    The properties of WrapProps.v as statements on [run], with a connection on
    Linux as the example on which they are evaluated. *)

From S2P Require Import KernelVersion InitLinux TcpInfoLinux TcpInfoLinuxReport.
From S2P Require Import Prelude GoStrings GoProg TcpInfo Wrap WrapProps.

(** ** Examples *)

(** The errno values net.Error's Timeout() knows on Linux. *)
Definition linux_errno : ErrnoOps := {|
  errno_Timeout e := bool_decide (e ∈ [11; 110]);
  errno_Error e := "errno " +:+ Itoa e
|}.

#[local] Existing Instance linux_errno.

Definition sample_platform : Platform := linux_platform false sample_globals.

(** A callback that reads the whole state through the locking method, and one
    that takes the lock to look at one field. *)
Definition map_callback `{Platform} `{ErrnoOps} : option (Z -> M unit) :=
  Some (fun _ => ToMap ;;; ret tt).

Definition look_callback `{Platform} : option (Z -> M unit) :=
  Some (fun _ => with_lock (load (G := ConnSig) RxBytes) ;;; ret tt).

(** A peer that sends 5 bytes per read, with a clock that counts the events. *)
Definition sample_oracle : oracle (@ConnSig sample_platform) :=
  fun t q => match q return @reply sample_platform q with
  | Now _ => 1000 + Z.of_nat (length t)
  | AsTCPConn => true
  | SyscallConn => None
  | Control => (None, Some sample_answers)
  | ConnRead _ => Val (5, None)
  | ConnWrite b => Val (Z.of_nat (length b), None)
  | ConnClose => Val None
  | ConnLocalAddr => Val "127.0.0.1:1"
  | ConnRemoteAddr => Val "127.0.0.1:2"
  end.

Lemma map_callback_ok `{Platform} `{ErrnoOps} : callback_ok map_callback.
Proof.
  intros f s w [= <-] HI. rewrite wp_gbind. eapply wp_mono; [|by apply ToMap_inv].
  by intros [m|] w' (? & _).
Qed.

Lemma look_callback_observer `{Platform} : observer look_callback.
Proof.
  intros f s w [= <-] Hl. simpl. split; [done|]. split; [done|]. split; [done|].
  by unfold same_info, info_same; split_and!.
Qed.

Section theorems.
Context `{P : Platform} `{EO : ErrnoOps}.

(** C1: the statistics of a wrapped connection are those of its history. After
    WrapConn and any sequence of method calls, with any behaviour of the inner
    connection, the clock, the operating system and of a callback that respects
    its contract (it may itself call the methods), the execution returns: no
    deadlock and no unlock of a free mutex. The mutex is free, and every field
    has the value the trace determines: the byte counters are the sums of the
    counts returned by the inner reads and writes, modulo 2^64; the first and
    last times are those of the first and last successful nonempty transfers,
    one per transfer; RxErr is the last net.Error of a read that was no timeout,
    TxErr the error of the last write, InfoErr the first failure to gather;
    OpenedInfo is the information that was read before the first call of Close,
    ClosedInfo the one read after it began, at most one each and nil when none
    was read; and Reconnects is the number of the last call of SetReconnects,
    or 0. *)
Theorem session_accounts report ops c o :
  callback_ok report ->
  exists w, run o (session report ops) (fresh c) = (Returned tt, w) /\ ConnInv w.
Proof.
  intros Hcb. destruct (wp_run _ _ _ o (session_inv report ops c Hcb)) as ([] & w & H).
  by exists w.
Qed.

(** C12: a read or write of the wrapper is the read or write of the inner
    connection: it makes that one call with the caller's buffer and returns its
    result unchanged, also when it panics, and leaves the mutex free. *)
Theorem Read_Write_transparent b (w : world ConnSig) o :
  locked w = false ->
  (exists r w', run o (Read b) w = (Returned r, w') /\ locked w' = false /\
    exists ts, events w' = events w ++ Asked (G := ConnSig) (ConnRead b) r :: clock_after AtRx r ts) /\
  (exists r w', run o (Write b) w = (Returned r, w') /\ locked w' = false /\
    exists ts, events w' = events w ++ Asked (G := ConnSig) (ConnWrite b) r :: clock_after AtTx r ts).
Proof.
  intros Hl. split; apply wp_run; [by apply Read_trace|by apply Write_trace].
Qed.

(** C4: the reports. With a callback that only looks, WrapConn reports Opened
    exactly once, before anything else, and the session then reports Closed:
    at least once when Close is called, at most once per call of Close, and
    at every call when no information was ever stored. Every call of Close
    closes the inner connection. *)
Theorem session_reports f ops c o :
  observer (Some f) ->
  exists w k, run o (session (Some f) ops) (fresh c) = (Returned tt, w) /\
  reports (events w) = Opened :: replicate k Closed /\
  length (closes (events w)) = close_count ops /\
  (k <= close_count ops)%nat /\ (close_count ops <> 0%nat -> k <> 0%nat) /\
  (ClosedInfo (st w) = None -> k = close_count ops).
Proof.
  intros Hobs. destruct (wp_run _ _ _ o (session_reports_wp f ops c Hobs)) as ([] & w & E & k & H).
  by exists w, k.
Qed.

(** C5: Close on an unlocked connection with a callback that only looks. It
    reports Closed exactly when there is a callback and no ClosedInfo yet, it
    calls the close of the inner connection last and once, after the report,
    and returns its result. *)
Theorem Close_reports_then_closes report (w : world ConnSig) o :
  observer report -> locked w = false ->
  exists r w' pre, run o (Close report) w = (Returned r, w') /\ locked w' = false /\
  events w' = pre ++ [Asked (G := ConnSig) ConnClose r] /\
  closes pre = closes (events w) /\
  reports pre = reports (events w) ++
    (if is_none report || negb (is_none (ClosedInfo (st w))) then [] else [Closed]).
Proof.
  intros Hobs Hl. destruct (wp_run _ _ _ o (Close_spec report w Hobs Hl))
    as (r & w' & E & Hl' & Hc & [pre Hpre] & H).
  exists r, w', pre. rewrite Hpre, closes_snoc in Hc. rewrite Hpre, reports_snoc in H.
  split_and!; [done..|by apply app_inj_tail in Hc as [-> _]|].
  destruct (is_none report || _); destruct H as [_ <-]; by rewrite ?app_nil_r.
Qed.

(** C13: the information settles. Once ClosedInfo is stored, or gathering
    failed, no sequence of calls changes OpenedInfo, ClosedInfo or InfoErr, and
    the operating system is not asked again. *)
Theorem information_settles report ops (w : world ConnSig) o :
  observer report -> locked w = false ->
  is_Some (ClosedInfo (st w)) \/ is_Some (InfoErr (st w)) ->
  exists w', run o (exec_all report ops) w = (Returned tt, w') /\
  OpenedInfo (st w') = OpenedInfo (st w) /\ ClosedInfo (st w') = ClosedInfo (st w) /\
  InfoErr (st w') = InfoErr (st w) /\ gathers (events w') = gathers (events w).
Proof.
  intros Hobs Hl Hset.
  destruct (wp_run _ _ _ o (exec_all_settled report ops w Hobs Hl Hset)) as ([] & w' & E & _ & H).
  exists w'. split; [done|]. destruct H as (? & ? & ? & _ & ?). done.
Qed.

(** when gathering failed and no ClosedInfo is there, every further call of
    Close reports Closed again: the information is gathered at most once, but
    the report is repeated. *)
Theorem failed_gather_repeats_report f ops (w : world ConnSig) o :
  observer (Some f) -> locked w = false -> is_Some (InfoErr (st w)) -> ClosedInfo (st w) = None ->
  exists w', run o (exec_all (Some f) ops) w = (Returned tt, w') /\
  reports (events w') = reports (events w) ++ replicate (close_count ops) Closed.
Proof.
  intros Hobs Hl He Hn.
  destruct (wp_run _ _ _ o (exec_all_settled_reports f ops w Hobs Hl (or_intror He)))
    as ([] & w' & E & k & Hr & Hall & Hs). exists w'. split; [done|].
  rewrite Hr. do 2 f_equal. apply Hall. destruct Hs as (_ & -> & _). done.
Qed.

(** C14: on a platform that keeps its promises, Warnings of a wrapped connection
    never panics and lists, in this order, the reconnects when positive and for
    the opened and then the closed information the retransmits when positive
    and the warnings of the platform. *)
Theorem Warnings_lists `{!PlatformOk P} (w : world ConnSig) o :
  ConnInv w ->
  exists ws w', run o Warnings w = (Returned (Val ws), w') /\ ConnInv w' /\
  elems ws = reconnect_line (Reconnects (st w)) ++
    info_lines (OpenedInfo (st w)) ++ info_lines (ClosedInfo (st w)).
Proof.
  intros HI. destruct (wp_run _ _ _ o (Warnings_inv w HI)) as (r & w' & E & -> & HI').
  destruct (warnings_of_lines w HI) as (ws & Hws & Hel). rewrite Hws in E. eauto 10.
Qed.

(** gatherAndReport must not be called while holding the lock, as the
    comment in Close says: on a TCP connection whose information is still to be
    gathered it waits for ever for the mutex. *)
Theorem gather_holding_lock_deadlocks f state (w : world ConnSig) (o : oracle ConnSig) :
  locked w = true -> state = Opened \/ state = Closed -> have_info state (st w) = false ->
  supportsTCPInfo (st w) = true -> InfoErr (st w) = None ->
  (forall t, o t AsTCPConn = true) -> (forall t, o t SyscallConn = None) ->
  fst (run o (gatherAndReport (Some f) state) w) = Deadlocked.
Proof.
  intros Hl Hst Hi Hs He H1 H2. unfold gatherAndReport, have_info in *.
  destruct Hst as [-> | ->]; simpl in *.
  all: destruct (OpenedInfo (st w)) eqn:?, (ClosedInfo (st w)) eqn:?; try done; simpl.
  all: rewrite Hs; simpl; rewrite He; simpl; rewrite H1; simpl; rewrite H2; simpl.
  all: destruct (o _ Control) as [err called]; fold (call_closure called);
    destruct (call_closure called); simpl; by rewrite Hl.
Qed.

(** C15: ToMap of a wrapped connection changes no field of it. It asks the inner
    connection for its two addresses; unless one of the two calls panics it
    returns a map that holds every statistic of the connection under its key,
    the two addresses, the texts of the errors and the maps of the informations
    exactly when they are there, and the same warnings as Warnings. *)
Theorem ToMap_shows `{!PlatformOk P} (w : world ConnSig) o :
  ConnInv w ->
  exists r w', run o ToMap w = (Returned r, w') /\ ConnInv w' /\ st w' = st w /\
  match r with
  | Val m => exists la ra ws,
      events w' = events w ++ [Asked (G := ConnSig) ConnLocalAddr (Val la);
                               Asked (G := ConnSig) ConnRemoteAddr (Val ra)] /\
      (forall k v, (k, v) ∈ always (st w) la ra ws -> m !! k = Some v) /\
      (forall k v, (k, v) ∈ optional (st w) -> m !! k = v) /\
      (forall k, is_Some (m !! k) -> k ∈ (always (st w) la ra ws).*1 ++ (optional (st w)).*1) /\
      elems ws = reconnect_line (Reconnects (st w)) ++
        info_lines (OpenedInfo (st w)) ++ info_lines (ClosedInfo (st w))
  | Panics =>
      last (events w') = Some (Asked (G := ConnSig) ConnLocalAddr Panics) \/
      last (events w') = Some (Asked (G := ConnSig) ConnRemoteAddr Panics)
  end.
Proof.
  intros HI. destruct (wp_run _ _ _ o (ToMap_inv w HI)) as (r & w' & E & HI' & Hst & H).
  destruct (warnings_of_lines w HI) as (ws' & E' & Hl).
  exists r, w'. split_and!; [done..|]. destruct r as [m|]; [|by destruct H as [H|H]; [congruence|]].
  destruct H as (la & ra & ws & Hws & -> & Hev).
  exists la, ra, ws. rewrite fields_map_table. split_and!; [done| | | |congruence].
  - intros k v. apply table_fixed, fields_map_keys.
  - intros k v. apply table_optional, fields_map_keys.
  - intros k [v Hv]. by eapply table_key.
Qed.

End theorems.

(** ** Evaluated examples *)

#[local] Existing Instance sample_platform.

Definition zero_conn : Conn SysInfo :=
  mkConn _ 0 0 0 0 0 0 0 0 None None None 0 None None false.

Definition sample_ops : list op := [ORead [0; 0; 0; 0; 0]; OWrite [1; 2]; OClose; OClose].

(** The world after the sample session, with the looking callback. *)
Definition sample_world : world ConnSig :=
  snd (run sample_oracle (session look_callback sample_ops) (fresh zero_conn)).

Lemma sample_world_closed : is_Some (ClosedInfo (st sample_world)).
Proof. vm_compute. eexists. reflexivity. Qed.

(** A connection on which gathering failed with EBADF. *)
Definition failed_world : world ConnSig :=
  mkWorld (G := ConnSig) (zero_conn <| supportsTCPInfo := true |> <| InfoErr := Some (Errno 9) |>) false [].

Lemma session_accounts_witness :
  let ops := OSetReconnects 3 :: sample_ops in
  let '(r, w) := run sample_oracle (session map_callback ops) (fresh zero_conn) in
  r = Returned tt /\ ConnInv w /\ RxBytes (st w) = 5 /\ TxBytes (st w) = 2 /\ Reconnects (st w) = 3 /\
  FirstRxAt (st w) = LastRxAt (st w) /\ reports (events w) = [Opened; Closed] /\
  length (infos Opened (events w)) = 1%nat /\ length (infos Closed (events w)) = 1%nat.
Proof.
  intros ops.
  destruct (session_accounts map_callback ops zero_conn sample_oracle map_callback_ok)
    as (w & E & HI).
  rewrite E. split; [done|]. split; [exact HI|].
  replace w with (snd (run sample_oracle (session map_callback ops) (fresh zero_conn)))
    by (by rewrite E).
  vm_compute. split_and!; reflexivity.
Defined.

Lemma Read_Write_transparent_witness :
  exists r w', run sample_oracle (Read [0; 0]) sample_world = (Returned r, w') /\ locked w' = false.
Proof.
  destruct (Read_Write_transparent [0; 0] sample_world sample_oracle) as [(r & w' & E & Hl & _) _];
    [reflexivity|].
  exists r, w'. split; [exact E|exact Hl].
Defined.

Lemma session_reports_witness :
  exists w k, run sample_oracle (session look_callback sample_ops) (fresh zero_conn) =
    (Returned tt, w) /\ reports (events w) = Opened :: replicate k Closed /\ k <> 0%nat.
Proof.
  destruct (session_reports _ sample_ops zero_conn sample_oracle look_callback_observer)
    as (w & k & E & Hr & _ & _ & Hk & _).
  exists w, k. split; [exact E|]. split; [exact Hr|]. apply Hk. discriminate.
Defined.

Lemma Close_reports_then_closes_witness :
  is_none (ClosedInfo (st sample_world)) = false /\
  exists r w' pre, run sample_oracle (Close look_callback) sample_world = (Returned r, w') /\
  reports pre = reports (events sample_world).
Proof.
  split; [vm_compute; reflexivity|].
  destruct (Close_reports_then_closes look_callback sample_world sample_oracle
    look_callback_observer) as (r & w' & pre & E & _ & _ & _ & H); [vm_compute; reflexivity|].
  exists r, w', pre. split; [exact E|]. rewrite H. vm_compute. reflexivity.
Defined.

Lemma information_settles_witness :
  exists w', run sample_oracle (exec_all look_callback sample_ops) sample_world = (Returned tt, w') /\
  gathers (events w') = gathers (events sample_world) /\ length (gathers (events w')) = 2%nat.
Proof.
  destruct (information_settles look_callback sample_ops sample_world sample_oracle
    look_callback_observer) as (w' & E & _ & _ & _ & H);
    [vm_compute; reflexivity|left; exact sample_world_closed|].
  exists w'. split; [exact E|]. split; [exact H|]. rewrite H. vm_compute. reflexivity.
Defined.

Lemma failed_gather_repeats_report_witness :
  exists w', run sample_oracle (exec_all look_callback sample_ops) failed_world = (Returned tt, w') /\
  reports (events w') = [Closed; Closed].
Proof.
  destruct (failed_gather_repeats_report _ sample_ops failed_world sample_oracle
    look_callback_observer) as (w' & E & H); [reflexivity|by eexists|reflexivity|].
  exists w'. split; [exact E|]. exact H.
Defined.

Lemma Warnings_lists_witness :
  let w := snd (run sample_oracle (session map_callback sample_ops) (fresh zero_conn)) in
  ConnInv w /\
  exists ws w', run sample_oracle Warnings w = (Returned (Val ws), w') /\
  elems ws = reconnect_line (Reconnects (st w)) ++
    info_lines (OpenedInfo (st w)) ++ info_lines (ClosedInfo (st w)).
Proof.
  intros w. assert (ConnInv w) as HI.
  { destruct (wp_run _ _ _ sample_oracle (session_inv map_callback sample_ops zero_conn
      map_callback_ok)) as (u & w1 & E & HI). unfold w. by rewrite E. }
  split; [exact HI|].
  destruct (Warnings_lists w sample_oracle HI) as (ws & w' & E & _ & H).
  exists ws, w'. split; [exact E|exact H].
Defined.

Lemma gather_holding_lock_deadlocks_witness :
  let w := mkWorld (G := ConnSig) (zero_conn <| supportsTCPInfo := true |>) true [] in
  fst (run sample_oracle (gatherAndReport look_callback Closed) w) = Deadlocked.
Proof.
  refine (gather_holding_lock_deadlocks _ Closed _ sample_oracle _ _ _ _ _ _ _);
    try reflexivity. by right.
Defined.

Lemma ToMap_shows_witness :
  let w := snd (run sample_oracle (session map_callback sample_ops) (fresh zero_conn)) in
  exists m, fst (run sample_oracle ToMap w) = Returned (Val m) /\
  m !! "rxBytes" = Some (AInt64 5) /\ m !! "rxErr" = None.
Proof.
  intros w. assert (ConnInv w) as HI.
  { destruct (wp_run _ _ _ sample_oracle (session_inv map_callback sample_ops zero_conn
      map_callback_ok)) as (u & w1 & E & HI). unfold w. by rewrite E. }
  destruct (ToMap_shows w sample_oracle HI) as (r & w' & E & _ & _ & H). rewrite E.
  assert (exists m, r = Val m) as [m ->].
  { assert (match fst (run sample_oracle ToMap w) with Returned (Val _) => true | _ => false end
      = true) as E' by (vm_compute; reflexivity).
    rewrite E in E'. destruct r; [by eexists|done]. }
  exists m. split; [reflexivity|]. destruct H as (la & ra & ws & _ & Ha & Ho & _).
  assert (RxBytes (st w) = 5 /\ RxErr (st w) = None) as [H5 HN] by (vm_compute; by split).
  split; [apply Ha|apply Ho].
  - unfold always. rewrite H5. rewrite !elem_of_cons. auto 20.
  - unfold optional. rewrite HN. apply list_elem_of_here.
Defined.
