(* ===== verification/ConnJson.v ===== *)
(** * wrap.go: the connection as JSON

    json.Marshal of a Conn, as cmd/get calls it: the struct tags of wrap.go, the
    informations through their own tags and methods, and the errors through
    reflection. The dynamic type of an error that is neither a syscall.Errno nor
    made by errors.New or fmt.Errorf is not known here, so its JSON value is the
    argument [other_json]. *)

From stdpp Require Import sorting.
From S2P Require Import InitLinux TcpInfoLinux TcpInfoLinuxReport OperatingSystem.
From S2P Require Import Prelude GoStrings GoUtf8 GoProg TcpInfo Json TcpInfoJson Wrap WrapProps WrapTheorems.

Section conn_json.
Context {P : Platform} `{EO : ErrnoOps}.

(** The JSON value of an error of another type, [None] when json fails on it. *)
Variable other_json : string -> option bool -> option json.

(** An Errno is a number; *errors.errorString and *fmt.wrapError have no exported
    fields, so they are empty objects. *)
Definition error_json (e : error) : option json :=
  match e with
  | Errno n => Some (JNum n)
  | NewError _ => Some (JObj [])
  | OtherError msg net => other_json msg net
  end.

(** The tagged fields in the order of the struct; txBytes and rxBytes are not
    tagged omitempty. *)
Definition Conn_fields (c : Conn SysInfo) (rxErr txErr infoErr openedInfo closedInfo : option json)
    : list (string * option json) := [
  ("openedAt", omit_zero (OpenedAt c));
  ("closedAt", omit_zero (ClosedAt c));
  ("firstRxAt", omit_zero (FirstRxAt c));
  ("firstTxAt", omit_zero (FirstTxAt c));
  ("lastRxAt", omit_zero (LastRxAt c));
  ("lastTxAt", omit_zero (LastTxAt c));
  ("txBytes", Some (JNum (TxBytes c)));
  ("rxBytes", Some (JNum (RxBytes c)));
  ("rxErr", rxErr);
  ("txErr", txErr);
  ("infoErr", infoErr);
  ("reconnects", omit_zero (Reconnects c));
  ("openedInfo", openedInfo);
  ("closedInfo", closedInfo)
].

Definition Conn_json (c : Conn SysInfo) : option json :=
  rxErr ← omit_nil error_json (RxErr c);
  txErr ← omit_nil error_json (TxErr c);
  infoErr ← omit_nil error_json (InfoErr c);
  openedInfo ← omit_nil Info_json (OpenedInfo c);
  closedInfo ← omit_nil Info_json (ClosedInfo c);
  Some (object (Conn_fields c rxErr txErr infoErr openedInfo closedInfo)).

(** json.Marshal(c) *)
Definition Conn_Marshal (c : Conn SysInfo) : option string := print <$> Conn_json c.

(** ** Specification *)

Definition conn_numbers (c : Conn SysInfo) : list (string * Z) := [
  ("openedAt", OpenedAt c); ("closedAt", ClosedAt c); ("firstRxAt", FirstRxAt c);
  ("firstTxAt", FirstTxAt c); ("lastRxAt", LastRxAt c); ("lastTxAt", LastTxAt c);
  ("txBytes", TxBytes c); ("rxBytes", RxBytes c); ("reconnects", Reconnects c)
].

Definition conn_errors (c : Conn SysInfo) : list (string * option error) :=
  [("rxErr", RxErr c); ("txErr", TxErr c); ("infoErr", InfoErr c)].

Definition conn_infos (c : Conn SysInfo) : list (string * option (Info SysInfo)) :=
  [("openedInfo", OpenedInfo c); ("closedInfo", ClosedInfo c)].

(** A member that is there exactly when the pointer is not nil, and then
    satisfies [R]. *)
Definition shown {A : Type} (R : A -> json -> Prop) (x : option A) (m : option json) : Prop :=
  match x, m with
  | Some a, Some j => R a j
  | None, None => True
  | _, _ => False
  end.

(** What is read back of an error: the JSON value of its dynamic type. *)
Definition shows_error (e : error) (j : json) : Prop := exists je, error_json e = Some je /\ j = utf8_json je.

Definition shows_conn (c : Conn SysInfo) (j : json) : Prop :=
  Forall (fun kz => number_at j kz.1 = kz.2) (conn_numbers c) /\
  Forall (fun ke => shown shows_error ke.2 (member j ke.1)) (conn_errors c) /\
  Forall (fun ki => shown shows_info ki.2 (member j ki.1)) (conn_infos c).

(** An error that json can write. *)
Definition writable (e : option error) : Prop := forall x, e = Some x -> is_Some (error_json x).

(** ** Lemmas *)

Lemma omit_nil_Some {A : Type} (f : A -> option json) (R : A -> json -> Prop) p :
  (forall x, p = Some x -> exists j, f x = Some j /\ R x (utf8_json j)) ->
  exists o, omit_nil f p = Some o /\ shown R p (utf8_json <$> o).
Proof.
  intros H. destruct p as [x|]; [|by exists None]. destruct (H x eq_refl) as (j & E & HR).
  exists (Some j). simpl. by rewrite E.
Qed.

Lemma writable_shown e :
  writable e -> exists o, omit_nil error_json e = Some o /\ shown shows_error e (utf8_json <$> o).
Proof.
  intros H. apply omit_nil_Some. intros x Hx. destruct (H x Hx) as [j Hj]. exists j. split; [done|]. by exists j.
Qed.

Lemma from_gather_shown `{!PlatformJson P} (i : option (Info SysInfo)) (t : trace) :
  from_gather i t -> exists o, omit_nil Info_json i = Some o /\ shown shows_info i (utf8_json <$> o).
Proof.
  intros H. apply omit_nil_Some. intros info Hi. destruct (H info Hi) as (g & s & _ & Hg & ->).
  apply Info_json_reported. destruct g as [[e|] [a|]]; simpl in Hg; try done.
  destruct (GetTCPInfo a) as [s' [e|]] eqn:E; simplify_eq. by exists a, None.
Qed.

Lemma number_always k z (fields : list (string * option json)) :
  good_keys fields -> (k, Some (JNum z)) ∈ fields -> number_at (utf8_json (object fields)) k = z.
Proof. intros Hg Hin. unfold number_at. by rewrite (member_present k _ _ Hg Hin). Qed.

Lemma member_shown {A : Type} (R : A -> json -> Prop) x k o (fields : list (string * option json)) :
  good_keys fields -> (k, o) ∈ fields -> shown R x (utf8_json <$> o) ->
  shown R x (member (utf8_json (object fields)) k).
Proof. intros Hg Hin. by rewrite (member_present k _ _ Hg Hin). Qed.

Lemma Conn_fields_keys c rxErr txErr infoErr openedInfo closedInfo :
  good_keys (Conn_fields c rxErr txErr infoErr openedInfo closedInfo).
Proof. split; by apply (bool_decide_unpack _); vm_compute. Qed.

Lemma Conn_json_shows `{!PlatformJson P} (c : Conn SysInfo) (t : trace) :
  from_gather (OpenedInfo c) t -> from_gather (ClosedInfo c) t ->
  writable (RxErr c) -> writable (TxErr c) -> writable (InfoErr c) ->
  exists j, Conn_json c = Some j /\ shows_conn c (utf8_json j).
Proof.
  intros (oi & Hoi & Soi)%from_gather_shown (ci & Hci & Sci)%from_gather_shown.
  intros (re & Hre & Sre)%writable_shown (te & Hte & Ste)%writable_shown (ie & Hie & Sie)%writable_shown.
  unfold Conn_json. rewrite Hoi, Hci, Hre, Hte, Hie. eexists. split; [reflexivity|].
  pose proof (Conn_fields_keys c re te ie oi ci) as Hnd.
  unfold shows_conn. split_and!.
  - repeat (apply Forall_cons; split;
      [first [apply number_present; [done|]; in_list | apply number_always; [done|]; in_list]|]).
    apply Forall_nil_2.
  - repeat (apply Forall_cons; split; [eapply member_shown; [done| |eassumption]; in_list|]). apply Forall_nil_2.
  - repeat (apply Forall_cons; split; [eapply member_shown; [done| |eassumption]; in_list|]). apply Forall_nil_2.
Qed.

(** ** Properties *)

(** *** The objects of the maps *)

(** An object with sorted keys and exactly these members. *)
Definition is_object (members : list (string * option json)) (j : json) : Prop :=
  exists l, j = JObj l /\ StronglySorted key_le l /\
  forall k v, (k, v) ∈ l <-> (k, Some v) ∈ members.

Definition text_json (s : string) : json := JStr (utf8 s).

Definition texts_json (l : slice string) : json :=
  match l with None => JNull | Some l => JArr (text_json <$> l) end.

Definition options_json (l : slice Option) : json :=
  match l with None => JNull | Some l => JArr ((JStr ∘ Option_String) <$> l) end.

(** The members of an Info in the map of its connection. *)
Definition info_members (i : Info SysInfo) : list (string * option json) := [
  ("state", Some (text_json (State i)));
  ("txOptions", Some (options_json (TxOptions i)));
  ("rxOptions", Some (options_json (RxOptions i)));
  ("txMSS", Some (JNum (TxMSS i)));
  ("rxMSS", Some (JNum (RxMSS i)));
  ("rtt", Some (JNum (RTT i)));
  ("rttVar", Some (JNum (RTTVar i)));
  ("rto", Some (JNum (RTO i)));
  ("ato", Some (JNum (ATO i)));
  ("lastTxAt", Some (JNum (TcpInfo.LastTxAt i)));
  ("lastRxAt", Some (JNum (TcpInfo.LastRxAt i)));
  ("lastTxAckAt", Some (JNum (LastTxAckAt i)));
  ("lastRxAckAt", Some (JNum (LastRxAckAt i)));
  ("rxWindow", Some (JNum (RxWindow i)));
  ("txSSThreshold", Some (JNum (TxSSThreshold i)));
  ("rxSSThreshold", Some (JNum (RxSSThreshold i)));
  ("txCWindowBytes", Some (JNum (TxWindowBytes i)));
  ("txCWindowSegs", Some (JNum (TxWindowSegs i)));
  ("retransmits", Some (JNum (Retransmits i)));
  ("sysInfo", utf8_json <$> (Sys i ≫= SysInfo_json))
].

(** The members of a connection; an error is shown by its text. *)
Definition conn_members (c : Conn SysInfo) (la ra : string) (ws : slice string)
    (openedInfo closedInfo : option json) : list (string * option json) := [
  ("openedAt", Some (JNum (OpenedAt c)));
  ("closedAt", Some (JNum (ClosedAt c)));
  ("firstRxAt", Some (JNum (FirstRxAt c)));
  ("firstTxAt", Some (JNum (FirstTxAt c)));
  ("lastRxAt", Some (JNum (LastRxAt c)));
  ("lastTxAt", Some (JNum (LastTxAt c)));
  ("txBytes", Some (JNum (TxBytes c)));
  ("rxBytes", Some (JNum (RxBytes c)));
  ("reconnects", Some (JNum (Reconnects c)));
  ("localAddr", Some (text_json la));
  ("remoteAddr", Some (text_json ra));
  ("warnings", Some (texts_json ws));
  ("rxErr", (text_json ∘ error_Error) <$> RxErr c);
  ("txErr", (text_json ∘ error_Error) <$> TxErr c);
  ("infoErr", (text_json ∘ error_Error) <$> InfoErr c);
  ("openedInfo", openedInfo);
  ("closedInfo", closedInfo)
].

(** What is read back of a value. *)
Definition read_json (v : any) : option json := utf8_json <$> to_json v.

(** The object of a table: its members are the values of its entries. *)
Lemma table_object fixed opts :
  NoDup (fixed.*1 ++ opts.*1) -> Forall (fun k => utf8 k = k) (fixed.*1 ++ opts.*1) ->
  Forall (fun e => forall v, e.2 = Some v -> is_Some (to_json v)) (entries fixed opts) ->
  exists j, to_json (AMap (foldl put_entry (list_to_map fixed) opts)) = Some j /\
    is_object ((fun e => (e.1, e.2 ≫= read_json)) <$> entries fixed opts) (utf8_json j).
Proof.
  intros Hnd Hk Hw. set (m := foldl put_entry (list_to_map fixed) opts).
  assert (forall k v, m !! k = Some v <-> (k, Some v) ∈ entries fixed opts) as Hm.
  { intros k v. split; [apply table_entry|]. unfold entries. intros [Hin|Hin]%elem_of_app.
    - apply list_elem_of_fmap in Hin as ([k' v'] & [= -> ->] & Hin). by apply table_fixed.
    - by apply table_optional. }
  destruct (to_json_AMap_Some m) as (l & El & Hl).
  { intros k v Hv%Hm. rewrite Forall_forall in Hw. by apply (Hw (k, Some v)). }
  assert (utf8_keys m) as Hkeys by by apply table_utf8_keys.
  exists (JObj l). split; [done|]. exists (utf8_members l). split; [done|].
  split; [by eapply utf8_members_sorted|]. intros k j. rewrite (utf8_AMap_members m l Hkeys El).
  rewrite list_elem_of_fmap. split.
  - intros (v & jv & Hv%Hm & Hj & ->). exists (k, Some v). split; [|done]. simpl. unfold read_json. by rewrite Hj.
  - intros ([k' o] & E & Hin). simpl in E. destruct o as [v|]; [|done]. simpl in E. unfold read_json in E.
    destruct (to_json v) as [jv|] eqn:Hj; [|done]. injection E as -> ->. exists v, jv.
    split; [by apply Hm|done].
Qed.

Lemma read_options_json o : Forall option_ok (elems o) -> read_json (AOptions o) = Some (options_json o).
Proof.
  intros Ho. destruct o as [l|]; [|done]. unfold read_json. simpl in *. rewrite options_json_ok by done.
  simpl. by rewrite utf8_options.
Qed.

Lemma read_texts_json ws : read_json (AStrings ws) = Some (texts_json ws).
Proof.
  destruct ws as [l|]; [|done]. unfold read_json. simpl. do 2 f_equal.
  induction l as [|s l IH]; [done|]. simpl. by f_equal.
Qed.

(** Info.ToMap as a table. *)
Definition info_fixed (i : Info SysInfo) : list (string * any) := [
  ("state", AString (State i)); ("txOptions", AOptions (TxOptions i)); ("rxOptions", AOptions (RxOptions i));
  ("txMSS", AUint64 (TxMSS i)); ("rxMSS", AUint64 (RxMSS i)); ("rtt", ADuration (RTT i));
  ("rttVar", ADuration (RTTVar i)); ("rto", ADuration (RTO i)); ("ato", ADuration (ATO i));
  ("lastTxAt", ADuration (TcpInfo.LastTxAt i)); ("lastRxAt", ADuration (TcpInfo.LastRxAt i));
  ("lastTxAckAt", ADuration (LastTxAckAt i)); ("lastRxAckAt", ADuration (LastRxAckAt i));
  ("rxWindow", AUint64 (RxWindow i)); ("txSSThreshold", AUint64 (TxSSThreshold i));
  ("rxSSThreshold", AUint64 (RxSSThreshold i)); ("txCWindowBytes", AUint64 (TxWindowBytes i));
  ("txCWindowSegs", AUint64 (TxWindowSegs i)); ("retransmits", AUint64 (Retransmits i))
].

Lemma Info_ToMap_table i :
  Info_ToMap SysInfo_ToMap i =
    foldl put_entry (list_to_map (info_fixed i)) [("sysInfo", (AMap ∘ SysInfo_ToMap) <$> Sys i)].
Proof. unfold Info_ToMap. by destruct (Sys i). Qed.

(** Every entry of a table that is written out can be written. *)
Ltac writable_entries tac :=
  unfold entries; cbn [fmap list_fmap app fst snd];
  repeat (apply Forall_cons; split; [intros v Hv; cbn [fst snd] in Hv; tac v Hv|]); apply Forall_nil_2.

Lemma Info_object `{!PlatformJson P} s :
  reported s ->
  exists j, to_json (AMap (Info_ToMap SysInfo_ToMap (ToInfo s))) = Some j /\
    is_object (info_members (ToInfo s)) (utf8_json j).
Proof.
  intros Hs. destruct (SysInfo_json_object s Hs) as (l & El & _).
  destruct Hs as (a & e & Ha). destruct (ToInfo_options a s e Ha) as [Ht Hr].
  assert (forall v, (AMap ∘ SysInfo_ToMap) <$> Sys (ToInfo s) = Some v -> is_Some (to_json v)) as Hsys.
  { intros v. destruct (ToInfo_own s) as [-> | ->]; [|done]. intros [= <-]. by exists (JObj l). }
  rewrite Info_ToMap_table.
  destruct (table_object (info_fixed (ToInfo s)) [("sysInfo", (AMap ∘ SysInfo_ToMap) <$> Sys (ToInfo s))])
    as (j & Ej & Hj).
  - by apply (bool_decide_unpack _); vm_compute.
  - repeat (constructor; [reflexivity|]). constructor.
  - writable_entries ltac:(fun v Hv => first
      [ injection Hv as <-; first [by eexists | by apply to_json_flat, flat_options] | by apply Hsys ]).
  - exists j. split; [done|]. revert Hj. unfold info_fixed, info_members, entries.
    cbn [fmap list_fmap app fst snd mbind option_bind]. rewrite !read_options_json by done.
    assert (((AMap ∘ SysInfo_ToMap) <$> Sys (ToInfo s)) ≫= read_json =
      utf8_json <$> (Sys (ToInfo s) ≫= SysInfo_json)) as <- by (by destruct (Sys (ToInfo s))). done.
Qed.

Lemma from_gather_object `{!PlatformJson P} (i : option (Info SysInfo)) (t : trace) :
  from_gather i t ->
  let entry := (AMap ∘ Info_ToMap SysInfo_ToMap) <$> i in
  (forall v, entry = Some v -> is_Some (to_json v)) /\
  shown (fun i => is_object (info_members i)) i (entry ≫= read_json).
Proof.
  intros H entry. destruct i as [info|]; [|done]. destruct (H info eq_refl) as (g & s & _ & Hg & ->).
  destruct (Info_object s) as (j & Ej & Hj).
  { destruct g as [[e|] [a|]]; simpl in Hg; try done.
    destruct (GetTCPInfo a) as [s' [e|]] eqn:E; simplify_eq. by exists a, None. }
  split; [intros v [= <-]; by eexists|]. unfold entry. cbn [fmap option_fmap option_map mbind option_bind compose].
  unfold read_json. by rewrite Ej.
Qed.

Lemma Conn_object `{!PlatformJson P} (c : Conn SysInfo) (t : trace) la ra ws :
  from_gather (OpenedInfo c) t -> from_gather (ClosedInfo c) t ->
  exists j jo jc, to_json (AMap (fields_map c la ra ws)) = Some j /\
    shown (fun i => is_object (info_members i)) (OpenedInfo c) jo /\
    shown (fun i => is_object (info_members i)) (ClosedInfo c) jc /\
    is_object (conn_members c la ra ws jo jc) (utf8_json j).
Proof.
  intros [Wo Ho]%from_gather_object [Wc Hc]%from_gather_object. rewrite fields_map_table.
  destruct (table_object (always c la ra ws) (optional c)) as (j & Ej & Hj).
  - apply fields_map_keys.
  - repeat (constructor; [reflexivity|]). constructor.
  - unfold optional, always. writable_entries ltac:(fun v Hv => first
      [ by apply Wo | by apply Wc | injection Hv as <-; by destruct ws; eexists
      | apply fmap_Some in Hv as (e & _ & ->); by eexists ]).
  - exists j. eexists _, _. split; [done|]. split; [exact Ho|]. split; [exact Hc|].
    revert Hj. unfold always, optional, conn_members, entries.
    cbn [fmap list_fmap app fst snd mbind option_bind]. rewrite read_texts_json.
    assert (forall e : option error, ((AString ∘ error_Error) <$> e) ≫= read_json = (text_json ∘ error_Error) <$> e)
      as He by by intros [e|].
    rewrite !He. done.
Qed.

(** C16: the diagnostics cmd/httpstat prints. Unless an address method of the
    inner connection panics, json.MarshalIndent of the map ToMap returns
    succeeds, and the text reads back as an object with sorted keys and exactly
    these members: the times, counters and reconnects as numbers, the
    addresses, the warnings, the texts of the errors that are set, and for each
    information that is there an object of its own with exactly its fields and
    the JSON of its SysInfo. *)
Theorem ToMap_MarshalIndent `{!PlatformOk P} `{!PlatformJson P} (w : world ConnSig) o :
  ConnInv w ->
  exists r w', run o ToMap w = (Returned r, w') /\
  match r with
  | Val m => exists la ra ws s j jo jc,
      events w' = events w ++ [Asked (G := ConnSig) ConnLocalAddr (Val la);
                               Asked (G := ConnSig) ConnRemoteAddr (Val ra)] /\
      elems ws = reconnect_line (Reconnects (st w)) ++
        info_lines (OpenedInfo (st w)) ++ info_lines (ClosedInfo (st w)) /\
      MarshalIndent (AMap m) = Some s /\ parse s = Some j /\
      shown (fun i => is_object (info_members i)) (OpenedInfo (st w)) jo /\
      shown (fun i => is_object (info_members i)) (ClosedInfo (st w)) jc /\
      is_object (conn_members (st w) la ra ws jo jc) j
  | Panics =>
      last (events w') = Some (Asked (G := ConnSig) ConnLocalAddr Panics) \/
      last (events w') = Some (Asked (G := ConnSig) ConnRemoteAddr Panics)
  end.
Proof.
  intros HI. destruct (wp_run _ _ _ o (ToMap_inv w HI)) as (r & w' & E & _ & _ & H).
  destruct (warnings_of_lines w HI) as (ws' & Ews & Hl).
  exists r, w'. split; [done|]. destruct r as [m|]; [|by destruct H as [H|H]; [congruence|]].
  destruct H as (la & ra & ws & Hws & -> & Hev).
  destruct (Conn_object (st w) (events w) la ra ws (inv_opened_info w HI) (inv_closed_info w HI))
    as (j & jo & jc & Ej & Ho & Hc & Hj).
  exists la, ra, ws, (print_indent 0 j), (utf8_json j), jo, jc. unfold MarshalIndent. rewrite Ej.
  split_and!; try done; [congruence|apply parse_print_indent].
Qed.

(** json.Marshal of a wrapped connection. On a connection as a session
    leaves it, with errors that can be written, it succeeds; reading the text
    back gives every counter and time (an omitted one is zero), a member for
    an error or an information exactly when it is there, and in the member of
    an information its state, options and numbers, and its SysInfo. *)
Theorem Conn_Marshal_shows `{!PlatformJson P} (w : world ConnSig) :
  ConnInv w -> writable (RxErr (st w)) -> writable (TxErr (st w)) -> writable (InfoErr (st w)) ->
  exists s j, Conn_Marshal (st w) = Some s /\ parse s = Some j /\ shows_conn (st w) j.
Proof.
  intros HI H1 H2 H3. pose proof (inv_opened_info w HI) as Ho. pose proof (inv_closed_info w HI) as Hc.
  destruct (Conn_json_shows (st w) (events w) Ho Hc H1 H2 H3) as (j & E & Hs).
  exists (print j), (utf8_json j). unfold Conn_Marshal. rewrite E. split_and!; [done|apply parse_print|done].
Qed.

End conn_json.

#[local] Existing Instance sample_platform.
#[local] Existing Instance linux_errno.

Lemma Conn_Marshal_shows_witness :
  let w := snd (run sample_oracle (session map_callback sample_ops) (fresh zero_conn)) in
  exists s j, Conn_Marshal (fun _ _ => None) (st w) = Some s /\ parse s = Some j /\
    number_at j "rxBytes" = 5 /\ member j "rxErr" = None.
Proof.
  intros w. assert (ConnInv w) as HI.
  { destruct (wp_run _ _ _ sample_oracle (session_inv map_callback sample_ops zero_conn
      map_callback_ok)) as (u & w1 & E & HI). unfold w. by rewrite E. }
  assert (RxBytes (st w) = 5 /\ RxErr (st w) = None /\ TxErr (st w) = None /\ InfoErr (st w) = None)
    as (H5 & HR & HT & HE) by (vm_compute; split_and!; reflexivity).
  clearbody w. destruct (Conn_Marshal_shows (P := sample_platform) (fun _ _ => None) w HI)
    as (s & j & Hs & Hj & Hn & He & _); [intros x E; congruence..|].
  exists s, j. split; [exact Hs|]. split; [exact Hj|].
  rewrite Forall_forall in Hn. rewrite Forall_forall in He. split.
  - rewrite <- H5. apply (Hn ("rxBytes", RxBytes (st w))). in_list.
  - specialize (He ("rxErr", RxErr (st w)) ltac:(in_list)). unfold shown in He.
    cbn [fst snd] in He. change (RxErr ?x) with (RxErr (st w)) in He. rewrite HR in He.
    by destruct (member j "rxErr").
Defined.

(** The replies of LocalAddr. *)
Definition local_addr : event ConnSig -> option string :=
  of_call (fun q => match q return reply q -> _ with ConnLocalAddr => of_go | _ => fun _ => None end).

Lemma ToMap_MarshalIndent_witness :
  let w := snd (run sample_oracle (session map_callback sample_ops) (fresh zero_conn)) in
  exists m s j, fst (run sample_oracle ToMap w) = Returned (Val m) /\
    MarshalIndent (AMap m) = Some s /\ parse s = Some j /\
    exists l, j = JObj l /\ ("rxBytes", JNum 5) ∈ l /\ ("localAddr", JStr "127.0.0.1:1") ∈ l.
Proof.
  intros w. assert (ConnInv w) as HI.
  { destruct (wp_run _ _ _ sample_oracle (session_inv map_callback sample_ops zero_conn
      map_callback_ok)) as (u & w1 & E & HI). unfold w. by rewrite E. }
  assert (RxBytes (st w) = 5) as H5 by (vm_compute; reflexivity).
  assert (match fst (run sample_oracle ToMap w) with Returned (Val _) => true | _ => false end = true)
    as Hv by (vm_compute; reflexivity).
  assert (omap local_addr (drop (length (events w)) (events (snd (run sample_oracle ToMap w)))) =
    ["127.0.0.1:1"]) as Hla by (vm_compute; reflexivity).
  clearbody w. destruct (ToMap_MarshalIndent (P := sample_platform) w sample_oracle HI) as (r & w' & E & H).
  rewrite E in *. destruct r as [m|]; [|discriminate Hv].
  destruct H as (la & ra & ws & s & j & jo & jc & Hev & _ & Hs & Hp & _ & _ & (l & -> & _ & Hl)).
  assert (la = "127.0.0.1:1") as ->.
  { cbn [snd] in Hla. rewrite Hev, drop_app_length in Hla. by injection Hla. }
  exists m, s, (JObj l). split; [reflexivity|]. split; [exact Hs|]. split; [exact Hp|].
  exists l. split; [reflexivity|]. split; apply Hl.
  - rewrite <- H5. unfold conn_members. in_list.
  - unfold conn_members. in_list.
Defined.
