(* ===== verification/ConnConcurrency.v ===== *)
(** * wrap.go: a connection shared by several goroutines

    The methods of Wrap.v under the interleaving semantics of GoConc.v, after
    the constructor returned: the mutex keeps the byte counters exact, the
    clock is read once per successful transfer, no execution deadlocks or runs for ever; and the guard of gatherAndReport,
    which is read without the mutex, does not make the report unique. *)

From S2P Require Import KernelVersion InitLinux TcpInfoLinux TcpInfoLinuxReport.
From S2P Require Import Prelude GoStrings GoProg GoConc TcpInfo Wrap WrapProps WrapTheorems.

Section concurrency.
Context `{P : Platform} `{EO : ErrnoOps}.

(** The counters are int64. *)
Definition counters_ok (c : Conn SysInfo) : Prop := sint 64 (RxBytes c) /\ sint 64 (TxBytes c).

(** The transfers of one direction and the use of the clock for them. *)
Definition transfers (rx : bool) : trace -> list (Z * option error) := if rx then reads else writes.

Definition transfer_use (rx : bool) : clock_use := if rx then AtRx else AtTx.

(** What is kept in balance: the byte counter of a direction with the counts of
    its transfers, and the readings of the clock with its successful transfers,
    modulo any number. *)
Inductive ledger : Type :=
| Bytes (rx : bool)
| Readings (rx : bool) (m : positive).

Definition modulus (l : ledger) : Z := match l with Bytes _ => 2 ^ 64 | Readings _ m => Zpos m end.

Definition side_bytes (l : ledger) (c : Conn SysInfo) : Z :=
  match l with Bytes rx => if rx then RxBytes c else TxBytes c | Readings _ _ => 0 end.

Definition success (r : Z * option error) : Z := if successful r then 1 else 0.

Definition side_amount (l : ledger) (e : event ConnSig) : Z :=
  match l with
  | Bytes rx => sumZ (fst <$> transfers rx [e])
  | Readings rx _ => Z.of_nat (length (times (transfer_use rx) [e])) - sumZ (success <$> transfers rx [e])
  end.

Definition rg_conn (l : ledger) {A : Type} :
    prog ConnSig A -> (A -> option (Conn SysInfo) -> Z -> Prop) -> option (Conn SysInfo) -> Z -> Prop :=
  rg (G := ConnSig) counters_ok (side_bytes l) (side_amount l).

(** A program that starts and ends without the mutex and whose writes account
    for the transfers it made. *)
Definition calm {A : Type} (p : prog ConnSig A) : Prop :=
  forall l d, rg_conn l p (fun _ h d' => h = None /\ (d' - d) mod modulus l = 0) None d.

Lemma modulus_pos l : 0 < modulus l.
Proof. by destruct l. Qed.

Definition calm_callback (report : option (Z -> M unit)) : Prop :=
  forall f s, report = Some f -> calm (f s).

Lemma calm_Ret {A : Type} (a : A) : calm (Ret a).
Proof. intros l d. simpl. rewrite Z.sub_diag. pose proof (modulus_pos l). by rewrite Z.mod_0_l by lia. Qed.

Lemma mod_add_0 x y m : 0 < m -> x mod m = 0 -> y mod m = 0 -> (x + y) mod m = 0.
Proof. intros Hm Hx Hy. rewrite Z.add_mod, Hx, Hy by lia. apply Z.mod_0_l. lia. Qed.

Lemma calm_bind {A B : Type} (p : prog ConnSig A) (f : A -> prog ConnSig B) :
  calm p -> (forall a, calm (f a)) -> calm (pbind p f).
Proof.
  intros Hp Hf l d. unfold rg_conn. rewrite rg_bind. eapply rg_mono; [|apply Hp].
  intros a h d' [-> Hd]. eapply rg_mono; [|apply Hf]. intros b h d'' [-> Hd']. split; [done|].
  replace (d'' - d) with ((d'' - d') + (d' - d)) by lia. apply mod_add_0; [apply modulus_pos|done..].
Qed.

Lemma calm_gbind {A B : Type} (p : M A) (f : A -> M B) :
  calm p -> (forall a, calm (f a)) -> calm (gbind p f).
Proof. intros Hp Hf. apply calm_bind; [done|]. intros [a|]; [apply Hf|apply calm_Ret]. Qed.

Lemma wrap_s_mod x : (wrap_s 64 x - x) mod 2 ^ 64 = 0.
Proof.
  unfold wrap_s. set (h := 2 ^ (64 - 1)). set (m := 2 ^ 64).
  replace ((x + h) mod m - h - x) with (- (m * ((x + h) / m))).
  - rewrite Z.mul_comm, <- Z.mul_opp_l. apply Z.mod_mul. done.
  - rewrite (Z.mod_eq (x + h) m) by done. lia.
Qed.

Lemma counter_mod x n : (wrap_s 64 (x + wrap_s 64 n) - x - n) mod 2 ^ 64 = 0.
Proof.
  replace (wrap_s 64 (x + wrap_s 64 n) - x - n)
    with ((wrap_s 64 (x + wrap_s 64 n) - (x + wrap_s 64 n)) + (wrap_s 64 n - n)) by lia.
  apply mod_add_0; [done|apply wrap_s_mod..].
Qed.

Lemma mod_0_opp x m : 0 < m -> x mod m = 0 -> (- x) mod m = 0.
Proof. intros Hm Hx. rewrite Z.mod_opp_l_z; lia. Qed.

(** Close the obligations of a method whose writes are given: the counters stay
    in range, and what was owed is paid. *)
Ltac pay l :=
  destruct l as [[]|[] m];
  unfold counters_ok, side_bytes, side_amount, modulus, transfers, transfer_use, success, successful in *;
  simpl in *;
  repeat match goal with
  | H : _ /\ _ |- _ => destruct H
  | H : ?b = true |- context [if ?b then _ else _] => rewrite H
  | H : ?b = false |- context [if ?b then _ else _] => rewrite H
  | |- _ /\ _ => split
  | |- sint 64 (wrap_s 64 _) => apply wrap_s_range; lia
  | |- None = None => reflexivity
  | |- is_Some (Some _) => by eexists
  | |- sint 64 _ => assumption
  | |- (?e) mod 2 ^ 64 = 0 =>
      match e with context [wrap_s 64 (?x + wrap_s 64 ?n)] =>
        replace e with (- (wrap_s 64 (x + wrap_s 64 n) - x - n)) by lia;
        apply mod_0_opp; [lia|apply counter_mod]
      end
  | |- (?e) mod _ = 0 => replace e with 0 by lia; apply Z.mod_0_l; lia
  end.

Lemma Read_calm b : calm (Read b).
Proof.
  intros l d. unfold Read, with_lock, deferring, gbind. simpl.
  intros [[n err]|]; simpl; [|pay l].
  split; [done|]. intros s Hs.
  destruct (is_none err && (0 <? n)) eqn:Hok; simpl; [intros ts; destruct (FirstRxAt s =? 0)|].
  all: case_bool_decide; simpl; pay l.
Qed.

Lemma Write_calm b : calm (Write b).
Proof.
  intros l d. unfold Write, with_lock, deferring, gbind. simpl.
  intros [[n err]|]; simpl; [|pay l].
  split; [done|]. intros s Hs.
  destruct (is_none err && (0 <? n)) eqn:Hok; simpl; [intros ts; destruct (FirstTxAt s =? 0)|].
  all: case_bool_decide; simpl; pay l.
Qed.

Lemma SetReconnects_calm n : calm (SetReconnects n).
Proof. intros l d. simpl. split; [done|]. intros s Hs. pay l. Qed.

Lemma emit_calm e : calm (emit (G := ConnSig) e).
Proof. intros l d. simpl. pay l. Qed.

Lemma load_calm {A : Type} (f : Conn SysInfo -> A) : calm (load (G := ConnSig) f).
Proof. intros l d. simpl. intros s _. by rewrite Z.sub_diag. Qed.

Lemma deferring_calm {A : Type} cleanup (body : M A) :
  calm cleanup -> calm body -> calm (deferring cleanup body).
Proof.
  intros Hc Hb. apply calm_bind; [done|]. intros r. apply calm_bind; [done|]. intros r'.
  apply calm_Ret.
Qed.

Lemma if_calm {A : Type} (b : bool) (p q : prog ConnSig A) : calm p -> calm q -> calm (if b then p else q).
Proof. by destruct b. Qed.

Lemma locked_load_calm {A : Type} (f : Conn SysInfo -> A) :
  calm (with_lock (load (G := ConnSig) f)).
Proof. intros l d. simpl. split; [done|]. intros c Hc. pay l. Qed.

(** A call that is no transfer. *)
Lemma ask_calm q :
  (forall rx r, side_amount rx (Asked (G := ConnSig) q r) = 0) -> calm (ask (G := ConnSig) q).
Proof.
  intros Hq l d. simpl. intros r. rewrite Hq, Z.add_0_r, Z.sub_diag. done.
Qed.

Lemma gather_calm state : calm (gather state).
Proof.
  unfold gather. apply calm_gbind; [apply load_calm|]. intros supports. apply calm_gbind.
  { apply if_calm; [apply calm_Ret|]. apply calm_gbind; [apply load_calm|]. intros. apply calm_Ret. }
  intros stop. apply if_calm; [apply calm_Ret|].
  apply calm_gbind; [apply ask_calm; by intros [[]|[] m]|]. intros ok. apply if_calm; [apply calm_Ret|].
  apply calm_gbind; [apply ask_calm; by intros [[]|[] m]|]. intros e. apply if_calm; [apply calm_Ret|].
  apply calm_gbind; [apply ask_calm; by intros [[]|[] m]|]. intros [err called].
  destruct (match called with Some _ => _ | None => _ end) as [si te].
  intros l d. simpl. split; [done|]. intros s Hs.
  destruct err as [e'|]; [|destruct te as [e'|]; [|destruct si as [i|]]];
    [| |destruct (state =? Opened)|]; simpl; pay l.
Qed.

Lemma gatherAndReport_calm report state : calm_callback report -> calm (gatherAndReport report state).
Proof.
  intros Hcb. unfold gatherAndReport. destruct report as [f|]; [|apply calm_Ret].
  assert (calm (deferring (call_report f state) (gather state))) as Hgo.
  { apply deferring_calm; [|apply gather_calm]. apply calm_gbind; [apply emit_calm|].
    intros _. by apply Hcb. }
  apply if_calm; [apply calm_Ret|]. apply calm_gbind.
  - apply if_calm; [|apply calm_Ret]. apply calm_gbind; [apply load_calm|]. intros i. apply calm_Ret.
  - intros have. apply if_calm; [apply calm_Ret|]. apply calm_gbind.
    + apply if_calm; [|apply calm_Ret]. apply calm_gbind; [apply load_calm|]. intros i.
      apply calm_Ret.
    + intros have'. apply if_calm; [apply calm_Ret|done].
Qed.

(** The body of Close after the mutex is released. *)
Lemma Close_calm report : calm_callback report -> calm (Close report).
Proof.
  intros Hcb l d. simpl. split; [done|]. intros s Hs ts.
  split; [pay l|]. split; [by eexists|].
  match goal with |- rg_conn _ ?p _ _ ?d' =>
    assert (calm p) as Hp; [|assert ((d' - d) mod modulus l = 0) as Hd by (pay l)] end.
  { apply calm_gbind; [by apply gatherAndReport_calm|]. intros _ l' d'. simpl. intros r.
    pay l'. }
  eapply rg_mono; [|apply Hp]. intros r h d' [-> Hd']. split; [done|].
  match goal with H : (?x - d) mod _ = 0 |- _ => replace (d' - d) with ((d' - x) + (x - d)) by lia end.
  apply mod_add_0; [apply modulus_pos|done..].
Qed.

(** Methods that only read. *)
Lemma Warnings_calm : calm Warnings.
Proof.
  intros l d. unfold Warnings, with_lock, deferring, warnings, gbind. simpl. split; [done|].
  intros s Hs. destruct (info_warnings _ _); simpl; pay l.
Qed.

Lemma ToMap_calm : calm ToMap.
Proof.
  intros l d. unfold ToMap, with_lock, deferring, warnings, gbind. simpl. split; [done|].
  intros s Hs. intros [la|]; simpl; [|pay l].
  intros [ra|]; simpl; [|pay l].
  destruct (info_warnings (OpenedInfo s) _) as [ws|]; simpl; [|pay l].
  destruct (info_warnings (ClosedInfo s) _) as [ws'|]; simpl; pay l.
Qed.

Lemma exec_calm report o : calm_callback report -> calm (exec report o).
Proof.
  intros Hcb. destruct o; simpl exec; try (apply calm_gbind; [|intros; apply calm_Ret]).
  - apply Read_calm.
  - apply Write_calm.
  - by apply Close_calm.
  - apply calm_gbind; [apply emit_calm|]. intros _. apply SetReconnects_calm.
  - apply Warnings_calm.
  - apply ToMap_calm.
Qed.

Lemma exec_all_calm report ops : calm_callback report -> calm (exec_all report ops).
Proof.
  intros Hcb. induction ops as [|o ops IH]; simpl; [apply calm_Ret|].
  apply calm_bind; [by apply exec_calm|]. done.
Qed.

(** ** Sharing a connection *)

(** Goroutines that call methods, each its own sequence, on a connection whose
    mutex is free. *)
Definition shared (report : option (Z -> M unit)) (c : Conn SysInfo) (users : list (list op))
    : config ConnSig :=
  mkConfig (G := ConnSig) c None [] (exec_all report <$> users).

Lemma shared_balanced l report c users :
  calm_callback report -> counters_ok c ->
  Balanced (G := ConnSig) counters_ok (side_bytes l) (side_amount l) (modulus l)
    (shared report c users) (replicate (length users) 0) (side_bytes l c).
Proof.
  intros Hcb Hc. split; simpl; [done| | |done|].
  - intros i p Hp. apply list_lookup_fmap_Some in Hp as (ops & -> & Hi). exists 0.
    rewrite lookup_replicate_2 by (by eapply lookup_lt_Some). split; [done|].
    eapply rg_mono; [|by apply (exec_all_calm report ops Hcb l 0)].
    intros a h d [-> Hd]. split; [done|]. by rewrite Z.sub_0_r in Hd.
  - by rewrite length_replicate, length_fmap.
  - assert (sum_of (replicate (length users) 0) = 0) as ->.
    { induction users as [|u users IH]; simpl; [done|]. lia. }
    replace (side_bytes l c + 0 - side_bytes l c - total (side_amount l) []) with 0.
    + apply Z.mod_0_l. pose proof (modulus_pos l). lia.
    + change (total (side_amount l) []) with 0. lia.
Qed.

(** The total of a ledger over a trace. *)
Definition trace_amount (l : ledger) (t : trace) : Z :=
  match l with
  | Bytes rx => sumZ (fst <$> transfers rx t)
  | Readings rx _ => Z.of_nat (length (times (transfer_use rx) t)) - sumZ (success <$> transfers rx t)
  end.

Lemma transfers_app rx (t u : trace) : transfers rx (t ++ u) = transfers rx t ++ transfers rx u.
Proof. destruct rx; apply omap_app. Qed.

Lemma times_app why (t u : trace) : times why (t ++ u) = times why t ++ times why u.
Proof. apply omap_app. Qed.

Lemma total_transfers l (t : trace) : total (G := ConnSig) (side_amount l) t = trace_amount l t.
Proof.
  induction t as [|e t IH]; [by destruct l as [[]|[] m]|].
  change (total (G := ConnSig) (side_amount l) (e :: t)) with
    (side_amount l e + total (G := ConnSig) (side_amount l) t).
  rewrite IH. change (e :: t) with ([e] ++ t). unfold side_amount, trace_amount. destruct l as [rx|rx m].
  - rewrite transfers_app, fmap_app, sumZ_app. lia.
  - rewrite transfers_app, times_app, length_app, fmap_app, sumZ_app. lia.
Qed.

(** Two numbers that are equal modulo every positive number. *)
Lemma mod_all_0 x : (forall m : positive, x mod Zpos m = 0) -> x = 0.
Proof.
  intros H. specialize (H (Z.to_pos (Z.abs x + 1))). rewrite Z2Pos.id in H by lia.
  destruct (Z.le_gt_cases 0 x).
  - rewrite Z.mod_small in H; lia.
  - assert ((- x) mod (Z.abs x + 1) = 0) as H' by (rewrite Z.mod_opp_l_z; lia).
    rewrite Z.mod_small in H'; lia.
Qed.

Lemma sum_success (l : list (Z * option error)) : sumZ (success <$> l) = Z.of_nat (length (filter successful l)).
Proof.
  induction l as [|r l IH]; [done|]. rewrite fmap_cons, filter_cons.
  change (sumZ (success r :: (success <$> l))) with (success r + sumZ (success <$> l)).
  rewrite IH. unfold success. case_decide as Hr; destruct (successful r); simpl in Hr |- *;
    [lia|contradiction|contradiction (Hr I)|lia].
Qed.

Lemma wrap_s_unique x y : sint 64 x -> (x - y) mod 2 ^ 64 = 0 -> x = wrap_s 64 y.
Proof.
  intros Hx Hm. rewrite <- (wrap_s_id 64 x) by (lia || done).
  apply Z.mod_divide in Hm as [k Hk]; [|lia]. replace x with (y + k * 2 ^ 64) by lia.
  unfold wrap_s. f_equal. replace (y + k * 2 ^ 64 + 2 ^ (64 - 1)) with
    (y + 2 ^ (64 - 1) + k * 2 ^ 64) by lia. apply Z.mod_add. lia.
Qed.

(** Outside code has something to reply. *)
Lemma replies_inhabited q : inhabited (Re ConnSig q).
Proof.
  destruct q; constructor; simpl; first [exact 0 | exact false | exact None | exact (None, None)
    | exact Panics].
Qed.

(** Every ledger is kept, and what it says when all have returned. *)
Lemma shared_ledger report c users cfg :
  calm_callback report -> counters_ok c -> rtc cstep (shared report c users) cfg ->
  forall l, exists ds, Balanced (G := ConnSig) counters_ok (side_bytes l) (side_amount l) (modulus l)
    cfg ds (side_bytes l c).
Proof. intros Hcb Hc Hr l. eapply Balanced_reachable; [done|]. by apply shared_balanced. Qed.

Lemma shared_final report c users cfg l :
  calm_callback report -> counters_ok c -> rtc cstep (shared report c users) cfg ->
  Forall returned (c_threads cfg) ->
  counters_ok (c_st cfg) /\
  (side_bytes l (c_st cfg) - side_bytes l c - trace_amount l (c_events cfg)) mod modulus l = 0.
Proof.
  intros Hcb Hc Hr Hret. destruct (shared_ledger report c users cfg Hcb Hc Hr l) as [ds H].
  split; [apply (bal_good _ _ _ _ _ _ _ H)|]. rewrite <- total_transfers.
  eapply Balanced_final; [apply modulus_pos|done..].
Qed.

Lemma final_bytes rx report c users cfg :
  calm_callback report -> counters_ok c -> rtc cstep (shared report c users) cfg ->
  Forall returned (c_threads cfg) ->
  side_bytes (Bytes rx) (c_st cfg) =
    wrap_s 64 (side_bytes (Bytes rx) c + sumZ (fst <$> transfers rx (c_events cfg))).
Proof.
  intros Hcb Hc Hr Hret. destruct (shared_final report c users cfg (Bytes rx) Hcb Hc Hr Hret) as [Hg Hm].
  apply wrap_s_unique; [destruct Hg; by destruct rx|]. by rewrite Z.sub_add_distr.
Qed.

Lemma final_readings rx report c users cfg :
  calm_callback report -> counters_ok c -> rtc cstep (shared report c users) cfg ->
  Forall returned (c_threads cfg) ->
  length (times (transfer_use rx) (c_events cfg)) = length (filter successful (transfers rx (c_events cfg))).
Proof.
  intros Hcb Hc Hr Hret. apply Nat2Z.inj. rewrite <- sum_success.
  cut (- (Z.of_nat (length (times (transfer_use rx) (c_events cfg))) -
    sumZ (success <$> transfers rx (c_events cfg))) = 0); [lia|].
  apply mod_all_0. intros m.
  destruct (shared_final report c users cfg (Readings rx m) Hcb Hc Hr Hret) as [_ Hm].
  rewrite <- Hm. unfold trace_amount, side_bytes, modulus. reflexivity.
Qed.

(** C2: the byte counters of a connection that goroutines share are exact.
    However the effects of their method calls interleave, whatever the inner
    connection, the clock and the operating system reply, and with a callback
    that uses the mutex in pairs, the execution is finite and no goroutine is
    ever stuck; and when all have returned, the mutex is free and RxBytes and
    TxBytes have grown by exactly the counts the inner reads and writes
    returned, modulo 2^64, and the clock was read once for every successful
    nonempty transfer of a direction. *)
Theorem concurrent_counters report c users cfg :
  calm_callback report -> counters_ok c -> rtc cstep (shared report c users) cfg ->
  sn cstep cfg /\
  (~ Forall returned (c_threads cfg) -> exists cfg', cstep cfg cfg') /\
  (Forall returned (c_threads cfg) ->
   c_owner cfg = None /\
   RxBytes (c_st cfg) = wrap_s 64 (RxBytes c + sumZ (fst <$> reads (c_events cfg))) /\
   TxBytes (c_st cfg) = wrap_s 64 (TxBytes c + sumZ (fst <$> writes (c_events cfg))) /\
   length (times AtRx (c_events cfg)) = length (filter successful (reads (c_events cfg))) /\
   length (times AtTx (c_events cfg)) = length (filter successful (writes (c_events cfg)))).
Proof.
  intros Hcb Hc Hr. split; [apply cstep_sn|].
  pose proof (shared_ledger report c users cfg Hcb Hc Hr) as HB. split.
  - intros Hn. destruct (HB (Bytes true)) as [ds H].
    by eapply Balanced_progress; [apply replies_inhabited|exact H|].
  - intros Hret. split.
    { destruct (HB (Bytes true)) as [ds H]. by eapply Balanced_released. }
    pose proof (fun rx => final_bytes rx _ _ _ _ Hcb Hc Hr Hret) as Hbytes.
    pose proof (fun rx => final_readings rx _ _ _ _ Hcb Hc Hr Hret) as Hreads.
    split; [apply (Hbytes true)|]. split; [apply (Hbytes false)|]. split; [apply (Hreads true)|apply (Hreads false)].
Qed.

(** C20: mutual exclusion. In every reachable state only the goroutine that
    holds the mutex is about to write a field, and no goroutine is about to
    unlock a mutex it does not hold. *)
Theorem concurrent_mutual_exclusion report c users cfg i :
  calm_callback report -> counters_ok c -> rtc cstep (shared report c users) cfg ->
  (forall f k, c_threads cfg !! i = Some (Store f k) -> c_owner cfg = Some i) /\
  (forall k, c_threads cfg !! i = Some (Unlock k) -> c_owner cfg = Some i).
Proof.
  intros Hcb Hc Hr.
  destruct (Balanced_reachable _ _ _ _ _ _ _ _ Hr (shared_balanced (Bytes true) report c users Hcb Hc))
    as [ds H].
  split; intros; [by eapply Balanced_writer|by eapply Balanced_no_fatal].
Qed.

End concurrency.

(** ** Evaluated examples *)

#[local] Existing Instance linux_errno.
#[local] Existing Instance sample_platform.

Lemma look_callback_calm : calm_callback look_callback.
Proof.
  intros f s [= <-]. apply calm_gbind; [apply locked_load_calm|]. intros. apply calm_Ret.
Qed.

Definition open_conn : Conn SysInfo := zero_conn <| supportsTCPInfo := true |>.

(** Two goroutines close: both pass the guard before one stores its result. *)
Definition race_schedule : list nat :=
  replicate 5 0%nat ++ replicate 5 1%nat ++ replicate 13 0%nat ++ replicate 13 1%nat.

(** C21: the information is not gathered and reported once when two goroutines
    close the connection: there is an execution in which both find ClosedInfo
    unset, both ask the operating system and both report Closed, although the
    same two calls in one goroutine report once. The guard is read without the
    mutex. *)
Theorem concurrent_double_report :
  (exists cfg, rtc cstep (shared look_callback open_conn [[OClose]; [OClose]]) cfg /\
    Forall returned (c_threads cfg) /\ reports (c_events cfg) = [Closed; Closed] /\
    length (gathers (c_events cfg)) = 2%nat) /\
  reports (events (snd (run sample_oracle (exec_all look_callback [OClose; OClose])
    (mkWorld (G := ConnSig) open_conn false [])))) = [Closed].
Proof.
  split; [|vm_compute; reflexivity].
  set (start := shared look_callback open_conn [[OClose]; [OClose]]).
  assert (match sched sample_oracle race_schedule start with
    | Some cfg => bool_decide (Forall returned (c_threads cfg) /\
        reports (c_events cfg) = [Closed; Closed] /\ length (gathers (c_events cfg)) = 2%nat)
    | None => false end = true) as H by (vm_compute; reflexivity).
  destruct (sched sample_oracle race_schedule start) as [cfg|] eqn:E; [|discriminate].
  exists cfg. split; [by eapply sched_sound|]. by apply bool_decide_eq_true in H.
Qed.

(** Two goroutines read 5 bytes each; the second reads before the first counts. *)
Definition read_schedule : list nat :=
  [0%nat; 1%nat] ++ replicate 8 0%nat ++ replicate 7 1%nat.

Definition two_readers : config ConnSig :=
  shared look_callback open_conn [[ORead [0]]; [ORead [0]]].

Lemma concurrent_counters_witness :
  exists cfg, rtc cstep two_readers cfg /\ RxBytes (c_st cfg) = 10 /\ c_owner cfg = None.
Proof.
  assert (match sched sample_oracle read_schedule two_readers with
    | Some cfg => bool_decide (Forall returned (c_threads cfg)) &&
        (sumZ (fst <$> reads (c_events cfg)) =? 10)
    | None => false end = true) as Hs by (vm_compute; reflexivity).
  destruct (sched sample_oracle read_schedule two_readers) as [cfg|] eqn:E; [|discriminate].
  apply andb_true_iff in Hs as [Hret Hsum]. apply bool_decide_eq_true in Hret.
  apply Z.eqb_eq in Hsum. exists cfg. assert (rtc cstep two_readers cfg) as Hr by (by eapply sched_sound).
  split; [exact Hr|].
  destruct (concurrent_counters look_callback open_conn [[ORead [0]]; [ORead [0]]] cfg
    look_callback_calm) as (_ & _ & Hfin); [vm_compute; intuition congruence|exact Hr|].
  destruct (Hfin Hret) as (Ho & Hrx & _). split; [|exact Ho]. rewrite Hrx, Hsum. reflexivity.
Defined.

(** The second goroutine, in the critical section of Close. *)
Definition closing : config ConnSig := shared look_callback open_conn [[ORead [0]]; [OClose]].

Lemma concurrent_mutual_exclusion_witness :
  exists cfg, rtc cstep closing cfg /\ c_owner cfg = Some 1%nat.
Proof.
  assert (match sched sample_oracle [1; 1; 1]%nat closing with
    | Some cfg => match c_threads cfg !! 1%nat with Some (Unlock _) => true | _ => false end
    | None => false end = true) as Hs by (vm_compute; reflexivity).
  destruct (sched sample_oracle [1; 1; 1]%nat closing) as [cfg|] eqn:E; [|discriminate].
  destruct (c_threads cfg !! 1%nat) as [[]|] eqn:Ht; try discriminate.
  assert (rtc cstep closing cfg) as Hr by (by eapply sched_sound).
  exists cfg. split; [exact Hr|].
  refine (proj2 (concurrent_mutual_exclusion look_callback open_conn [[ORead [0]]; [OClose]] cfg 1
    look_callback_calm _ Hr) _ Ht). vm_compute; intuition congruence.
Defined.
