(* ===== verification/ConnShared.v ===== *)
(** * wrap.go: the statistics of a connection that goroutines share

    The mutex invariant of GoMutex.v for the methods of Wrap.v: while the mutex
    is free, the times are those of the clock readings taken under it, in the
    order in which they were taken, and every error and information that is
    stored was returned by a call that was made. *)

From S2P Require Import KernelVersion InitLinux TcpInfoLinux TcpInfoLinuxReport.
From S2P Require Import Prelude GoStrings GoProg GoConc GoMutex TcpInfo Wrap WrapProps WrapTheorems ConnConcurrency.

Section shared.
Context `{P : Platform} `{EO : ErrnoOps}.

(** The connection before it was shared. *)
Variable c0 : Conn SysInfo.

(** ** The invariant *)

(** The readings of the clock. *)
Definition on_clock (e : event ConnSig) : bool :=
  match e with Asked q _ => match (q : query) with Now _ => true | _ => false end | Marked _ => false end.

(** An optional value that is the old one or one of a list. *)
Definition drawn {A : Type} (old new : option A) (l : list A) : Prop :=
  new = old \/ exists x, x ∈ l /\ new = Some x.

(** The information an attempt to gather stores. *)
Definition stored_info (g : option error * option Answers) : option (Info SysInfo) :=
  match gathered g with (Some s, None) => Some (ToInfo s) | _ => None end.

Record Stats (s : Conn SysInfo) (g K : trace) : Prop := {
  st_opened : OpenedAt s = OpenedAt c0;
  st_supports : supportsTCPInfo s = supportsTCPInfo c0;
  st_closed : ClosedAt s = last_time (ClosedAt c0 :: times AtClose g);
  st_first_rx : FirstRxAt s = first_time (FirstRxAt c0 :: times AtRx g);
  st_first_tx : FirstTxAt s = first_time (FirstTxAt c0 :: times AtTx g);
  st_last_rx : LastRxAt s = last_time (LastRxAt c0 :: times AtRx g);
  st_last_tx : LastTxAt s = last_time (LastTxAt c0 :: times AtTx g);
  st_rx_err : drawn (RxErr c0) (RxErr s) (omap lasting (reads K));
  st_tx_err : TxErr s = TxErr c0 \/ TxErr s ∈ (snd <$> writes K);
  st_info_err : drawn (InfoErr c0) (InfoErr s) (omap (snd ∘ gathered) (gathers K));
  st_opened_info : drawn (OpenedInfo c0) (OpenedInfo s) (omap stored_info (gathers K));
  st_closed_info : drawn (ClosedInfo c0) (ClosedInfo s) (omap stored_info (gathers K))
}.

(** ** Lemmas *)

Lemma omap_sub {A B : Type} (f : A -> option B) (l l' : list A) : l ⊆ l' -> omap f l ⊆ omap f l'.
Proof. intros H x. rewrite !list_elem_of_omap. intros (y & Hy & E). exists y. auto. Qed.

Lemma drawn_mono {A : Type} (old new : option A) (l l' : list A) :
  l ⊆ l' -> drawn old new l -> drawn old new l'.
Proof. intros H [E|(x & Hx & E)]; [by left|right]. exists x. auto. Qed.

Lemma fmap_sub {A B : Type} (f : A -> B) (l l' : list A) : l ⊆ l' -> (f <$> l) ⊆ (f <$> l').
Proof. intros H x. rewrite !list_elem_of_fmap. intros (y & E & Hy). exists y. auto. Qed.

Lemma Stats_mono s g K K' : K ⊆ K' -> Stats s g K -> Stats s g K'.
Proof.
  intros HK []. split; try done.
  - eapply drawn_mono; [|done]. by apply omap_sub, omap_sub.
  - destruct st_tx_err0 as [E|E]; [by left|right]. eapply fmap_sub; [by apply omap_sub|done].
  - eapply drawn_mono; [|done]. by apply omap_sub, omap_sub.
  - eapply drawn_mono; [|done]. by apply omap_sub, omap_sub.
  - eapply drawn_mono; [|done]. by apply omap_sub, omap_sub.
Qed.

Definition crit_conn {A : Type} : prog ConnSig A -> (A -> option (Conn SysInfo * trace) -> trace -> Prop) ->
    option (Conn SysInfo * trace) -> trace -> Prop :=
  crit (G := ConnSig) on_clock Stats.

(** A program that starts and ends without the mutex and keeps to it. *)
Definition tidy {A : Type} (p : prog ConnSig A) : Prop :=
  forall K, crit_conn p (fun _ h _ => h = None) None K.

Definition tidy_callback (report : option (Z -> M unit)) : Prop :=
  forall f s, report = Some f -> tidy (f s).

Lemma tidy_Ret {A : Type} (a : A) : tidy (Ret a).
Proof. done. Qed.

Lemma tidy_bind {A B : Type} (p : prog ConnSig A) (f : A -> prog ConnSig B) :
  tidy p -> (forall a, tidy (f a)) -> tidy (pbind p f).
Proof.
  intros Hp Hf K. unfold crit_conn. rewrite crit_bind. eapply crit_mono; [|apply Hp].
  intros a h K' ->. apply Hf.
Qed.

Lemma tidy_gbind {A B : Type} (p : M A) (f : A -> M B) : tidy p -> (forall a, tidy (f a)) -> tidy (gbind p f).
Proof. intros Hp Hf. apply tidy_bind; [done|]. intros [a|]; [apply Hf|apply tidy_Ret]. Qed.

Lemma if_tidy {A : Type} (b : bool) (p q : prog ConnSig A) : tidy p -> tidy q -> tidy (if b then p else q).
Proof. by destruct b. Qed.

Lemma load_tidy {A : Type} (f : Conn SysInfo -> A) : tidy (load (G := ConnSig) f).
Proof. intros K. simpl. done. Qed.

Lemma emit_tidy e : tidy (emit (G := ConnSig) e).
Proof. by split. Qed.

(** A call that is no reading of the clock. *)
Lemma ask_tidy q : (forall r, on_clock (Asked (G := ConnSig) q r) = false) -> tidy (ask (G := ConnSig) q).
Proof. intros Hq K r. split; [|done]. intros H. by rewrite Hq in H. Qed.

Lemma deferring_tidy {A : Type} cleanup (body : M A) : tidy cleanup -> tidy body -> tidy (deferring cleanup body).
Proof.
  intros Hc Hb. apply tidy_bind; [done|]. intros r. apply tidy_bind; [done|]. intros r'. apply tidy_Ret.
Qed.

(** A critical section: with the invariant it ends with the invariant. *)
Definition keeps {A : Type} (body : M A) (K : trace) : Prop :=
  forall s g K', K ⊆ K' -> Stats s g K' ->
  crit_conn body (fun _ h K'' => exists s' g', h = Some (s', g') /\ Stats s' g' K'') (Some (s, g)) K'.

Lemma with_lock_crit {A : Type} (body : M A) K :
  keeps body K -> crit_conn (with_lock body) (fun _ h _ => h = None) None K.
Proof.
  intros Hb. unfold with_lock, deferring. simpl. split; [done|]. intros s g K' HK Hs.
  unfold crit_conn in *. rewrite crit_bind. eapply crit_mono; [|by apply Hb].
  intros r h K'' (s' & g' & -> & Hs'). by split.
Qed.

(** ** The critical sections *)

Lemma times_clock why why' (g : trace) (ts : Z) :
  times why (g ++ [Asked (G := ConnSig) (Now why') ts]) =
  times why g ++ times why [Asked (G := ConnSig) (Now why') ts].
Proof. unfold times. apply omap_app. Qed.

(** Bring the readings of the clock to the fields they are stored in. *)
Ltac clock :=
  simpl; rewrite ?times_clock; cbn [times omap list_omap of_call];
  rewrite ?app_nil_r, ?app_comm_cons, ?first_time_snoc, ?last_time_snoc;
  repeat match goal with H : ?x = first_time _ |- _ => rewrite <- H end.

(** A successful transfer, and any write of other fields. *)
Lemma Stats_rx_time s g K (ts : Z) :
  Stats s g K ->
  Stats (s <| FirstRxAt := if FirstRxAt s =? 0 then ts else FirstRxAt s |> <| LastRxAt := ts |>)
    (g ++ [Asked (G := ConnSig) (Now AtRx) ts]) (K ++ [Asked (G := ConnSig) (Now AtRx) ts]).
Proof.
  intros H. apply (Stats_mono _ _ K); [set_solver|]. destruct H. split; clock; done.
Qed.

Lemma Stats_tx_time s g K (ts : Z) :
  Stats s g K ->
  Stats (s <| FirstTxAt := if FirstTxAt s =? 0 then ts else FirstTxAt s |> <| LastTxAt := ts |>)
    (g ++ [Asked (G := ConnSig) (Now AtTx) ts]) (K ++ [Asked (G := ConnSig) (Now AtTx) ts]).
Proof.
  intros H. apply (Stats_mono _ _ K); [set_solver|]. destruct H. split; clock; done.
Qed.

Lemma Stats_close_time s g K (ts : Z) :
  Stats s g K ->
  Stats (s <| ClosedAt := ts |>)
    (g ++ [Asked (G := ConnSig) (Now AtClose) ts]) (K ++ [Asked (G := ConnSig) (Now AtClose) ts]).
Proof.
  intros H. apply (Stats_mono _ _ K); [set_solver|]. destruct H. split; clock; done.
Qed.

Lemma Stats_rx s g K n err (rx : Z) :
  (n, err) ∈ reads K -> Stats s g K ->
  Stats (s <| RxBytes := rx |>) g K /\
  (err ≫= as_net_Error = Some false -> Stats (s <| RxBytes := rx |> <| RxErr := err |>) g K).
Proof.
  intros Hin []. split; [by split|]. intros He. split; simpl; try done. right.
  pose proof (lasting_Some n err He) as Hl. destruct err as [e|]; [|done].
  exists e. split; [|done]. apply list_elem_of_omap. by exists (n, Some e).
Qed.

Lemma Stats_tx s g K n err (tx : Z) :
  (n, err) ∈ writes K -> Stats s g K -> Stats (s <| TxBytes := tx |> <| TxErr := err |>) g K.
Proof.
  intros Hin []. split; simpl; try done. right. apply list_elem_of_fmap. by exists (n, err).
Qed.

Lemma read_known b n err (K K' : trace) :
  K ++ [Asked (G := ConnSig) (ConnRead b) (Val (n, err))] ⊆ K' -> (n, err) ∈ reads K'.
Proof.
  intros HK. apply list_elem_of_omap. exists (Asked (G := ConnSig) (ConnRead b) (Val (n, err))).
  split; [|done]. apply HK. set_solver.
Qed.

Lemma write_known b n err (K K' : trace) :
  K ++ [Asked (G := ConnSig) (ConnWrite b) (Val (n, err))] ⊆ K' -> (n, err) ∈ writes K'.
Proof.
  intros HK. apply list_elem_of_omap. exists (Asked (G := ConnSig) (ConnWrite b) (Val (n, err))).
  split; [|done]. apply HK. set_solver.
Qed.

Lemma reads_snoc x (K : trace) e : x ∈ reads K -> x ∈ reads (K ++ [e]).
Proof. apply omap_sub. set_solver. Qed.

Lemma writes_snoc x (K : trace) e : x ∈ writes K -> x ∈ writes (K ++ [e]).
Proof. apply omap_sub. set_solver. Qed.

(** The end of a critical section in a given state. *)
Lemma section_end {A : Type} (a : A) s g K :
  Stats s g K -> exists s' g', Some (s, g) = Some (s', g') /\ Stats s' g' K.
Proof. eauto. Qed.

Lemma Read_tidy b : tidy (Read b).
Proof.
  intros K. unfold Read, gbind, crit_conn. rewrite crit_bind. simpl. intros r. split; [done|].
  destruct r as [[n err]|]; [|done]. apply with_lock_crit. intros s g K' HK Hs.
  apply read_known in HK. destruct (is_none err && (0 <? n)); simpl.
  - intros ts. split; [by eexists|]. pose proof (Stats_rx_time s g K' ts Hs) as H1.
    apply (reads_snoc _ _ (Asked (G := ConnSig) (Now AtRx) ts)) in HK.
    destruct (Stats_rx _ _ _ n err (wrap_s 64 (RxBytes s + wrap_s 64 n)) HK H1) as [Ha Hb].
    destruct (FirstRxAt s =? 0); simpl; case_bool_decide; simpl; apply (section_end tt); first [exact Ha|by apply Hb].
  - destruct (Stats_rx _ _ _ n err (wrap_s 64 (RxBytes s + wrap_s 64 n)) HK Hs) as [Ha Hb].
    case_bool_decide; simpl; apply (section_end tt); first [exact Ha|by apply Hb].
Qed.

Lemma Write_tidy b : tidy (Write b).
Proof.
  intros K. unfold Write, gbind, crit_conn. rewrite crit_bind. simpl. intros r. split; [done|].
  destruct r as [[n err]|]; [|done]. apply with_lock_crit. intros s g K' HK Hs.
  apply write_known in HK. destruct (is_none err && (0 <? n)); simpl.
  - intros ts. split; [by eexists|]. pose proof (Stats_tx_time s g K' ts Hs) as H1.
    apply (writes_snoc _ _ (Asked (G := ConnSig) (Now AtTx) ts)) in HK.
    pose proof (Stats_tx _ _ _ n err (wrap_s 64 (TxBytes s + wrap_s 64 n)) HK H1) as Ha.
    destruct (FirstTxAt s =? 0); simpl; case_bool_decide; simpl; apply (section_end tt); exact Ha.
  - pose proof (Stats_tx _ _ _ n err (wrap_s 64 (TxBytes s + wrap_s 64 n)) HK Hs) as Ha.
    case_bool_decide; simpl; apply (section_end tt); exact Ha.
Qed.

Lemma SetReconnects_tidy n : tidy (SetReconnects n).
Proof.
  intros K. apply with_lock_crit. intros s g K' _ []. simpl. apply (section_end tt). by split.
Qed.

(** What an attempt to gather stores. *)
Lemma gather_known (err : option error) (called : option Answers) (K K' : trace) :
  K ++ [Asked (G := ConnSig) Control (err, called)] ⊆ K' -> (err, called) ∈ gathers K'.
Proof.
  intros HK. apply list_elem_of_omap. exists (Asked (G := ConnSig) Control (err, called)).
  split; [|done]. apply HK. set_solver.
Qed.

Lemma Stats_info_err s g K x e :
  x ∈ gathers K -> snd (gathered x) = Some e -> Stats s g K -> Stats (s <| InfoErr := Some e |>) g K.
Proof.
  intros Hx He []. split; simpl; try done. right. exists e. split; [|done].
  apply list_elem_of_omap. by exists x.
Qed.

Lemma Stats_info s g K x i :
  x ∈ gathers K -> stored_info x = Some i -> Stats s g K ->
  Stats (s <| OpenedInfo := Some i |>) g K /\ Stats (s <| ClosedInfo := Some i |>) g K.
Proof.
  intros Hx Hi []. split; split; simpl; try done; right; exists i; (split; [|done]);
    apply list_elem_of_omap; by exists x.
Qed.

Lemma gather_tidy state : tidy (gather state).
Proof.
  unfold gather. apply tidy_gbind; [apply load_tidy|]. intros supports. apply tidy_gbind.
  { apply if_tidy; [apply tidy_Ret|]. apply tidy_gbind; [apply load_tidy|]. intros. apply tidy_Ret. }
  intros stop. apply if_tidy; [apply tidy_Ret|].
  apply tidy_gbind; [by apply ask_tidy|]. intros ok. apply if_tidy; [apply tidy_Ret|].
  apply tidy_gbind; [by apply ask_tidy|]. intros e. apply if_tidy; [apply tidy_Ret|].
  intros K. unfold gbind, crit_conn. rewrite crit_bind. simpl. intros [err called]. split; [done|].
  assert (forall K', (err, called) ∈ gathers K' ->
    let '(si, te) := match called with Some a => GetTCPInfo a | None => (None, None) end in
    gathered (err, called) = match err, te with Some e, _ => (None, Some e) | None, Some e => (None, Some e)
      | None, None => (si, None) end) as Hg.
  { intros K' _. unfold gathered. destruct err, called as [a|]; try done;
      destruct (GetTCPInfo a) as [si [te|]]; done. }
  destruct (match called with Some a => GetTCPInfo a | None => (None, None) end) as [si te].
  apply with_lock_crit. intros s g K' HK Hs. apply gather_known in HK. specialize (Hg K' HK).
  destruct err as [e'|]; [|destruct te as [e'|]; [|destruct si as [i|]]]; simpl.
  - apply (section_end tt). eapply Stats_info_err; [done|by rewrite Hg|done].
  - apply (section_end tt). eapply Stats_info_err; [done|by rewrite Hg|done].
  - destruct (Stats_info s g K' (None, called) (ToInfo i) HK) as [Ho Hc];
      [unfold stored_info; by rewrite Hg|done|].
    destruct (state =? Opened); simpl; by apply (section_end tt).
  - by apply (section_end tt).
Qed.

Lemma gatherAndReport_tidy report state : tidy_callback report -> tidy (gatherAndReport report state).
Proof.
  intros Hcb. unfold gatherAndReport. destruct report as [f|]; [|apply tidy_Ret].
  assert (tidy (deferring (call_report f state) (gather state))) as Hgo.
  { apply deferring_tidy; [|apply gather_tidy]. apply tidy_gbind; [apply emit_tidy|].
    intros _. by apply Hcb. }
  apply if_tidy; [apply tidy_Ret|]. apply tidy_gbind.
  - apply if_tidy; [|apply tidy_Ret]. apply tidy_gbind; [apply load_tidy|]. intros i. apply tidy_Ret.
  - intros have. apply if_tidy; [apply tidy_Ret|]. apply tidy_gbind.
    + apply if_tidy; [|apply tidy_Ret]. apply tidy_gbind; [apply load_tidy|]. intros i.
      apply tidy_Ret.
    + intros have'. apply if_tidy; [apply tidy_Ret|done].
Qed.

Lemma Close_tidy report : tidy_callback report -> tidy (Close report).
Proof.
  intros Hcb K. simpl. split; [done|]. intros s g K' HK Hs ts. split; [by eexists|].
  split; [by apply Stats_close_time|].
  match goal with |- crit_conn ?p _ _ ?K2 => assert (tidy p) as Hp; [|apply (Hp K2)] end.
  apply tidy_gbind; [by apply gatherAndReport_tidy|]. intros _ K2 r. by split.
Qed.

(** Methods that only read. *)
Lemma Warnings_tidy : tidy Warnings.
Proof.
  intros K. apply with_lock_crit. intros s g K' _ Hs. unfold warnings, gbind. simpl.
  destruct (info_warnings _ _); simpl; by apply (section_end tt).
Qed.

Lemma Stats_snoc s g K e : Stats s g K -> Stats s g (K ++ [e]).
Proof. apply Stats_mono. set_solver. Qed.

Lemma ToMap_tidy : tidy ToMap.
Proof.
  intros K. apply with_lock_crit. intros s g K' _ Hs. unfold warnings, gbind. simpl.
  intros [la|]; (split; [by eexists|]); rewrite app_nil_r; [|by apply (section_end tt), Stats_snoc].
  simpl. intros [ra|]; (split; [by eexists|]); rewrite app_nil_r; [|by apply (section_end tt), Stats_snoc, Stats_snoc].
  simpl. destruct (info_warnings (OpenedInfo s) _) as [ws|]; simpl; [|by apply (section_end tt), Stats_snoc, Stats_snoc].
  destruct (info_warnings (ClosedInfo s) _) as [ws'|]; simpl; by apply (section_end tt), Stats_snoc, Stats_snoc.
Qed.

Lemma exec_tidy report o : tidy_callback report -> tidy (exec report o).
Proof.
  intros Hcb. destruct o; simpl exec; try (apply tidy_gbind; [|intros; apply tidy_Ret]).
  - apply Read_tidy.
  - apply Write_tidy.
  - by apply Close_tidy.
  - apply tidy_gbind; [apply emit_tidy|]. intros _. apply SetReconnects_tidy.
  - apply Warnings_tidy.
  - apply ToMap_tidy.
Qed.

Lemma exec_all_tidy report ops : tidy_callback report -> tidy (exec_all report ops).
Proof.
  intros Hcb. induction ops as [|o ops IH]; simpl; [apply tidy_Ret|].
  apply tidy_bind; [by apply exec_tidy|]. done.
Qed.

Lemma times_guards why (t : trace) : times why (guards on_clock t) = times why t.
Proof.
  induction t as [|e t IH]; [done|]. cbn [guards List.filter]. unfold times in *.
  destruct e as [q r|m]; [|apply IH]. destruct q; try (apply IH).
  destruct why0, why; simpl; first [apply IH | f_equal; apply IH].
Qed.

Lemma Stats_guards s (t : trace) : Stats s (guards on_clock t) t -> Stats s t t.
Proof. intros []. split; try done; by rewrite <- times_guards. Qed.

Lemma first_time_one x : first_time [x] = x.
Proof. unfold first_time. cbn. case_decide; simpl; [done|]. by destruct (decide (x = 0)). Qed.

Lemma shared_Stats report users cfg :
  tidy_callback report -> rtc cstep (shared report c0 users) cfg -> c_owner cfg = None ->
  Stats (c_st cfg) (c_events cfg) (c_events cfg).
Proof.
  intros Hcb Hr Ho. apply Stats_guards.
  apply (mutex_invariant on_clock Stats Stats_mono c0 (exec_all report <$> users)); [|..|done|done].
  - split; simpl; rewrite ?first_time_one; try done; by left.
  - intros p (ops & -> & _)%list_elem_of_fmap. by apply (exec_all_tidy report ops Hcb []).
Qed.

End shared.

Section theorems.
Context `{P : Platform} `{EO : ErrnoOps}.

(** C3: the statistics of a connection that goroutines share. However their
    method calls interleave, whatever the inner connection, the clock and the
    operating system reply, and with a callback that keeps to the mutex: in
    every reachable state in which the mutex is free, ClosedAt and the last
    times are the latest readings of the clock for their use, in the order of
    the readings, the first times are the earliest nonzero ones, and an error
    or information that is stored was there before or was returned by a call
    made since: a read's net.Error that is no timeout, a write's error, a
    failed or successful call of GetTCPInfo. *)
Theorem concurrent_statistics report c users cfg :
  tidy_callback c report -> rtc cstep (shared report c users) cfg -> c_owner cfg = None ->
  Stats c (c_st cfg) (c_events cfg) (c_events cfg).
Proof. apply shared_Stats. Qed.

End theorems.

(** ** Evaluated examples *)

#[local] Existing Instance linux_errno.
#[local] Existing Instance sample_platform.

Lemma locked_load_tidy {A : Type} (c : Conn SysInfo) (f : Conn SysInfo -> A) :
  tidy c (with_lock (load (G := ConnSig) f)).
Proof. intros K. apply with_lock_crit. intros s g K' _ Hs. simpl. by apply (section_end c tt). Qed.

Lemma look_callback_tidy c : tidy_callback c look_callback.
Proof.
  intros f s [= <-]. apply tidy_gbind; [apply locked_load_tidy|]. intros. apply tidy_Ret.
Qed.

(** The second reader takes its time after the first. *)
Lemma concurrent_statistics_witness :
  exists cfg, rtc cstep two_readers cfg /\ times AtRx (c_events cfg) = [1002; 1003] /\
    FirstRxAt (c_st cfg) = 1002 /\ LastRxAt (c_st cfg) = 1003.
Proof.
  assert (match sched sample_oracle read_schedule two_readers with
    | Some cfg => bool_decide (c_owner cfg = None) && bool_decide (times AtRx (c_events cfg) = [1002; 1003])
    | None => false end = true) as Hs by (vm_compute; reflexivity).
  destruct (sched sample_oracle read_schedule two_readers) as [cfg|] eqn:E; [|discriminate].
  apply andb_true_iff in Hs as [Ho Ht]. apply bool_decide_eq_true in Ho, Ht.
  assert (rtc cstep two_readers cfg) as Hr by (by eapply sched_sound).
  destruct (concurrent_statistics look_callback open_conn [[ORead [0]]; [ORead [0]]] cfg
    (look_callback_tidy open_conn) Hr Ho) as [_ _ _ Hf _ Hl _ _ _ _ _ _].
  exists cfg. split; [exact Hr|]. split; [exact Ht|]. rewrite Hf, Hl, Ht. vm_compute. by split.
Defined.
