(* ===== verification/HttpVisit.v ===== *)
(** * cmd/httpstat: visit and main

    [visit] of cmd/httpstat/main.go with the closures of its httptrace hooks,
    the package variables it shares with the callback of [dialContext], the
    client certificate it reads, what it prints, and [main].

    The standard library's transport is an argument: for a request it says
    which hooks ran and when, which wrapped connections were closed and how the
    request ended ([Exchange]). The colour library is not interpreted: a
    [span] is a text with the colour it is handed to. *)

From stdpp Require Import sorting.
From S2P Require Import Json.
From S2P Require Import Prelude GoStrings GoTime GoNet GoProg TcpInfo Wrap WrapProps WrapTheorems.
From S2P Require Import OperatingSystem HttpStat.

(** ** Output *)

Inductive style : Type := Green | Cyan | White | Red | Attribute (code : Z).

Inductive span : Type :=
| Plain (s : string)
| Styled (c : style) (s : string).

Definition grayscale (code : Z) (s : string) : span := Styled (Attribute (code + 232)) s.

Definition nl : string := String newline EmptyString.

Fixpoint spaces (n : nat) : string :=
  match n with O => EmptyString | S n' => String " "%char (spaces n') end.

(** fmt's %7d and %-9s. *)
Definition pad_left (w : nat) (s : string) : string := spaces (w - String.length s) +:+ s.

Definition pad_right (w : nat) (s : string) : string := s +:+ spaces (w - String.length s).

Definition Millisecond : Z := 1000000.

Definition fmta (d : Z) : span :=
  Styled Cyan (pad_left 7 (Itoa (wrap_s 64 (Z.quot d Millisecond))) +:+ "ms").

Definition fmtb (d : Z) : span :=
  Styled Cyan (pad_right 9 (Itoa (wrap_s 64 (Z.quot d Millisecond)) +:+ "ms")).

Definition httpsTemplate : list string := [
  "  DNS Lookup   TCP Connection   TLS Handshake   Server Processing   Content Transfer";
  "[%s  |     %s  |    %s  |        %s  |       %s  ]";
  "            |                |               |                   |                  |";
  "   namelookup:%s      |               |                   |                  |";
  "                       connect:%s     |                   |                  |";
  "                                   pretransfer:%s         |                  |";
  "                                                     starttransfer:%s        |";
  "                                                                                total:%s";
  EmptyString].

Definition httpTemplate : list string := [
  "   DNS Lookup   TCP Connection   Server Processing   Content Transfer";
  "[ %s  |     %s  |        %s  |       %s  ]";
  "             |                |                   |                  |";
  "    namelookup:%s      |                   |                  |";
  "                        connect:%s         |                  |";
  "                                      starttransfer:%s        |";
  "                                                                 total:%s";
  EmptyString].

(** A format with only %s verbs, filled with its arguments. *)
Fixpoint fill (fmt acc : string) (args : list span) : list span :=
  match fmt with
  | EmptyString => [Plain acc]
  | String "%"%char (String "s"%char fmt') =>
      match args with
      | a :: args' => Plain acc :: a :: fill fmt' EmptyString args'
      | [] => fill fmt' (acc +:+ "%!s(MISSING)") []
      end
  | String c fmt' => fill fmt' (acc +:+ String c EmptyString) args
  end.

(** printf(colorize(template), args...): the first line, which has no verb, is
    gray. *)
Definition print_template (template : list string) (args : list span) : list span :=
  match template with
  | [] => []
  | first :: lines => grayscale 16 first :: fill (nl +:+ Join lines nl) EmptyString args
  end.

(** ** Times *)

(** A time.Time in nanoseconds from the zero time. *)
Definition IsZero (t : Z) : bool := t =? 0.

(** t.Sub(u), saturating. *)
Definition Sub (t u : Z) : Z := Z.max (- 2 ^ 63) (Z.min (2 ^ 63 - 1) (t - u)).

Record Times : Type := mkTimes {
  t0 : Z; t1 : Z; t2 : Z; t3 : Z; t4 : Z; t5 : Z; t6 : Z
}.

#[global] Instance Times_eta : RecordEta Times :=
  fconst mkTimes <*> t0 <*> t1 <*> t2 <*> t3 <*> t4 <*> t5 <*> t6.

(** A call of one of the hooks of httptrace.ClientTrace, at a time. *)
Inductive hook : Type :=
| DNSStart (now : Z)
| DNSDone (now : Z)
| ConnectStart (now : Z)
| ConnectDone (addr : string) (err : option error) (now : Z)
| GotConn (now : Z)
| GotFirstResponseByte (now : Z)
| TLSHandshakeStart (now : Z)
| TLSHandshakeDone (now : Z).

(** ** The transport *)

Record TLSConfig {Cert : Type} : Type := mkTLSConfig {
  ServerName : string;
  InsecureSkipVerify : bool;
  Certificates : list Cert;
  MinVersion : Z
}.
Arguments TLSConfig : clear implicits.
Arguments mkTLSConfig {Cert}.

(** The fields of http.Transport visit sets, durations in nanoseconds;
    [DialNetwork] is the network dialContext is made for. The proxy is that of
    the environment. *)
Record Transport {Cert : Type} : Type := mkTransport {
  MaxIdleConns : Z;
  IdleConnTimeout : Z;
  TLSHandshakeTimeout : Z;
  ExpectContinueTimeout : Z;
  ForceAttemptHTTP2 : bool;
  DisableKeepAlives : bool;
  DialNetwork : string;
  TLSClientConfig : option (TLSConfig Cert)
}.
Arguments Transport : clear implicits.
Arguments mkTransport {Cert}.

#[global] Instance Transport_eta {C : Type} : RecordEta (Transport C) :=
  fconst mkTransport <*> MaxIdleConns <*> IdleConnTimeout <*> TLSHandshakeTimeout
    <*> ExpectContinueTimeout <*> ForceAttemptHTTP2 <*> DisableKeepAlives <*> DialNetwork
    <*> TLSClientConfig.

Definition Second : Z := 1000000000.

Definition VersionTLS12 : Z := 0x0303.

Definition VersionTLS13 : Z := 0x0304.

(** [Location] is what resp.Location() returns: [None] is ErrNoLocation. *)
Record Response {Rest : Type} : Type := mkResponse {
  StatusCode : Z;
  Status : string;
  ProtoMajor : Z;
  ProtoMinor : Z;
  TLSVersion : option Z;
  resp_Header : gmap string (list string);
  Location : option (result (URL Rest))
}.
Arguments Response : clear implicits.
Arguments mkResponse {Rest}.

(** A wrapped connection in the state it has when it is printed, with the
    texts of its addresses. *)
Record view `{Platform} : Type := mkview {
  v_conn : Conn SysInfo;
  v_local : string;
  v_remote : string
}.

(** client.Do, whose CheckRedirect refuses to follow redirects, and what goes
    with it: the hooks that ran, how it ended, the
    connections whose Closed report ran before the statistics are printed, in
    order, the errors of creating the output file and of copying the body, the
    order in which the response's header map is iterated, and the time after
    the body. *)
Record Exchange `{Platform} {Rest : Type} : Type := mkExchange {
  hooks : list hook;
  reply_ : result (Response Rest);
  closed : list view;
  Create : string -> option error;
  Copy : option error;
  iteration : list string;
  t7 : Z
}.
Arguments Exchange {_} Rest.
Arguments mkExchange {_ Rest}.

(** ** Flags and package variables *)

Record Flags : Type := mkFlags {
  httpMethod : string;
  postBody : string;
  followRedirects : bool;
  onlyHeader : bool;
  insecure : bool;
  httpHeaders : headers;
  saveOutput : bool;
  outputFile : string;
  showVersion : bool;
  clientCertFile : string;
  fourOnly : bool;
  sixOnly : bool
}.

#[global] Instance Flags_eta : RecordEta Flags :=
  fconst mkFlags <*> httpMethod <*> postBody <*> followRedirects <*> onlyHeader <*> insecure
    <*> httpHeaders <*> saveOutput <*> outputFile <*> showVersion <*> clientCertFile
    <*> fourOnly <*> sixOnly.

Definition default_flags : Flags :=
  mkFlags "GET" EmptyString false false false None false EmptyString false EmptyString false false.

Definition maxRedirects : Z := 10.

(** [sent] records the calls of client.Do and [out] what is printed. *)
Record State `{Platform} {Rest Cert : Type} : Type := mkState {
  redirectsFollowed : Z;
  connConn : option view;
  out : list span;
  sent : list (Request Rest * Transport Cert)
}.
Arguments State {_} Rest Cert.
Arguments mkState {_ Rest Cert}.

#[global] Instance State_eta `{Platform} {R C : Type} : RecordEta (State R C) :=
  fconst mkState <*> redirectsFollowed <*> connConn <*> out <*> sent.

(** The variables at the start. *)
Definition init_state `{Platform} {Rest Cert : Type} : State Rest Cert := mkState 0 None [] [].

Section program.
Context `{P : Platform} `{EO : ErrnoOps} {Rest Cert Block : Type}.

(** *** State and exits *)

Definition V (A : Type) : Type := State Rest Cert -> cli A * State Rest Cert.

Definition vret {A : Type} (a : A) : V A := fun s => (Done a, s).

Definition vbind {A B : Type} (m : V A) (f : A -> V B) : V B :=
  fun s => match m s with
           | (Done a, s') => f a s'
           | (Fatal msg, s') => (Fatal msg, s')
           | (Exit code, s') => (Exit code, s')
           end.

Definition lift {A : Type} (m : cli A) : V A := fun s => (m, s).

Definition fatal {A : Type} (msg : string) : V A := lift (Fatal msg).

Definition get {A : Type} (f : State Rest Cert -> A) : V A := fun s => (Done (f s), s).

Definition modify (f : State Rest Cert -> State Rest Cert) : V unit := fun s => (Done tt, f s).

Definition printf (spans : list span) : V unit := modify (fun s => s <| out := out s ++ spans |>).

Local Notation "x <-- m ; k" := (vbind m (fun x => k))
  (at level 100, m at level 99, right associativity).

Local Notation "m ;- k" := (vbind m (fun _ => k)) (at level 100, right associativity).

(** *** Outside code *)

(** newRequest's and readResponseBody's (see HttpStat.v); the text of a
    URL's RequestURI; os.ReadFile; encoding/pem; tls; the
    transport, which may depend on what was sent before. *)
Context (Parse : string -> result (URL Rest)) (URL_String : URL Rest -> string)
  (NewRequest : string -> string -> reader -> result (Request Rest))
  (ParseMediaType : string -> result (string * gmap string string))
  (os_Open : string -> option error) (RequestURI : URL Rest -> string)
  (ReadFile : string -> result string)
  (Decode : string -> option (Block * string)) (BlockType : Block -> string)
  (EncodeToMemory : Block -> string) (X509KeyPair : string -> string -> result Cert)
  (serve : list (Request Rest * Transport Cert) -> Request Rest -> Transport Cert -> Exchange Rest).

(** *** readClientCert *)

(** The loop over the PEM blocks. A block that Decode returns is cut off the
    file, so [fuel] of more than the length of the file is never used up
    ([readClientCert_last_blocks]). *)
Fixpoint pem_loop (fuel : nat) (certFileBytes pkeyPem certPem : string) : string * string :=
  match fuel with
  | O => (pkeyPem, certPem)
  | S f =>
      match Decode certFileBytes with
      | None => (pkeyPem, certPem)
      | Some (block, rest) =>
          let pkeyPem := if HasSuffix (BlockType block) "PRIVATE KEY" then EncodeToMemory block
                         else pkeyPem in
          let certPem := if HasSuffix (BlockType block) "CERTIFICATE" then EncodeToMemory block
                         else certPem in
          pem_loop f rest pkeyPem certPem
      end
  end.

Definition readClientCert (filename : string) : cli (list Cert) :=
  if String.eqb filename EmptyString then Done []
  else
    match ReadFile filename with
    | Err err => Fatal ("failed to read client certificate file: " +:+ error_Error err)
    | Ok certFileBytes =>
        let '(pkeyPem, certPem) :=
          pem_loop (S (String.length certFileBytes)) certFileBytes EmptyString EmptyString in
        match X509KeyPair certPem pkeyPem with
        | Err err => Fatal ("unable to load client cert and key pair: " +:+ error_Error err)
        | Ok cert => Done [cert]
        end
    end.

(** *** The variable shared with the connection callback *)

Definition setConniver (c : view) : V unit := modify (fun s => s <| connConn := Some c |>).

Definition getConniver : V (option view) := get connConn.

(** *** visit *)

Definition on_hook (h : hook) (t : Times) : V Times :=
  match h with
  | DNSStart now => vret (t <| t0 := now |>)
  | DNSDone now => vret (t <| t1 := now |>)
  | ConnectStart now => vret (if IsZero (t1 t) then t <| t1 := now |> else t)
  | ConnectDone addr err now =>
      match err with
      | Some err => fatal ("unable to connect to host " +:+ addr +:+ ": " +:+ error_Error err)
      | None =>
          printf [Plain nl; Styled Green "Connected to "; Styled Cyan addr; Plain nl] ;-
          vret (t <| t2 := now |>)
      end
  | GotConn now => vret (t <| t3 := now |>)
  | GotFirstResponseByte now => vret (t <| t4 := now |>)
  | TLSHandshakeStart now => vret (t <| t5 := now |>)
  | TLSHandshakeDone now => vret (t <| t6 := now |>)
  end.

Fixpoint on_hooks (hs : list hook) (t : Times) : V Times :=
  match hs with
  | [] => vret t
  | h :: hs' => t <-- on_hook h t ; on_hooks hs' t
  end.

Definition dial_network (f : Flags) : string :=
  if fourOnly f then "tcp4" else if sixOnly f then "tcp6" else "tcp".

Definition transport (f : Flags) (url : URL Rest) (req : Request Rest) : V (Transport Cert) :=
  let tr := mkTransport 100 (90 * Second) (10 * Second) (1 * Second) true true EmptyString None in
  let tr := tr <| DialNetwork := dial_network f |> in
  if String.eqb (Scheme url) "https" then
    let host := match SplitHostPort (req_Host req) with Ok (host, _) => host | Err _ => req_Host req end in
    certs <-- lift (readClientCert (clientCertFile f)) ;
    vret (tr <| TLSClientConfig := Some (mkTLSConfig host (insecure f) certs VersionTLS12) |>)
  else vret tr.

Definition connectedVia (tls : option Z) : string :=
  match tls with
  | None => "plaintext"
  | Some v => if v =? VersionTLS12 then "TLSv1.2" else if v =? VersionTLS13 then "TLSv1.3"
              else "plaintext"
  end.

Definition header_spans (h : gmap string (list string)) (k : string) : list span :=
  [grayscale 14 (k +:+ ":"); Plain " "; Styled Cyan (Join (default [] (h !! k)) ",");
   Plain nl].

(** The durations of the two tables, between the bars and below them: dns
    lookup, tcp connection, tls handshake, server processing and content
    transfer; then namelookup, connect, pretransfer, starttransfer and total. *)
Definition https_phases (t : Times) (t7 : Z) : list Z :=
  [Sub (t1 t) (t0 t); Sub (t2 t) (t1 t); Sub (t6 t) (t5 t); Sub (t4 t) (t3 t); Sub t7 (t4 t)].

Definition https_marks (t : Times) (t7 : Z) : list Z :=
  [Sub (t1 t) (t0 t); Sub (t2 t) (t0 t); Sub (t3 t) (t0 t); Sub (t4 t) (t0 t); Sub t7 (t0 t)].

Definition http_phases (t : Times) (t7 : Z) : list Z :=
  [Sub (t1 t) (t0 t); Sub (t3 t) (t1 t); Sub (t4 t) (t3 t); Sub t7 (t4 t)].

Definition http_marks (t : Times) (t7 : Z) : list Z :=
  [Sub (t1 t) (t0 t); Sub (t3 t) (t0 t); Sub (t4 t) (t0 t); Sub t7 (t0 t)].

Definition timing_spans (scheme : string) (t : Times) (t7 : Z) : list span :=
  if String.eqb scheme "https" then
    print_template httpsTemplate (map fmta (https_phases t t7) ++ map fmtb (https_marks t t7))
  else if String.eqb scheme "http" then
    print_template httpTemplate (map fmta (http_phases t t7) ++ map fmtb (http_marks t t7))
  else [].

Definition tab : string := String (ascii_of_nat 9) EmptyString.

(** jb, _ := json.MarshalIndent(c.ToMap(), "", "  "): nothing when it fails. *)
Definition indented (m : gmap string any) : string := default EmptyString (MarshalIndent (AMap m)).

(** The statistics of the last closed connection. A panic of Warnings ends the
    program with status 2. *)
Definition print_stats (c : option view) : V unit :=
  match c with
  | None => vret tt
  | Some c =>
      match ClosedInfo (v_conn c) with
      | None => vret tt
      | Some info =>
          printf [grayscale 14 "RTT"; Plain (":" +:+ tab +:+ tab);
                  Styled Cyan (Duration_String (RTT info)); Plain nl] ;-
          printf [grayscale 14 "Sent"; Plain (":" +:+ tab +:+ tab);
                  Styled Cyan (Itoa (TxBytes (v_conn c)) +:+ " bytes"); Plain nl] ;-
          printf [grayscale 14 "Received"; Plain (":" +:+ tab);
                  Styled Cyan (Itoa (RxBytes (v_conn c)) +:+ " bytes"); Plain nl] ;-
          match warnings_of (v_conn c) with
          | Panics => lift (Exit 2)
          | Val warns =>
              (if (0 <? Z.of_nat (length (elems warns)))
               then printf [grayscale 14 "Warnings"; Plain (":" +:+ tab);
                            Styled Red (Join (elems warns) ", "); Plain nl]
               else vret tt) ;-
              let jb := indented (fields_map (v_conn c) (v_local c) (v_remote c) warns) in
              printf [grayscale 14 ("Diagnostics:" +:+ nl +:+ "============" +:+ nl);
                      Plain nl; Styled White (jb +:+ nl)]
          end
      end
  end.

(** The start when no name was looked up. *)
Definition skip_dns (t : Times) : Times := if IsZero (t0 t) then t <| t0 := t1 t |> else t.

(** From the request to the statistics: the hooks that client.Do calls, the
    response or its error, and what is printed of it. *)
Definition show (f : Flags) (url : URL Rest) (req : Request Rest) (ex : Exchange Rest)
    : V (Response Rest) :=
  t <-- on_hooks (hooks ex) (mkTimes 0 0 0 0 0 0 0) ;
  resp <-- match reply_ ex with
           | Err err => fatal ("failed to read response: " +:+ error_Error err)
           | Ok resp => vret resp
           end ;
  printf [Plain nl; Styled Green "Connected via"; Plain " "; Styled Cyan (connectedVia (TLSVersion resp));
          Plain nl] ;-
  bodyMsg <-- lift (readResponseBody ParseMediaType (saveOutput f) (outputFile f) (Method req)
                      (StatusCode resp) (resp_Header resp) (RequestURI (req_URL req)) (Create ex) (Copy ex)) ;
  let t := skip_dns t in
  printf [Plain nl; Styled Green "HTTP"; grayscale 14 "/";
          Styled Cyan (Itoa (ProtoMajor resp) +:+ "." +:+ Itoa (ProtoMinor resp) +:+ " " +:+ Status resp);
          Plain nl] ;-
  let names := sort_Sort (iteration ex) in
  printf (concat (map (header_spans (resp_Header resp)) names)) ;-
  (if negb (String.eqb bodyMsg EmptyString) then printf [Plain nl; Styled Cyan bodyMsg; Plain nl]
   else vret tt) ;-
  foldr (fun c k => setConniver c ;- k) (vret tt) (closed ex) ;-
  printf [Plain nl] ;-
  printf (timing_spans (Scheme url) t (t7 ex)) ;-
  c <-- getConniver ;
  print_stats c ;-
  vret resp.

(** The end of visit: the URL to visit next. *)
Definition follow (f : Flags) (resp : Response Rest) : V (option (URL Rest)) :=
  if followRedirects f && isRedirect (StatusCode resp) then
    match Location resp with
    | None => vret None
    | Some (Err err) => fatal ("unable to follow redirect: " +:+ error_Error err)
    | Some (Ok loc) =>
        modify (fun s => s <| redirectsFollowed := wrap_s 64 (redirectsFollowed s + 1) |>) ;-
        n <-- get redirectsFollowed ;
        if maxRedirects <? n
        then fatal ("maximum number of redirects (" +:+ Itoa maxRedirects +:+ ") followed")
        else vret (Some loc)
    end
  else vret None.

(** One visit up to the recursive call, with the URL to visit next. *)
Definition visit_once (f : Flags) (url : URL Rest) : V (option (URL Rest)) :=
  req <-- lift (newRequest URL_String NewRequest os_Open (httpHeaders f) (httpMethod f) url (postBody f)) ;
  tr <-- transport f url req ;
  history <-- get sent ;
  modify (fun s => s <| sent := sent s ++ [(req, tr)] |>) ;-
  resp <-- show f url req (serve history req tr) ;
  follow f resp.

(** The recursion of visit; [None] when the fuel runs out. *)
Fixpoint visit (fuel : nat) (f : Flags) (url : URL Rest) (s : State Rest Cert)
    : option (cli unit) * State Rest Cert :=
  match fuel with
  | O => (None, s)
  | S fuel' =>
      match visit_once f url s with
      | (Done (Some loc), s') => visit fuel' f loc s'
      | (Done None, s') => (Some (Done tt), s')
      | (Fatal msg, s') => (Some (Fatal msg), s')
      | (Exit code, s') => (Some (Exit code), s')
      end
  end.

(** One visit for the first request and one for each redirect. *)
Definition visit_fuel : nat := Z.to_nat (maxRedirects + 1).

(** *** main *)

(** The checks of main before the URL is visited: the flags visit reads, and
    the URL. *)
Definition main_checks (f : Flags) (args : list string) : cli (Flags * URL Rest) :=
  if showVersion f then Exit 0
  else if fourOnly f && sixOnly f then Exit (-1)
  else
    match args with
    | [arg] =>
        if (String.eqb (httpMethod f) "POST" || String.eqb (httpMethod f) "PUT") &&
           String.eqb (postBody f) EmptyString
        then Fatal "must supply post body using -d when POST or PUT is used"
        else
          let f := if onlyHeader f then f <| httpMethod := "HEAD" |> else f in
          cli_bind (parseURL Parse arg) (fun url => Done (f, url))
    | _ => Exit 2
    end.

Definition main (f : Flags) (args : list string) : option (cli unit) * State Rest Cert :=
  match main_checks f args with
  | Done (f, url) => visit visit_fuel f url init_state
  | Fatal msg => (Some (Fatal msg), init_state)
  | Exit code => (Some (Exit code), init_state)
  end.

(** ** Lemmas *)

(** What holds of the outcome and the state of a step. *)
Definition ends {A : Type} (m : V A) (Q : cli A -> State Rest Cert -> Prop) (s : State Rest Cert) : Prop :=
  Q (fst (m s)) (snd (m s)).

Definition then_ {A B : Type} (f : A -> V B) (Q : cli B -> State Rest Cert -> Prop) (r : cli A)
    : State Rest Cert -> Prop :=
  match r with
  | Done a => ends (f a) Q
  | Fatal msg => Q (Fatal msg)
  | Exit code => Q (Exit code)
  end.

Lemma ends_bind {A B : Type} (m : V A) (f : A -> V B) Q s :
  ends (vbind m f) Q s <-> ends m (then_ f Q) s.
Proof. unfold ends, vbind, then_, ends. by destruct (m s) as [[a|msg|code] s']. Qed.

Lemma ends_mono {A : Type} (m : V A) (Q Q' : cli A -> State Rest Cert -> Prop) s :
  (forall r s', Q r s' -> Q' r s') -> ends m Q s -> ends m Q' s.
Proof. intros H. apply H. Qed.

Lemma ends_lift {A : Type} (m : cli A) (Q : cli A -> State Rest Cert -> Prop) s :
  ends (lift m) Q s <-> Q m s.
Proof. done. Qed.

Lemma ends_ret {A : Type} (a : A) (Q : cli A -> State Rest Cert -> Prop) s :
  ends (vret a) Q s <-> Q (Done a) s.
Proof. done. Qed.

Lemma ends_get {A : Type} (g : State Rest Cert -> A) (Q : cli A -> State Rest Cert -> Prop) s :
  ends (get g) Q s <-> Q (Done (g s)) s.
Proof. done. Qed.

Lemma ends_modify g (Q : cli unit -> State Rest Cert -> Prop) s :
  ends (modify g) Q s <-> Q (Done tt) (g s).
Proof. done. Qed.

Lemma ends_printf spans (Q : cli unit -> State Rest Cert -> Prop) s :
  ends (printf spans) Q s <-> Q (Done tt) (s <| out := out s ++ spans |>).
Proof. done. Qed.

(** A step whose outcome does not matter, when the program may stop in it. *)
Lemma ends_skip {A B : Type} (m : V A) (f : A -> V B) (Q : cli B -> State Rest Cert -> Prop) s :
  (forall a s', ends (f a) Q s') -> (forall msg s', Q (Fatal msg) s') ->
  (forall code s', Q (Exit code) s') -> ends (vbind m f) Q s.
Proof. intros Hf HF HE. rewrite ends_bind. unfold ends. destruct (m s) as [[a|msg|code] s']; cbn; auto. Qed.

(** A step that leaves a part of the state as it is. *)
Definition preserves {A X : Type} (g : State Rest Cert -> X) (m : V A) : Prop :=
  forall s, ends m (fun _ s' => g s' = g s) s.

(** After such a step, with the part known. *)
Lemma ends_after {A B X : Type} (g : State Rest Cert -> X) (m : V A) (f : A -> V B)
    (Q : cli B -> State Rest Cert -> Prop) s :
  preserves g m -> (forall a s', g s' = g s -> ends (f a) Q s') ->
  (forall msg s', g s' = g s -> Q (Fatal msg) s') ->
  (forall code s', g s' = g s -> Q (Exit code) s') -> ends (vbind m f) Q s.
Proof.
  intros Hm Hf HF HE. rewrite ends_bind. eapply ends_mono; [|apply Hm].
  intros [a|msg|code] s' H; cbn [then_]; auto.
Qed.

Section preserved.
Context {X : Type} (g : State Rest Cert -> X)
  (g_out : forall s o, g (s <| out := o |>) = g s).

Lemma preserves_bind {A B : Type} (m : V A) (f : A -> V B) :
  preserves g m -> (forall a, preserves g (f a)) -> preserves g (vbind m f).
Proof.
  intros Hm Hf s. apply (ends_after g); [done|..]; try done.
  intros a s' H. eapply ends_mono; [|apply Hf]. cbv beta. congruence.
Qed.

Lemma preserves_lift {A : Type} (m : cli A) : preserves g (lift m).
Proof. done. Qed.

Lemma preserves_ret {A : Type} (a : A) : preserves g (vret a).
Proof. done. Qed.

Lemma preserves_get {A : Type} (h : State Rest Cert -> A) : preserves g (get h).
Proof. done. Qed.

Lemma preserves_printf spans : preserves g (printf spans).
Proof. intros s. apply g_out. Qed.

Hint Resolve preserves_lift preserves_ret preserves_get preserves_printf : go.

Lemma preserves_on_hooks hs t : preserves g (on_hooks hs t).
Proof.
  revert t. induction hs as [|h hs IH]; intros t; [apply preserves_ret|].
  apply preserves_bind; [|done]. destruct h as [| | |addr [err|] now| | | |]; cbn [on_hook];
    first [apply preserves_ret|apply preserves_lift|apply preserves_bind; auto with go].
Qed.

Lemma preserves_transport f url req : preserves g (transport f url req).
Proof.
  unfold transport. destruct (String.eqb _ _); [|apply preserves_ret].
  apply preserves_bind; auto with go.
Qed.

Lemma preserves_print_stats c : preserves g (print_stats c).
Proof.
  destruct c as [c|]; [|apply preserves_ret]. cbn. destruct (ClosedInfo (v_conn c)); [|apply preserves_ret].
  do 3 (apply preserves_bind; [apply preserves_printf|intros _]).
  destruct (warnings_of (v_conn c)); [|apply preserves_lift].
  apply preserves_bind; [by case_match; auto with go|]. intros _. apply preserves_printf.
Qed.

Context (g_conn : forall s c, g (s <| connConn := c |>) = g s).

Lemma preserves_closed cs :
  preserves g (foldr (fun c k => vbind (setConniver c) (fun _ => k)) (vret tt) cs).
Proof.
  induction cs as [|c cs IH]; cbn [foldr]; [apply preserves_ret|].
  apply preserves_bind; [|done]. intros s. apply g_conn.
Qed.

Lemma preserves_show f url req ex : preserves g (show f url req ex).
Proof.
  unfold show. apply preserves_bind; [apply preserves_on_hooks|intros t].
  apply preserves_bind; [destruct (reply_ ex); [apply preserves_ret|apply preserves_lift]|intros resp].
  apply preserves_bind; [apply preserves_printf|intros _].
  apply preserves_bind; [apply preserves_lift|intros bodyMsg].
  do 2 (apply preserves_bind; [apply preserves_printf|intros _]).
  apply preserves_bind; [case_match; auto with go|intros _].
  apply preserves_bind; [apply preserves_closed|intros _].
  do 2 (apply preserves_bind; [apply preserves_printf|intros _]).
  apply preserves_bind; [apply preserves_get|intros c].
  apply preserves_bind; [apply preserves_print_stats|intros _]. apply preserves_ret.
Qed.
End preserved.

(** The requests sent and the redirects counted. *)
Definition progress (s : State Rest Cert) : list (Request Rest * Transport Cert) * Z :=
  (sent s, redirectsFollowed s).

(** A response is only returned to the caller when the exchange gave it. *)
Lemma show_response f url req ex s :
  ends (show f url req ex) (fun r _ => forall resp, r = Done resp -> reply_ ex = Ok resp) s.
Proof.
  unfold show. apply ends_skip; [intros t s1|done..]. destruct (reply_ ex) as [r|err]; [|done].
  rewrite ends_bind, ends_ret. cbn [then_].
  repeat (apply ends_skip; [intros ? ?|done..]). intros resp [= ->]. done.
Qed.

(** The request visit makes for a URL. *)
Definition request_for (f : Flags) (url : URL Rest) : cli (Request Rest) :=
  newRequest URL_String NewRequest os_Open (httpHeaders f) (httpMethod f) url (postBody f).

(** [redirected f ex loc]: the exchange ended in a redirect to [loc] that is to
    be followed. *)
Definition redirected (f : Flags) (ex : Exchange Rest) (loc : URL Rest) : Prop :=
  exists resp, reply_ ex = Ok resp /\ followRedirects f = true /\
    isRedirect (StatusCode resp) = true /\ Location resp = Some (Ok loc).

(** The requests of a visit of [url] after [history]: each is the request for
    the URL its predecessor's response redirected to. *)
Inductive Chain (f : Flags) : URL Rest -> list (Request Rest * Transport Cert) ->
    list (Request Rest * Transport Cert) -> Prop :=
| Chain_none url history : Chain f url history []
| Chain_last url history req tr :
    request_for f url = Done req -> Chain f url history [(req, tr)]
| Chain_next url history req tr loc l :
    request_for f url = Done req -> redirected f (serve history req tr) loc ->
    Chain f loc (history ++ [(req, tr)]) l -> Chain f url history ((req, tr) :: l).

Lemma follow_spec f resp s :
  0 <= redirectsFollowed s <= maxRedirects ->
  ends (follow f resp) (fun r s' => sent s' = sent s /\
    forall loc, r = Done (Some loc) ->
      followRedirects f = true /\ isRedirect (StatusCode resp) = true /\
      Location resp = Some (Ok loc) /\
      redirectsFollowed s' = redirectsFollowed s + 1 /\ redirectsFollowed s + 1 <= maxRedirects) s.
Proof.
  intros Hr. unfold follow, maxRedirects in *.
  destruct (followRedirects f && _) eqn:E; [|done]. apply andb_true_iff in E as [Hf Hi].
  destruct (Location resp) as [[loc|err]|]; [|done..].
  rewrite ends_bind, ends_modify. cbn [then_]. rewrite ends_bind, ends_get. cbn -[Itoa wrap_s].
  assert (wrap_s 64 (redirectsFollowed s + 1) = redirectsFollowed s + 1) as ->
    by (apply wrap_s_id; [lia|]; unfold sint; lia).
  destruct (Z.ltb_spec 10 (redirectsFollowed s + 1)); cbn; [done|].
  split; [done|]. intros loc' [= <-]. split_and!; done.
Qed.

Lemma visit_once_spec f url s :
  0 <= redirectsFollowed s <= maxRedirects ->
  ends (visit_once f url) (fun r s' =>
    (sent s' = sent s /\ forall next, r <> Done next) \/
    exists req tr, request_for f url = Done req /\ sent s' = sent s ++ [(req, tr)] /\
      forall loc, r = Done (Some loc) -> redirected f (serve (sent s) req tr) loc /\
        redirectsFollowed s' = redirectsFollowed s + 1 /\ redirectsFollowed s + 1 <= maxRedirects) s.
Proof.
  intros Hr. unfold visit_once. fold (request_for f url). rewrite ends_bind, ends_lift.
  destruct (request_for f url) as [req|msg|code]; cbn [then_]; [|by left..].
  rewrite ends_bind. eapply ends_mono; [|by apply (preserves_transport progress)].
  intros [tr|msg|code] s1 [= Hs1 Hr1]; cbn [then_]; [|by left..].
  rewrite ends_bind, ends_get. cbn [then_]. rewrite ends_bind, ends_modify. cbn [then_].
  rewrite ends_bind. set (s2 := s1 <| sent := _ |>).
  assert (sent s2 = sent s ++ [(req, tr)]) as Hs2 by (unfold s2; cbn; by rewrite Hs1).
  rewrite Hs1. set (ex := serve (sent s) req tr).
  assert (redirectsFollowed s2 = redirectsFollowed s) as Hr2 by (unfold s2; cbn; done).
  pose proof (show_response f url req ex s2) as Hresp. pose proof (preserves_show progress (fun _ _ => eq_refl) (fun _ _ => eq_refl) f url req ex s2) as Hq.
  unfold ends in *. destruct (show f url req ex s2) as [[resp|msg|code] s3]; cbn [fst snd then_] in *.
  - injection Hq as Hs3 Hr3. pose proof (follow_spec f resp s3 ltac:(lia)) as Hf. unfold ends in *.
    destruct Hf as [Hs4 Hloc]. right. exists req, tr. split_and!; [done|congruence|].
    intros loc (Hf & Hi & Hl & Hc & Hm)%Hloc. split; [|split; lia].
    exists resp. split_and!; auto.
  - injection Hq as Hs3 _. right. exists req, tr. split_and!; [done|congruence|done].
  - injection Hq as Hs3 _. right. exists req, tr. split_and!; [done|congruence|done].
Qed.

(** A visit ends, with no more requests than redirects are left and one. *)
Lemma visit_chain f fuel url s :
  0 <= redirectsFollowed s <= maxRedirects ->
  maxRedirects + 1 - redirectsFollowed s <= Z.of_nat fuel ->
  exists r l, fst (visit fuel f url s) = Some r /\ sent (snd (visit fuel f url s)) = sent s ++ l /\
    Chain f url (sent s) l /\ Z.of_nat (length l) <= maxRedirects + 1 - redirectsFollowed s /\
    (r = Done tt -> l <> []).
Proof.
  revert url s. induction fuel as [|fuel IH]; intros url s Hr Hf; [lia|]. cbn [visit].
  pose proof (visit_once_spec f url s Hr) as H. unfold ends in H.
  destruct (visit_once f url s) as [r s1]. cbn [fst snd] in H.
  destruct H as [[Hs Hno]|(req & tr & Hreq & Hs & Hloc)].
  { destruct r as [next|msg|code]; [by destruct (Hno next)|..]; eexists _, [];
      rewrite app_nil_r; cbn [fst snd length]; split_and!; try done; try constructor; lia. }
  destruct r as [[loc|]|msg|code]; cbn [fst snd].
  2-4: eexists _, [(req, tr)]; split_and!; try done; [by constructor|cbn [length]; lia].
  destruct (Hloc loc eq_refl) as (Hred & Hc & Hm).
  destruct (IH loc s1) as (r & l & Hv & Hsl & Hch & Hlen & _); [lia..|].
  exists r, ((req, tr) :: l). rewrite Hs in Hsl, Hch. rewrite <- app_assoc in Hsl.
  split_and!; [done|done| |cbn [length]; lia|done]. by eapply Chain_next.
Qed.

(** What print_stats prints. *)
Definition stats_spans (c : option view) : list span :=
  match c with
  | None => []
  | Some c =>
      match ClosedInfo (v_conn c), warnings_of (v_conn c) with
      | Some info, Val warns =>
          [grayscale 14 "RTT"; Plain (":" +:+ tab +:+ tab);
           Styled Cyan (Duration_String (RTT info)); Plain nl;
           grayscale 14 "Sent"; Plain (":" +:+ tab +:+ tab);
           Styled Cyan (Itoa (TxBytes (v_conn c)) +:+ " bytes"); Plain nl;
           grayscale 14 "Received"; Plain (":" +:+ tab);
           Styled Cyan (Itoa (RxBytes (v_conn c)) +:+ " bytes"); Plain nl] ++
          (if bool_decide (elems warns = []) then []
           else [grayscale 14 "Warnings"; Plain (":" +:+ tab);
                 Styled Red (Join (elems warns) ", "); Plain nl]) ++
          [grayscale 14 ("Diagnostics:" +:+ nl +:+ "============" +:+ nl); Plain nl;
           Styled White (indented (fields_map (v_conn c) (v_local c) (v_remote c) warns) +:+ nl)]
      | _, _ => []
      end
  end.

Lemma print_stats_spans c s :
  ends (print_stats c) (fun r s' => forall a, r = Done a -> out s' = out s ++ stats_spans c) s.
Proof.
  destruct c as [c|]; [|intros a _; by rewrite app_nil_r]. unfold print_stats, stats_spans.
  destruct (ClosedInfo (v_conn c)) as [info|]; [|intros a _; by rewrite app_nil_r].
  rewrite ends_bind, ends_printf. cbn [then_]. rewrite ends_bind, ends_printf. cbn [then_].
  rewrite ends_bind, ends_printf. cbn [then_].
  destruct (warnings_of (v_conn c)) as [warns|]; [|done].
  rewrite ends_bind. destruct (Z.ltb_spec 0 (Z.of_nat (length (elems warns)))) as [Hl|Hl].
  - rewrite ends_printf. cbn [then_]. rewrite ends_printf, bool_decide_false by (intros E; rewrite E in Hl; done).
    intros a _. cbn -[app Itoa fields_map]. by rewrite <- !app_assoc.
  - rewrite ends_ret. cbn [then_]. rewrite ends_printf, bool_decide_true
      by (destruct (elems warns); [done|]; cbn in Hl; lia).
    intros a _. cbn -[app Itoa fields_map]. by rewrite <- !app_assoc.
Qed.

Lemma print_stats_ends c s :
  ends (print_stats c) (fun r s' => connConn s' = connConn s /\
    forall a, r = Done a -> out s' = out s ++ stats_spans c) s.
Proof.
  split; [by apply (preserves_print_stats connConn)|apply print_stats_spans].
Qed.

Lemma setConniver_fold cs s :
  ends (foldr (fun c k => vbind (setConniver c) (fun _ => k)) (vret tt) cs)
    (fun r s' => connConn s' = match last cs with Some c => Some c | None => connConn s end) s.
Proof.
  revert s. induction cs as [|c cs IH]; intros s; [done|]. cbn [foldr]. rewrite ends_bind.
  unfold setConniver. rewrite ends_modify. cbn [then_]. eapply ends_mono; [|apply IH].
  intros _ s' ->. rewrite last_cons. by destruct (last cs).
Qed.

(** The last thing a visit shows is the connection closed last, which stays the
    one of an earlier visit when none was closed. *)
Lemma show_stats f url req ex s :
  let shown := match last (closed ex) with Some c => Some c | None => connConn s end in
  ends (show f url req ex) (fun r s' => forall resp, r = Done resp ->
    connConn s' = shown /\ exists before, out s' = before ++ stats_spans shown) s.
Proof.
  intros shown. unfold show.
  apply (ends_after connConn); [by apply preserves_on_hooks|intros t s1 H1|done..].
  apply (ends_after connConn); [by destruct (reply_ ex)|intros resp s2 H2|done..].
  apply (ends_after connConn); [by apply preserves_printf|intros _ s3 H3|done..].
  apply (ends_after connConn); [done|intros bodyMsg s4 H4|done..].
  do 2 (apply (ends_after connConn); [by apply preserves_printf|intros _ ? ?|done..]).
  apply (ends_after connConn); [by case_match|intros _ s7 H7|done..].
  rewrite ends_bind. eapply ends_mono; [|apply setConniver_fold].
  intros [[]|msg|code] s8 H8; cbn [then_]; [|done..].
  assert (connConn s8 = shown) as H8' by (unfold shown; rewrite H8; destruct (last _); congruence).
  do 2 (apply (ends_after connConn); [by apply preserves_printf|intros _ ? ?|done..]).
  unfold getConniver. rewrite ends_bind, ends_get. cbn [then_]. rewrite ends_bind.
  match goal with |- ends (print_stats (connConn ?s)) _ _ => assert (connConn s = shown) as Hs by congruence end.
  rewrite Hs. eapply ends_mono; [|apply print_stats_ends].
  intros [[]|msg|code] s11 [Hk Hp]; cbn [then_]; [|done..]. rewrite ends_ret.
  intros resp' _. split; [congruence|]. eauto.
Qed.

Lemma transport_state f url req s : snd (transport f url req s) = s.
Proof.
  unfold transport. destruct (String.eqb _ _); [|done]. unfold vbind, lift.
  by destruct (readClientCert _).
Qed.

Lemma follow_output f resp s :
  ends (follow f resp) (fun _ s' => (sent s', connConn s', out s') = (sent s, connConn s, out s)) s.
Proof.
  unfold follow. destruct (followRedirects f && _); [|done].
  destruct (Location resp) as [[loc|err]|]; [|done..].
  rewrite ends_bind, ends_modify. cbn [then_]. rewrite ends_bind, ends_get. cbn [then_].
  by destruct (maxRedirects <? _).
Qed.

Lemma visit_once_shows f url s :
  ends (visit_once f url) (fun r s' => forall next, r = Done next ->
    exists req tr before, sent s' = sent s ++ [(req, tr)] /\
    let ex := serve (sent s) req tr in
    let shown := match last (closed ex) with Some c => Some c | None => connConn s end in
    connConn s' = shown /\ out s' = before ++ stats_spans shown) s.
Proof.
  unfold visit_once. rewrite ends_bind, ends_lift.
  destruct (newRequest _ _ _ _ _ _ _) as [req|msg|code]; cbn [then_]; [|done..].
  rewrite ends_bind. unfold ends at 1. rewrite transport_state.
  destruct (fst (transport f url req s)) as [tr|msg|code]; cbn [then_]; [|done..].
  rewrite ends_bind, ends_get. cbn [then_]. rewrite ends_bind, ends_modify. cbn [then_].
  set (s2 := s <| sent := _ |>). rewrite ends_bind.
  pose proof (show_stats f url req (serve (sent s) req tr) s2) as Hst.
  pose proof (preserves_show progress (fun _ _ => eq_refl) (fun _ _ => eq_refl) f url req
    (serve (sent s) req tr) s2) as Hq.
  unfold ends in Hst, Hq. unfold ends at 1.
  destruct (show f url req _ s2) as [[resp|msg|code] s3]; cbn [fst snd then_] in *; [|done..].
  destruct (Hst resp eq_refl) as (Hc & before & Ho). injection Hq as Hs3 _.
  eapply ends_mono; [|apply follow_output]. intros r s4 [= Hs4 Hc4 Ho4] next _.
  exists req, tr, before. split; [rewrite Hs4, Hs3; done|]. by rewrite Hc4, Ho4.
Qed.

Lemma Sub_ordered x y : y <= x -> x - y < 2 ^ 63 -> Sub x y = x - y.
Proof. unfold Sub. lia. Qed.

(** A failed connection attempt among the hooks stops the program. *)
Lemma on_hooks_failed hs t s addr err now :
  ConnectDone addr (Some err) now ∈ hs ->
  exists msg, fst (on_hooks hs t s) = Fatal msg.
Proof.
  revert t s. induction hs as [|h hs IH]; intros t s; [by intros ?%not_elem_of_nil|].
  intros [<-|Hin]%elem_of_cons; [by eexists|]. cbn [on_hooks]. unfold vbind.
  destruct h as [| | |addr' [err'|] now'| | | |]; try apply (IH _ _ Hin). by eexists.
Qed.

(** The PEM blocks of a file, as Decode finds them. *)
Inductive Blocks : string -> list Block -> Prop :=
| Blocks_end bytes : Decode bytes = None -> Blocks bytes []
| Blocks_next bytes block rest bs :
    Decode bytes = Some (block, rest) -> Blocks rest bs -> Blocks bytes (block :: bs).

(** The encoding of the last block whose type ends so, or [d]. *)
Definition last_block (suffix : string) (bs : list Block) (d : string) : string :=
  match last (filter (fun b => HasSuffix (BlockType b) suffix = true) bs) with
  | Some b => EncodeToMemory b
  | None => d
  end.

Lemma last_block_cons suffix b bs d :
  last_block suffix (b :: bs) d =
    last_block suffix bs (if HasSuffix (BlockType b) suffix then EncodeToMemory b else d).
Proof.
  unfold last_block. rewrite filter_cons.
  case_decide as E; [rewrite E, last_cons|apply not_true_iff_false in E; rewrite E];
    by destruct (last _).
Qed.

Lemma pem_loop_blocks bytes bs fuel pkey cert :
  Blocks bytes bs -> (length bs < fuel)%nat ->
  pem_loop fuel bytes pkey cert = (last_block "PRIVATE KEY" bs pkey, last_block "CERTIFICATE" bs cert).
Proof.
  intros HB. revert fuel pkey cert. induction HB as [bytes E|bytes b rest bs E HB IH];
    intros [|fuel] pkey cert Hf; cbn [length] in Hf; try lia; cbn [pem_loop]; rewrite E; [done|].
  rewrite IH by lia. by rewrite !last_block_cons.
Qed.

(** Decode consumes what it decodes. *)
Definition Decode_shortens : Prop := forall bytes block rest,
  Decode bytes = Some (block, rest) -> (String.length rest < String.length bytes)%nat.

Lemma Blocks_exist bytes :
  Decode_shortens -> exists bs, Blocks bytes bs /\ (length bs <= String.length bytes)%nat.
Proof.
  intros Hd. remember (String.length bytes) as n eqn:Hn. revert bytes Hn.
  induction n as [n IH] using lt_wf_ind. intros bytes ->.
  destruct (Decode bytes) as [[b rest]|] eqn:E.
  - destruct (IH (String.length rest) (Hd _ _ _ E) rest eq_refl) as (bs & HB & Hl).
    exists (b :: bs). split; [by eapply Blocks_next|]. specialize (Hd _ _ _ E). cbn. lia.
  - exists []. split; [by constructor|]. cbn. lia.
Qed.

(** ** Properties *)

(** C10: main ends. When the checks pass, the requests form a redirect chain:
    the first is for the given URL, each next one for the Location of the
    redirect before it, no more than eleven in all and only one without -L; a
    normal end has sent at least one. When they do not pass, main ends with
    their exit and sends nothing. *)
Theorem main_follows_redirects f args :
  exists r, fst (main f args) = Some r /\
  match main_checks f args with
  | Done (f', url) =>
      let l := sent (snd (main f args)) in
      Chain f' url [] l /\ Z.of_nat (length l) <= maxRedirects + 1 /\
      (followRedirects f' = false -> (length l <= 1)%nat) /\ (r = Done tt -> l <> [])
  | Fatal msg => r = Fatal msg /\ sent (snd (main f args)) = []
  | Exit code => r = Exit code /\ sent (snd (main f args)) = []
  end.
Proof.
  unfold main. destruct (main_checks f args) as [[f' url]|msg|code]; [|by eexists..].
  destruct (visit_chain f' visit_fuel url init_state) as (r & l & Hv & Hs & Hch & Hlen & Hne);
    [cbn; unfold maxRedirects; lia|vm_compute; congruence|].
  exists r. split; [done|]. rewrite Hs. cbn [init_state sent app]. split_and!; [done|done| |done].
  intros Hf. destruct Hch as [| |? ? ? ? ? ? ? (resp & _ & Hf' & _) _]; cbn; [lia..|congruence].
Qed.

(** C27: what a visit shows last. When a visit completes, the end of its output
    is the statistics of the connection whose Closed report ran last, its
    bytes, warnings and map; when no report ran during the visit they are
    those of a connection of an earlier visit, or nothing. *)
Theorem visit_shows_last_closed f url s next s' :
  visit_once f url s = (Done next, s') ->
  exists req tr before, sent s' = sent s ++ [(req, tr)] /\
    let ex := serve (sent s) req tr in
    let shown := match last (closed ex) with Some c => Some c | None => connConn s end in
    connConn s' = shown /\ out s' = before ++ stats_spans shown.
Proof.
  intros E. pose proof (visit_once_shows f url s) as H. unfold ends in H. rewrite E in H.
  by apply (H next).
Qed.

(** one failed address is fatal. If any connection attempt of a request
    fails, the program exits, also when another attempt succeeded and the
    response arrived. *)
Theorem failed_address_is_fatal f url s req tr addr err now :
  request_for f url = Done req -> fst (transport f url req s) = Done tr ->
  ConnectDone addr (Some err) now ∈ hooks (serve (sent s) req tr) ->
  exists msg, fst (visit_once f url s) = Fatal msg.
Proof.
  intros Hreq Htr Hin. unfold visit_once. fold (request_for f url). rewrite Hreq.
  unfold lift, vbind at 1. unfold vbind at 1. pose proof (transport_state f url req s) as Hs.
  destruct (transport f url req s) as [r s1]. cbn in Htr, Hs. subst r s1.
  unfold vbind at 1, get. unfold vbind at 1, modify. unfold vbind at 1, show. unfold vbind at 1.
  match goal with |- context [on_hooks ?h ?t ?s] =>
    destruct (on_hooks_failed h t s addr err now Hin) as [msg Hm];
    destruct (on_hooks h t s) as [r s2] end.
  cbn in Hm. subst r. by eexists.
Qed.

(** *** The TLS configuration *)

(** The name a certificate is checked against: the host of an address, and a
    text that is no address of a host and a port as it is. *)
Definition server_name (hostport name : string) : Prop :=
  (exists port, address name port hostport) \/
  (name = hostport /\ forall host port, ~ address host port hostport).

(** C29: the transport of a request. For a https URL the certificate is checked
    against the host of the request without its port and without the brackets
    of an IPv6 address, or against the whole text when it names no port; at
    least TLS 1.2 is asked for and the check is only skipped with -k. Without
    https there is no TLS configuration. The network follows -4 and -6. Making
    it changes nothing else, and ends the program only for a bad certificate
    file. *)
Theorem transport_config f url req s :
  match transport f url req s with
  | (Done tr, s') =>
      s' = s /\ DialNetwork tr = (if fourOnly f then "tcp4" else if sixOnly f then "tcp6" else "tcp") /\
      DisableKeepAlives tr = true /\
      if String.eqb (Scheme url) "https" then
        exists cfg, TLSClientConfig tr = Some cfg /\ server_name (req_Host req) (ServerName cfg) /\
          InsecureSkipVerify cfg = insecure f /\ MinVersion cfg = VersionTLS12 /\
          readClientCert (clientCertFile f) = Done (Certificates cfg)
      else TLSClientConfig tr = None
  | (Fatal msg, s') => s' = s /\ Scheme url = "https" /\ readClientCert (clientCertFile f) = Fatal msg
  | (Exit _, _) => False
  end.
Proof.
  unfold transport. destruct (String.eqb_spec (Scheme url) "https") as [Hs|_]; [|done].
  unfold vbind, lift. destruct (readClientCert (clientCertFile f)) as [certs|msg|code] eqn:E.
  - cbn [vret]. split_and!; [done..|]. eexists. split; [done|]. cbn [ServerName InsecureSkipVerify MinVersion Certificates].
    split_and!; try done. unfold server_name.
    destruct (SplitHostPort (req_Host req)) as [[host port]|err] eqn:Eh.
    + left. exists port. by apply SplitHostPort_address.
    + right. split; [done|]. intros host port Ha%address_SplitHostPort. congruence.
  - done.
  - unfold readClientCert in E. repeat case_match; done.
Qed.

(** the client certificate. Of the blocks of the file only the last private
    key and the last certificate are used, each re-encoded; a chain of
    certificates loses all but its last. The loop ends because decoding
    shortens the input. *)
Theorem readClientCert_last_blocks filename bytes :
  Decode_shortens -> filename <> EmptyString -> ReadFile filename = Ok bytes ->
  exists bs, Blocks bytes bs /\
    match X509KeyPair (last_block "CERTIFICATE" bs EmptyString) (last_block "PRIVATE KEY" bs EmptyString) with
    | Ok cert => readClientCert filename = Done [cert]
    | Err err => exists msg, readClientCert filename = Fatal msg
    end.
Proof.
  intros Hd Hf Hr. destruct (Blocks_exist bytes Hd) as (bs & HB & Hl). exists bs. split; [done|].
  unfold readClientCert. rewrite (proj2 (String.eqb_neq _ _) Hf), Hr.
  rewrite (pem_loop_blocks bytes bs) by (done || lia).
  destruct (X509KeyPair _ _); eauto.
Qed.

(** C24: the timing tables. For the hooks of a request on a new connection, with
    or without a name lookup, at times that do not go back and span less than
    the 292 years of a Duration: the phases of the http table are not negative and add up to the total, the time from the
    first hook to the end of the body. In the https table what is missing from
    the total is the time between the connection and the handshake and between
    the handshake and the use of the connection. *)
Theorem timing_tables (dns : bool) (a b c d h i e g t7 : Z) addr s :
  0 < a <= b -> b <= c <= d -> d <= h <= i -> i <= e <= g -> g <= t7 ->
  t7 - (if dns then a else c) < 2 ^ 63 ->
  let lookup := if dns then [DNSStart a; DNSDone b] else [] in
  let connect := [ConnectStart c; ConnectDone addr None d] in
  let use := [GotConn e; GotFirstResponseByte g] in
  let total := t7 - (if dns then a else c) in
  let zero := mkTimes 0 0 0 0 0 0 0 in
  (exists t, fst (on_hooks (lookup ++ connect ++ use) zero s) = Done t /\
     Forall (fun x => 0 <= x) (http_phases (skip_dns t) t7) /\
     sumZ (http_phases (skip_dns t) t7) = total /\ last (http_marks (skip_dns t) t7) = Some total) /\
  (exists t, fst (on_hooks (lookup ++ connect ++ [TLSHandshakeStart h; TLSHandshakeDone i] ++ use) zero s)
       = Done t /\
     Forall (fun x => 0 <= x) (https_phases (skip_dns t) t7) /\
     sumZ (https_phases (skip_dns t) t7) + (h - d) + (e - i) = total /\
     last (https_marks (skip_dns t) t7) = Some total).
Proof.
  intros Ha Hc Hh He Ht Hspan lookup connect use total zero.
  assert (IsZero a = false /\ IsZero b = false) as [Za Zb] by (unfold IsZero; lia).
  split; [exists (mkTimes (if dns then a else 0) (if dns then b else c) d e g 0 0)|
          exists (mkTimes (if dns then a else 0) (if dns then b else c) d e g h i)].
  all: split; [unfold lookup, connect, use, zero; destruct dns; cbn -[IsZero]; rewrite ?Zb; done|].
  all: unfold skip_dns, total, http_phases, http_marks, https_phases, https_marks; destruct dns; cbn [t0]; rewrite ?Za; cbn -[Z.add Z.sub Sub];
    rewrite !Sub_ordered by lia; 
    (split; [rewrite !Forall_cons, Forall_nil; lia|split; [lia|done]]).
Qed.

End program.

(** ** Instances on concrete inputs *)

#[local] Existing Instance sample_platform.
#[local] Existing Instance linux_errno.

(** Exchanges: a redirect to the same URL, an answer after a failed attempt on
    another address, and an answer on a connection that is closed after it. *)
Definition redirecting (req : Request string) : Exchange string :=
  mkExchange [] (Ok (mkResponse 302 "302 Found" 1 1 None ∅ (Some (Ok (req_URL req))))) []
    (fun _ => None) None [] 0.

Definition two_addresses : Exchange string :=
  mkExchange [ConnectStart 5; ConnectDone "[2001:db8::1]:443" (Some (Errno 101)) 6; ConnectStart 6;
              ConnectDone "192.0.2.1:443" None 8; GotConn 9; GotFirstResponseByte 12]
    (Ok (mkResponse 200 "200 OK" 1 1 None ∅ None)) [] (fun _ => None) None [] 20.

Definition sample_closed : option (Info SysInfo) := Eval vm_compute in ClosedInfo (st sample_world).

Definition sample_view : view :=
  mkview _ (zero_conn <| TxBytes := 7 |> <| ClosedInfo := sample_closed |>) "127.0.0.1:1" "127.0.0.1:2".

Definition answered : Exchange string :=
  mkExchange [] (Ok (mkResponse 200 "200 OK" 1 1 None ∅ None)) [sample_view] (fun _ => None) None [] 20.

Definition sample_main (serve : Request string -> Exchange string) (f : Flags) (args : list string)
    : option (cli unit) * State string string :=
  main (fun s => Ok (sample_URL s)) rest sample_NewRequest (fun _ => Err (NewError "mime"))
    (fun _ => None) rest (fun _ => Ok "file")
    (fun _ => None (A := string * string)) id id (fun c k => Ok (c +:+ k))
    (fun _ req _ => serve req) f args.

Definition sample_visit_once (serve : Request string -> Exchange string) (f : Flags) (url : URL string)
    : State string string -> cli (option (URL string)) * State string string :=
  visit_once rest sample_NewRequest (fun _ => Err (NewError "mime"))
    (fun _ => None) rest (fun _ => Ok "file")
    (fun _ => None (A := string * string)) id id (fun c k => Ok (c +:+ k))
    (fun _ req _ => serve req) f url.

(** The bound is reached: an endless redirect takes eleven requests. *)
Example endless_redirect :
  let r := sample_main redirecting (default_flags <| followRedirects := true |>) ["x.example"] in
  fst r = Some (Fatal "maximum number of redirects (10) followed") /\ length (sent (snd r)) = 11%nat.
Proof. vm_compute. split; reflexivity. Qed.

Lemma sample_stats : grayscale 14 "RTT" ∈ stats_spans (Some sample_view).
Proof.
  assert (is_Some (ClosedInfo (v_conn sample_view))) as [i Hi] by (by eexists).
  assert (exists ws, warnings_of (v_conn sample_view) = Val ws) as [ws Hw] by (vm_compute; by eexists).
  unfold stats_spans. rewrite Hi, Hw. apply list_elem_of_here.
Qed.

Lemma answered_done :
  match fst (sample_visit_once (fun _ => answered) default_flags (sample_URL "x.example") init_state) with
  | Done _ => true
  | _ => false
  end = true.
Proof. vm_compute. reflexivity. Qed.

Lemma visit_shows_last_closed_witness :
  exists next s', sample_visit_once (fun _ => answered) default_flags (sample_URL "x.example") init_state =
    (Done next, s') /\ connConn s' = Some sample_view /\
    exists before, out s' = before ++ stats_spans (Some sample_view) /\
    grayscale 14 "RTT" ∈ stats_spans (Some sample_view).
Proof.
  pose proof answered_done as Hr.
  destruct (sample_visit_once (fun _ => answered) default_flags (sample_URL "x.example") init_state)
    as [r s'] eqn:E.
  destruct r as [next| |]; [|discriminate Hr..].
  exists next, s'. split; [reflexivity|].
  unfold sample_visit_once in E.
  destruct (visit_shows_last_closed _ _ _ _ _ _ _ _ _ _ _ _ _ _ _ _ E) as (req & tr & b & _ & Hc & Ho).
  split; [exact Hc|]. exists b. split; [exact Ho|]. exact sample_stats.
Defined.

Lemma failed_address_is_fatal_witness :
  exists msg, fst (sample_visit_once (fun _ => two_addresses) default_flags (sample_URL "x.example")
                     init_state) = Fatal msg.
Proof.
  unfold sample_visit_once.
  eapply (failed_address_is_fatal _ _ _ _ _ _ _ _ _ _ _ _ _ _ _ _ "[2001:db8::1]:443" (Errno 101) 6).
  - reflexivity.
  - reflexivity.
  - apply elem_of_cons. right. apply list_elem_of_here.
Defined.

(** A decoder of blocks that are lines, each its own type. *)
Fixpoint cut_line (s : string) : string * string :=
  match s with
  | EmptyString => (EmptyString, EmptyString)
  | String c s' =>
      if Ascii.eqb c newline then (EmptyString, s')
      else let '(l, rest) := cut_line s' in (String c l, rest)
  end.

Definition decode_line (s : string) : option (string * string) :=
  match s with EmptyString => None | _ => Some (cut_line s) end.

Lemma cut_line_shortens s : s <> EmptyString -> (String.length (cut_line s).2 < String.length s)%nat.
Proof.
  induction s as [|c s IH]; [done|]. intros _. cbn [cut_line]. destruct (Ascii.eqb c newline); cbn; [lia|].
  destruct s as [|d s]; [cbn; lia|]. specialize (IH ltac:(done)).
  destruct (cut_line (String d s)). cbn in *. lia.
Qed.

Lemma decode_line_shortens : Decode_shortens decode_line.
Proof.
  intros [|c s] block rest; [done|]. intros [= E].
  pose proof (cut_line_shortens (String c s) ltac:(done)) as H. cbn [decode_line] in E.
  change (cut_line (String c s) = (block, rest)) in E. rewrite E in H. exact H.
Qed.

Definition chain_file : string :=
  Join ["leaf CERTIFICATE"; "RSA PRIVATE KEY"; "root CERTIFICATE"] nl.

Lemma readClientCert_last_blocks_witness :
  exists bs, Blocks decode_line chain_file bs /\
    readClientCert (fun _ => Ok chain_file) decode_line id id (fun c k => Ok (c +:+ " with " +:+ k))
      "client.pem" = Done ["root CERTIFICATE with RSA PRIVATE KEY"].
Proof.
  destruct (readClientCert_last_blocks (fun _ => Ok chain_file) decode_line id id
    (fun c k => Ok (c +:+ " with " +:+ k)) "client.pem" chain_file decode_line_shortens)
    as (bs & HB & _); [discriminate|reflexivity|].
  exists bs. split; [exact HB|]. vm_compute. reflexivity.
Defined.

(** A request of the year 2026, in nanoseconds from the year 1. *)
Definition in_2026 (ns : Z) : Z := 2025 * 31556952 * 1000000000 + ns.

Lemma timing_tables_witness :
  2 ^ 63 < in_2026 10 /\
  exists t, fst (on_hooks [DNSStart (in_2026 10); DNSDone (in_2026 15); ConnectStart (in_2026 15);
                           ConnectDone "192.0.2.1:80" None (in_2026 20);
                           GotConn (in_2026 30); GotFirstResponseByte (in_2026 40)] (mkTimes 0 0 0 0 0 0 0)
                   (init_state (Rest := string) (Cert := string))) = Done t /\
    sumZ (http_phases (skip_dns t) (in_2026 50)) = 40.
Proof.
  split; [vm_compute; reflexivity|].
  destruct (timing_tables (Rest := string) (Cert := string) true (in_2026 10) (in_2026 15) (in_2026 15)
    (in_2026 20) (in_2026 22) (in_2026 28) (in_2026 30) (in_2026 40) (in_2026 50)
    "192.0.2.1:80" init_state) as [(t & Ht & _ & Hs & _) _]; [unfold in_2026; lia..|].
  exists t. split; [exact Ht|]. rewrite Hs. reflexivity.
Defined.
