(* ===== verification/Clients.v ===== *)
(** * The programs that wrap connections

    The dial functions of cmd/get/main.go and cmd/httpstat/main.go and the
    callbacks they install. A callback's effect outside the connection is a
    mark: the text cmd/get prints, the call of setConniver in cmd/httpstat. The
    net.Dialer is an argument, its error. *)

From S2P Require Import Prelude GoStrings GoTime GoProg TcpInfo Json TcpInfoJson Wrap WrapProps WrapTheorems ConnJson OperatingSystem.

Section clients.
Context `{P : Platform} `{EO : ErrnoOps}.
(** The JSON value of errors of other types. *)
Context (other_json : string -> option bool -> option json).

Local Open Scope go_scope.

(** ** cmd/get *)

Definition get_line (c : Conn SysInfo) (opened closed : Info SysInfo) (local remote raw : string)
    (warns : slice string) : string :=
  "Connection " +:+ local +:+ " -> " +:+ remote +:+ " took " +:+
  Duration_String (wrap_s 64 (ClosedAt c - OpenedAt c)) +:+ ", sent:" +:+ Itoa (TxBytes c) +:+
  "/recv:" +:+ Itoa (RxBytes c) +:+ " bytes, starting RTT " +:+ Duration_String (RTT opened) +:+
  "(" +:+ Duration_String (RTTVar opened) +:+ ") and ending RTT " +:+ Duration_String (RTT closed) +:+
  "(" +:+ Duration_String (RTTVar closed) +:+ ")" +:+ String newline ("Warnings:" +:+
  Join (elems warns) ", ") +:+ String newline raw +:+ String newline (String newline EmptyString).

(** raw, _ := json.Marshal(c): nothing when it fails. *)
Definition marshaled (c : Conn SysInfo) : string := default EmptyString (Conn_Marshal other_json c).

(** The callback: OpenedInfo and ClosedInfo are read through nil or not. *)
Definition get_report (state : Z) : M unit :=
  if negb (state =? Closed) then ret tt else
  raw <- load (G := ConnSig) marshaled ;;
  local <- Ask (G := ConnSig) ConnLocalAddr Ret ;;
  remote <- Ask (G := ConnSig) ConnRemoteAddr Ret ;;
  c <- load (G := ConnSig) id ;;
  match OpenedInfo c, ClosedInfo c with
  | Some opened, Some closed =>
      warns <- Warnings ;;
      emit (G := ConnSig) (Did (get_line c opened closed local remote raw warns))
  | _, _ => Ret Panics
  end.

Definition get_dial (dialed : option error) : M (option error) :=
  match dialed with
  | Some err => ret (Some err)
  | None => WrapConn (Some get_report) ;;; ret None
  end.

(** The client main makes: its timeouts, in nanoseconds, and its DialContext. *)
Record get_client : Type := mkGetClient {
  Dialer_Timeout : Z;
  TLSHandshakeTimeout : Z;
  DialContext : option error -> M (option error)
}.

Definition get_cl : get_client :=
  let timeout := 15 * 1000000000 in mkGetClient timeout timeout get_dial.

(** What main does of its own: the request, and either the end of the program
    or the two calls that release the connection. *)
Inductive get_call : Type :=
| HttpGet (url : string)
| Fatalf (text : string)
| BodyClose
| CloseIdleConnections.

(** main, from the error of cl.Get; with it the exit status. *)
Definition get_main (get : option error) : list get_call * Z :=
  match get with
  | Some err => ([HttpGet "https://www.golang.org/"; Fatalf ("get: " +:+ error_Error err)], 1)
  | None => ([HttpGet "https://www.golang.org/"; BodyClose; CloseIdleConnections], 0)
  end.

(** ** cmd/httpstat *)

Definition http_report (state : Z) : M unit :=
  if state =? Closed then emit (G := ConnSig) (Did "setConniver") else ret tt.

(** The connection is wrapped whether or not dialing failed. *)
Definition http_dial (dialed : option error) : M (option error) :=
  WrapConn (Some http_report) ;;; ret dialed.

(** ** pkg/tcpinfo/examples/tcpdial *)

(** What the example calls: net.Dial, the type assertion, SyscallConn, Control
    with the closure that calls GetTCPInfo, and Close of the connection. *)
Inductive dial_query : Type := Dial | DialedTCP | DialedSyscallConn | DialedControl | DialedClose.

Definition dial_reply (q : dial_query) : Type :=
  match q with
  | Dial | DialedSyscallConn | DialedClose => option error
  | DialedTCP => bool
  | DialedControl => option error * option Answers
  end.

(** The marks are the texts printed. *)
Definition DialSig : Sig := mkSig unit dial_query dial_reply string.

(** json.MarshalIndent(sysInfo): null for a nil pointer; nothing when it fails. *)
Definition indented_sys (sysInfo : option SysInfo) : string :=
  match sysInfo with
  | None => "null"
  | Some s => default EmptyString (print_indent 0 <$> SysInfo_json s)
  end.

(** main: the closure assigns the error of GetTCPInfo to the variable of main,
    which is not looked at again; the error that is tested is Control's. *)
Definition tcpdial_main : prog DialSig (go unit) :=
  err <- ask (G := DialSig) Dial ;;
  if negb (is_none err) then Ret Panics else
  deferring (ask (G := DialSig) DialedClose ;;; ret tt) (
    ok <- ask (G := DialSig) DialedTCP ;;
    if negb ok then Ret Panics else
    err <- ask (G := DialSig) DialedSyscallConn ;;
    if negb (is_none err) then ret tt else
    res <- ask (G := DialSig) DialedControl ;;
    let '(controlErr, called) := res in
    let '(sysInfo, err) :=
      match called with Some a => GetTCPInfo a | None => (None, err) end in
    if negb (is_none controlErr) then ret tt else
    emit (G := DialSig) (indented_sys sysInfo +:+ String newline EmptyString)).

(** ** Lemmas *)

Lemma closes_app (t u : list (event ConnSig)) : closes (t ++ u) = closes t ++ closes u.
Proof. apply omap_app. Qed.

Lemma reports_app (t u : list (event ConnSig)) : reports (t ++ u) = reports t ++ reports u.
Proof. apply omap_app. Qed.

Lemma http_report_observer : observer (Some http_report).
Proof.
  intros f s w [= <-] Hl. unfold http_report.
  destruct (s =? Closed); cbn [wp emit ret]; (split; [done|]);
    [by apply same_info_Did|by apply same_info_refl].
Qed.

(** The callback of cmd/get keeps to the contract of callbacks, also when it
    panics. *)
Lemma get_report_ok : callback_ok (Some get_report).
Proof.
  intros f s w [= <-] HI. unfold get_report. destruct (negb _); [done|].
  rewrite wp_gbind, wp_load. cbn [on_val]. rewrite wp_gbind. intros [local|]; cbn [wp on_val];
    [|by apply ConnInv_LocalAddr].
  rewrite wp_gbind. intros [remote|]; cbn [wp on_val]; [|by apply ConnInv_RemoteAddr, ConnInv_LocalAddr].
  rewrite wp_gbind, wp_load. cbn [on_val].
  set (w2 := log _ (log _ w)). assert (ConnInv w2) as HI2 by by apply ConnInv_RemoteAddr, ConnInv_LocalAddr.
  destruct (OpenedInfo (id (st w2))) as [opened|]; [|done].
  destruct (ClosedInfo (id (st w2))) as [closed|]; [|done].
  rewrite wp_gbind. eapply wp_mono; [|by apply Warnings_inv].
  intros [warns|] w3 [_ HI3]; [|done]. by apply ConnInv_Did.
Qed.

(** Without the information of both ends the callback panics, whatever the
    address methods do. *)
Lemma get_report_needs_info (w : world ConnSig) :
  ClosedInfo (st w) = None ->
  wp (get_report Closed) (fun r w' => r = Panics /\ closes (events w') = closes (events w)) w.
Proof.
  intros Hn. unfold get_report. cbn [negb Z.eqb Closed Pos.eqb].
  rewrite wp_gbind, wp_load. cbn [on_val]. rewrite wp_gbind. intros [local|]; cbn [wp on_val].
  2: { split; [done|]. cbn -[closes]. by rewrite closes_app, app_nil_r. }
  rewrite wp_gbind. intros [remote|]; cbn [wp on_val].
  2: { split; [done|]. cbn -[closes]. by rewrite !closes_app, !app_nil_r. }
  rewrite wp_gbind, wp_load. cbn [on_val].
  assert (forall w', closes (events w') = closes (events w) -> ClosedInfo (st w') = None ->
    wp match OpenedInfo (id (st w')), ClosedInfo (id (st w')) with
       | Some opened, Some closed =>
           warns <- Warnings ;;
           emit (G := ConnSig) (Did (get_line (id (st w')) opened closed local remote (marshaled (st w)) warns))
       | _, _ => Ret Panics
       end (fun r w'' => r = Panics /\ closes (events w'') = closes (events w)) w') as H.
  { intros w' Hc Hn'. unfold id. rewrite Hn'. by destruct (OpenedInfo (st w')). }
  apply H; [|done]. cbn -[closes]. by rewrite !closes_app, !app_nil_r.
Qed.

(** When nothing is to be read, gather returns at once. *)
Lemma gather_stops state (w : world ConnSig) Q :
  supportsTCPInfo (st w) = false \/ is_Some (InfoErr (st w)) -> Q (Val tt) w ->
  wp (gather state) Q w.
Proof.
  intros Hs HQ. unfold gather. simpl. destruct (supportsTCPInfo (st w)) eqn:E; simpl; [|done].
  destruct Hs as [?|[e He]]; [done|]. rewrite He. simpl. done.
Qed.

(** ** Properties *)

(** C26: cmd/get crashes on a connection whose information could not be read.
    Closing such a connection, one on an unsupported platform or with an
    earlier error, calls the callback, which dereferences the nil information
    and panics; the inner connection is not closed. *)
Theorem get_Close_panics (w : world ConnSig) o :
  locked w = false -> ClosedInfo (st w) = None ->
  supportsTCPInfo (st w) = false \/ is_Some (InfoErr (st w)) ->
  exists w', run o (Close (Some get_report)) w = (Returned Panics, w') /\
    closes (events w') = closes (events w).
Proof.
  intros Hl Hn Hs.
  assert (wp (Close (Some get_report))
    (fun r w' => r = Panics /\ closes (events w') = closes (events w)) w) as H.
  { unfold Close. cbn [wp]. split; [done|]. rewrite wp_gbind. intros ts. cbn [wp ret on_val].
    rewrite wp_gbind. cbn [store wp ret on_val]. split; [done|].
    rewrite wp_gbind, gatherAndReport_unfold by (by right).
    unfold have_info. cbn [Z.eqb Closed Opened Pos.eqb].
    match goal with |- wp (if negb (is_none (ClosedInfo (st ?w2))) then _ else _) _ _ =>
      change (ClosedInfo (st w2)) with (ClosedInfo (st w)) end.
    rewrite Hn. cbn [is_none negb]. rewrite wp_deferring. apply gather_stops; [done|].
    unfold call_report. rewrite wp_gbind. cbn [emit wp on_val ret].
    eapply wp_mono; [|by apply get_report_needs_info].
    intros r w' [-> Hc]. cbn [on_val]. split; [done|]. rewrite Hc. cbn -[closes].
    by rewrite !closes_app, !app_nil_r. }
  destruct (wp_run _ _ _ o H) as (r & w' & E & -> & Hc). eauto.
Qed.

(** C25: cmd/httpstat registers the connection it will print. Close calls
    setConniver exactly when no closed information was stored before, between
    the gathering and the close of the inner connection, which is the last
    call. *)
Theorem http_Close_registers (w : world ConnSig) o :
  locked w = false ->
  exists r w' pre, run o (Close (Some http_report)) w = (Returned r, w') /\
    closes pre = closes (events w) /\ reports pre = reports (events w) /\
    events w' = pre ++
      (if is_none (ClosedInfo (st w))
       then [Marked (G := ConnSig) (Reported Closed); Marked (G := ConnSig) (Did "setConniver")] else []) ++
      [Asked (G := ConnSig) ConnClose r].
Proof.
  intros Hl.
  assert (wp (Close (Some http_report)) (fun r w' => exists pre,
    closes pre = closes (events w) /\ reports pre = reports (events w) /\
    events w' = pre ++
      (if is_none (ClosedInfo (st w))
       then [Marked (G := ConnSig) (Reported Closed); Marked (G := ConnSig) (Did "setConniver")] else []) ++
      [Asked (G := ConnSig) ConnClose r]) w) as H.
  2: { destruct (wp_run _ _ _ o H) as (r & w' & E & pre & ?). exists r, w', pre. tauto. }
  unfold Close. cbn [wp]. split; [done|]. rewrite wp_gbind. intros ts. cbn [wp ret on_val].
  rewrite wp_gbind. cbn [store wp ret on_val]. split; [done|].
  rewrite wp_gbind, gatherAndReport_unfold by (by right).
  unfold have_info. cbn [Z.eqb Closed Opened Pos.eqb].
  match goal with |- wp (if negb (is_none (ClosedInfo (st ?w2))) then _ else _) _ _ =>
    change (ClosedInfo (st w2)) with (ClosedInfo (st w)); set (w3 := w2) end.
  assert (closes (events w3) = closes (events w) /\ reports (events w3) = reports (events w)) as [Hc3 Hr3]
    by (unfold w3; cbn -[closes reports]; by rewrite closes_app, reports_app, !app_nil_r).
  destruct (ClosedInfo (st w)); cbn [is_none negb].
  - cbn [ret wp on_val]. intros r. exists (events w3). done.
  - rewrite wp_deferring. eapply wp_mono; [|by apply gather_spec].
    intros r w4 (-> & Hl4 & _ & Hr4 & Hc4). unfold call_report. rewrite wp_gbind.
    cbn [emit wp on_val ret]. unfold http_report. cbn [Z.eqb Closed Pos.eqb emit wp on_val ret].
    intros r. exists (events w4). split; [congruence|]. split; [congruence|].
    cbn. by rewrite <- !app_assoc.
Qed.

(** C11: what cmd/get prints. Its callback, on a closed connection of a session
    whose information was read at both ends and whose errors json can write,
    returns unless an address method of the inner connection panics. It prints
    one line of the fields, the addresses and the warnings, and JSON from which
    every counter and time is read back, a member for an error exactly when it
    is set, and of each information its state, options, numbers and SysInfo. Of
    an error only the JSON value of its type is there: the number of an Errno,
    and an empty object for one made by errors.New, whose text is lost. *)
Theorem get_report_prints `{!PlatformOk P} `{!PlatformJson P} (w : world ConnSig) o opened closed :
  ConnInv w -> OpenedInfo (st w) = Some opened -> ClosedInfo (st w) = Some closed ->
  writable other_json (RxErr (st w)) -> writable other_json (TxErr (st w)) ->
  writable other_json (InfoErr (st w)) ->
  exists r w', run o (get_report Closed) w = (Returned r, w') /\
    match r with
    | Val _ => exists la ra raw ws j,
        events w' = events w ++ [Asked (G := ConnSig) ConnLocalAddr (Val la);
          Asked (G := ConnSig) ConnRemoteAddr (Val ra);
          Marked (G := ConnSig) (Did (get_line (st w) opened closed la ra raw ws))] /\
        elems ws = reconnect_line (Reconnects (st w)) ++
          info_lines (Some opened) ++ info_lines (Some closed) /\
        parse raw = Some j /\ shows_conn other_json (st w) j
    | Panics =>
        last (events w') = Some (Asked (G := ConnSig) ConnLocalAddr Panics) \/
        last (events w') = Some (Asked (G := ConnSig) ConnRemoteAddr Panics)
    end.
Proof.
  intros HI Ho Hc H1 H2 H3. destruct (warnings_of_lines w HI) as (ws & Ews & Hws). rewrite Ho, Hc in Hws.
  pose proof HI as [Hl _ _ _]. pose proof (inv_opened_info w HI) as Go. pose proof (inv_closed_info w HI) as Gc.
  destruct (Conn_json_shows other_json (st w) (events w) Go Gc H1 H2 H3) as (j & Ej & Hj).
  apply wp_run. unfold get_report. cbn [negb Z.eqb Closed Pos.eqb].
  rewrite wp_gbind, wp_load. cbn [on_val]. rewrite wp_gbind. intros [la|]; cbn [wp on_val].
  2: { left. apply last_snoc. }
  rewrite wp_gbind. intros [ra|]; cbn [wp on_val].
  2: { right. apply last_snoc. }
  rewrite wp_gbind, wp_load. cbn [on_val]. set (w2 := log _ (log _ w)).
  assert (st w2 = st w) as E2 by done. assert (locked w2 = false) as El2 by done.
  assert (events w2 = (events w ++ [Asked (G := ConnSig) ConnLocalAddr (Val la)]) ++
    [Asked (G := ConnSig) ConnRemoteAddr (Val ra)]) as Ev2 by done.
  clearbody w2. unfold id. rewrite E2, Ho, Hc, wp_gbind. unfold Warnings. rewrite wp_with_lock, wp_warnings.
  change (st (w2 <| locked := true |>)) with (st w2). rewrite E2, Ews. split; [done|]. split; [done|].
  exists la, ra, (marshaled (st w)), ws, (utf8_json j). split_and!; [|done| |done].
  - cbn -[get_line]. rewrite Ev2, <- !app_assoc. done.
  - unfold marshaled, Conn_Marshal. rewrite Ej. apply parse_print.
Qed.

(** *** What tcpdial may do *)

(** The text shows the struct GetTCPInfo returned, or null when it returned
    none or was not called. *)
Definition shows_sys (called : option Answers) (text : string) : Prop :=
  match called ≫= (fun a => fst (GetTCPInfo a)) with
  | Some s => exists j, SysInfo_json s = Some j /\ parse text = Some (utf8_json j)
  | None => parse text = Some JNull
  end.

Inductive tcpdial_run : go unit -> list (event DialSig) -> Prop :=
| dial_fails e : tcpdial_run Panics [Asked (G := DialSig) Dial (Some e)]
| dial_no_tcp c :
    tcpdial_run Panics
      [Asked (G := DialSig) Dial None; Asked (G := DialSig) DialedTCP false; Asked (G := DialSig) DialedClose c]
| dial_no_raw e c :
    tcpdial_run (Val tt)
      [Asked (G := DialSig) Dial None; Asked (G := DialSig) DialedTCP true;
       Asked (G := DialSig) DialedSyscallConn (Some e); Asked (G := DialSig) DialedClose c]
| dial_no_control e called c :
    tcpdial_run (Val tt)
      [Asked (G := DialSig) Dial None; Asked (G := DialSig) DialedTCP true;
       Asked (G := DialSig) DialedSyscallConn None; Asked (G := DialSig) DialedControl (Some e, called);
       Asked (G := DialSig) DialedClose c]
| dial_prints called text c :
    shows_sys called text ->
    tcpdial_run (Val tt)
      [Asked (G := DialSig) Dial None; Asked (G := DialSig) DialedTCP true;
       Asked (G := DialSig) DialedSyscallConn None; Asked (G := DialSig) DialedControl (None, called);
       Marked (G := DialSig) text; Asked (G := DialSig) DialedClose c].

Lemma indented_sys_shows `{!PlatformJson P} (called : option Answers) err :
  shows_sys called (indented_sys (fst (match called with Some a => GetTCPInfo a | None => (None, err) end)) +:+
    String newline EmptyString).
Proof.
  assert (forall j, parse (print_indent 0 j +:+ String newline EmptyString) = Some (utf8_json j)) as Hparse.
  { intros j. apply (Text_parse _ _ EmptyString); [apply print_indent_Text|done..]. }
  unfold shows_sys. destruct called as [a|]; [|apply (Hparse JNull)]. cbn [mbind option_bind].
  destruct (GetTCPInfo a) as [[s|] e] eqn:E; [|apply (Hparse JNull)]. cbn [fst].
  destruct (SysInfo_json_object s) as (l & El & _); [by exists a, e|].
  exists (JObj l). split; [done|]. unfold indented_sys. rewrite El. apply Hparse.
Qed.

(** C28: what the example tcpdial does. It panics when dialing fails or the
    connection is not TCP; otherwise it returns. Once dialed, the connection is
    closed last, whatever happened in between. It prints exactly when Control
    succeeded, and then once: JSON that reads back as the struct GetTCPInfo
    returned, or null when it returned none, since its error is dropped. *)
Theorem tcpdial_outcomes `{!PlatformJson P} (o : oracle DialSig) :
  exists r w', run o tcpdial_main (mkWorld (G := DialSig) tt false []) = (Returned r, w') /\ tcpdial_run r (events w').
Proof.
  apply wp_run. unfold tcpdial_main. rewrite wp_gbind. intros [e|]; [constructor|].
  cbn [wp ret on_val is_none negb]. rewrite wp_deferring, wp_gbind.
  intros [|]; cbn [wp ret on_val is_none negb]; [|intros c; constructor].
  rewrite wp_gbind. intros [e|]; cbn [wp ret on_val is_none negb]; [intros c; constructor|].
  rewrite wp_gbind. intros [controlErr called]. cbn [wp ret on_val].
  pose proof (indented_sys_shows called None) as Hs.
  destruct called as [a|]; [destruct (GetTCPInfo a) as [sysInfo err]|];
    (destruct controlErr as [e|]; cbn [is_none negb]; intros c; by constructor).
Qed.

(** the books of cmd/get's connections are right. Through every sequence
    of operations after a successful dial, callbacks and their panics included,
    the counters and times are those of the calls made and the mutex is free. *)
Theorem get_session_accounts ops (c : Conn SysInfo) o :
  exists w, run o (pbind (get_dial None) (fun _ => exec_all (Some get_report) ops)) (fresh c) =
              (Returned tt, w) /\
    locked w = false /\ Accounted (st w) (events w).
Proof.
  assert (wp (pbind (get_dial None) (fun _ => exec_all (Some get_report) ops)) (fun _ => ConnInv) (fresh c))
    as H.
  { rewrite wp_bind. unfold get_dial. rewrite wp_gbind. eapply wp_mono; [|apply WrapConn_inv, get_report_ok].
    intros [[]|] w HI; by apply exec_all_inv; [apply get_report_ok|]. }
  destruct (wp_run _ _ _ o H) as ([] & w & E & [Hl Ha _ _]). eauto.
Qed.

End clients.

(** ** Instances on concrete inputs *)

#[local] Existing Instance sample_platform.
#[local] Existing Instance linux_errno.

(** A connection whose information could not be read when it was opened. *)
Definition unread_world : world ConnSig :=
  mkWorld (G := ConnSig) (zero_conn <| supportsTCPInfo := true |> <| InfoErr := Some (Errno 9) |>) false [].

Lemma get_Close_panics_witness :
  exists w', run sample_oracle (Close (Some (get_report (fun _ _ => None)))) unread_world =
    (Returned Panics, w') /\ closes (events w') = [].
Proof.
  destruct (get_Close_panics (fun _ _ => None) unread_world sample_oracle)
    as (w' & E & H); [reflexivity|reflexivity|right; eexists; reflexivity|].
  exists w'. split; [exact E|exact H].
Defined.

Lemma http_Close_registers_witness :
  exists r w' pre, run sample_oracle (Close (Some http_report)) unread_world = (Returned r, w') /\
    events w' = pre ++ [Marked (G := ConnSig) (Reported Closed);
                        Marked (G := ConnSig) (Did "setConniver"); Asked (G := ConnSig) ConnClose r].
Proof.
  destruct (http_Close_registers unread_world sample_oracle) as (r & w' & pre & E & _ & _ & H);
    [reflexivity|].
  exists r, w', pre. split; [exact E|exact H].
Defined.

(** A kernel without TCP_INFO: the error is dropped and null is printed. *)
Definition dial_oracle : oracle DialSig :=
  fun _ q => match q return @dial_reply sample_platform q with
  | Dial => None
  | DialedTCP => true
  | DialedSyscallConn => None
  | DialedControl => (None, Some (TcpInfoLinux.mkAnswers 3 (fun _ => (92, [])) (Ok "bbr") (Err (Errno 92))
      (Err (Errno 92)) (Err (Errno 92))))
  | DialedClose => None
  end.

Lemma tcpdial_outcomes_witness :
  exists w', run dial_oracle tcpdial_main (mkWorld (G := DialSig) tt false []) = (Returned (Val tt), w') /\
    tcpdial_run (Val tt) (events w') /\
    Marked (G := DialSig) ("null" +:+ String newline EmptyString) ∈ events w'.
Proof.
  destruct (tcpdial_outcomes dial_oracle) as (r & w' & E & H).
  assert (r = Val tt /\ Marked (G := DialSig) ("null" +:+ String newline EmptyString) ∈ events w') as [-> Hin].
  { assert (run dial_oracle tcpdial_main (mkWorld (G := DialSig) tt false []) = (Returned r, w')) as E' by exact E.
    vm_compute in E'. injection E' as <- <-. split; [reflexivity|]. in_list. }
  exists w'. split; [exact E|]. split; [exact H|exact Hin].
Defined.

Lemma get_report_prints_witness :
  let w := snd (run sample_oracle (session map_callback sample_ops) (fresh zero_conn)) in
  exists la ra raw j line,
    last (events (snd (run sample_oracle (get_report (fun _ _ => None) Closed) w))) =
      Some (Marked (G := ConnSig) (Did line)) /\
    (exists c opened closed ws, line = get_line c opened closed la ra raw ws) /\
    parse raw = Some j /\ number_at j "rxBytes" = 5.
Proof.
  intros w. assert (ConnInv w) as HI.
  { destruct (wp_run _ _ _ sample_oracle (session_inv map_callback sample_ops zero_conn
      map_callback_ok)) as (u & w1 & E & HI). unfold w. by rewrite E. }
  assert (RxBytes (st w) = 5 /\ RxErr (st w) = None /\ TxErr (st w) = None /\ InfoErr (st w) = None /\
    is_Some (OpenedInfo (st w)) /\ is_Some (ClosedInfo (st w)))
    as (H5 & HR & HT & HE & [opened Ho] & [closed Hc])
    by (vm_compute; split_and!; try reflexivity; eexists; reflexivity).
  assert (match fst (run sample_oracle (get_report (fun _ _ => None) Closed) w) with
    | Returned (Val _) => true | _ => false end = true) as Hv by (vm_compute; reflexivity).
  clearbody w.
  destruct (get_report_prints (fun _ _ => None) w sample_oracle opened closed HI Ho Hc)
    as (r & w' & E & H); [intros x Hx; congruence..|].
  rewrite E in *. destruct r as [u|]; [|discriminate Hv].
  destruct H as (la & ra & raw & ws & j & Hev & _ & Hp & Hn & _).
  exists la, ra, raw, j. eexists. split; [|split; [by eexists _, _, _, _|]].
  - cbn [snd]. rewrite Hev.
    change [?x; ?y; ?z] with ([x; y] ++ [z]). rewrite app_assoc. apply last_snoc.
  - split; [exact Hp|]. rewrite Forall_forall in Hn. rewrite <- H5.
    apply (Hn ("rxBytes", RxBytes (st w))). in_list.
Defined.
